(** * Ingestion layer, lifecycle orchestrator and naming scheme of the
      Kubernetes-to-load-balancer controller

    The development embeds three Go files:
    - [internal/lib/lib.go]        (module [lib]): environment getters,
      the name-derivation functions, [HasValidBackends];
    - [internal/k8s/controller.go] (module [k8s]): the informer event
      handlers of the ingestion layer;
    - [internal/k8s/ako_init.go]   (module [k8s]): [FullSyncK8s] and
      [DeleteModels].

    Go code is translated by explicit state passing over a record [World].
    Calls into packages that are not part of the three files (work queues,
    status writer, graph layer, logger) are recorded, in program order, in
    the [trace] of the world. *)

From Stdlib Require Import ZArith NArith Ascii String DecimalString Strings.Byte.
From stdpp Require Import base strings list gmap sorting.

Local Open Scope string_scope.
Local Open Scope list_scope.

(** ** Pieces of the Go standard library used by the embedded code *)

Module gostd.

(** [strings.Split s sep] for a one-byte separator. *)
Fixpoint split_go (sep : ascii) (cur : string) (s : string) : list string :=
  match s with
  | EmptyString => [String.rev cur]
  | String c rest =>
      if Ascii.eqb c sep then String.rev cur :: split_go sep EmptyString rest
      else split_go sep (String c cur) rest
  end.

Definition Split (s : string) (sep : ascii) : list string :=
  split_go sep EmptyString s.

(** [strings.ReplaceAll s old new] for one-byte [old] and [new]. *)
Fixpoint ReplaceAll (s : string) (old new : ascii) : string :=
  match s with
  | EmptyString => EmptyString
  | String c rest =>
      String (if Ascii.eqb c old then new else c) (ReplaceAll rest old new)
  end.

(** [strings.HasPrefix s prefix]. *)
Definition HasPrefix (s prefix : string) : bool := String.prefix prefix s.

(** [strconv.ParseBool]: [None] stands for the error result. *)
Definition ParseBool (s : string) : option bool :=
  if bool_decide (s ∈ ["1"; "t"; "T"; "TRUE"; "true"; "True"]) then Some true
  else if bool_decide (s ∈ ["0"; "f"; "F"; "FALSE"; "false"; "False"]) then Some false
  else None.

(** [strconv.Itoa]. *)
Definition Itoa (z : Z) : string := NilZero.string_of_int (Z.to_int z).

(** [hex.EncodeToString]: two lowercase digits per byte, high nibble first. *)
Definition hextable : string := "0123456789abcdef".

Definition hexdigit (n : N) : ascii :=
  match String.get (N.to_nat n) hextable with
  | Some c => c
  | None => "0"%char
  end.

Fixpoint EncodeToString (src : list Byte.byte) : string :=
  match src with
  | [] => EmptyString
  | b :: rest =>
      let v := Byte.to_N b in
      String (hexdigit (N.shiftr v 4))
        (String (hexdigit (N.land v 15)) (EncodeToString rest))
  end.

(** [strings.Split s sep] for a two-byte separator [a b]: the cuts are at
    the occurrences of the separator found from left to right, without
    overlap. *)
Fixpoint split_go2 (a b : ascii) (cur : string) (s : string) : list string :=
  match s with
  | EmptyString => [String.rev cur]
  | String c rest =>
      match rest with
      | String d rest' =>
          if Ascii.eqb c a && Ascii.eqb d b
          then String.rev cur :: split_go2 a b EmptyString rest'
          else split_go2 a b (String c cur) rest
      | EmptyString => split_go2 a b (String c cur) rest
      end
  end.

Definition Split2 (s : string) (a b : ascii) : list string :=
  split_go2 a b EmptyString s.

(** [hex.DecodeString]: [None] stands for the error result (a byte that is
    no hexadecimal digit, or an odd length). *)
Definition fromHexChar (c : ascii) : option N :=
  let n := N_of_ascii c in
  if (48 <=? n)%N && (n <=? 57)%N then Some (n - 48)%N
  else if (97 <=? n)%N && (n <=? 102)%N then Some (n - 97 + 10)%N
  else if (65 <=? n)%N && (n <=? 70)%N then Some (n - 65 + 10)%N
  else None.

Fixpoint DecodeString (s : string) : option (list Byte.byte) :=
  match s with
  | EmptyString => Some []
  | String _ EmptyString => None
  | String p (String q rest) =>
      match fromHexChar p, fromHexChar q with
      | Some a, Some b =>
          match Byte.of_N (N.lor (N.shiftl a 4) b), DecodeString rest with
          | Some byte, Some dst => Some (byte :: dst)
          | _, _ => None
          end
      | _, _ => None
      end
  end.

(** Addition of two [uint32] values. *)
Definition add32 (a b : N) : N := ((a + b) mod 2 ^ 32)%N.

(** The verb [%v] on a [bool]. *)
Definition FormatBool (b : bool) : string := if b then "true" else "false".

(** [strconv.ParseInt s 10 64]. The error is known by its kind. *)
Inductive NumError := ErrSyntax | ErrRange.

(** The loop of [strconv.ParseUint] at base 10 and 64 bits; an [ErrRange]
    comes with the value 2^64 - 1. *)
Fixpoint ParseUint_loop (n : Z) (s : string) : NumError + Z :=
  match s with
  | EmptyString => inr n
  | String c rest =>
      let b := Z.of_N (N_of_ascii c) in
      if (48 <=? b)%Z && (b <=? 57)%Z then
        let d := (b - 48)%Z in
        if (((2 ^ 64 - 1) / 10 + 1) <=? n)%Z then inl ErrRange
        else
          let n1 := (n * 10 + d)%Z in
          if (2 ^ 64 - 1 <? n1)%Z then inl ErrRange else ParseUint_loop n1 rest
      else inl ErrSyntax
  end.

Definition ParseUint (s : string) : NumError + Z :=
  match s with
  | EmptyString => inl ErrSyntax
  | _ => ParseUint_loop 0 s
  end.

Definition ParseInt (s : string) : NumError + Z :=
  match s with
  | EmptyString => inl ErrSyntax
  | String c rest =>
      let neg := Ascii.eqb c "-" in
      let s := if Ascii.eqb c "+" || neg then rest else s in
      match ParseUint s with
      | inl ErrSyntax => inl ErrSyntax
      | r =>
          let un := match r with inr un => un | inl _ => (2 ^ 64 - 1)%Z end in
          let cutoff := (2 ^ 63)%Z in
          if negb neg && (cutoff <=? un)%Z then inl ErrRange
          else if neg && (cutoff <? un)%Z then inl ErrRange
          else inr (if neg then (- un)%Z else un)
      end
  end.

End gostd.

(** ** Kubernetes object model (the fields the embedded code reads) *)

Global Instance byte_eq_decision : EqDecision Byte.byte := Byte.byte_eq_dec.

(** A Go [map[string]string]; [None] is the nil map, which [reflect.DeepEqual]
    and the JSON encoder tell apart from the empty map. *)
Abbreviation StringMap := (option (gmap string string)).

Record ObjectMeta := {
  Name : string;
  Namespace : string;
  ResourceVersion : string;
  Labels : StringMap;
  Annotations : StringMap;
}.

Global Instance ObjectMeta_eq_dec : EqDecision ObjectMeta.
Proof. solve_decision. Defined.

(** networking/v1beta1 Ingress *)
Record HTTPIngressPath := {
  ing_Path : string;
  ing_ServiceName : string;
  ing_ServicePort : Z;
}.

Record IngressRule := {
  ing_Host : string;
  ing_Paths : list HTTPIngressPath;
}.

Record IngressTLS := {
  tls_Hosts : list string;
  tls_SecretName : string;
}.

Record IngressSpec := {
  ing_TLS : list IngressTLS;
  ing_Rules : list IngressRule;
}.

Record Ingress := {
  ing_meta : ObjectMeta;
  ing_Spec : IngressSpec;
}.

(** route/v1 Route *)
Record RouteTargetReference := {
  ref_Kind : string;
  ref_Name : string;
  ref_Weight : option Z;
}.

Record RouteSpec := {
  rt_Host : string;
  rt_Path : string;
  rt_To : RouteTargetReference;
  rt_AlternateBackends : list RouteTargetReference;
}.

Record Route := {
  rt_meta : ObjectMeta;
  rt_Spec : RouteSpec;
}.

(** core/v1 objects *)
Record Service := {
  svc_meta : ObjectMeta;
  svc_Type : string;            (* Spec.Type *)
}.

(** [Data] is a [map[string][]byte]: nil map, nil slices and empty slices
    are all distinct for [reflect.DeepEqual]. *)
Record Secret := {
  sec_meta : ObjectMeta;
  sec_Data : option (gmap string (option (list Byte.byte)));
}.

Record EndpointSubset := {
  ep_Addresses : option (list string);
  ep_Ports : option (list Z);
}.

Global Instance EndpointSubset_eq_dec : EqDecision EndpointSubset.
Proof. solve_decision. Defined.

Record Endpoints := {
  ep_meta : ObjectMeta;
  ep_Subsets : option (list EndpointSubset);
}.

Record NodeAddress := {
  addr_Type : string;
  addr_Address : string;
}.

Record Node := {
  node_meta : ObjectMeta;
  node_Addresses : list NodeAddress;   (* Status.Addresses *)
  node_PodCIDR : string;               (* Spec.PodCIDR *)
}.

Record Pod := {
  pod_meta : ObjectMeta;
  pod_IP : string;
}.

Global Instance Pod_eq_dec : EqDecision Pod.
Proof. solve_decision. Defined.

Record Namespace_ := {
  ns_meta : ObjectMeta;
}.

Record IngressClass := {
  ic_meta : ObjectMeta;
}.

Record Gateway := {
  gw_meta : ObjectMeta;
  gw_Class : string;
}.

(** The content of a dynamic-client object, reduced to the two paths read
    by the CNI handlers: [NestedStringMap(.., "spec")] and
    [NestedString(.., "host")], each with its [found] and [err] results. *)
Record Unstructured := {
  u_spec : option (gmap string string);   (* None: not found *)
  u_spec_err : bool;
  u_host : option string;
  u_host_err : bool;
}.

(** What a [DeleteFunc] receives: the object, a tombstone
    ([cache.DeletedFinalStateUnknown]) that holds the object or something
    else, or a value of an unexpected type. *)
Inductive Deleted (A : Type) :=
  | Live (obj : A)
  | Tombstone (inner : option A)
  | Unexpected.
Arguments Live {A} obj.
Arguments Tombstone {A} inner.
Arguments Unexpected {A}.

Class HasMeta (A : Type) := meta : A → ObjectMeta.
Global Instance ObjectMeta_meta : HasMeta ObjectMeta := λ m, m.
Global Instance Ingress_meta : HasMeta Ingress := ing_meta.
Global Instance Route_meta : HasMeta Route := rt_meta.
Global Instance Service_meta : HasMeta Service := svc_meta.
Global Instance Secret_meta : HasMeta Secret := sec_meta.
Global Instance Endpoints_meta : HasMeta Endpoints := ep_meta.
Global Instance Node_meta : HasMeta Node := node_meta.
Global Instance Pod_meta : HasMeta Pod := pod_meta.
Global Instance Namespace_meta : HasMeta Namespace_ := ns_meta.
Global Instance IngressClass_meta : HasMeta IngressClass := ic_meta.
Global Instance Gateway_meta : HasMeta Gateway := gw_meta.

(** An informer cache as its lister sees it: the stored objects, and the
    error the [List] call returns, if any. *)
Record Lister (A : Type) := {
  store : list A;
  list_err : option string;
}.
Arguments store {A} _.
Arguments list_err {A} _.

(** [metav1.NamespaceAll] *)
Definition NamespaceAll : string := "".

(** [Lister().X(namespace).List(labels.Set(nil).AsSelector())]: every object
    of the namespace (of all namespaces for [NamespaceAll]). *)
Definition List_ {A} `{HasMeta A} (l : Lister A) (namespace : string)
  : string + list A :=
  match list_err l with
  | Some e => inl e
  | None =>
      inr (filter (λ o, namespace = NamespaceAll ∨ Namespace (meta o) = namespace)
             (store l))
  end.

(** ** The desired-state graph (package [nodes]) *)

Inductive AviModelNode :=
  | AviVrfNode (name : string)
  | AviVsNode (name : string).

(** The fields of [nodes.AviObjectGraph] that the embedded code touches. *)
Record AviObjectGraph := {
  modelNodes : list AviModelNode;
  IsVrf : bool;
  GraphChecksum : N;
}.

(** A key of the object cache: [avicache.NamespaceName]. *)
Record NamespaceName := {
  nn_Namespace : string;
  nn_Name : string;
}.

(** ** Functions of the repository that live outside the embedded files

    They are parameters of the development: every theorem holds for any
    implementation of them. *)
Class Externals := {
  (* pkg/utils: the namespace filter *)
  NSFilter : Type;
  EnableMigration : NSFilter → bool;
  (* CheckIfNamespaceAccepted(namespace) *)
  CheckIfNamespaceAccepted : gmap string string → NSFilter → string → bool;
  (* CheckIfNamespaceAccepted(namespace, labels, nonFilteredNS) *)
  CheckIfNamespaceAcceptedLabels :
    gmap string string → NSFilter → string → StringMap → bool → bool;
  AddNamespaceToFilter : string → NSFilter → NSFilter;
  DeleteNamespaceFromFilter : string → NSFilter → NSFilter;
  IsServiceNSValid : gmap string string → NSFilter → string → bool;
  (* pkg/utils: hashing and sharding *)
  Hash : string → N;
  Bkt : string → N → N;
  StringifyIngressSpec : IngressSpec → string;
  StringifyRouteSpec : RouteSpec → string;
  StringifyStringMap : StringMap → string;
  StringifyStrings : list string → string;
  GetAKONamespace : gmap string string → string;
  (* internal/lib, other files *)
  GetCNIPlugin : gmap string string → string;
  ExtractTypeNameNamespace : string → string * string * string;
  (* internal/nodes: the checksum of the nodes of a graph *)
  NodesChecksum : list AviModelNode → N;
  (* the effect of the graph layer's DequeueIngestion on the Graph Lister *)
  DequeueIngestion_lister :
    string → bool → gmap string (option AviObjectGraph)
    → gmap string (option AviObjectGraph);
  (* pkg/utils: slice helpers *)
  HasElem : list string → string → bool;
  Remove : list string → string → list string;
  (* Go library *)
  sha1_Sum : string → list Byte.byte;
  EqualFold : string → string → bool;
}.

(** ** Calls that leave the embedded files *)

Inductive Level := Debug | Info | Warn | Error.
Inductive Layer := ObjectIngestionLayer | GraphLayer.
Inductive Chan := StaticRouteSyncChan | ConfigDeleteSyncChan.
Inductive SelectOutcome := Received | TimedOut.
Inductive ConditionStatus := ConditionTrue | ConditionFalse | ConditionUnknown.

Inductive Effect :=
  (* utils.AviLog.<Level>f(format, args...); arguments that print a whole
     object are left out *)
  | Log (lvl : Level) (format : string) (args : list string)
  (* <queue>.Workqueue[bkt].AddRateLimited(key) *)
  | AddRateLimited (layer : Layer) (bkt : N) (key : string)
  | UpdateRouteStatusWithErrMsg (key routeName namespace msg : string)
  | AddStatefulSetStatus (reason : string) (cond : ConditionStatus)
  | DeleteNPLAnnotation (key namespace svc : string)
  | DequeueIngestion (key : string) (fullsync : bool)
  | PublishKeyToRestLayer (modelName key : string) (sharedQueue : Layer)
  | MakeChan (ch : Chan)
  (* a select between a receive on [ch] and a timer of [timeout] seconds,
     which returned after [elapsed] seconds *)
  | Select (ch : Chan) (timeout elapsed : N) (outcome : SelectOutcome)
  | checkSvcForGatewayPortConflict (svc : Service) (key : string)
  | checkSvcForSvcApiGatewayPortConflict (svc : Service) (key : string)
  | InformerStatusUpdatesForSvcApiGateway (key : string) (gw : Gateway)
  | InformerStatusUpdatesForGateway (key : string) (gw : Gateway).

Definition is_Log (e : Effect) : bool :=
  match e with Log _ _ _ => true | _ => false end.

(** ** The process state *)

Record Informers := {
  IngressInformer : option (Lister Ingress);
  RouteInformer : option (Lister Route);
  ServiceInformer : option (Lister Service);
  SecretInformer : option (Lister Secret);
  IngressClassInformer : option (Lister IngressClass);
  NSInformer : option (Lister Namespace_);
  NodeInformer : option (Lister Node);
  PodInformer : Lister Pod;
  (* lib.GetCRDInformers() *)
  HostRuleInformer : Lister ObjectMeta;
  HTTPRuleInformer : Lister ObjectMeta;
  AviInfraSettingInformer : Lister ObjectMeta;
  (* lib.GetSvcAPIInformers() *)
  SvcAPIGatewayInformer : Lister Gateway;
  SvcAPIGatewayClassInformer : Lister ObjectMeta;
  (* lib.GetAdvL4Informers() *)
  AdvL4GatewayInformer : Lister Gateway;
  AdvL4GatewayClassInformer : Lister ObjectMeta;
}.

Section World.
Context `{Externals}.

(** Informers that the code tests against nil are optional, and so are
    those of Services, Secrets, Namespaces and Nodes, which are dereferenced
    without a test ([lib.InformersToRegister] leaves the last two out in
    advanced L4); the others are dereferenced without a test and are taken
    to be registered. A channel
    is seen from its receiver: the number of seconds after which the REST
    layer sends on it, [None] if it never does. *)
Record World := {
  env : gmap string string;                       (* os.Getenv *)
  (* package variables of lib *)
  NamePrefix : string;
  layer7Only : bool;
  VRFContext : string;
  CloudType : string;
  ShardVSPrefix : string;
  (* the controller *)
  DisableSync : bool;                             (* c.DisableSync *)
  nsFilter : NSFilter;
  informers : Informers;
  (* objects.SharedAviGraphLister(); [Some None] is a saved nil model *)
  graphLister : gmap string (option AviObjectGraph);
  graphNumWorkers : N;                            (* sharedQueue.NumWorkers *)
  vsCacheKeys : list NamespaceName;               (* parent VS keys of the cache *)
  clusterIpLister : option (list string);         (* SharedClusterIpLister().GetAll() *)
  lbLister : option (list string);                (* SharedlbLister().GetAll() *)
  staticRouteSignal : option N;
  configDeleteSignal : option N;
  trace : list Effect;
}.

Definition emit (e : Effect) (w : World) : World :=
  {| env := env w; NamePrefix := NamePrefix w; layer7Only := layer7Only w;
     VRFContext := VRFContext w; CloudType := CloudType w;
     ShardVSPrefix := ShardVSPrefix w; DisableSync := DisableSync w;
     nsFilter := nsFilter w; informers := informers w;
     graphLister := graphLister w; graphNumWorkers := graphNumWorkers w;
     vsCacheKeys := vsCacheKeys w; clusterIpLister := clusterIpLister w;
     lbLister := lbLister w; staticRouteSignal := staticRouteSignal w;
     configDeleteSignal := configDeleteSignal w;
     trace := trace w ++ [e] |}.

Definition set_NamePrefix (p : string) (w : World) : World :=
  {| env := env w; NamePrefix := p; layer7Only := layer7Only w;
     VRFContext := VRFContext w; CloudType := CloudType w;
     ShardVSPrefix := ShardVSPrefix w; DisableSync := DisableSync w;
     nsFilter := nsFilter w; informers := informers w;
     graphLister := graphLister w; graphNumWorkers := graphNumWorkers w;
     vsCacheKeys := vsCacheKeys w; clusterIpLister := clusterIpLister w;
     lbLister := lbLister w; staticRouteSignal := staticRouteSignal w;
     configDeleteSignal := configDeleteSignal w;
     trace := trace w |}.

Definition set_nsFilter (f : NSFilter) (w : World) : World :=
  {| env := env w; NamePrefix := NamePrefix w; layer7Only := layer7Only w;
     VRFContext := VRFContext w; CloudType := CloudType w;
     ShardVSPrefix := ShardVSPrefix w; DisableSync := DisableSync w;
     nsFilter := f; informers := informers w;
     graphLister := graphLister w; graphNumWorkers := graphNumWorkers w;
     vsCacheKeys := vsCacheKeys w; clusterIpLister := clusterIpLister w;
     lbLister := lbLister w; staticRouteSignal := staticRouteSignal w;
     configDeleteSignal := configDeleteSignal w;
     trace := trace w |}.

Definition set_graphLister (g : gmap string (option AviObjectGraph)) (w : World)
  : World :=
  {| env := env w; NamePrefix := NamePrefix w; layer7Only := layer7Only w;
     VRFContext := VRFContext w; CloudType := CloudType w;
     ShardVSPrefix := ShardVSPrefix w; DisableSync := DisableSync w;
     nsFilter := nsFilter w; informers := informers w;
     graphLister := g; graphNumWorkers := graphNumWorkers w;
     vsCacheKeys := vsCacheKeys w; clusterIpLister := clusterIpLister w;
     lbLister := lbLister w; staticRouteSignal := staticRouteSignal w;
     configDeleteSignal := configDeleteSignal w;
     trace := trace w |}.

Definition set_trace (t : list Effect) (w : World) : World :=
  {| env := env w; NamePrefix := NamePrefix w; layer7Only := layer7Only w;
     VRFContext := VRFContext w; CloudType := CloudType w;
     ShardVSPrefix := ShardVSPrefix w; DisableSync := DisableSync w;
     nsFilter := nsFilter w; informers := informers w;
     graphLister := graphLister w; graphNumWorkers := graphNumWorkers w;
     vsCacheKeys := vsCacheKeys w; clusterIpLister := clusterIpLister w;
     lbLister := lbLister w; staticRouteSignal := staticRouteSignal w;
     configDeleteSignal := configDeleteSignal w;
     trace := t |}.

(** The keys handed to the ingestion queue, with their buckets, in order. *)
Definition ingestion_adds (t : list Effect) : list (N * string) :=
  omap (λ e, match e with
             | AddRateLimited ObjectIngestionLayer bkt key => Some (bkt, key)
             | _ => None
             end) t.

(** [os.Getenv] *)
Definition Getenv (k : string) (w : World) : string := default "" (env w !! k).

(** A [select] between a receive on a channel and a timer that fires after
    [timeout] seconds. When both are ready Go picks either; the embedding
    takes the timer. *)
Definition select_or_timeout (signal : option N) (timeout : N) : SelectOutcome * N :=
  match signal with
  | Some d => if (d <? timeout)%N then (Received, d) else (TimedOut, timeout)
  | None => (TimedOut, timeout)
  end.

Definition set_DisableSync (b : bool) (w : World) : World :=
  {| env := env w; NamePrefix := NamePrefix w; layer7Only := layer7Only w;
     VRFContext := VRFContext w; CloudType := CloudType w;
     ShardVSPrefix := ShardVSPrefix w; DisableSync := b;
     nsFilter := nsFilter w; informers := informers w;
     graphLister := graphLister w; graphNumWorkers := graphNumWorkers w;
     vsCacheKeys := vsCacheKeys w; clusterIpLister := clusterIpLister w;
     lbLister := lbLister w; staticRouteSignal := staticRouteSignal w;
     configDeleteSignal := configDeleteSignal w;
     trace := trace w |}.

Definition set_layer7Only (b : bool) (w : World) : World :=
  {| env := env w; NamePrefix := NamePrefix w; layer7Only := b;
     VRFContext := VRFContext w; CloudType := CloudType w;
     ShardVSPrefix := ShardVSPrefix w; DisableSync := DisableSync w;
     nsFilter := nsFilter w; informers := informers w;
     graphLister := graphLister w; graphNumWorkers := graphNumWorkers w;
     vsCacheKeys := vsCacheKeys w; clusterIpLister := clusterIpLister w;
     lbLister := lbLister w; staticRouteSignal := staticRouteSignal w;
     configDeleteSignal := configDeleteSignal w;
     trace := trace w |}.

Definition set_informers (i : Informers) (w : World) : World :=
  {| env := env w; NamePrefix := NamePrefix w; layer7Only := layer7Only w;
     VRFContext := VRFContext w; CloudType := CloudType w;
     ShardVSPrefix := ShardVSPrefix w; DisableSync := DisableSync w;
     nsFilter := nsFilter w; informers := i;
     graphLister := graphLister w; graphNumWorkers := graphNumWorkers w;
     vsCacheKeys := vsCacheKeys w; clusterIpLister := clusterIpLister w;
     lbLister := lbLister w; staticRouteSignal := staticRouteSignal w;
     configDeleteSignal := configDeleteSignal w;
     trace := trace w |}.

Definition set_graphNumWorkers (n : N) (w : World) : World :=
  {| env := env w; NamePrefix := NamePrefix w; layer7Only := layer7Only w;
     VRFContext := VRFContext w; CloudType := CloudType w;
     ShardVSPrefix := ShardVSPrefix w; DisableSync := DisableSync w;
     nsFilter := nsFilter w; informers := informers w;
     graphLister := graphLister w; graphNumWorkers := n;
     vsCacheKeys := vsCacheKeys w; clusterIpLister := clusterIpLister w;
     lbLister := lbLister w; staticRouteSignal := staticRouteSignal w;
     configDeleteSignal := configDeleteSignal w;
     trace := trace w |}.

End World.

(** ** Package [utils] (pkg/utils) *)

Module utils.

(** Modelled from the spec: the kind constants of pkg/utils, which is not
    among the embedded files. The spec's data model lists the kinds of an
    ingestion key:
    Ingress, Route, L4LBService, Service, Endpoints, Secret, Pod, Node,
    IngressClass, ... *)
Definition Ingress : string := "Ingress".
Definition OshiftRoute : string := "Route".
Definition L4LBService : string := "L4LBService".
Definition Service : string := "Service".
Definition Endpoints : string := "Endpoints".
Definition Pod : string := "Pod".
Definition NodeObj : string := "Node".
Definition IngressClass : string := "IngressClass".

(** Modelled from the spec: the default tenant; the spec's scenarios use
    model names such as admin/c1--Shared-L7-0. *)
Definition ADMIN_NS : string := "admin".

(** Modelled from the spec: the name of the default VRF context, a constant
    of pkg/utils whose value the spec leaves open. *)
Definition GlobalVRF : string := "global".

(** Modelled from the spec: [utils.ObjKey] is client-go's
    [MetaNamespaceKeyFunc], which gives the <namespace>/<name> part of a key
    <kind>/<namespace>/<name>, and <name> alone for an object without
    namespace. *)
Definition ObjKey {A} `{HasMeta A} (obj : A) : string :=
  if decide (Namespace (meta obj) = "") then Name (meta obj)
  else Namespace (meta obj) +:+ "/" +:+ Name (meta obj).

End utils.

(** client-go's [cache.SplitMetaNamespaceKey]; the callers only use the
    namespace component and ignore the error. *)
Definition SplitMetaNamespaceKey (key : string) : string * string * bool :=
  match gostd.Split key "/" with
  | [name] => ("", name, false)
  | [namespace; name] => (namespace, name, false)
  | _ => ("", "", true)
  end.

(** ** Avi objects and markers read by the checksums of lib.go *)

Module models.

(** [models.RoleFilterMatchLabel]; [Key] is a pointer, [None] is nil. *)
Record RoleFilterMatchLabel := {
  Key : option string;
  Values : list string;
}.

(** [models.KeyValue] *)
Record KeyValue := {
  kv_Key : option string;
  kv_Value : option string;
}.

End models.

(** [utils.AviObjectMarkers] is a struct of string fields of pkg/utils. The
    embedded code other than the [Populate...Markers] constructors reads it
    through reflection only: as the sequence of its fields, each with its
    name and its value, in the order of declaration. *)
Definition AviObjectMarkers : Type := list (string * string).

(** What the checksums of lib.go take from outside the embedded files. *)
Class LibExternals := {
  (* internal/lib/constants.go *)
  ClusterNameLabelKey : string;
  (* models.StaticRoute, of which lib.go reads the RouteID pointer *)
  StaticRoute : Type;
  RouteID : StaticRoute → option string;
  (* utils.Stringify at the types lib.go uses it at *)
  StringifyStaticRoutes : list StaticRoute → string;
  StringifyInts : list Z → string;
  (* internal/lib/constants.go and pkg/utils: versions of the controller *)
  GRBAC : string;
  ControllerVersion2015 : string;
  CtrlVersion : string;
  (* github.com/Masterminds/semver *)
  semver_Constraint : Type;
  semver_Version : Type;
  semver_NewConstraint : string → option semver_Constraint;
  semver_NewVersion : string → option semver_Version;
  semver_Check : semver_Constraint → semver_Version → bool;
  (* internal/lib, other files: the CRDs found in the cluster *)
  AviInfraSettingEnabled : bool;
  HostRuleEnabled : bool;
  HttpRuleEnabled : bool;
  (* internal/lib/constants.go *)
  DummyVSForStaleData : string;
  (* strconv.Quote *)
  strconv_Quote : string → string;
  (* pkg/utils: whether QuickSync of FullSyncThread panics on a nil worker *)
  QuickSync_on_nil_panics : bool;
}.

(** Package variables of lib.go behind the checksums. *)
Record LabelState := {
  gRBAC : bool;
  enableCtrl2014Features : bool;
  clusterKey : string;
  clusterValue : string;
  clusterLabelChecksum : N;
}.

(** ** The process around the controller: ConfigMap handling and start-up *)

(** [corev1.ConfigMap]; a nil [Data] map reads like an empty one. *)
Record ConfigMap := {
  cm_meta : ObjectMeta;
  cm_Data : gmap string string;
}.
Global Instance ConfigMap_meta : HasMeta ConfigMap := cm_meta.

(** The informers that [Start] and [HandleConfigMap] run. *)
Inductive InformerName :=
  | ServiceInf | EpInf | SecretInf | ConfigMapInf | PodInf
  | CalicoBlockAffinityInf | HostSubnetInf
  | AdvL4GatewayClassInf | AdvL4GatewayInf
  | SvcAPIGatewayClassInf | SvcAPIGatewayInf
  | IngressInf | RouteInf | IngressClassInf | NSInf | NodeInf
  | AviInfraSettingInf | HostRuleInf | HTTPRuleInf.

Global Instance InformerName_eq_dec : EqDecision InformerName.
Proof. solve_decision. Defined.

(** The work queues, and what the channels of [InitController] deliver. *)
Inductive QueueName :=
  | IngestionQueue | GraphQueue | FastRetryQueue | SlowRetryQueue | StatusQueue.

Global Instance QueueName_eq_dec : EqDecision QueueName.
Proof. solve_decision. Defined.

Inductive Signal := QuickSyncSignal | CtrlSignal.

(** Calls of ako_init.go and of [Start] that leave the embedded files and
    are no event of the trace. *)
Inductive Call :=
  | AviLog_SetLevel (level : string)             (* utils.AviLog.SetLevel *)
  | ResetStatefulSetStatus                       (* status.ResetStatefulSetStatus *)
  | ValidateUserInput                            (* avicache.ValidateUserInput *)
  | DeConfigureSeGroupLabels                     (* avicache.DeConfigureSeGroupLabels *)
  | QuickSync                                    (* quickSyncCh <- struct{}{} *)
  | akoApi_ShutDown                              (* akoApi.ShutDown *)
  | ConfigMaps_Get (namespace name : string)     (* cs.CoreV1().ConfigMaps(ns).Get *)
  | NewBroadcaster
  | StartLogging
  | StartRecordingToSink
  | AddEventHandler (informer : InformerName)
  | Run (informer : InformerName)                (* go <informer>.Informer().Run *)
  | WaitForCacheSync (informersList : list InformerName)
  | HandleError (msg : string)                   (* runtime.HandleError *)
  | AddIndexers (informer : InformerName)
  | SetupAdvL4EventHandlers                      (* other files of the package *)
  | SetupSvcApiEventHandlers
  | SetupAKOCRDEventHandlers
  (* utils.NewInformers with the registered informers, the namespace to sync
     if there is one, and the advanced-L4 flag *)
  | NewInformers (registered : list string) (namespace : option string)
      (advancedL4 : bool)
  | NewDynamicInformers
  (* utils.SharedWorkQueue with the number of workers of each queue *)
  | SharedWorkQueue (ingestion graph slowRetry fastRetry status : N)
  | Queue_Run (queue : QueueName)                (* <queue>.Run *)
  | StopWorkers (queue : QueueName)
  | AviObjCachePopulate
  | SetControllerClusterUUID
  | SyncObjectStatuses
  | CleanupVS (key : string) (skipVS : bool)
  | AviCacheDelete (name namespace : string)     (* VsCacheMeta.AviCacheDelete *)
  | RefreshAuthToken
  | NewFullSyncThread (seconds : Z)              (* the worker of the full sync *)
  | worker_Run
  | worker_QuickSync (worker : bool)             (* on a worker, or on nil *)
  | worker_Shutdown
  | NewTokenThread                               (* the worker of the token refresh *)
  | tokenWorker_Run.

Global Instance Call_eq_dec : EqDecision Call.
Proof. solve_decision. Defined.

Section Process.
Context `{Externals}.

(** The controller with the package variables of lib.go that the ConfigMap
    sets. Each call is kept with the length of the trace at its time, which
    places it among the events of the trace. *)
Record Process := {
  world : World;
  lib_DisableSync : bool;                        (* lib.DisableSync *)
  noPGForSNI : bool;
  labels : LabelState;
  workqueue : option QueueName;                  (* c.workqueue, nil at first *)
  calls : list (nat * Call);
}.

Definition in_world (f : World → World) (p : Process) : Process :=
  {| world := f (world p); lib_DisableSync := lib_DisableSync p;
     noPGForSNI := noPGForSNI p; labels := labels p;
     workqueue := workqueue p; calls := calls p |}.

Definition call (c : Call) (p : Process) : Process :=
  {| world := world p; lib_DisableSync := lib_DisableSync p;
     noPGForSNI := noPGForSNI p; labels := labels p; workqueue := workqueue p;
     calls := calls p ++ [(length (trace (world p)), c)] |}.

Definition set_lib_DisableSync (b : bool) (p : Process) : Process :=
  {| world := world p; lib_DisableSync := b;
     noPGForSNI := noPGForSNI p; labels := labels p;
     workqueue := workqueue p; calls := calls p |}.

Definition set_noPGForSNI (b : bool) (p : Process) : Process :=
  {| world := world p; lib_DisableSync := lib_DisableSync p;
     noPGForSNI := b; labels := labels p;
     workqueue := workqueue p; calls := calls p |}.

Definition set_gRBAC (b : bool) (p : Process) : Process :=
  {| world := world p; lib_DisableSync := lib_DisableSync p;
     noPGForSNI := noPGForSNI p;
     labels := {| gRBAC := b;
                  enableCtrl2014Features := enableCtrl2014Features (labels p);
                  clusterKey := clusterKey (labels p);
                  clusterValue := clusterValue (labels p);
                  clusterLabelChecksum := clusterLabelChecksum (labels p) |};
     workqueue := workqueue p; calls := calls p |}.

Definition set_workqueue (queue : QueueName) (p : Process) : Process :=
  {| world := world p; lib_DisableSync := lib_DisableSync p;
     noPGForSNI := noPGForSNI p; labels := labels p;
     workqueue := Some queue; calls := calls p |}.

End Process.

(** ** Package [lib] (internal/lib/lib.go) *)

Module lib.

(** Modelled from the spec: constants of internal/lib/constants.go, which is
    not among the embedded files. The names of the environment variables,
    of the service types, of the auth secret (avi-secret), of the
    namespace-replay messages (NsFilterAdd, NsFilterDelete) and of the
    StatefulSet conditions are those the spec gives. *)
Definition ADVANCED_L4 : string := "ADVANCED_L4".
Definition ENABLE_EVH : string := "ENABLE_EVH".
Definition SERVICES_API : string := "SERVICES_API".
Definition DISABLE_STATIC_ROUTE_SYNC : string := "DISABLE_STATIC_ROUTE_SYNC".
Definition CLUSTER_NAME : string := "CLUSTER_NAME".
Definition CLUSTER_ID : string := "CLUSTER_ID".
Definition SERVICE_TYPE : string := "SERVICE_TYPE".
Definition NODE_PORT : string := "NodePort".
Definition NodePortLocal : string := "NodePortLocal".
Definition AviSecret : string := "avi-secret".
Definition NsFilterAdd : string := "NsFilterAdd".
Definition NsFilterDelete : string := "NsFilterDelete".
Definition ObjectDeletionStartStatus : string := "ObjectDeletionStart".
Definition ObjectDeletionDoneStatus : string := "ObjectDeletionDone".
Definition ObjectDeletionTimeoutStatus : string := "ObjectDeletionTimeout".
Definition PassthroughPrefix : string := "Shared-Passthrough-".
Definition Gateway : string := "Gateway".
Definition GatewayClass : string := "GatewayClass".
Definition HostRule : string := "HostRule".
Definition HTTPRule : string := "HTTPRule".
Definition AviInfraSetting : string := "AviInfraSetting".

(** Modelled from the spec: the minutes [DeleteModels] waits for the REST
    layer (the spec: "default 30 min"; the source comment: "maximum 30
    minutes"). *)
Definition AviObjDeletionTime : N := 30.

(** Modelled from the spec: further constants of constants.go whose values
    the spec does not give. Each is a fixed string; the embedded code only
    compares them or passes them on. *)
Definition DuplicateBackends : string := "DuplicateBackends".
Definition autoAnnotateService : string := "AUTO_ANNOTATE_SERVICE".
Definition CLOUD_NSXT : string := "CLOUD_NSXT".
Definition CLOUD_VCENTER : string := "CLOUD_VCENTER".
Definition NCP_CNI : string := "ncp".
Definition CALICO_CNI : string := "calico".
Definition OPENSHIFT_CNI : string := "openshift".
Definition L4VS : string := "L4VS".
Definition L4VIP : string := "L4VIP".
Definition L4Pool : string := "L4Pool".
Definition L4AdvPool : string := "L4AdvPool".
Definition VIP : string := "VIP".
Definition DataScript : string := "DataScript".
Definition PG : string := "PG".
Definition Pool : string := "Pool".
Definition HTTPRedirectPolicy : string := "HTTPRedirectPolicy".
Definition HeaderRewritePolicy : string := "HeaderRewritePolicy".
Definition SNIVS : string := "SNIVS".
Definition HTTPPS : string := "HTTPPS".
Definition EVHVS : string := "EVHVS".
Definition TLSKeyCert : string := "TLSKeyCert".
Definition CACert : string := "CACert".
Definition PKIProfile : string := "PKIProfile".
Definition PassthroughVS : string := "PassthroughVS".

Definition ShardSizeMap : gmap string N :=
  list_to_map [("LARGE", 8%N); ("MEDIUM", 4%N); ("SMALL", 1%N); ("DEDICATED", 0%N)].

Section lib.
Context `{Externals}.

(** The length limit of an object name, a constant of constants.go. The
    functions below take it as a parameter; [AVI_OBJ_NAME_MAX_LENGTH] after
    the section is the value the spec gives. *)
Variable MAX_LENGTH : nat.

Definition name_too_long (objType objName : string) : Effect :=
  Log Warn "%s name %s exceeds maximum length limit of %d characters for AVI Object"
    [objType; objName; gostd.Itoa (Z.of_nat MAX_LENGTH)].

Definition CheckObjectNameLength (objName objType : string) (w : World)
  : bool * World :=
  if decide (MAX_LENGTH < String.length objName) then
    (true, emit (name_too_long objType objName) w)
  else (false, w).

Definition GetAdvancedL4 (w : World) : bool :=
  let advanceL4 := Getenv ADVANCED_L4 w in
  if decide (advanceL4 = "true") then true else false.

Definition IsEvhEnabled (w : World) : bool :=
  let evh := Getenv ENABLE_EVH w in
  if decide (evh = "true") then true else false.

Definition UseServicesAPI (w : World) : bool :=
  match gostd.ParseBool (Getenv SERVICES_API w) with
  | Some true => true
  | _ => false
  end.

Definition GetClusterID (w : World) : string :=
  let clusterID := Getenv CLUSTER_ID w in
  if decide (clusterID ≠ "") then clusterID else "".

Definition GetClusterIDSplit (w : World) : string :=
  let clusterID := GetClusterID w in
  if decide (clusterID ≠ "") then
    match gostd.Split clusterID ":" with
    | first :: _ :: _ => first
    | _ => ""
    end
  else "".

Definition GetClusterName (w : World) : string :=
  if GetAdvancedL4 w then GetClusterIDSplit w
  else
    let clusterName := Getenv CLUSTER_NAME w in
    if decide (clusterName ≠ "") then clusterName else "".

Definition SetNamePrefix (w : World) : World :=
  set_NamePrefix (GetClusterName w +:+ "--") w.

Definition GetNamePrefix (w : World) : string := NamePrefix w.

Definition Encode (s objType : string) (w : World) : string * World :=
  if negb (IsEvhEnabled w) || GetAdvancedL4 w then
    let '(_, w) := CheckObjectNameLength s objType w in
    (s, w)
  else
    let hash := sha1_Sum s in
    let encodedStr := GetNamePrefix w +:+ gostd.EncodeToString hash in
    let '(_, w) := CheckObjectNameLength encodedStr objType w in
    (encodedStr, w).

Definition GetLayer7Only (w : World) : bool := layer7Only w.

Definition GetModelName (namespace objectName : string) : string :=
  namespace +:+ "/" +:+ objectName.

(** *** All L4 object names *)

Definition GetL4VSName (svcName namespace : string) (w : World) : string * World :=
  Encode (NamePrefix w +:+ namespace +:+ "-" +:+ svcName) L4VS w.

Definition GetL4VSVipName (svcName namespace : string) (w : World) : string * World :=
  Encode (NamePrefix w +:+ namespace +:+ "-" +:+ svcName) L4VIP w.

Definition GetL4PoolName (svcName namespace : string) (port : Z) (w : World)
  : string * World :=
  let poolName :=
    NamePrefix w +:+ namespace +:+ "-" +:+ svcName +:+ "--" +:+ gostd.Itoa port in
  Encode poolName L4Pool w.

Definition GetAdvL4PoolName (svcName namespace gwName : string) (port : Z) (w : World)
  : string * World :=
  let poolName :=
    NamePrefix w +:+ namespace +:+ "-" +:+ svcName +:+ "-" +:+ gwName +:+ "--"
      +:+ gostd.Itoa port in
  Encode poolName L4AdvPool w.

(** *** All L7 object names *)

Definition GetVsVipName (vsName : string) (w : World) : string * World :=
  let vsVipName := vsName in
  let '(_, w) := CheckObjectNameLength vsVipName VIP w in
  (vsName, w).

Definition GetL7InsecureDSName (vsName : string) (w : World) : string * World :=
  let l7DSName := vsName in
  let '(_, w) := CheckObjectNameLength l7DSName DataScript w in
  (l7DSName, w).

Definition GetL7SharedPGName (vsName : string) (w : World) : string * World :=
  let l7PGName := vsName in
  let '(_, w) := CheckObjectNameLength l7PGName PG w in
  (l7PGName, w).

Definition GetL7PoolName (priorityLabel namespace ingName infrasetting : string)
    (args : list string) (w : World) : string * World :=
  let priorityLabel := gostd.ReplaceAll priorityLabel "/" "_" in
  let poolName :=
    if decide (infrasetting ≠ "") then
      NamePrefix w +:+ infrasetting +:+ "-" +:+ priorityLabel +:+ "-" +:+ namespace
        +:+ "-" +:+ ingName
    else
      NamePrefix w +:+ priorityLabel +:+ "-" +:+ namespace +:+ "-" +:+ ingName in
  let poolName :=
    match args with
    | svcName :: _ => poolName +:+ "-" +:+ svcName
    | [] => poolName
    end in
  Encode poolName Pool w.

Definition GetL7HttpRedirPolicy (vsName : string) (w : World) : string * World :=
  let httpRedirectPolicy := vsName in
  let '(_, w) := CheckObjectNameLength httpRedirectPolicy HTTPRedirectPolicy w in
  (httpRedirectPolicy, w).

Definition GetHeaderRewritePolicy (vsName localHost : string) (w : World)
  : string * World :=
  let headerWriterPolicy := vsName +:+ "--host-hdr-re-write" +:+ "--" +:+ localHost in
  let '(_, w) := CheckObjectNameLength headerWriterPolicy HeaderRewritePolicy w in
  (headerWriterPolicy, w).

Definition GetSniNodeName (infrasetting sniHostName : string) (w : World)
  : string * World :=
  let namePrefix := NamePrefix w in
  let namePrefix :=
    if decide (infrasetting ≠ "") then namePrefix +:+ (infrasetting +:+ "-")
    else namePrefix in
  Encode (namePrefix +:+ sniHostName) SNIVS w.

Definition GetSniPoolName (ingName namespace host path infrasetting : string)
    (args : list string) (w : World) : string * World :=
  let path := gostd.ReplaceAll path "/" "_" in
  let poolName :=
    if decide (infrasetting ≠ "") then
      NamePrefix w +:+ infrasetting +:+ "-" +:+ namespace +:+ "-" +:+ host +:+ path
        +:+ "-" +:+ ingName
    else
      NamePrefix w +:+ namespace +:+ "-" +:+ host +:+ path +:+ "-" +:+ ingName in
  let poolName :=
    match args with
    | svcName :: _ => poolName +:+ "-" +:+ svcName
    | [] => poolName
    end in
  let '(_, w) := CheckObjectNameLength poolName Pool w in
  (poolName, w).

Definition GetSniHttpPolName (ingName namespace host path infrasetting : string)
    (w : World) : string * World :=
  let path := gostd.ReplaceAll path "/" "_" in
  if decide (infrasetting ≠ "") then
    Encode (NamePrefix w +:+ infrasetting +:+ "-" +:+ namespace +:+ "-" +:+ host
              +:+ path +:+ "-" +:+ ingName) HTTPPS w
  else
    Encode (NamePrefix w +:+ namespace +:+ "-" +:+ host +:+ path +:+ "-" +:+ ingName)
      HTTPPS w.

Definition GetSniPGName (ingName namespace host path infrasetting : string)
    (w : World) : string * World :=
  let path := gostd.ReplaceAll path "/" "_" in
  let sniPGName :=
    if decide (infrasetting ≠ "") then
      NamePrefix w +:+ infrasetting +:+ "-" +:+ namespace +:+ "-" +:+ host +:+ path
        +:+ "-" +:+ ingName
    else
      NamePrefix w +:+ namespace +:+ "-" +:+ host +:+ path +:+ "-" +:+ ingName in
  let '(_, w) := CheckObjectNameLength sniPGName PG w in
  (sniPGName, w).

(** *** EVH children *)

Definition GetEvhPoolNameNoEncoding
    (ingName namespace host path infrasetting svcName : string) (w : World) : string :=
  let path := gostd.ReplaceAll path "/" "_" in
  let namePrefix := NamePrefix w in
  let namePrefix :=
    if decide (infrasetting ≠ "") then namePrefix +:+ (infrasetting +:+ "-")
    else namePrefix in
  let poolName :=
    namePrefix +:+ namespace +:+ "-" +:+ host +:+ path +:+ "-" +:+ ingName +:+ "-"
      +:+ svcName in
  poolName.

Definition GetEvhPoolName (ingName namespace host path infrasetting svcName : string)
    (w : World) : string * World :=
  let poolName :=
    GetEvhPoolNameNoEncoding ingName namespace host path infrasetting svcName w in
  Encode poolName Pool w.

Definition GetEvhNodeName (host infrasetting : string) (w : World) : string * World :=
  if decide (infrasetting ≠ "") then
    Encode (NamePrefix w +:+ infrasetting +:+ "-" +:+ host) EVHVS w
  else Encode (NamePrefix w +:+ host) EVHVS w.

Definition GetEvhPGName (ingName namespace host path infrasetting : string)
    (w : World) : string * World :=
  let path := gostd.ReplaceAll path "/" "_" in
  if decide (infrasetting ≠ "") then
    Encode (NamePrefix w +:+ infrasetting +:+ "-" +:+ namespace +:+ "-" +:+ host
              +:+ path +:+ "-" +:+ ingName) PG w
  else
    Encode (NamePrefix w +:+ namespace +:+ "-" +:+ host +:+ path +:+ "-" +:+ ingName)
      PG w.

Definition GetTLSKeyCertNodeName (infrasetting sniHostName : string) (w : World)
  : string * World :=
  let namePrefix := NamePrefix w in
  let namePrefix :=
    if decide (infrasetting ≠ "") then namePrefix +:+ (infrasetting +:+ "-")
    else namePrefix in
  Encode (namePrefix +:+ sniHostName) TLSKeyCert w.

Definition GetCACertNodeName (infrasetting sniHostName : string) (w : World)
  : string * World :=
  let namePrefix := NamePrefix w in
  let namePrefix :=
    if decide (infrasetting ≠ "") then namePrefix +:+ (infrasetting +:+ "-")
    else namePrefix in
  let keycertname := namePrefix +:+ sniHostName in
  Encode (keycertname +:+ "-cacert") CACert w.

Definition GetPoolPKIProfileName (poolName : string) (w : World) : string * World :=
  Encode (poolName +:+ "-pkiprofile") PKIProfile w.

(** *** Environment getters *)

Definition GetVrf (w : World) : string :=
  if decide (VRFContext w = "") then utils.GlobalVRF else VRFContext w.

Definition GetTenant (w : World) : string :=
  let tenantName := Getenv "TENANT_NAME" w in
  if decide (tenantName ≠ "") then tenantName else utils.ADMIN_NS.

Definition GetNamespaceToSync (w : World) : string :=
  let namespace := Getenv "SYNC_NAMESPACE" w in
  if decide (namespace ≠ "") then namespace else "".

Definition IsNodePortMode (w : World) : bool :=
  let nodePortType := Getenv SERVICE_TYPE w in
  if decide (nodePortType = NODE_PORT) then true else false.

Definition GetServiceType (w : World) : string := Getenv SERVICE_TYPE w.

Definition AutoAnnotateNPLSvc (w : World) : bool :=
  let autoAnnotateSvc := Getenv autoAnnotateService w in
  if bool_decide (GetServiceType w = NodePortLocal)
     && negb (EqualFold autoAnnotateSvc "false")
  then true else false.

Definition GetCloudType (w : World) : string :=
  if decide (CloudType w = "") then CLOUD_VCENTER else CloudType w.

Definition GetDisableStaticRoute (w : World) : bool :=
  if GetAdvancedL4 w
     || (bool_decide (GetCloudType w = CLOUD_NSXT)
         && bool_decide (GetCNIPlugin (env w) = NCP_CNI))
  then true
  else
    match gostd.ParseBool (Getenv DISABLE_STATIC_ROUTE_SYNC w) with
    | Some true => true
    | _ =>
        if IsNodePortMode w || bool_decide (GetServiceType w = NodePortLocal)
        then true else false
    end.

Definition SetStaticRouteSyncHandler (w : World) : World :=
  emit (MakeChan StaticRouteSyncChan) w.

Definition SetConfigDeleteSyncChan (w : World) : World :=
  emit (MakeChan ConfigDeleteSyncChan) w.

Definition PassthroughShardSize (w : World) : N :=
  let shardVsSize := Getenv "PASSTHROUGH_SHARD_SIZE" w in
  match ShardSizeMap !! shardVsSize with
  | Some shardSize => shardSize
  | None => 1%N
  end.

Definition GetPassthroughShardVSName (s key : string) (w : World) : string * World :=
  let shardSize := PassthroughShardSize w in
  let shardVsPrefix := GetClusterName w +:+ "--" +:+ PassthroughPrefix in
  let vsNum := Bkt s shardSize in
  let vsName := shardVsPrefix +:+ gostd.Itoa (Z.of_N vsNum) in
  let w := emit (Log Info "key: %s, msg: ShardVSName: %s" [key; vsName]) w in
  Encode vsName PassthroughVS w.

(** *** Route backends *)

(** [svcList] is a [map[string]bool] used as a set. *)
Fixpoint HasValidBackends_loop (routeName key : string) (svcList : gset string)
    (alts : list RouteTargetReference) (w : World) : bool * World :=
  match alts with
  | [] => (true, w)
  | altBackend :: rest =>
      if decide (ref_Name altBackend ∈ svcList) then
        (false,
         emit (Log Warn "key: %s, msg: multiple backends with name %s found for route: %s"
                 [key; ref_Name altBackend; routeName]) w)
      else
        HasValidBackends_loop routeName key ({[ref_Name altBackend]} ∪ svcList) rest w
  end.

Definition HasValidBackends (routeSpec : RouteSpec) (routeName namespace key : string)
    (w : World) : bool * World :=
  let toSvc := ref_Name (rt_To routeSpec) in
  let svcList : gset string := {[toSvc]} in
  HasValidBackends_loop routeName key svcList (rt_AlternateBackends routeSpec) w.

(** *** Recognising an encoded name *)

Definition IsNameEncoded (name : string) : bool :=
  let split := gostd.Split2 name "-" "-" in
  match split with
  | [_; second] =>
      match gostd.DecodeString second with
      | Some _ => true
      | None => false
      end
  | _ => false
  end.

(** *** Shard size *)

Definition GetshardSize (w : World) : N :=
  if GetAdvancedL4 w then
    (* shard to 8 go routines in the REST layer *)
    default 0%N (ShardSizeMap !! "LARGE")
  else
    let shardVsSize := Getenv "SHARD_VS_SIZE" w in
    match ShardSizeMap !! shardVsSize with
    | Some shardSize => shardSize
    | None => 1%N
    end.

(** *** Checksums *)

Context `{LibExternals}.

Definition GetGRBACSupport (v : LabelState) : bool := gRBAC v.

Definition GetEnableCtrl2014Features (v : LabelState) : bool :=
  enableCtrl2014Features v.

Definition GetLabels (w : World) : list models.KeyValue :=
  let clusterName := GetClusterName w in
  let labelKey := ClusterNameLabelKey in
  [{| models.kv_Key := Some labelKey; models.kv_Value := Some clusterName |}].

(** [None] is a nil-pointer panic, which the labels of [GetLabels] cannot
    cause. *)
Definition SetClusterLabelChecksum (v : LabelState) (w : World) : option LabelState :=
  if GetEnableCtrl2014Features v then
    match GetLabels w with
    | label :: _ =>
        match models.kv_Key label, models.kv_Value label with
        | Some key, Some value =>
            Some {| gRBAC := gRBAC v;
                    enableCtrl2014Features := enableCtrl2014Features v;
                    clusterKey := key;
                    clusterValue := value;
                    clusterLabelChecksum := Hash (key +:+ value) |}
        | _, _ => None
        end
    | [] => None
    end
  else Some v.

Definition GetClusterLabelChecksum (v : LabelState) : N := clusterLabelChecksum v.

(** [sort.Strings] followed by the concatenation loop. *)
Definition combinedString (markersStr : list string) : string :=
  foldl (λ combinedString ele, combinedString +:+ ele) ""
    (merge_sort String.le markersStr).

Definition GetMarkersChecksum (v : LabelState) (markers : AviObjectMarkers) : N :=
  let numMarkerFields := length markers in
  let '(markersStr, _) :=
    foldl (λ '(markersStr, j) field,
             if decide (field.2 ≠ "") then (<[j:=field.2]> markersStr, S j)
             else (markersStr, j))
          (replicate numMarkerFields "", 0%nat) markers in
  let combinedString := combinedString markersStr in
  let cksum :=
    if decide (String.length combinedString ≠ 0%nat) then Hash combinedString
    else 0%N in
  gostd.add32 cksum (clusterLabelChecksum v).

(** [None] is a panic: a nil [Key], or a label other than the cluster label
    that has no value. *)
Definition ObjectLabelChecksum (v : LabelState)
    (objectLabels : list models.RoleFilterMatchLabel) : option N :=
  match
    foldl (λ st label,
             match st with
             | None => None
             | Some (objChecksum, markersStr, j) =>
                 match models.Key label with
                 | None => None
                 | Some key =>
                     if decide (key = clusterKey v) then
                       match models.Values label with
                       | value :: _ =>
                           if decide (value = clusterValue v)
                           then Some (gostd.add32 objChecksum (clusterLabelChecksum v),
                                      markersStr, j)
                           else Some (objChecksum, markersStr, j)
                       | [] => Some (objChecksum, markersStr, j)
                       end
                     else
                       match models.Values label with
                       | value :: _ => Some (objChecksum, <[j:=value]> markersStr, S j)
                       | [] => None
                       end
                 end
             end)
          (Some (0%N, replicate (length objectLabels) "", 0%nat)) objectLabels
  with
  | None => None
  | Some (objChecksum, markersStr, _) =>
      let combinedString := combinedString markersStr in
      Some (if decide (String.length combinedString ≠ 0%nat)
            then gostd.add32 objChecksum (Hash combinedString)
            else objChecksum)
  end.

(** [None] is the panic of a route whose [RouteID] is nil. The name of the
    VRF is not used. *)
Definition VrfChecksum (vrfName : string) (staticRoutes : list StaticRoute) (w : World)
  : option N :=
  let clusterName := GetClusterName w in
  match
    foldl (λ st staticRoute,
             match st, RouteID staticRoute with
             | Some filteredStaticRoutes, Some id =>
                 if gostd.HasPrefix id clusterName
                 then Some (filteredStaticRoutes ++ [staticRoute])
                 else Some filteredStaticRoutes
             | _, _ => None
             end)
          (Some []) staticRoutes
  with
  | Some filteredStaticRoutes => Some (Hash (StringifyStaticRoutes filteredStaticRoutes))
  | None => None
  end.

(** [sort.Strings] sorts the slice of the caller in place:
    [DSChecksum_pgrefs] is that slice after the call. [markers] is a slice:
    [None] is nil. *)
Definition DSChecksum_pgrefs (pgrefs : list string) : list string :=
  merge_sort String.le pgrefs.

Definition DSChecksum (v : LabelState) (pgrefs : list string)
    (markers : option (list models.RoleFilterMatchLabel)) (populateCache : bool)
  : option N :=
  let pgrefs := DSChecksum_pgrefs pgrefs in
  let checksum := Hash (StringifyStrings pgrefs) in
  if GetGRBACSupport v then
    if populateCache then
      match markers with
      | Some markers =>
          match ObjectLabelChecksum v markers with
          | Some c => Some (gostd.add32 checksum c)
          | None => None
          end
      | None => Some checksum
      end
    else Some (gostd.add32 checksum (GetClusterLabelChecksum v))
  else Some checksum.

Definition SSLKeyCertChecksum (v : LabelState) (sslName certificate cacert : string)
    (ingestionMarkers : AviObjectMarkers)
    (markers : option (list models.RoleFilterMatchLabel)) (populateCache : bool)
  : option N :=
  let checksum := Hash (sslName +:+ certificate +:+ cacert) in
  if GetGRBACSupport v then
    if populateCache then
      match markers with
      | Some markers =>
          match ObjectLabelChecksum v markers with
          | Some c => Some (gostd.add32 checksum c)
          | None => None
          end
      | None => Some checksum
      end
    else Some (gostd.add32 checksum (GetMarkersChecksum v ingestionMarkers))
  else Some checksum.

(** The ports are [int64]; [int] has 64 bits as well. *)
Definition L4PolicyChecksum (v : LabelState) (ports : list Z) (protocol : string)
    (ingestionMarkers : AviObjectMarkers)
    (markers : option (list models.RoleFilterMatchLabel)) (populateCache : bool)
  : option N :=
  let portsInt := foldl (λ portsInt port, portsInt ++ [port]) [] ports in
  let portsInt := merge_sort Z.le portsInt in
  let checksum := gostd.add32 (Hash (StringifyInts portsInt)) (Hash protocol) in
  if GetGRBACSupport v then
    if populateCache then
      match markers with
      | Some markers =>
          match ObjectLabelChecksum v markers with
          | Some c => Some (gostd.add32 checksum c)
          | None => None
          end
      | None => Some checksum
      end
    else Some (gostd.add32 checksum (GetMarkersChecksum v ingestionMarkers))
  else Some checksum.

(** [GetAllMarkers] returns the key values pair used for tagging the
    objects: the cluster label, then one label for each non-empty field. *)
Definition GetAllMarkers (markers : AviObjectMarkers) (w : World)
  : list models.RoleFilterMatchLabel :=
  let clusterName := GetClusterName w in
  let labelKey := ClusterNameLabelKey in
  let rfml := {| models.Key := Some labelKey; models.Values := [clusterName] |} in
  foldl (λ rfmls field,
           if decide (field.2 ≠ "") then
             rfmls ++ [{| models.Key := Some field.1; models.Values := [field.2] |}]
           else rfmls)
        [rfml] markers.

Definition GetMarkers (w : World) : list models.RoleFilterMatchLabel :=
  let clusterName := GetClusterName w in
  let labelKey := ClusterNameLabelKey in
  [{| models.Key := Some labelKey; models.Values := [clusterName] |}].

(** *** Settings that the ConfigMap carries *)

(** Modelled from the spec: the name of the ConfigMap and its keys, constants
    of constants.go: "ConfigMap schema (namespace = AKO namespace, name =
    avi-k8s-config). Recognised keys: deleteConfig, logLevel, layer7Only,
    noPGForSNI". *)
Definition AviConfigMap : string := "avi-k8s-config".
Definition DeleteConfig : string := "deleteConfig".
Definition LOG_LEVEL : string := "logLevel".
Definition LAYER7_ONLY : string := "layer7Only".
Definition NO_PG_FOR_SNI : string := "noPGForSNI".

Definition SetDisableSync (state : bool) (p : Process) : Process :=
  let p := set_lib_DisableSync state p in
  in_world (emit (Log Info "Setting Disable Sync to: %v" [gostd.FormatBool state])) p.

Definition SetLayer7Only (val : string) (p : Process) : Process :=
  let p :=
    match gostd.ParseBool val with
    | Some boolVal => in_world (set_layer7Only boolVal) p
    | None => p
    end in
  in_world (λ w, emit (Log Info "Setting the value for the layer7Only flag %v"
                         [gostd.FormatBool (layer7Only w)]) w) p.

Definition SetNoPGForSNI (val : string) (p : Process) : Process :=
  let p :=
    match gostd.ParseBool val with
    | Some boolVal => set_noPGForSNI boolVal p
    | None => p
    end in
  in_world (emit (Log Info "Setting the value for the noPGForSNI flag %v"
                    [gostd.FormatBool (noPGForSNI p)])) p.

Definition CompareVersions (v1 cmpSign v2 : string) : bool :=
  match semver_NewConstraint (cmpSign +:+ v2) with
  | Some c =>
      match semver_NewVersion v1 with
      | Some currentVersion => semver_Check c currentVersion
      | None => false
      end
  | None => false
  end.

Definition SetGRBACSupport (val : string) (p : Process) : Process :=
  let p :=
    match gostd.ParseBool val with
    | Some boolVal => set_gRBAC boolVal p
    | None => p
    end in
  let controllerVersion := CtrlVersion in
  if gRBAC (labels p) && CompareVersions controllerVersion "<" ControllerVersion2015 then
    (* GRBAC is supported from 20.1.5 and above *)
    let p := in_world (emit (Log Info
                               "Disabling GRBAC as current controller version %s is less than %s."
                               [controllerVersion; ControllerVersion2015])) p in
    set_gRBAC false p
  else p.

Definition GetNoPGForSNI (p : Process) : bool := noPGForSNI p.

Definition ShutdownApi (p : Process) : Process := call akoApi_ShutDown p.

(** *** The name of the cluster, checked *)

(** [regexp.MustCompile(`^[a-zA-Z0-9-_]*$`).MatchString]: every byte is a
    letter, a digit, a hyphen or an underscore. *)
Definition clusterNameRe_MatchString (s : string) : bool :=
  forallb (λ c, let b := N_of_ascii c in
                ((97 <=? b)%N && (b <=? 122)%N) || ((65 <=? b)%N && (b <=? 90)%N)
                || ((48 <=? b)%N && (b <=? 57)%N) || (b =? 45)%N || (b =? 95)%N)
          (list_ascii_of_string s).

Definition IsClusterNameValid (p : Process) : bool * Process :=
  let clusterName := GetClusterName (world p) in
  if decide (clusterName = "") then
    (false,
     in_world (emit (Log Error
                       "Required param clusterName not specified, syncing will be disabled"
                       [])) p)
  else if negb (clusterNameRe_MatchString clusterName) then
    (false,
     in_world (emit (Log Error
                       "clusterName must consist of alphanumeric characters or '-'/'_' (max 32 chars), syncing will be disabled"
                       [])) p)
  else (true, p).

End lib.

(** Modelled from the spec: the limit of an object name, a constant of
    constants.go: "each LB object name is ... ≤ 255 characters". *)
Definition AVI_OBJ_NAME_MAX_LENGTH : nat := 255.

End lib.

(** ** Package [nodes] (internal/nodes), as far as the embedded code calls it *)

Module nodes.
Section nodes.
Context `{Externals}.

(** Modelled from the spec: [nodes.NewAviObjectGraph], [AddModelNode] and
    [CalculateCheckSum] are not among the embedded files. The spec describes
    an ObjectGraph as the nodes of one model, each with a name, with a
    content checksum and an IsVrf flag: a new graph has no node, a node is
    added at the end, and the checksum is computed from the nodes. *)
Definition NewAviObjectGraph : AviObjectGraph :=
  {| modelNodes := []; IsVrf := false; GraphChecksum := 0 |}.

Definition set_IsVrf (b : bool) (g : AviObjectGraph) : AviObjectGraph :=
  {| modelNodes := modelNodes g; IsVrf := b; GraphChecksum := GraphChecksum g |}.

Definition AddModelNode (node : AviModelNode) (g : AviObjectGraph) : AviObjectGraph :=
  {| modelNodes := modelNodes g ++ [node]; IsVrf := IsVrf g;
     GraphChecksum := GraphChecksum g |}.

Definition CalculateCheckSum (g : AviObjectGraph) : AviObjectGraph :=
  {| modelNodes := modelNodes g; IsVrf := IsVrf g;
     GraphChecksum := NodesChecksum (modelNodes g) |}.

(** The call [nodes.DequeueIngestion(key, fullsync)]: it is recorded in the
    trace, and it rebuilds graphs of the Graph Lister. *)
Definition DequeueIngestion (key : string) (fullsync : bool) (w : World) : World :=
  set_graphLister (DequeueIngestion_lister key fullsync (graphLister w))
    (emit (DequeueIngestion key fullsync) w).

(** The call [nodes.PublishKeyToRestLayer(modelName, key, sharedQueue)]. *)
Definition PublishKeyToRestLayer (modelName key : string) (sharedQueue : Layer)
    (w : World) : World :=
  emit (PublishKeyToRestLayer modelName key sharedQueue) w.

End nodes.
End nodes.

(** ** Package [k8s]: internal/k8s/controller.go *)

Module k8s.
Section controller.
Context `{Externals}.

(** [numWorkers] is the worker count of the ingestion queue,
    [mcpQueue.NumWorkers]. *)
Variable numWorkers : N.

(** [namespace, _, _ := cache.SplitMetaNamespaceKey(key)] *)
Definition namespace_of (key : string) : string := (SplitMetaNamespaceKey key).1.1.

(** The type switch at the head of every [DeleteFunc]: [notT] is the message
    logged when a tombstone holds an object of another type. *)
Definition untombstone {A} (notT : string) (obj : Deleted A) (w : World)
  : option A * World :=
  match obj with
  | Live o => (Some o, w)
  | Tombstone (Some o) => (Some o, w)
  | Tombstone None => (None, emit (Log Error notT []) w)
  | Unexpected => (None, emit (Log Error "couldn't get object from tombstone %#v" []) w)
  end.

Fixpoint firstInternalIP (addrs : list NodeAddress) : string :=
  match addrs with
  | [] => ""
  | addr :: rest =>
      if decide (addr_Type addr = "InternalIP") then addr_Address addr
      else firstInternalIP rest
  end.

Definition isNodeUpdated (oldNode newNode : Node) : bool :=
  if decide (ResourceVersion (meta oldNode) = ResourceVersion (meta newNode)) then false
  else
    let oldAddrs := node_Addresses oldNode in
    let newAddrs := node_Addresses newNode in
    if decide (length oldAddrs ≠ length newAddrs) then true
    else
      let oldaddr := firstInternalIP oldAddrs in
      let newaddr := firstInternalIP newAddrs in
      if decide (oldaddr ≠ newaddr) then true
      else if decide (node_PodCIDR oldNode ≠ node_PodCIDR newNode) then true
      else
        let nodeLabelEq := bool_decide (Labels (meta oldNode) = Labels (meta newNode)) in
        if negb nodeLabelEq then true else false.

(** Consider an ingress has been updated only if spec/annotation is updated *)
Definition isIngressUpdated (oldIngress newIngress : Ingress) : bool :=
  if decide (ResourceVersion (meta oldIngress) = ResourceVersion (meta newIngress))
  then false
  else
    let oldSpecHash := Hash (StringifyIngressSpec (ing_Spec oldIngress)) in
    let oldAnnotationHash := Hash (StringifyStringMap (Annotations (meta oldIngress))) in
    let newSpecHash := Hash (StringifyIngressSpec (ing_Spec newIngress)) in
    let newAnnotationHash := Hash (StringifyStringMap (Annotations (meta newIngress))) in
    if bool_decide (oldSpecHash ≠ newSpecHash)
       || bool_decide (oldAnnotationHash ≠ newAnnotationHash)
    then true else false.

(** Consider a route has been updated only if spec/annotation is updated *)
Definition isRouteUpdated (oldRoute newRoute : Route) : bool :=
  if decide (ResourceVersion (meta oldRoute) = ResourceVersion (meta newRoute))
  then false
  else
    let oldSpecHash := Hash (StringifyRouteSpec (rt_Spec oldRoute)) in
    let newSpecHash := Hash (StringifyRouteSpec (rt_Spec newRoute)) in
    if decide (oldSpecHash ≠ newSpecHash) then true else false.

Definition isNamespaceUpdated (oldNS newNS : Namespace_) : bool :=
  if decide (ResourceVersion (meta oldNS) = ResourceVersion (meta newNS)) then false
  else
    let oldLabelHash := Hash (StringifyStringMap (Labels (meta oldNS))) in
    let newLabelHash := Hash (StringifyStringMap (Labels (meta newNS))) in
    if decide (oldLabelHash ≠ newLabelHash) then true else false.

Definition isServiceLBType (svcObj : Service) : bool :=
  if decide (svc_Type svcObj = "LoadBalancer") then true else false.

Definition validateAviSecret (secret : Secret) (w : World) : bool :=
  if bool_decide (Namespace (meta secret) = GetAKONamespace (env w))
     && bool_decide (Name (meta secret) = lib.AviSecret)
  then false else true.

(** *** Replay of a namespace onto the ingestion queue *)

Definition AddIngressFromNSToIngestionQueue (namespace msg : string) (w : World)
  : World :=
  match IngressInformer (informers w) with
  | None => w     (* not reached: the caller tests the informer against nil *)
  | Some informer =>
      match List_ informer namespace with
      | inl err =>
          emit (Log Error
                  "NS to ingress queue add: Error occurred while retrieving ingresss for namespace: %s"
                  [namespace]) w
      | inr ingObjs =>
          foldl (λ w ingObj,
                   let key := utils.Ingress +:+ "/" +:+ utils.ObjKey ingObj in
                   let bkt := Bkt namespace numWorkers in
                   let w := emit (AddRateLimited ObjectIngestionLayer bkt key) w in
                   emit (Log Debug "key: %s, msg: %s for namespace: %s"
                           [key; msg; namespace]) w)
                w ingObjs
      end
  end.

Definition AddRoutesFromNSToIngestionQueue (namespace msg : string) (w : World)
  : World :=
  match RouteInformer (informers w) with
  | None => w     (* not reached: the caller tests the informer against nil *)
  | Some informer =>
      match List_ informer namespace with
      | inl err =>
          emit (Log Error
                  "NS to route queue add: Error occurred while retrieving routes for namespace: %s"
                  [namespace]) w
      | inr routeObjs =>
          foldl (λ w routeObj,
                   let key := utils.OshiftRoute +:+ "/" +:+ utils.ObjKey routeObj in
                   let bkt := Bkt namespace numWorkers in
                   let w := emit (AddRateLimited ObjectIngestionLayer bkt key) w in
                   emit (Log Debug "key: %s, msg: %s for namespace: %s"
                           [key; msg; namespace]) w)
                w routeObjs
      end
  end.

Definition AddServicesFromNSToIngestionQueue (namespace msg : string) (w : World)
  : World :=
  (* For Advanced L4 and service api, do not handle. services already been
     taken care in service handler *)
  if lib.GetAdvancedL4 w then w
  else
    match ServiceInformer (informers w) with
    | None => w   (* not reached: the caller tests the informer against nil *)
    | Some informer =>
        match List_ informer namespace with
        | inl err =>
            emit (Log Error "Unable to retrieve the services during namespace sync: %s" [err]) w
        | inr svcObjs =>
            foldl (λ w svcObj,
                     let isSvcLb := isServiceLBType svcObj in
                     (* Add L4 and Cluster API services to queue *)
                     let '(key, w) :=
                       if isSvcLb && negb (lib.GetLayer7Only w) then
                         let key := utils.L4LBService +:+ "/" +:+ utils.ObjKey svcObj in
                         if lib.UseServicesAPI w then
                           (key, emit (checkSvcForSvcApiGatewayPortConflict svcObj key) w)
                         else (key, w)
                       else (utils.Service +:+ "/" +:+ utils.ObjKey svcObj, w) in
                     let bkt := Bkt namespace numWorkers in
                     let w := emit (AddRateLimited ObjectIngestionLayer bkt key) w in
                     emit (Log Debug "key: %s, msg: %s for namespace: %s"
                             [key; msg; namespace]) w)
                  w svcObjs
        end
    end.

Definition AddGatewaysFromNSToIngestionQueue (namespace msg : string) (w : World)
  : World :=
  match List_ (SvcAPIGatewayInformer (informers w)) namespace with
  | inl err =>
      emit (Log Error "Unable to retrieve the gateways during namespace sync: %s" [err]) w
  | inr gatewayObjs =>
      foldl (λ w gatewayObj,
               let key := lib.Gateway +:+ "/" +:+ utils.ObjKey gatewayObj in
               let w := emit (InformerStatusUpdatesForSvcApiGateway key gatewayObj) w in
               let bkt := Bkt namespace numWorkers in
               let w := emit (AddRateLimited ObjectIngestionLayer bkt key) w in
               emit (Log Debug "key: %s, msg: %s for namespace: %s"
                       [key; msg; namespace]) w)
            w gatewayObjs
  end.

(** *** [AddNamespaceEventHandler] *)

Definition namespaceEventHandler_AddFunc (ns : Namespace_) (w : World) : World :=
  if DisableSync w then w
  else
    let nsLabels := Labels (meta ns) in
    let namespace := Name (meta ns) in
    if CheckIfNamespaceAcceptedLabels (env w) (nsFilter w) namespace nsLabels false then
      let w := set_nsFilter (AddNamespaceToFilter (Name (meta ns)) (nsFilter w)) w in
      emit (Log Debug "NS Add event: Namespace passed filter: %s" [Name (meta ns)]) w
    else
      (* Case: previously deleted valid NS, added back with no labels or
         invalid labels but nsList contain that ns *)
      let w := emit (Log Debug "NS Add event: Namespace did not pass filter: %s"
                       [Name (meta ns)]) w in
      if CheckIfNamespaceAccepted (env w) (nsFilter w) namespace then
        let w := emit (Log Debug
                         "Ns Add event: Deleting previous valid namespace: %s from valid NS List"
                         [Name (meta ns)]) w in
        set_nsFilter (DeleteNamespaceFromFilter (Name (meta ns)) (nsFilter w)) w
      else w.

Definition namespaceEventHandler_UpdateFunc (nsOld nsCur : Namespace_) (w : World)
  : World :=
  if DisableSync w then w
  else if isNamespaceUpdated nsOld nsCur then
    let oldNSAccepted :=
      CheckIfNamespaceAcceptedLabels (env w) (nsFilter w) (Name (meta nsOld))
        (Labels (meta nsOld)) false in
    let newNSAccepted :=
      CheckIfNamespaceAcceptedLabels (env w) (nsFilter w) (Name (meta nsCur))
        (Labels (meta nsCur)) false in
    if negb oldNSAccepted && newNSAccepted then
      (* Case 1: Namespace updated with valid labels.
         Call ingress/route and service add *)
      let w := set_nsFilter (AddNamespaceToFilter (Name (meta nsCur)) (nsFilter w)) w in
      let w :=
        if bool_decide (IngressInformer (informers w) ≠ None) then
          let w := emit (Log Debug "Adding ingresses for namespaces: %s"
                           [Name (meta nsCur)]) w in
          AddIngressFromNSToIngestionQueue (Name (meta nsCur)) lib.NsFilterAdd w
        else if bool_decide (RouteInformer (informers w) ≠ None) then
          let w := emit (Log Debug "Adding routes for namespaces: %s"
                           [Name (meta nsCur)]) w in
          AddRoutesFromNSToIngestionQueue (Name (meta nsCur)) lib.NsFilterAdd w
        else w in
      let w :=
        if bool_decide (ServiceInformer (informers w) ≠ None) then
          let w := emit (Log Debug "Adding L4 services for namespaces: %s"
                           [Name (meta nsCur)]) w in
          AddServicesFromNSToIngestionQueue (Name (meta nsCur)) lib.NsFilterAdd w
        else w in
      if lib.UseServicesAPI w then
        let w := emit (Log Debug "Adding Gatways for namespaces: %s"
                         [Name (meta nsCur)]) w in
        AddGatewaysFromNSToIngestionQueue (Name (meta nsCur)) lib.NsFilterAdd w
      else w
    else if oldNSAccepted && negb newNSAccepted then
      (* Case 2: Old valid namespace updated with invalid labels.
         Call ingress/route and service delete *)
      let w := set_nsFilter (DeleteNamespaceFromFilter (Name (meta nsCur)) (nsFilter w)) w in
      let w :=
        if bool_decide (IngressInformer (informers w) ≠ None) then
          let w := emit (Log Debug "Deleting ingresses for namespaces: %s"
                           [Name (meta nsCur)]) w in
          AddIngressFromNSToIngestionQueue (Name (meta nsCur)) lib.NsFilterDelete w
        else if bool_decide (RouteInformer (informers w) ≠ None) then
          let w := emit (Log Debug "Deleting routes for namespaces: %s"
                           [Name (meta nsCur)]) w in
          AddRoutesFromNSToIngestionQueue (Name (meta nsCur)) lib.NsFilterDelete w
        else w in
      let w :=
        if bool_decide (ServiceInformer (informers w) ≠ None) then
          let w := emit (Log Debug "Deleting L4 services for namespaces: %s"
                           [Name (meta nsCur)]) w in
          AddServicesFromNSToIngestionQueue (Name (meta nsCur)) lib.NsFilterDelete w
        else w in
      if lib.UseServicesAPI w then
        let w := emit (Log Debug "Deleting Gatways for namespaces: %s"
                         [Name (meta nsCur)]) w in
        AddGatewaysFromNSToIngestionQueue (Name (meta nsCur)) lib.NsFilterDelete w
      else w
    else w
  else w.

(** *** [AddRouteEventHandler] *)

Definition routeEventHandler_AddFunc (route : Route) (w : World) : World :=
  if DisableSync w then w
  else
    let namespace := namespace_of (utils.ObjKey route) in
    if negb (CheckIfNamespaceAccepted (env w) (nsFilter w) namespace) then
      emit (Log Debug
              "Route add event: Namespace: %s didn't qualify filter. Not adding route"
              [namespace]) w
    else
      let key := utils.OshiftRoute +:+ "/" +:+ utils.ObjKey route in
      let bkt := Bkt namespace numWorkers in
      let '(valid, w) :=
        lib.HasValidBackends (rt_Spec route) (Name (meta route)) namespace key w in
      let w :=
        if negb valid then
          emit (UpdateRouteStatusWithErrMsg key (Name (meta route)) namespace
                  lib.DuplicateBackends) w
        else w in
      let w := emit (AddRateLimited ObjectIngestionLayer bkt key) w in
      emit (Log Debug "key: %s, msg: ADD" [key]) w.

Definition routeEventHandler_DeleteFunc (obj : Deleted Route) (w : World) : World :=
  if DisableSync w then w
  else
    match untombstone "Tombstone contained object that is not an Route: %#v" obj w with
    | (None, w) => w
    | (Some route, w) =>
        let namespace := namespace_of (utils.ObjKey route) in
        if negb (CheckIfNamespaceAccepted (env w) (nsFilter w) namespace) then
          emit (Log Debug
                  "Route delete event: Namespace: %s didn't qualify filter. Not deleting route"
                  [namespace]) w
        else
          let key := utils.OshiftRoute +:+ "/" +:+ utils.ObjKey route in
          let bkt := Bkt namespace numWorkers in
          let w := emit (AddRateLimited ObjectIngestionLayer bkt key) w in
          emit (Log Debug "key: %s, msg: DELETE" [key]) w
    end.

Definition routeEventHandler_UpdateFunc (oldRoute newRoute : Route) (w : World) : World :=
  if DisableSync w then w
  else if isRouteUpdated oldRoute newRoute then
    let namespace := namespace_of (utils.ObjKey newRoute) in
    if negb (CheckIfNamespaceAccepted (env w) (nsFilter w) namespace) then
      emit (Log Debug
              "Route update event: Namespace: %s didn't qualify filter. Not updating route"
              [namespace]) w
    else
      let key := utils.OshiftRoute +:+ "/" +:+ utils.ObjKey newRoute in
      let bkt := Bkt namespace numWorkers in
      let '(valid, w) :=
        lib.HasValidBackends (rt_Spec newRoute) (Name (meta newRoute)) namespace key w in
      let w :=
        if negb valid then
          emit (UpdateRouteStatusWithErrMsg key (Name (meta newRoute)) namespace
                  lib.DuplicateBackends) w
        else w in
      let w := emit (AddRateLimited ObjectIngestionLayer bkt key) w in
      emit (Log Debug "key: %s, msg: UPDATE" [key]) w
  else w.

(** *** [AddPodEventHandler] *)

Definition podEventHandler_AddFunc (pod : Pod) (w : World) : World :=
  if DisableSync w then w
  else
    let namespace := namespace_of (utils.ObjKey pod) in
    let key := utils.Pod +:+ "/" +:+ utils.ObjKey pod in
    let bkt := Bkt namespace numWorkers in
    let w := emit (AddRateLimited ObjectIngestionLayer bkt key) w in
    emit (Log Debug "key: %s, msg: ADD\n" [key]) w.

Definition podEventHandler_DeleteFunc (obj : Deleted Pod) (w : World) : World :=
  if DisableSync w then w
  else
    match untombstone "Tombstone contained object that is not an Pod: %#v" obj w with
    | (None, w) => w
    | (Some pod, w) =>
        let namespace := namespace_of (utils.ObjKey pod) in
        let key := utils.Pod +:+ "/" +:+ utils.ObjKey pod in
        let bkt := Bkt namespace numWorkers in
        let w := emit (AddRateLimited ObjectIngestionLayer bkt key) w in
        emit (Log Debug "key: %s, msg: DELETE" [key]) w
    end.

Definition podEventHandler_UpdateFunc (oldPod newPod : Pod) (w : World) : World :=
  if DisableSync w then w
  else if negb (bool_decide (newPod = oldPod)) then
    let namespace := namespace_of (utils.ObjKey newPod) in
    let key := utils.Pod +:+ "/" +:+ utils.ObjKey oldPod in
    let bkt := Bkt namespace numWorkers in
    let w := emit (AddRateLimited ObjectIngestionLayer bkt key) w in
    emit (Log Debug "key: %s, msg: UPDATE" [key]) w
  else w.

(** *** The handlers installed by [SetupEventHandlers] *)

Definition epEventHandler_AddFunc (ep : Endpoints) (w : World) : World :=
  if DisableSync w then w
  else
    let namespace := namespace_of (utils.ObjKey ep) in
    let key := utils.Endpoints +:+ "/" +:+ utils.ObjKey ep in
    let bkt := Bkt namespace numWorkers in
    let w := emit (AddRateLimited ObjectIngestionLayer bkt key) w in
    emit (Log Debug "key: %s, msg: ADD" [key]) w.

Definition epEventHandler_DeleteFunc (obj : Deleted Endpoints) (w : World) : World :=
  if DisableSync w then w
  else
    match untombstone "Tombstone contained object that is not an Endpoints: %#v" obj w with
    | (None, w) => w
    | (Some ep, w) =>
        let namespace := namespace_of (utils.ObjKey ep) in
        let key := utils.Endpoints +:+ "/" +:+ utils.ObjKey ep in
        let bkt := Bkt namespace numWorkers in
        let w := emit (AddRateLimited ObjectIngestionLayer bkt key) w in
        emit (Log Debug "key: %s, msg: DELETE" [key]) w
    end.

Definition epEventHandler_UpdateFunc (oep cep : Endpoints) (w : World) : World :=
  if DisableSync w then w
  else if negb (bool_decide (ep_Subsets cep = ep_Subsets oep)) then
    let namespace := namespace_of (utils.ObjKey cep) in
    let key := utils.Endpoints +:+ "/" +:+ utils.ObjKey cep in
    let bkt := Bkt namespace numWorkers in
    let w := emit (AddRateLimited ObjectIngestionLayer bkt key) w in
    emit (Log Debug "key: %s, msg: UPDATE" [key]) w
  else w.

(** The branch of the Service handlers that picks the key; [None] is an
    early return. *)
Definition svcEventHandler_AddFunc (svc : Service) (w : World) : World :=
  if DisableSync w then w
  else
    let namespace := namespace_of (utils.ObjKey svc) in
    let isSvcLb := isServiceLBType svc in
    let picked : option string * World :=
      if isSvcLb && negb (lib.GetLayer7Only w) then
        (* L4 Namespace sync not applicable for advance L4 and service API *)
        if negb (IsServiceNSValid (env w) (nsFilter w) namespace) then
          (None,
           emit (Log Debug
                   "L4 Service add event: Namespace: %s didn't qualify filter. Not adding service."
                   [namespace]) w)
        else
          let key := utils.L4LBService +:+ "/" +:+ utils.ObjKey svc in
          let w := if lib.GetAdvancedL4 w
                   then emit (checkSvcForGatewayPortConflict svc key) w else w in
          let w := if lib.UseServicesAPI w
                   then emit (checkSvcForSvcApiGatewayPortConflict svc key) w else w in
          (Some key, w)
      else
        if lib.GetAdvancedL4 w
           || negb (CheckIfNamespaceAccepted (env w) (nsFilter w) namespace)
        then (None, w)
        else (Some (utils.Service +:+ "/" +:+ utils.ObjKey svc), w) in
    match picked with
    | (None, w) => w
    | (Some key, w) =>
        let bkt := Bkt namespace numWorkers in
        let w := emit (AddRateLimited ObjectIngestionLayer bkt key) w in
        emit (Log Debug "key: %s, msg: ADD" [key]) w
    end.

Definition svcEventHandler_DeleteFunc (obj : Deleted Service) (w : World) : World :=
  if DisableSync w then w
  else
    match untombstone "Tombstone contained object that is not an Service: %#v" obj w with
    | (None, w) => w
    | (Some svc, w) =>
        let isSvcLb := isServiceLBType svc in
        let namespace := namespace_of (utils.ObjKey svc) in
        let picked : option string * World :=
          if isSvcLb && negb (lib.GetLayer7Only w) then
            if negb (IsServiceNSValid (env w) (nsFilter w) namespace) then
              (None,
               emit (Log Debug
                       "L4 Service delete event: Namespace: %s didn't qualify filter. Not deleting service."
                       [namespace]) w)
            else (Some (utils.L4LBService +:+ "/" +:+ utils.ObjKey svc), w)
          else
            if lib.GetAdvancedL4 w
               || negb (CheckIfNamespaceAccepted (env w) (nsFilter w) namespace)
            then (None, w)
            else (Some (utils.Service +:+ "/" +:+ utils.ObjKey svc), w) in
        match picked with
        | (None, w) => w
        | (Some key, w) =>
            let bkt := Bkt namespace numWorkers in
            let w := emit (AddRateLimited ObjectIngestionLayer bkt key) w in
            emit (Log Debug "key: %s, msg: DELETE" [key]) w
        end
    end.

Definition svcEventHandler_UpdateFunc (oldobj svc : Service) (w : World) : World :=
  if DisableSync w then w
  else if bool_decide (ResourceVersion (meta oldobj) ≠ ResourceVersion (meta svc))
          || negb (bool_decide (Annotations (meta svc) = Annotations (meta oldobj)))
  then
    (* Only add the key if the resource versions have changed. *)
    let namespace := namespace_of (utils.ObjKey svc) in
    let isSvcLb := isServiceLBType svc in
    let picked : option string * World :=
      if isSvcLb && negb (lib.GetLayer7Only w) then
        if negb (IsServiceNSValid (env w) (nsFilter w) namespace) then
          (None,
           emit (Log Debug
                   "L4 Service update event: Namespace: %s didn't qualify filter. Not updating service."
                   [namespace]) w)
        else
          let key := utils.L4LBService +:+ "/" +:+ utils.ObjKey svc in
          let w := if lib.GetAdvancedL4 w
                   then emit (checkSvcForGatewayPortConflict svc key) w else w in
          let w := if lib.UseServicesAPI w
                   then emit (checkSvcForSvcApiGatewayPortConflict svc key) w else w in
          (Some key, w)
      else
        if lib.GetAdvancedL4 w
           || negb (CheckIfNamespaceAccepted (env w) (nsFilter w) namespace)
        then (None, w)
        else (Some (utils.Service +:+ "/" +:+ utils.ObjKey svc), w) in
    match picked with
    | (None, w) => w
    | (Some key, w) =>
        let bkt := Bkt namespace numWorkers in
        let w := emit (AddRateLimited ObjectIngestionLayer bkt key) w in
        emit (Log Debug "key: %s, msg: UPDATE" [key]) w
    end
  else w.

(** Calico block affinities and OpenShift host subnets: the Debugf line
    precedes the DisableSync test. *)
Definition blockAffinityHandler_AddFunc (crd : Unstructured) (w : World) : World :=
  let w := emit (Log Debug "calico blockaffinity ADD Event" []) w in
  if DisableSync w then w
  else
    match u_spec_err crd, u_spec crd with
    | false, Some specJSON =>
        let key := utils.NodeObj +:+ "/" +:+ default "" (specJSON !! "name") in
        let bkt := Bkt (lib.GetTenant w) numWorkers in
        emit (AddRateLimited ObjectIngestionLayer bkt key) w
    | _, _ => emit (Log Warn "calico blockaffinity spec not found: %+v" []) w
    end.

Definition blockAffinityHandler_DeleteFunc (crd : Unstructured) (w : World) : World :=
  let w := emit (Log Debug "calico blockaffinity DELETE Event" []) w in
  if DisableSync w then w
  else
    match u_spec_err crd, u_spec crd with
    | false, Some specJSON =>
        let key := utils.NodeObj +:+ "/" +:+ default "" (specJSON !! "name") in
        let bkt := Bkt (lib.GetTenant w) numWorkers in
        emit (AddRateLimited ObjectIngestionLayer bkt key) w
    | _, _ => emit (Log Warn "calico blockaffinity spec not found: %+v" []) w
    end.

Definition hostSubnetHandler_AddFunc (crd : Unstructured) (w : World) : World :=
  let w := emit (Log Debug "hostsubnets ADD Event" []) w in
  if DisableSync w then w
  else
    match u_host_err crd, u_host crd with
    | false, Some host =>
        let key := utils.NodeObj +:+ "/" +:+ host in
        let bkt := Bkt (lib.GetTenant w) numWorkers in
        emit (AddRateLimited ObjectIngestionLayer bkt key) w
    | _, _ => emit (Log Warn "hostsubnet host not found: %+v" []) w
    end.

Definition hostSubnetHandler_DeleteFunc (crd : Unstructured) (w : World) : World :=
  let w := emit (Log Debug "hostsubnets DELETE Event" []) w in
  if DisableSync w then w
  else
    match u_host_err crd, u_host crd with
    | false, Some host =>
        let key := utils.NodeObj +:+ "/" +:+ host in
        let bkt := Bkt (lib.GetTenant w) numWorkers in
        emit (AddRateLimited ObjectIngestionLayer bkt key) w
    | _, _ => emit (Log Warn "hostsubnet host not found: %+v" []) w
    end.

(** The [DeleteFunc] of these two tables on what the informer hands it: it
    has no tombstone branch, and with sync enabled the assertion that the
    object is an [unstructured.Unstructured] panics ([None]) on a tombstone
    and on a value of another type. The events of [handle] carry the object
    itself. *)
Definition blockAffinityHandler_DeleteFunc_obj (obj : Deleted Unstructured) (w : World)
  : option World :=
  let w := emit (Log Debug "calico blockaffinity DELETE Event" []) w in
  if DisableSync w then Some w
  else
    match obj with
    | Live crd =>
        match u_spec_err crd, u_spec crd with
        | false, Some specJSON =>
            let key := utils.NodeObj +:+ "/" +:+ default "" (specJSON !! "name") in
            let bkt := Bkt (lib.GetTenant w) numWorkers in
            Some (emit (AddRateLimited ObjectIngestionLayer bkt key) w)
        | _, _ => Some (emit (Log Warn "calico blockaffinity spec not found: %+v" []) w)
        end
    | _ => None
    end.

Definition hostSubnetHandler_DeleteFunc_obj (obj : Deleted Unstructured) (w : World)
  : option World :=
  let w := emit (Log Debug "hostsubnets DELETE Event" []) w in
  if DisableSync w then Some w
  else
    match obj with
    | Live crd =>
        match u_host_err crd, u_host crd with
        | false, Some host =>
            let key := utils.NodeObj +:+ "/" +:+ host in
            let bkt := Bkt (lib.GetTenant w) numWorkers in
            Some (emit (AddRateLimited ObjectIngestionLayer bkt key) w)
        | _, _ => Some (emit (Log Warn "hostsubnet host not found: %+v" []) w)
        end
    | _ => None
    end.

Definition secretEventHandler_AddFunc (secret : Secret) (w : World) : World :=
  if DisableSync w then w
  else
    let namespace := namespace_of (utils.ObjKey secret) in
    let key := "Secret" +:+ "/" +:+ utils.ObjKey secret in
    let bkt := Bkt namespace numWorkers in
    let w := emit (AddRateLimited ObjectIngestionLayer bkt key) w in
    emit (Log Debug "key: %s, msg: ADD" [key]) w.

Definition secretEventHandler_DeleteFunc (obj : Deleted Secret) (w : World) : World :=
  if DisableSync w then w
  else
    match untombstone "Tombstone contained object that is not a Secret: %#v" obj w with
    | (None, w) => w
    | (Some secret, w) =>
        if validateAviSecret secret w then
          let namespace := namespace_of (utils.ObjKey secret) in
          let key := "Secret" +:+ "/" +:+ utils.ObjKey secret in
          let bkt := Bkt namespace numWorkers in
          let w := emit (AddRateLimited ObjectIngestionLayer bkt key) w in
          emit (Log Debug "key: %s, msg: DELETE" [key]) w
        else w
    end.

Definition secretEventHandler_UpdateFunc (oldobj secret : Secret) (w : World) : World :=
  if DisableSync w then w
  else if bool_decide (ResourceVersion (meta oldobj) ≠ ResourceVersion (meta secret))
          && negb (bool_decide (sec_Data secret = sec_Data oldobj))
  then
    if validateAviSecret secret w then
      (* Only add the key if the resource versions have changed. *)
      let namespace := namespace_of (utils.ObjKey secret) in
      let key := "Secret" +:+ "/" +:+ utils.ObjKey secret in
      let bkt := Bkt namespace numWorkers in
      let w := emit (AddRateLimited ObjectIngestionLayer bkt key) w in
      emit (Log Debug "key: %s, msg: UPDATE" [key]) w
    else w
  else w.

Definition ingressEventHandler_AddFunc (ingress : Ingress) (w : World) : World :=
  if DisableSync w then w
  else
    let namespace := namespace_of (utils.ObjKey ingress) in
    if negb (CheckIfNamespaceAccepted (env w) (nsFilter w) namespace) then
      emit (Log Debug
              "Ingress add event: Namespace: %s didn't qualify filter. Not adding ingress"
              [namespace]) w
    else
      let key := utils.Ingress +:+ "/" +:+ utils.ObjKey ingress in
      let bkt := Bkt namespace numWorkers in
      let w := emit (AddRateLimited ObjectIngestionLayer bkt key) w in
      emit (Log Debug "key: %s, msg: ADD" [key]) w.

Definition ingressEventHandler_DeleteFunc (obj : Deleted Ingress) (w : World) : World :=
  if DisableSync w then w
  else
    match untombstone "Tombstone contained object that is not an Ingress: %#v" obj w with
    | (None, w) => w
    | (Some ingress, w) =>
        let namespace := namespace_of (utils.ObjKey ingress) in
        if negb (CheckIfNamespaceAccepted (env w) (nsFilter w) namespace) then
          emit (Log Debug
                  "Ingress Delete event: Namespace: %s didn't qualify filter. Not deleting ingress"
                  [namespace]) w
        else
          let key := utils.Ingress +:+ "/" +:+ utils.ObjKey ingress in
          let bkt := Bkt namespace numWorkers in
          let w := emit (AddRateLimited ObjectIngestionLayer bkt key) w in
          emit (Log Debug "key: %s, msg: DELETE" [key]) w
    end.

Definition ingressEventHandler_UpdateFunc (oldobj ingress : Ingress) (w : World) : World :=
  if DisableSync w then w
  else if isIngressUpdated oldobj ingress then
    let namespace := namespace_of (utils.ObjKey ingress) in
    if negb (CheckIfNamespaceAccepted (env w) (nsFilter w) namespace) then
      emit (Log Debug
              "Ingress Update event: Namespace: %s didn't qualify filter. Not updating ingress"
              [namespace]) w
    else
      let key := utils.Ingress +:+ "/" +:+ utils.ObjKey ingress in
      let bkt := Bkt namespace numWorkers in
      let w := emit (AddRateLimited ObjectIngestionLayer bkt key) w in
      emit (Log Debug "key: %s, msg: UPDATE" [key]) w
  else w.

Definition nodeEventHandler_AddFunc (node : Node) (w : World) : World :=
  if DisableSync w then w
  else
    let key := utils.NodeObj +:+ "/" +:+ Name (meta node) in
    let bkt := Bkt (lib.GetTenant w) numWorkers in
    let w := emit (AddRateLimited ObjectIngestionLayer bkt key) w in
    emit (Log Debug "key: %s, msg: ADD" [key]) w.

Definition nodeEventHandler_DeleteFunc (obj : Deleted Node) (w : World) : World :=
  if DisableSync w then w
  else
    match untombstone "Tombstone contained object that is not an Node: %#v" obj w with
    | (None, w) => w
    | (Some node, w) =>
        let key := utils.NodeObj +:+ "/" +:+ Name (meta node) in
        let bkt := Bkt (lib.GetTenant w) numWorkers in
        let w := emit (AddRateLimited ObjectIngestionLayer bkt key) w in
        emit (Log Debug "key: %s, msg: DELETE" [key]) w
    end.

Definition nodeEventHandler_UpdateFunc (oldobj node : Node) (w : World) : World :=
  if DisableSync w then w
  else
    let key := utils.NodeObj +:+ "/" +:+ Name (meta node) in
    if isNodeUpdated oldobj node then
      let bkt := Bkt (lib.GetTenant w) numWorkers in
      let w := emit (AddRateLimited ObjectIngestionLayer bkt key) w in
      emit (Log Debug "key: %s, msg: UPDATE" [key]) w
    else
      emit (Log Debug "key: %s, msg: node object did not change\n" [key]) w.

Definition ingressClassEventHandler_AddFunc (ingClass : IngressClass) (w : World)
  : World :=
  if DisableSync w then w
  else
    let namespace := namespace_of (utils.ObjKey ingClass) in
    let key := utils.IngressClass +:+ "/" +:+ utils.ObjKey ingClass in
    let bkt := Bkt namespace numWorkers in
    let w := emit (AddRateLimited ObjectIngestionLayer bkt key) w in
    emit (Log Debug "key: %s, msg: ADD" [key]) w.

Definition ingressClassEventHandler_DeleteFunc (obj : Deleted IngressClass) (w : World)
  : World :=
  if DisableSync w then w
  else
    match untombstone "Tombstone contained object that is not an IngressClass: %#v"
            obj w with
    | (None, w) => w
    | (Some ingClass, w) =>
        let namespace := namespace_of (utils.ObjKey ingClass) in
        let key := utils.IngressClass +:+ "/" +:+ utils.ObjKey ingClass in
        let bkt := Bkt namespace numWorkers in
        let w := emit (AddRateLimited ObjectIngestionLayer bkt key) w in
        emit (Log Debug "key: %s, msg: DELETE" [key]) w
    end.

Definition ingressClassEventHandler_UpdateFunc (oldobj ingClass : IngressClass)
    (w : World) : World :=
  if DisableSync w then w
  else if decide (ResourceVersion (meta oldobj) ≠ ResourceVersion (meta ingClass)) then
    (* Only add the key if the resource versions have changed. *)
    let namespace := namespace_of (utils.ObjKey ingClass) in
    let key := utils.IngressClass +:+ "/" +:+ utils.ObjKey ingClass in
    let bkt := Bkt namespace numWorkers in
    let w := emit (AddRateLimited ObjectIngestionLayer bkt key) w in
    emit (Log Debug "key: %s, msg: UPDATE" [key]) w
  else w.

(** *** [SetupEventHandlers]: which handler tables are installed *)

Inductive HandlerTable :=
  | epEventHandler | svcEventHandler | blockAffinityHandler | hostSubnetHandler
  | secretEventHandler | AdvL4EventHandlers | SvcApiEventHandlers
  | ingressEventHandler | ingressClassEventHandler | nodeEventHandler
  | routeEventHandler | AKOCRDEventHandlers | namespaceEventHandler
  | podEventHandler.

Global Instance HandlerTable_eq_dec : EqDecision HandlerTable.
Proof. solve_decision. Defined.

Definition SetupEventHandlers (w : World) : list HandlerTable :=
  [epEventHandler; svcEventHandler]
  ++ (if decide (GetCNIPlugin (env w) = lib.CALICO_CNI) then [blockAffinityHandler] else [])
  ++ (if decide (GetCNIPlugin (env w) = lib.OPENSHIFT_CNI) then [hostSubnetHandler] else [])
  ++ (if decide (SecretInformer (informers w) ≠ None) then [secretEventHandler] else [])
  ++ (if lib.GetAdvancedL4 w then
        (* servicesAPI handlers GW/GWClass *)
        [AdvL4EventHandlers]
      else
        (if lib.UseServicesAPI w then [SvcApiEventHandlers] else [])
        ++ (if decide (IngressInformer (informers w) ≠ None)
            then [ingressEventHandler] else [])
        ++ (if decide (IngressClassInformer (informers w) ≠ None)
            then [ingressClassEventHandler] else [])
        ++ (if lib.GetDisableStaticRoute w && negb (lib.IsNodePortMode w)
            then [] else [nodeEventHandler])
        ++ (if decide (RouteInformer (informers w) ≠ None)
            then [routeEventHandler] else [])
        (* Add CRD handlers HostRule/HTTPRule/AviInfraSettings *)
        ++ [AKOCRDEventHandlers]
        (* Add namespace event handler if migration is enabled and informer
           not nil *)
        ++ (if EnableMigration (nsFilter w)
               && bool_decide (NSInformer (informers w) ≠ None)
            then [namespaceEventHandler] else [])
        ++ (if decide (lib.GetServiceType w = lib.NodePortLocal)
            then [podEventHandler] else [])).

(** An informer callback of one of the tables defined in controller.go. The
    tables of the Gateway and CRD kinds ([AdvL4EventHandlers],
    [SvcApiEventHandlers], [AKOCRDEventHandlers]) are set up in other files
    and have no events here. A Delete event of the two CNI tables carries the
    object; what their DeleteFunc does with a tombstone is
    [blockAffinityHandler_DeleteFunc_obj] and
    [hostSubnetHandler_DeleteFunc_obj]. *)
Inductive Event :=
  | EpAdd (ep : Endpoints) | EpDelete (obj : Deleted Endpoints)
  | EpUpdate (old cur : Endpoints)
  | SvcAdd (svc : Service) | SvcDelete (obj : Deleted Service)
  | SvcUpdate (old cur : Service)
  | BlockAffinityAdd (crd : Unstructured) | BlockAffinityDelete (crd : Unstructured)
  | HostSubnetAdd (crd : Unstructured) | HostSubnetDelete (crd : Unstructured)
  | SecretAdd (secret : Secret) | SecretDelete (obj : Deleted Secret)
  | SecretUpdate (old cur : Secret)
  | IngressAdd (ing : Ingress) | IngressDelete (obj : Deleted Ingress)
  | IngressUpdate (old cur : Ingress)
  | IngressClassAdd (ic : IngressClass) | IngressClassDelete (obj : Deleted IngressClass)
  | IngressClassUpdate (old cur : IngressClass)
  | NodeAdd (node : Node) | NodeDelete (obj : Deleted Node)
  | NodeUpdate (old cur : Node)
  | RouteAdd (route : Route) | RouteDelete (obj : Deleted Route)
  | RouteUpdate (old cur : Route)
  | NamespaceAdd (ns : Namespace_) | NamespaceUpdate (old cur : Namespace_)
  | PodAdd (pod : Pod) | PodDelete (obj : Deleted Pod)
  | PodUpdate (old cur : Pod).

Definition table_of (ev : Event) : HandlerTable :=
  match ev with
  | EpAdd _ | EpDelete _ | EpUpdate _ _ => epEventHandler
  | SvcAdd _ | SvcDelete _ | SvcUpdate _ _ => svcEventHandler
  | BlockAffinityAdd _ | BlockAffinityDelete _ => blockAffinityHandler
  | HostSubnetAdd _ | HostSubnetDelete _ => hostSubnetHandler
  | SecretAdd _ | SecretDelete _ | SecretUpdate _ _ => secretEventHandler
  | IngressAdd _ | IngressDelete _ | IngressUpdate _ _ => ingressEventHandler
  | IngressClassAdd _ | IngressClassDelete _ | IngressClassUpdate _ _ =>
      ingressClassEventHandler
  | NodeAdd _ | NodeDelete _ | NodeUpdate _ _ => nodeEventHandler
  | RouteAdd _ | RouteDelete _ | RouteUpdate _ _ => routeEventHandler
  | NamespaceAdd _ | NamespaceUpdate _ _ => namespaceEventHandler
  | PodAdd _ | PodDelete _ | PodUpdate _ _ => podEventHandler
  end.

(** The informer calling the handler of an event. *)
Definition handle (ev : Event) : World → World :=
  match ev with
  | EpAdd ep => epEventHandler_AddFunc ep
  | EpDelete obj => epEventHandler_DeleteFunc obj
  | EpUpdate old cur => epEventHandler_UpdateFunc old cur
  | SvcAdd svc => svcEventHandler_AddFunc svc
  | SvcDelete obj => svcEventHandler_DeleteFunc obj
  | SvcUpdate old cur => svcEventHandler_UpdateFunc old cur
  | BlockAffinityAdd crd => blockAffinityHandler_AddFunc crd
  | BlockAffinityDelete crd => blockAffinityHandler_DeleteFunc crd
  | HostSubnetAdd crd => hostSubnetHandler_AddFunc crd
  | HostSubnetDelete crd => hostSubnetHandler_DeleteFunc crd
  | SecretAdd secret => secretEventHandler_AddFunc secret
  | SecretDelete obj => secretEventHandler_DeleteFunc obj
  | SecretUpdate old cur => secretEventHandler_UpdateFunc old cur
  | IngressAdd ing => ingressEventHandler_AddFunc ing
  | IngressDelete obj => ingressEventHandler_DeleteFunc obj
  | IngressUpdate old cur => ingressEventHandler_UpdateFunc old cur
  | IngressClassAdd ic => ingressClassEventHandler_AddFunc ic
  | IngressClassDelete obj => ingressClassEventHandler_DeleteFunc obj
  | IngressClassUpdate old cur => ingressClassEventHandler_UpdateFunc old cur
  | NodeAdd node => nodeEventHandler_AddFunc node
  | NodeDelete obj => nodeEventHandler_DeleteFunc obj
  | NodeUpdate old cur => nodeEventHandler_UpdateFunc old cur
  | RouteAdd route => routeEventHandler_AddFunc route
  | RouteDelete obj => routeEventHandler_DeleteFunc obj
  | RouteUpdate old cur => routeEventHandler_UpdateFunc old cur
  | NamespaceAdd ns => namespaceEventHandler_AddFunc ns
  | NamespaceUpdate old cur => namespaceEventHandler_UpdateFunc old cur
  | PodAdd pod => podEventHandler_AddFunc pod
  | PodDelete obj => podEventHandler_DeleteFunc obj
  | PodUpdate old cur => podEventHandler_UpdateFunc old cur
  end.

(** ** Package [k8s]: internal/k8s/ako_init.go *)

(** How a call ends: it returns (with its error, if any), or it panics on
    a nil informer. *)
Inductive Outcome :=
  | Returned (err : option string)
  | Panicked.

(** [ns := strings.Split(label, "/")] followed by [ns[0]] *)
Definition first_part (label : string) : string :=
  hd "" (gostd.Split label "/").

(** [sharedQueue := utils.SharedWorkQueue().GetQueueByName(utils.GraphLayer)] *)
Definition sharedQueue : Layer := GraphLayer.

(** The static-route part of [FullSyncK8s]; the result is [vrfModelName],
    [None] for the panic of a nil Node informer. *)
Definition FullSyncK8s_vrf (w : World) : option string * World :=
  if lib.GetDisableStaticRoute w && negb (lib.IsNodePortMode w) then
    (Some "", emit (Log Info "Static route sync disabled, skipping node informers" []) w)
  else
    let w := lib.SetStaticRouteSyncHandler w in
    match NodeInformer (informers w) with
    | None => (None, w)
    | Some informer =>
        let nodeObjects :=
          match List_ informer NamespaceAll with
          | inr objs => objs
          | inl _ => []
          end in
        let w :=
          foldl (λ w node,
                   let key := utils.NodeObj +:+ "/" +:+ Name (meta node) in
                   nodes.DequeueIngestion key true w)
                w nodeObjects in
        (* Publish vrfcontext model now, this has to be processed first *)
        let vrfModelName := lib.GetModelName (lib.GetTenant w) (lib.GetVrf w) in
        let w := emit (Log Info "Processing model for vrf context in full sync: %s"
                         [vrfModelName]) w in
        let w := nodes.PublishKeyToRestLayer vrfModelName "fullsync" sharedQueue w in
        let '(outcome, elapsed) := select_or_timeout (staticRouteSignal w) 20 in
        let w := emit (Select StaticRouteSyncChan 20 elapsed outcome) w in
        match outcome with
        | Received => (Some vrfModelName, emit (Log Info "Processing done for VRF" []) w)
        | TimedOut =>
            (Some vrfModelName,
             emit (Log Warn
                     "Timed out while waiting for rest layer to respond, moving on with bootup"
                     []) w)
        end
    end.

Definition FullSyncK8s_services (w : World) : option Outcome * World :=
  match ServiceInformer (informers w) with
  | None => (Some Panicked, w)
  | Some informer =>
      match List_ informer NamespaceAll with
      | inl err =>
          (Some (Returned (Some err)),
           emit (Log Error "Unable to retrieve the services during full sync: %s" [err]) w)
      | inr svcObjs =>
          (None,
           foldl (λ w svcObj,
                    let isSvcLb := isServiceLBType svcObj in
                    let svcLabel := utils.ObjKey svcObj in
                    let ns0 := first_part svcLabel in
                    if isSvcLb && negb (lib.GetLayer7Only w) then
                      (* Key added to Ingestion queue if
                         1. Advance L4 enabled or 2. Namespace is valid *)
                      if negb (IsServiceNSValid (env w) (nsFilter w) ns0) then w
                      else
                        let key := utils.L4LBService +:+ "/" +:+ utils.ObjKey svcObj in
                        nodes.DequeueIngestion key true w
                    else
                      if lib.GetAdvancedL4 w
                         || negb (CheckIfNamespaceAccepted (env w) (nsFilter w) ns0)
                      then w
                      else
                        let key := utils.Service +:+ "/" +:+ utils.ObjKey svcObj in
                        nodes.DequeueIngestion key true w)
                 w svcObjs)
      end
  end.

Definition FullSyncK8s_pods (w : World) : option Outcome * World :=
  if decide (lib.GetServiceType w = lib.NodePortLocal) then
    match List_ (PodInformer (informers w)) NamespaceAll with
    | inl err =>
        (Some (Returned (Some err)),
         emit (Log Error "Unable to retrieve the Pods during full sync: %s" [err]) w)
    | inr podObjs =>
        (None,
         foldl (λ w podObj,
                  let key := utils.Pod +:+ "/" +:+ utils.ObjKey podObj in
                  nodes.DequeueIngestion key true w)
               w podObjs)
    end
  else (None, w).

(** The loop shared by the CRD sections: list, log on error, else process
    every object under the given kind. *)
Definition dequeueAll {A} `{HasMeta A} (kind : string) (objs : list A) (w : World)
  : World :=
  foldl (λ w obj,
           let key := kind +:+ "/" +:+ utils.ObjKey obj in
           nodes.DequeueIngestion key true w)
        w objs.

Definition FullSyncK8s_crds (w : World) : World :=
  let w :=
    match List_ (HostRuleInformer (informers w)) NamespaceAll with
    | inl err =>
        emit (Log Error "Unable to retrieve the hostrules during full sync: %s" [err]) w
    | inr hostRuleObjs => dequeueAll lib.HostRule hostRuleObjs w
    end in
  let w :=
    match List_ (HTTPRuleInformer (informers w)) NamespaceAll with
    | inl err =>
        emit (Log Error "Unable to retrieve the httprules during full sync: %s" [err]) w
    | inr httpRuleObjs => dequeueAll lib.HTTPRule httpRuleObjs w
    end in
  match List_ (AviInfraSettingInformer (informers w)) NamespaceAll with
  | inl err =>
      emit (Log Error "Unable to retrieve the avinfrasettings during full sync: %s" [err]) w
  | inr aviInfraObjs => dequeueAll lib.AviInfraSetting aviInfraObjs w
  end.

Definition FullSyncK8s_ingresses (w : World) : World :=
  match IngressInformer (informers w) with
  | None => w
  | Some informer =>
      match List_ informer NamespaceAll with
      | inl err =>
          emit (Log Error "Unable to retrieve the ingresses during full sync: %s" [err]) w
      | inr ingObjs =>
          foldl (λ w ingObj,
                   let ingLabel := utils.ObjKey ingObj in
                   let ns0 := first_part ingLabel in
                   if CheckIfNamespaceAccepted (env w) (nsFilter w) ns0 then
                     let key := utils.Ingress +:+ "/" +:+ utils.ObjKey ingObj in
                     let w := emit (Log Debug "Dequeue for ingress key: %v" [key]) w in
                     nodes.DequeueIngestion key true w
                   else w)
                w ingObjs
      end
  end.

Definition FullSyncK8s_routes (w : World) : World :=
  match RouteInformer (informers w) with
  | None => w
  | Some informer =>
      match List_ informer NamespaceAll with
      | inl err =>
          emit (Log Error "Unable to retrieve the routes during full sync: %s" [err]) w
      | inr routeObjs =>
          foldl (λ w routeObj,
                   let routeLabel := utils.ObjKey routeObj in
                   let ns0 := first_part routeLabel in
                   if CheckIfNamespaceAccepted (env w) (nsFilter w) ns0 then
                     let key := utils.OshiftRoute +:+ "/" +:+ utils.ObjKey routeObj in
                     let w := emit (Log Debug "Dequeue for route key: %v" [key]) w in
                     nodes.DequeueIngestion key true w
                   else w)
                w routeObjs
      end
  end.

Definition FullSyncK8s_svcapi (w : World) : option Outcome * World :=
  if lib.UseServicesAPI w then
    match List_ (SvcAPIGatewayInformer (informers w)) NamespaceAll with
    | inl err =>
        (Some (Returned (Some err)),
         emit (Log Error "Unable to retrieve the gateways during full sync: %s" [err]) w)
    | inr gatewayObjs =>
        let w :=
          foldl (λ w gatewayObj,
                   let gatewayLabel := utils.ObjKey gatewayObj in
                   let ns0 := first_part gatewayLabel in
                   if CheckIfNamespaceAccepted (env w) (nsFilter w) ns0 then
                     let key := lib.Gateway +:+ "/" +:+ utils.ObjKey gatewayObj in
                     let w := emit (InformerStatusUpdatesForSvcApiGateway key gatewayObj) w in
                     nodes.DequeueIngestion key true w
                   else w)
                w gatewayObjs in
        match List_ (SvcAPIGatewayClassInformer (informers w)) NamespaceAll with
        | inl err =>
            (Some (Returned (Some err)),
             emit (Log Error "Unable to retrieve the gatewayclasses during full sync: %s"
                     [err]) w)
        | inr gwClassObjs => (None, dequeueAll lib.GatewayClass gwClassObjs w)
        end
    end
  else (None, w).

(** Gateway Section of the advanced-L4 mode *)
Definition FullSyncK8s_advl4 (w : World) : option Outcome * World :=
  match List_ (AdvL4GatewayInformer (informers w)) NamespaceAll with
  | inl err =>
      (Some (Returned (Some err)),
       emit (Log Error "Unable to retrieve the gateways during full sync: %s" [err]) w)
  | inr gatewayObjs =>
      let w :=
        foldl (λ w gatewayObj,
                 let key := lib.Gateway +:+ "/" +:+ utils.ObjKey gatewayObj in
                 let w := emit (InformerStatusUpdatesForGateway key gatewayObj) w in
                 nodes.DequeueIngestion key true w)
              w gatewayObjs in
      match List_ (AdvL4GatewayClassInformer (informers w)) NamespaceAll with
      | inl err =>
          (Some (Returned (Some err)),
           emit (Log Error "Unable to retrieve the gatewayclasses during full sync: %s"
                   [err]) w)
      | inr gwClassObjs => (None, dequeueAll lib.GatewayClass gwClassObjs w)
      end
  end.

(** The last part of [FullSyncK8s]: publish the models of the cache and the
    newly generated ones. *)
Definition FullSyncK8s_publish (vrfModelName : string) (w : World) : World :=
  let vsKeys := vsCacheKeys w in
  let w := emit (Log Debug "Got the VS keys: %s" []) w in
  let allModelsMap := graphLister w in
  (* ignore vrf model, as it has been published already *)
  let allModels :=
    filter (λ modelName, modelName ≠ vrfModelName) (map_to_list allModelsMap).*1 in
  let '(allModels, w) :=
    foldl (λ st vsCacheKey,
             let '(allModels, w) := st in
             (* Reverse map the model key from this. *)
             if decide (lib.GetNamespaceToSync w ≠ "") then
               let shardVsPrefix := ShardVSPrefix w in
               let '(allModels, w) :=
                 if bool_decide (shardVsPrefix ≠ "")
                    && gostd.HasPrefix (nn_Name vsCacheKey) shardVsPrefix then
                   let modelName := nn_Namespace vsCacheKey +:+ "/" +:+ nn_Name vsCacheKey in
                   let allModels :=
                     if HasElem allModels modelName then Remove allModels modelName
                     else allModels in
                   let w := emit (Log Info
                                    "Model published L7 VS during namespace based sync: %s"
                                    [modelName]) w in
                   (allModels, nodes.PublishKeyToRestLayer modelName "fullsync" sharedQueue w)
                 else (allModels, w) in
               (* For namespace based syncs, the L4 VSes would be named:
                  clusterName + "--" + namespace *)
               if gostd.HasPrefix (nn_Name vsCacheKey)
                    (lib.GetNamePrefix w +:+ lib.GetNamespaceToSync w) then
                 let modelName := nn_Namespace vsCacheKey +:+ "/" +:+ nn_Name vsCacheKey in
                 let allModels :=
                   if HasElem allModels modelName then Remove allModels modelName
                   else allModels in
                 let w := emit (Log Info
                                  "Model published L4 VS during namespace based sync: %s"
                                  [modelName]) w in
                 (allModels, nodes.PublishKeyToRestLayer modelName "fullsync" sharedQueue w)
               else (allModels, w)
             else
               let modelName := nn_Namespace vsCacheKey +:+ "/" +:+ nn_Name vsCacheKey in
               let allModels :=
                 if HasElem allModels modelName then Remove allModels modelName
                 else allModels in
               let w := emit (Log Info "Model published in full sync %s" [modelName]) w in
               (allModels, nodes.PublishKeyToRestLayer modelName "fullsync" sharedQueue w))
          (allModels, w) vsKeys in
  (* Now also publish the newly generated models (if any).
     Publish all the models to REST layer. *)
  let w := emit (Log Debug "Newly generated models that do not exist in cache %s"
                   [StringifyStrings allModels]) w in
  foldl (λ w modelName, nodes.PublishKeyToRestLayer modelName "fullsync" sharedQueue w) w allModels.

(** Everything of [FullSyncK8s] that follows the static-route part. *)
Definition FullSyncK8s_rest (vrfModelName : string) (w : World) : Outcome * World :=
  match FullSyncK8s_services w with
  | (Some out, w) => (out, w)
  | (None, w) =>
      match FullSyncK8s_pods w with
      | (Some out, w) => (out, w)
      | (None, w) =>
          let '(out, w) :=
            if negb (lib.GetAdvancedL4 w) then
              let w := FullSyncK8s_crds w in
              (* Ingress Section *)
              let w := FullSyncK8s_ingresses w in
              (* Route Section *)
              let w := FullSyncK8s_routes w in
              FullSyncK8s_svcapi w
            else FullSyncK8s_advl4 w in
          match out with
          | Some out => (out, w)
          | None => (Returned None, FullSyncK8s_publish vrfModelName w)
          end
      end
  end.

Definition FullSyncK8s (w : World) : Outcome * World :=
  if DisableSync w then
    (Returned None, emit (Log Info "Sync disabled, skipping full sync" []) w)
  else
    match FullSyncK8s_vrf w with
    | (None, w) => (Panicked, w)
    | (Some vrfModelName, w) => FullSyncK8s_rest vrfModelName w
    end.

(** *** [DeleteModels] *)

(** The graph saved for a VRF model: for vrf, delete all static routes. *)
Definition vrfOnlyModel (w : World) : AviObjectGraph :=
  let newAviModel := nodes.NewAviObjectGraph in
  let newAviModel := nodes.set_IsVrf true newAviModel in
  let aviVrfNode := AviVrfNode (lib.GetVrf w) in
  let newAviModel := nodes.AddModelNode aviVrfNode newAviModel in
  nodes.CalculateCheckSum newAviModel.

Definition deleteModel (w : World) (entry : string * option AviObjectGraph) : World :=
  let '(modelName, avimodelIntf) := entry in
  let w := set_graphLister (<[modelName := None]> (graphLister w)) w in
  let w :=
    match avimodelIntf with
    | Some avimodel =>
        if IsVrf avimodel then
          set_graphLister (<[modelName := Some (vrfOnlyModel w)]> (graphLister w)) w
        else w
    | None => w
    end in
  let bkt := Bkt modelName (graphNumWorkers w) in
  let w := emit (Log Info "Deleting objects for model: %s" [modelName]) w in
  emit (AddRateLimited GraphLayer bkt modelName) w.

(** Delete NPL annotations from the Services of one lister. *)
Definition deleteNPLAnnotations (listerName : string) (all : option (list string))
    (w : World) : World :=
  match all with
  | None =>
      emit (Log Info
              ("Can not delete NPL annotations, wrong type of object in " +:+ listerName
                 +:+ ": %T") []) w
  | Some keys =>
      foldl (λ w nsSvc,
               let '(ns, _, svc) := ExtractTypeNameNamespace nsSvc in
               emit (DeleteNPLAnnotation nsSvc ns svc) w)
            w keys
  end.

(** The last part of [DeleteModels], after the wait. *)
Definition DeleteModels_cleanup (w : World) : World :=
  if negb (lib.AutoAnnotateNPLSvc w) then w
  else
    (* Delete NPL annotations from the Services *)
    let w := deleteNPLAnnotations "ClusterIpLister" (clusterIpLister w) w in
    deleteNPLAnnotations "lbLister" (lbLister w) w.

(** The timer of [DeleteModels], in seconds. *)
Definition deletionTimeout : N := lib.AviObjDeletionTime * 60.

(** DeleteModels : Delete models and add the model name in the queue.
    The rest layer would pick up the model key and delete the objects in Avi *)
Definition DeleteModels (w : World) : World :=
  let w := emit (Log Info "Deletion of all avi objects triggered" []) w in
  let w := emit (AddStatefulSetStatus lib.ObjectDeletionStartStatus ConditionTrue) w in
  let allModelsMap := graphLister w in
  if decide (size allModelsMap = 0) then
    let w := emit (Log Info
                     "No Avi Object to delete, status would be updated in Statefulset" []) w in
    emit (AddStatefulSetStatus lib.ObjectDeletionDoneStatus ConditionFalse) w
  else
    let w := foldl deleteModel w (map_to_list allModelsMap) in
    (* Wait for maximum 30 minutes for the sync to get completed *)
    let w := lib.SetConfigDeleteSyncChan w in
    let '(outcome, elapsed) := select_or_timeout (configDeleteSignal w) deletionTimeout in
    let w := emit (Select ConfigDeleteSyncChan deletionTimeout elapsed outcome) w in
    let w :=
      match outcome with
      | Received =>
          let w := emit (AddStatefulSetStatus lib.ObjectDeletionDoneStatus
                           ConditionFalse) w in
          emit (Log Info
                  "Processing done for deleteConfig, user would be notified through statefulset update"
                  []) w
      | TimedOut =>
          let w := emit (AddStatefulSetStatus lib.ObjectDeletionTimeoutStatus
                           ConditionUnknown) w in
          emit (Log Warn
                  "Timed out while waiting for rest layer to respond for delete config"
                  []) w
      end in
    DeleteModels_cleanup w.

(** ** Package [k8s]: the ConfigMap and the start of the informers *)

Context `{LibExternals}.

Definition validateAviConfigMap (obj : option ConfigMap) (w : World) : option ConfigMap :=
  match obj with
  | None => None                 (* not a *corev1.ConfigMap *)
  | Some configMap =>
      if decide (lib.GetNamespaceToSync w ≠ "") then
        (* AKO is running for a particular namespace, look for the Avi config
           map here *)
        if decide (Name (meta configMap) = lib.AviConfigMap) then Some configMap
        else None
      else if bool_decide (Namespace (meta configMap) = GetAKONamespace (env w))
              && bool_decide (Name (meta configMap) = lib.AviConfigMap)
      then Some configMap
      else None
  end.

Definition delConfigFromData (data : gmap string string) (p : Process) : bool * Process :=
  match data !! lib.DeleteConfig with
  | Some val =>
      if decide (val = "true") then
        (true,
         in_world (emit (Log Info "deleteConfig set in configmap, sync would be disabled"
                           [])) p)
      else (false, p)
  | None => (false, p)
  end.

(** [get] is the answer of the API server. *)
Definition deleteConfigFromConfigmap (get : string → string → string + ConfigMap)
    (p : Process) : bool * Process :=
  let cmNS := GetAKONamespace (env (world p)) in
  let p := call (ConfigMaps_Get cmNS lib.AviConfigMap) p in
  match get cmNS lib.AviConfigMap with
  | inr cm => delConfigFromData (cm_Data cm) p
  | inl err =>
      (true,
       in_world (emit (Log Warn
                         "error while reading configmap, sync would be disabled: %v"
                         [err])) p)
  end.

(** A read of a [map[string]string]. *)
Definition Data (cm : ConfigMap) (key : string) : string :=
  default "" (cm_Data cm !! key).

(** The handlers of [configMapEventHandler]. [valid] is the answer of
    [avicache.ValidateUserInput] at the time of the event. *)
Definition configMap_AddFunc (valid : bool) (obj : option ConfigMap) (p : Process)
  : Process :=
  match validateAviConfigMap obj (world p) with
  | None => p
  | Some cm =>
      let p := in_world (emit (Log Info "avi k8s configmap created" [])) p in
      let p := call (AviLog_SetLevel (Data cm lib.LOG_LEVEL)) p in
      (* Check if AKO is configured to only use Ingress. *)
      let p := lib.SetLayer7Only (Data cm lib.LAYER7_ONLY) p in
      (* Check if we need to use PGs for SNIs or not. *)
      let p := lib.SetNoPGForSNI (Data cm lib.NO_PG_FOR_SNI) p in
      let p := lib.SetGRBACSupport (Data cm GRBAC) p in
      let '(delModels, p) := delConfigFromData (cm_Data cm) p in
      let p := if negb delModels then call ResetStatefulSetStatus p else p in
      let p := call ValidateUserInput p in
      let p := in_world (set_DisableSync (negb valid || delModels)) p in
      lib.SetDisableSync (DisableSync (world p)) p
  end.

Definition configMap_UpdateFunc (valid : bool) (old obj : option ConfigMap) (p : Process)
  : Process :=
  match validateAviConfigMap obj (world p), validateAviConfigMap old (world p) with
  | Some cm, Some oldcm =>
      if decide (ResourceVersion (meta oldcm) = ResourceVersion (meta cm)) then p
      else
        (* if resourceversions and loglevel change, set new loglevel *)
        let p :=
          if decide (Data oldcm lib.LOG_LEVEL ≠ Data cm lib.LOG_LEVEL)
          then call (AviLog_SetLevel (Data cm lib.LOG_LEVEL)) p else p in
        if decide (Data oldcm lib.DeleteConfig = Data cm lib.DeleteConfig) then p
        else
          (* if DeleteConfig value has changed, then check if we need to
             enable/disable sync *)
          let p := call ValidateUserInput p in
          let isValidUserInput := valid in
          let '(disable, p) :=
            if negb isValidUserInput then (true, p)
            else delConfigFromData (cm_Data cm) p in
          let p := in_world (set_DisableSync disable) p in
          let p := lib.SetDisableSync (DisableSync (world p)) p in
          if isValidUserInput then
            let '(delModels, p) := delConfigFromData (cm_Data cm) p in
            if delModels then
              let p := in_world DeleteModels p in
              if decide (lib.GetServiceType (world p) = "ClusterIP")
              then call DeConfigureSeGroupLabels p else p
            else
              let p := call ResetStatefulSetStatus p in
              call QuickSync p
          else p
  | _, _ => p
  end.

Definition configMap_DeleteFunc (p : Process) : Process :=
  let p := in_world (emit (Log Warn
                             "avi k8s configmap deleted, shutting down api server" [])) p in
  lib.ShutdownApi p.

(** HandleConfigMap : initialise the controller, start informer for
    configmap and wait for the akc configmap to be created. [aviClientPool]
    is the number of clients of the pool, [None] for a nil pool; [synced] is
    the answer of [cache.WaitForCacheSync]. The result is the error. *)
Definition HandleConfigMap (aviClientPool : option nat) (valid : bool)
    (get : string → string → string + ConfigMap) (synced : bool) (p : Process)
  : option string * Process :=
  if match aviClientPool with None => true | Some n => bool_decide (n < 1)%nat end then
    let p := in_world (set_DisableSync true) p in
    let p := lib.SetDisableSync true p in
    let p := in_world (emit (Log Error
                               "could not get client to connect to Avi Controller, disabling sync"
                               [])) p in
    let p := lib.ShutdownApi p in
    (Some "Unable to contact the avi controller on bootup", p)
  else
    let p := call ValidateUserInput p in
    let '(disable, p) :=
      if negb valid then (true, p) else deleteConfigFromConfigmap get p in
    let p := in_world (set_DisableSync disable) p in
    if DisableSync (world p) then
      (Some "Sync is disabled because of configmap unavailability during bootup", p)
    else
      let p := lib.SetDisableSync (DisableSync (world p)) p in
      let p := in_world (emit (Log Info
                                 "Creating event broadcaster for handling configmap" [])) p in
      let p := call NewBroadcaster p in
      let p := call StartLogging p in
      let p := call StartRecordingToSink p in
      let p := call (AddEventHandler ConfigMapInf) p in
      let p := call (Run ConfigMapInf) p in
      let p := call (WaitForCacheSync [ConfigMapInf]) p in
      let p :=
        if negb synced then call (HandleError "Timed out waiting for caches to sync") p
        else in_world (emit (Log Info "Caches synced" [])) p in
      (None, p).

(** *** The number of workers of the graph layer, of [InitController] *)

Definition numGraphWorkers (w : World) : N :=
  let numGraphWorkers := lib.GetshardSize w in
  if decide (numGraphWorkers = 0%N) then
    (* For dedicated VSes - we will have 8 layer 3 threads *)
    8%N
  else numGraphWorkers.

(** *** [Start] *)

(** [if cond { go <informer>.Informer().Run(stopCh); informersList =
    append(informersList, <informer>.Informer().HasSynced) }] *)
Definition run_informer (cond : bool) (informer : InformerName)
    (st : Process * list InformerName) : Process * list InformerName :=
  if cond then (call (Run informer) st.1, st.2 ++ [informer]) else st.

(** [None] is the panic of a nil informer: those of Services, Secrets,
    Namespaces and Nodes are used without a test. *)
Definition Start (synced : bool) (p : Process) : option Process :=
  let w := world p in
  match ServiceInformer (informers w), SecretInformer (informers w) with
  | Some _, Some _ =>
      let p := call (Run ServiceInf) p in
      let p := call (Run EpInf) p in
      let p := call (Run SecretInf) p in
      let st := (p, [EpInf; ServiceInf; SecretInf]) in
      let st :=
        run_informer (bool_decide (lib.GetServiceType w = lib.NodePortLocal)) PodInf st in
      let st :=
        run_informer (bool_decide (GetCNIPlugin (env w) = lib.CALICO_CNI))
          CalicoBlockAffinityInf st in
      let st :=
        run_informer (bool_decide (GetCNIPlugin (env w) = lib.OPENSHIFT_CNI))
          HostSubnetInf st in
      (* Disable all informers if we are in advancedL4 mode. *)
      let st :=
        if lib.GetAdvancedL4 w then
          let st := run_informer true AdvL4GatewayClassInf st in
          Some (run_informer true AdvL4GatewayInf st)
        else
          let st := run_informer (lib.UseServicesAPI w) SvcAPIGatewayClassInf st in
          let st := run_informer (lib.UseServicesAPI w) SvcAPIGatewayInf st in
          let st :=
            run_informer (bool_decide (IngressInformer (informers w) ≠ None))
              IngressInf st in
          let st :=
            run_informer (bool_decide (RouteInformer (informers w) ≠ None))
              RouteInf st in
          let st :=
            run_informer (bool_decide (IngressClassInformer (informers w) ≠ None))
              IngressClassInf st in
          match NSInformer (informers w), NodeInformer (informers w) with
          | Some _, Some _ =>
              let st := run_informer true NSInf st in
              let st := run_informer true NodeInf st in
              let st := run_informer AviInfraSettingEnabled AviInfraSettingInf st in
              (* separate wait steps to try getting hostrules synced first,
                 since httprule has a key relation to hostrules. *)
              let st := run_informer HostRuleEnabled HostRuleInf st in
              let st := run_informer HttpRuleEnabled HTTPRuleInf st in
              Some st
          | _, _ => None
          end in
      match st with
      | None => None
      | Some (p, informersList) =>
          let p := call (WaitForCacheSync informersList) p in
          Some (if negb synced
                then call (HandleError "timed out waiting for caches to sync") p
                else in_world (emit (Log Info "Caches synced" [])) p)
      end
  | _, _ => None
  end.

(** ** Package [k8s]: the start of the controller (ako_init.go) *)

(** [if cond { <call> }] *)
Definition call_if (cond : bool) (c : Call) (p : Process) : Process :=
  if cond then call c p else p.

(** What [SetupEventHandlers] does besides defining the handler tables: it
    sets [c.workqueue] to the queue of the ingestion layer and adds the
    handlers and indexers to the informers, in order. [None] is the panic of
    a nil Service or Node informer. *)
Definition SetupEventHandlers_run (p : Process) : option Process :=
  let w := world p in
  let p := in_world (emit (Log Debug "Creating event broadcaster" [])) p in
  let p := call NewBroadcaster p in
  let p := call StartLogging p in
  let p := call StartRecordingToSink p in
  let p := set_workqueue IngestionQueue p in
  let p := call (AddEventHandler EpInf) p in
  match ServiceInformer (informers w) with
  | None => None
  | Some _ =>
      let p := call (AddEventHandler ServiceInf) p in
      let p := call (AddIndexers ServiceInf) p in
      let p := call_if (bool_decide (GetCNIPlugin (env w) = lib.CALICO_CNI))
                 (AddEventHandler CalicoBlockAffinityInf) p in
      let p := call_if (bool_decide (GetCNIPlugin (env w) = lib.OPENSHIFT_CNI))
                 (AddEventHandler HostSubnetInf) p in
      let p := call_if (bool_decide (SecretInformer (informers w) ≠ None))
                 (AddEventHandler SecretInf) p in
      if lib.GetAdvancedL4 w then
        (* servicesAPI handlers GW/GWClass *)
        Some (call SetupAdvL4EventHandlers p)
      else
        let p := call_if (lib.UseServicesAPI w) SetupSvcApiEventHandlers p in
        let p := call_if (bool_decide (IngressInformer (informers w) ≠ None))
                   (AddEventHandler IngressInf) p in
        let p := call_if (bool_decide (IngressClassInformer (informers w) ≠ None))
                   (AddEventHandler IngressClassInf) p in
        let p := call_if (bool_decide (IngressClassInformer (informers w) ≠ None))
                   (AddIndexers IngressClassInf) p in
        let added :=
          if lib.GetDisableStaticRoute w && negb (lib.IsNodePortMode w) then
            Some (in_world (emit (Log Info
                                    "Static route sync disabled, skipping node informers"
                                    [])) p)
          else
            match NodeInformer (informers w) with
            | None => None
            | Some _ => Some (call (AddEventHandler NodeInf) p)
            end in
        match added with
        | None => None
        | Some p =>
            let p := call_if (bool_decide (RouteInformer (informers w) ≠ None))
                       (AddEventHandler RouteInf) p in
            let p := call_if (bool_decide (RouteInformer (informers w) ≠ None))
                       (AddIndexers RouteInf) p in
            (* Add CRD handlers HostRule/HTTPRule/AviInfraSettings *)
            let p := call SetupAKOCRDEventHandlers p in
            (* Add namespace event handler if migration is enabled and informer
               not nil *)
            let p :=
              if EnableMigration (nsFilter w)
                 && bool_decide (NSInformer (informers w) ≠ None)
              then
                let p := in_world (emit (Log Debug "Adding namespace event handler" []))
                           p in
                call (AddEventHandler NSInf) p
              else p in
            let p := call_if (bool_decide (lib.GetServiceType w = lib.NodePortLocal))
                       (AddEventHandler PodInf) p in
            Some p
        end
  end.

(** What [InitController] and [PopulateCache] get from outside. *)
Record BootInputs := {
  registeredInformers : list string;
  madeInformers : Informers;            (* the result of utils.NewInformers *)
  aviClients : option nat;              (* the clients of the pool, None for a nil pool *)
  populateErr : option string;          (* the error of AviObjCachePopulate *)
  uuidErr : option string;              (* the error of SetControllerClusterUUID *)
  cachesSynced : bool;                  (* cache.WaitForCacheSync in Start *)
  authTokenFirst : bool;                (* the test of the auth token after the sync *)
  authTokenSecond : bool;               (* the same test before the token worker *)
  signals : list Signal;                (* what quickSyncCh and ctrlCh deliver, in order *)
}.

Definition has_client (b : BootInputs) : bool :=
  match aviClients b with
  | Some n => bool_decide (0 < n)%nat
  | None => false
  end.

(** The result is the error. *)
Definition PopulateCache (b : BootInputs) (p : Process) : option string * Process :=
  let first :=
    (* Randomly pickup a client. *)
    if has_client b then
      let p := call AviObjCachePopulate p in
      match populateErr b with
      | Some err =>
          (Some err,
           in_world (emit (Log Warn "failed to populate avi cache with error: %v" [err])) p)
      | None =>
          let p := call SetControllerClusterUUID p in
          let p :=
            match uuidErr b with
            | Some err =>
                in_world (emit (Log Warn
                                  "Failed to set the controller cluster uuid with error: %v"
                                  [err])) p
            | None => p
            end in
          (* once the l3 cache is populated, we can call the updatestatus
             functions from here *)
          (None, call SyncObjectStatuses p)
      end
    else (None, p) in
  match first with
  | (Some err, p) => (Some err, p)
  | (None, p) =>
      (* Delete Stale objects by deleting model for dummy VS *)
      let staleVSKey := lib.GetTenant (world p) +:+ "/" +:+ DummyVSForStaleData in
      let '(valid, p) := lib.IsClusterNameValid p in
      if valid && has_client b then
        let p := in_world (emit (Log Info "Starting clean up of stale objects" [])) p in
        let p := call (CleanupVS staleVSKey true) p in
        (None,
         call (AviCacheDelete DummyVSForStaleData (lib.GetTenant (world p))) p)
      else (None, p)
  end.

(** How [InitController] ends: it panics, it returns after a failed first
    sync, it returns after a signal on [ctrlCh], or it waits for a signal
    that does not come. *)
Inductive InitOutcome := InitPanicked | InitReturned | InitStopped | InitWaiting.

(** The loop that waits on [quickSyncCh] and [ctrlCh]. [worker] tells
    whether the full-sync worker exists. *)
Fixpoint wait_signals (worker : bool) (signals : list Signal) (p : Process)
  : InitOutcome * Process :=
  match signals with
  | [] => (InitWaiting, p)
  | QuickSyncSignal :: signals =>
      let p := call (worker_QuickSync worker) p in
      if negb worker && QuickSync_on_nil_panics then (InitPanicked, p)
      else wait_signals worker signals p
  | CtrlSignal :: _ =>
      let p := call_if worker worker_Shutdown p in
      let p := call (StopWorkers IngestionQueue) p in
      let p := call (StopWorkers GraphQueue) p in
      let p := call (StopWorkers FastRetryQueue) p in
      let p := call (StopWorkers SlowRetryQueue) p in
      let p := call (StopWorkers StatusQueue) p in
      (InitStopped, p)
  end.

(** The part of [InitController] after the first sync: the other queues are
    run, and the signals are waited for. *)
Definition run_queues (worker : bool) (signals : list Signal) (p : Process)
  : InitOutcome * Process :=
  let p := call (Queue_Run IngestionQueue) p in
  let p := call (Queue_Run FastRetryQueue) p in
  let p := call (Queue_Run SlowRetryQueue) p in
  let p := call (Queue_Run StatusQueue) p in
  wait_signals worker signals p.

(** The text of the error of [strconv.ParseInt]. *)
Definition ParseInt_error (s : string) (kind : gostd.NumError) : string :=
  "strconv.ParseInt: parsing " +:+ strconv_Quote s +:+ ": " +:+
  match kind with
  | gostd.ErrSyntax => "invalid syntax"
  | gostd.ErrRange => "value out of range"
  end.

(** [InitController] up to [PopulateCache]: the informers are made, the
    queues are set up and the cache is populated. *)
Definition InitController_setup (b : BootInputs) (p : Process) : Process :=
  let namespace :=
    if decide (lib.GetNamespaceToSync (world p) ≠ "")
    then Some (lib.GetNamespaceToSync (world p)) else None in
  let p := call (NewInformers (registeredInformers b) namespace
                   (lib.GetAdvancedL4 (world p))) p in
  let p := in_world (set_informers (madeInformers b)) p in
  let p := call NewDynamicInformers p in
  (* start the go routines draining the queues in various layers *)
  let retryQueueWorkers := 1%N in
  let numWorkers := 1%N in
  let numGraphWorkers := numGraphWorkers (world p) in
  let p := call (SharedWorkQueue numWorkers numGraphWorkers retryQueueWorkers
                   retryQueueWorkers numGraphWorkers) p in
  let p := in_world (set_graphNumWorkers numGraphWorkers) p in
  let '(err, p) := PopulateCache b p in
  match err with
  | Some _ =>
      let p := in_world (set_DisableSync true) p in
      let p := in_world (emit (Log Error "failed to populate cache, disabling sync" []))
                 p in
      lib.ShutdownApi p
  | None => p
  end.

(** [InitController] from the full-sync interval on: the first sync, the
    workers, the other queues and the wait for the signals. *)
Definition InitController_sync (b : BootInputs) (p : Process) : InitOutcome * Process :=
  let fullSyncInterval := Getenv "FULL_SYNC_INTERVAL" (world p) in
  let parsed := gostd.ParseInt fullSyncInterval in
  let parsed :=
    if lib.GetAdvancedL4 (world p) then
      (* Set the error to nil; seconds, hardcoded for now. *)
      inr 300%Z
    else parsed in
  (* Set up the workers but don't start draining them. *)
  match parsed with
  | inl kind =>
      let p :=
        in_world (emit (Log Error
                          "Cannot convert full sync interval value to integer, pls correct the value and restart AKO. Error: %s"
                          [ParseInt_error fullSyncInterval kind])) p in
      run_queues false (signals b) p
  | inr interval =>
      (* First boot sync *)
      let result := FullSyncK8s (world p) in
      let p := in_world (λ _, result.2) p in
      match result.1 with
      | Panicked => (InitPanicked, p)
      | Returned err =>
          let p := call_if (authTokenFirst b) RefreshAuthToken p in
          match err with
          | Some _ =>
              (* Something bad sync. We need to return and shutdown the API
                 server *)
              let p :=
                in_world (emit (Log Error
                                  "Couldn't run full sync successfully on bootup, going to shutdown AKO"
                                  [])) p in
              (InitReturned, lib.ShutdownApi p)
          | None =>
              let p :=
                if decide (interval ≠ 0%Z) then
                  let p := call (NewFullSyncThread interval) p in
                  call worker_Run p
                else
                  in_world (emit (Log Warn
                                    "Full sync interval set to 0, will not run full sync"
                                    [])) p in
              let p := call_if (authTokenSecond b) NewTokenThread p in
              let p := call_if (authTokenSecond b) tokenWorker_Run p in
              run_queues (bool_decide (interval ≠ 0%Z)) (signals b) p
          end
      end
  end.

Definition InitController (b : BootInputs) (p : Process) : InitOutcome * Process :=
  let p := InitController_setup b p in
  (* Setup and start event handlers for objects. *)
  match SetupEventHandlers_run p with
  | None => (InitPanicked, p)
  | Some p =>
      match Start (cachesSynced b) p with
      | None => (InitPanicked, p)
      | Some p =>
          let p := call (Queue_Run GraphQueue) p in
          InitController_sync b p
      end
  end.

End controller.
End k8s.

(** ** A reference implementation of the external functions

    It instantiates the parameters at concrete inputs: a label-based
    namespace filter, FNV-1a hashing and sharding, SHA-1, and a plain
    serialisation of the hashed fields. *)

Module ref.

(** FNV-1a, 32 bits *)
Definition fnv1a (s : string) : N :=
  fold_left (λ h c, (N.lxor h (N_of_ascii c) * 16777619) mod 2 ^ 32)%N
    (list_ascii_of_string s) 2166136261%N.

(** SHA-1 (FIPS 180-4) over bytes, with 32-bit words as [N]. *)
Definition rotl (n : N) (x : N) : N :=
  (N.lor (N.shiftl x n mod 2 ^ 32) (N.shiftr x (32 - n)))%N.

Definition add32 (x y : N) : N := ((x + y) mod 2 ^ 32)%N.

Definition not32 (x : N) : N := (N.lxor x (2 ^ 32 - 1))%N.

Fixpoint zeros (n : nat) : list N :=
  match n with O => [] | S n => 0%N :: zeros n end.

Fixpoint be_bytes (count : nat) (x : N) : list N :=
  match count with
  | O => []
  | S c => (N.shiftr x (8 * N.of_nat c) mod 256)%N :: be_bytes c x
  end.

Definition pad (msg : list N) : list N :=
  let l := length msg in
  let k := (64 - (l + 9) mod 64) mod 64 in
  msg ++ [128%N] ++ zeros k ++ be_bytes 8 (8 * N.of_nat l).

Fixpoint words (fuel : nat) (bs : list N) : list N :=
  match fuel, bs with
  | S fuel, b0 :: b1 :: b2 :: b3 :: rest =>
      (b0 * 16777216 + b1 * 65536 + b2 * 256 + b3)%N :: words fuel rest
  | _, _ => []
  end.

(** The message schedule, most recent word first. *)
Fixpoint schedule (n : nat) (ws : list N) : list N :=
  match n with
  | O => ws
  | S n =>
      let x := N.lxor (N.lxor (nth 2 ws 0%N) (nth 7 ws 0%N))
                 (N.lxor (nth 13 ws 0%N) (nth 15 ws 0%N)) in
      schedule n (rotl 1 x :: ws)
  end.

Definition round (i : nat) (st : N * N * N * N * N) (wi : N) : N * N * N * N * N :=
  let '(a, b, c, d, e) := st in
  let '(f, k) :=
    if (i <? 20)%nat then (N.lor (N.land b c) (N.land (not32 b) d), 1518500249%N)
    else if (i <? 40)%nat then (N.lxor (N.lxor b c) d, 1859775393%N)
    else if (i <? 60)%nat then
      (N.lor (N.lor (N.land b c) (N.land b d)) (N.land c d), 2400959708%N)
    else (N.lxor (N.lxor b c) d, 3395469782%N) in
  let temp := add32 (add32 (add32 (add32 (rotl 5 a) f) e) k) wi in
  (temp, a, rotl 30 b, c, d).

Fixpoint rounds (i : nat) (ws : list N) (st : N * N * N * N * N) : N * N * N * N * N :=
  match ws with
  | [] => st
  | wi :: rest => rounds (S i) rest (round i st wi)
  end.

Definition block (h : N * N * N * N * N) (bs : list N) : N * N * N * N * N :=
  let ws := rev (schedule 64 (rev (words 16 bs))) in
  let '(h0, h1, h2, h3, h4) := h in
  let '(a, b, c, d, e) := rounds 0 ws h in
  (add32 h0 a, add32 h1 b, add32 h2 c, add32 h3 d, add32 h4 e).

Fixpoint blocks (fuel : nat) (h : N * N * N * N * N) (bs : list N) : N * N * N * N * N :=
  match fuel, bs with
  | S fuel, _ :: _ => blocks fuel (block h (take 64 bs)) (drop 64 bs)
  | _, _ => h
  end.

Definition to_byte (n : N) : Byte.byte :=
  match Byte.of_N n with Some b => b | None => Byte.x00 end.

Definition sha1 (s : string) : list Byte.byte :=
  let msg := pad (map N_of_ascii (list_ascii_of_string s)) in
  let '(h0, h1, h2, h3, h4) :=
    blocks (length msg)
      (1732584193, 4023233417, 2562383102, 271733878, 3285377520)%N msg in
  map to_byte (be_bytes 4 h0 ++ be_bytes 4 h1 ++ be_bytes 4 h2 ++ be_bytes 4 h3
                 ++ be_bytes 4 h4).

(** The namespace filter: a label to match, and the namespaces admitted so
    far. *)
Record Filter := {
  enabled : bool;
  labelKey : string;
  labelValue : string;
  nsList : gset string;
}.

Definition accepted (f : Filter) (namespace : string) : bool :=
  if enabled f then bool_decide (namespace ∈ nsList f) else true.

Definition acceptedLabels (f : Filter) (labels : StringMap) : bool :=
  if enabled f then
    match labels with
    | Some m => bool_decide (m !! labelKey f = Some (labelValue f))
    | None => false
    end
  else true.

Definition lower (c : ascii) : ascii :=
  let n := N_of_ascii c in
  if ((65 <=? n) && (n <=? 90))%N then ascii_of_N (n + 32) else c.

Definition joinMap (m : gmap string string) : string :=
  fold_right (λ kv acc, kv.1 +:+ "=" +:+ kv.2 +:+ ";" +:+ acc) "" (map_to_list m).

Definition stringifyMap (m : StringMap) : string :=
  match m with
  | None => "null"
  | Some m => "{" +:+ joinMap m +:+ "}"
  end.

Definition join (l : list string) : string :=
  fold_right (λ x acc, x +:+ "," +:+ acc) "" l.

Definition ext : Externals := {|
  NSFilter := Filter;
  EnableMigration := enabled;
  CheckIfNamespaceAccepted := λ _ f namespace, accepted f namespace;
  CheckIfNamespaceAcceptedLabels := λ _ f _ labels _, acceptedLabels f labels;
  AddNamespaceToFilter := λ namespace f,
    {| enabled := enabled f; labelKey := labelKey f; labelValue := labelValue f;
       nsList := {[namespace]} ∪ nsList f |};
  DeleteNamespaceFromFilter := λ namespace f,
    {| enabled := enabled f; labelKey := labelKey f; labelValue := labelValue f;
       nsList := nsList f ∖ {[namespace]} |};
  IsServiceNSValid := λ _ f namespace, accepted f namespace;
  Hash := fnv1a;
  Bkt := λ key n, if decide (n = 0%N) then 0%N else (fnv1a key mod n)%N;
  StringifyIngressSpec := λ spec,
    join (map (λ r, ing_Host r +:+ ":" +:+ join (map ing_Path (ing_Paths r)))
            (ing_Rules spec))
    +:+ "|" +:+ join (map tls_SecretName (ing_TLS spec));
  StringifyRouteSpec := λ spec,
    rt_Host spec +:+ "|" +:+ rt_Path spec +:+ "|" +:+ ref_Name (rt_To spec) +:+ "|"
    +:+ join (map ref_Name (rt_AlternateBackends spec));
  StringifyStringMap := stringifyMap;
  StringifyStrings := join;
  GetAKONamespace := λ env, default "avi-system" (env !! "POD_NAMESPACE");
  GetCNIPlugin := λ env, default "" (env !! "CNI_PLUGIN");
  ExtractTypeNameNamespace := λ key,
    match gostd.Split key "/" with
    | [namespace; name] => (namespace, "", name)
    | _ => ("", "", key)
    end;
  NodesChecksum := λ nodes, N.of_nat (length nodes);
  DequeueIngestion_lister := λ _ _ g, g;
  HasElem := λ l x, bool_decide (x ∈ l);
  Remove := λ l x, filter (λ y, y ≠ x) l;
  sha1_Sum := sha1;
  EqualFold := λ a b,
    bool_decide (map lower (list_ascii_of_string a) = map lower (list_ascii_of_string b));
|}.

End ref.

(** ** Vocabulary of the statements *)

(** A call of one of the functions of lib.go that derive the name of a
    load-balancer object. [GetEvhPoolNameNoEncoding], whose result is the
    input of [GetEvhPoolName], and [GetModelName], which names a model, are
    not among them. *)
Inductive NameCall :=
  | CallEncode (s objType : string)
  | CallGetL4VSName (svcName namespace : string)
  | CallGetL4VSVipName (svcName namespace : string)
  | CallGetL4PoolName (svcName namespace : string) (port : Z)
  | CallGetAdvL4PoolName (svcName namespace gwName : string) (port : Z)
  | CallGetVsVipName (vsName : string)
  | CallGetL7InsecureDSName (vsName : string)
  | CallGetL7SharedPGName (vsName : string)
  | CallGetL7PoolName (priorityLabel namespace ingName infrasetting : string)
      (args : list string)
  | CallGetL7HttpRedirPolicy (vsName : string)
  | CallGetHeaderRewritePolicy (vsName localHost : string)
  | CallGetSniNodeName (infrasetting sniHostName : string)
  | CallGetSniPoolName (ingName namespace host path infrasetting : string)
      (args : list string)
  | CallGetSniHttpPolName (ingName namespace host path infrasetting : string)
  | CallGetSniPGName (ingName namespace host path infrasetting : string)
  | CallGetEvhPoolName (ingName namespace host path infrasetting svcName : string)
  | CallGetEvhNodeName (host infrasetting : string)
  | CallGetEvhPGName (ingName namespace host path infrasetting : string)
  | CallGetTLSKeyCertNodeName (infrasetting sniHostName : string)
  | CallGetCACertNodeName (infrasetting sniHostName : string)
  | CallGetPoolPKIProfileName (poolName : string)
  | CallGetPassthroughShardVSName (s key : string).

Definition derive `{Externals} (limit : nat) (call : NameCall) : World → string * World :=
  match call with
  | CallEncode s objType => lib.Encode limit s objType
  | CallGetL4VSName svcName namespace => lib.GetL4VSName limit svcName namespace
  | CallGetL4VSVipName svcName namespace => lib.GetL4VSVipName limit svcName namespace
  | CallGetL4PoolName svcName namespace port =>
      lib.GetL4PoolName limit svcName namespace port
  | CallGetAdvL4PoolName svcName namespace gwName port =>
      lib.GetAdvL4PoolName limit svcName namespace gwName port
  | CallGetVsVipName vsName => lib.GetVsVipName limit vsName
  | CallGetL7InsecureDSName vsName => lib.GetL7InsecureDSName limit vsName
  | CallGetL7SharedPGName vsName => lib.GetL7SharedPGName limit vsName
  | CallGetL7PoolName priorityLabel namespace ingName infrasetting args =>
      lib.GetL7PoolName limit priorityLabel namespace ingName infrasetting args
  | CallGetL7HttpRedirPolicy vsName => lib.GetL7HttpRedirPolicy limit vsName
  | CallGetHeaderRewritePolicy vsName localHost =>
      lib.GetHeaderRewritePolicy limit vsName localHost
  | CallGetSniNodeName infrasetting sniHostName =>
      lib.GetSniNodeName limit infrasetting sniHostName
  | CallGetSniPoolName ingName namespace host path infrasetting args =>
      lib.GetSniPoolName limit ingName namespace host path infrasetting args
  | CallGetSniHttpPolName ingName namespace host path infrasetting =>
      lib.GetSniHttpPolName limit ingName namespace host path infrasetting
  | CallGetSniPGName ingName namespace host path infrasetting =>
      lib.GetSniPGName limit ingName namespace host path infrasetting
  | CallGetEvhPoolName ingName namespace host path infrasetting svcName =>
      lib.GetEvhPoolName limit ingName namespace host path infrasetting svcName
  | CallGetEvhNodeName host infrasetting => lib.GetEvhNodeName limit host infrasetting
  | CallGetEvhPGName ingName namespace host path infrasetting =>
      lib.GetEvhPGName limit ingName namespace host path infrasetting
  | CallGetTLSKeyCertNodeName infrasetting sniHostName =>
      lib.GetTLSKeyCertNodeName limit infrasetting sniHostName
  | CallGetCACertNodeName infrasetting sniHostName =>
      lib.GetCACertNodeName limit infrasetting sniHostName
  | CallGetPoolPKIProfileName poolName => lib.GetPoolPKIProfileName limit poolName
  | CallGetPassthroughShardVSName s key => lib.GetPassthroughShardVSName limit s key
  end.

(** The backend names of a route, the primary one first. *)
Definition backendNames (spec : RouteSpec) : list string :=
  ref_Name (rt_To spec) :: map ref_Name (rt_AlternateBackends spec).

(** The key under which the namespace replay and the Service handlers
    enqueue a Service. *)
Definition serviceKey `{Externals} (svc : Service) (w : World) : string :=
  if k8s.isServiceLBType svc && negb (lib.GetLayer7Only w)
  then utils.L4LBService +:+ "/" +:+ utils.ObjKey svc
  else utils.Service +:+ "/" +:+ utils.ObjKey svc.

(** What [DeleteModels] leaves in the Graph Lister for a model: nil, or the
    VRF-only graph when the model was a VRF model. *)
Definition deletedModel `{Externals} (w : World) (avimodelIntf : option AviObjectGraph)
  : option AviObjectGraph :=
  match avimodelIntf with
  | Some avimodel => if IsVrf avimodel then Some (k8s.vrfOnlyModel w) else None
  | None => None
  end.

(** [w'] is [w] after more calls have been recorded: nothing but the trace
    has changed, and the trace has only grown. *)
Definition extends `{Externals} (w w' : World) : Prop :=
  ∃ more : list Effect, w' = set_trace (trace w ++ more) w.

(** Between [w] and [w'] the key has been handed to the ingestion queue, in
    the bucket of the namespace, by a call whose log line carries the
    message [msg]. *)
Definition replayed `{Externals} (numWorkers : N) (namespace msg key : string)
    (w w' : World) : Prop :=
  ∃ before after : list Effect,
    trace w' =
      trace w ++ before
        ++ [AddRateLimited ObjectIngestionLayer (Bkt namespace numWorkers) key;
            Log Debug "key: %s, msg: %s for namespace: %s" [key; msg; namespace]]
        ++ after.

(** The calls an informer event handler of controller.go makes outside
    its own code: the logger, the ingestion queue, the status writer of
    Routes, and the port-conflict and status helpers of Services and
    Gateways. *)
Definition is_ingestion_call (e : Effect) : bool :=
  match e with
  | Log _ _ _
  | AddRateLimited ObjectIngestionLayer _ _
  | UpdateRouteStatusWithErrMsg _ _ _ _
  | checkSvcForGatewayPortConflict _ _
  | checkSvcForSvcApiGatewayPortConflict _ _
  | InformerStatusUpdatesForSvcApiGateway _ _ => true
  | _ => false
  end.

(** [w'] is [w] after calls of the ingestion layer: the trace has grown by
    such calls, the namespace filter may have changed, nothing else has. *)
Definition ingests `{Externals} (w w' : World) : Prop :=
  ∃ more : list Effect,
    w' = set_nsFilter (nsFilter w') (set_trace (trace w ++ more) w)
    ∧ Forall (λ e, is_ingestion_call e = true) more.

(** Between [w] and [w'] at most [n] keys have been handed to the ingestion
    queue. *)
Definition adds_le `{Externals} (n : nat) (w w' : World) : Prop :=
  ∃ more : list Effect,
    trace w' = trace w ++ more ∧ (length (ingestion_adds more) ≤ n)%nat.

Definition is_namespace_update (ev : k8s.Event) : bool :=
  match ev with k8s.NamespaceUpdate _ _ => true | _ => false end.

Definition is_namespace_event (ev : k8s.Event) : bool :=
  match ev with k8s.NamespaceAdd _ | k8s.NamespaceUpdate _ _ => true | _ => false end.

(** The <namespace>/<name> of the Ingress or Route an event delivers: the
    current object of an Update, the object of a Delete or of its
    tombstone. *)
Definition filtered_object (ev : k8s.Event) : option string :=
  match ev with
  | k8s.IngressAdd ing | k8s.IngressUpdate _ ing
  | k8s.IngressDelete (Live ing) | k8s.IngressDelete (Tombstone (Some ing)) =>
      Some (utils.ObjKey ing)
  | k8s.RouteAdd route | k8s.RouteUpdate _ route
  | k8s.RouteDelete (Live route) | k8s.RouteDelete (Tombstone (Some route)) =>
      Some (utils.ObjKey route)
  | _ => None
  end.

(** Whether the Service handlers and the full sync let a Service through:
    the L4 namespace test for a LoadBalancer Service (unless only layer 7 is
    handled), else the namespace filter, and never in advanced-L4 mode. *)
Definition serviceAdmitted `{Externals} (svc : Service) (w : World) : bool :=
  let namespace := k8s.namespace_of (utils.ObjKey svc) in
  if k8s.isServiceLBType svc && negb (lib.GetLayer7Only w)
  then IsServiceNSValid (env w) (nsFilter w) namespace
  else negb (lib.GetAdvancedL4 w)
       && CheckIfNamespaceAccepted (env w) (nsFilter w) namespace.

(** The calls a full sync makes into the graph layer: the logger, the
    direct processing of a key, the publication of a model to the REST
    layer with the queue of the graph layer, the status helpers of
    Gateways. *)
Definition is_graph_call (e : Effect) : bool :=
  match e with
  | Log _ _ _
  | DequeueIngestion _ _
  | PublishKeyToRestLayer _ _ GraphLayer
  | InformerStatusUpdatesForSvcApiGateway _ _
  | InformerStatusUpdatesForGateway _ _ => true
  | _ => false
  end.

Definition is_Select (e : Effect) : bool :=
  match e with Select _ _ _ _ => true | _ => false end.

(** [w'] is [w] after calls that satisfy [P]: the trace has grown by such
    calls, the Graph Lister may have changed, nothing else has. *)
Definition syncs `{Externals} (P : Effect → bool) (w w' : World) : Prop :=
  ∃ more : list Effect,
    w' = set_graphLister (graphLister w') (set_trace (trace w ++ more) w)
    ∧ Forall (λ e, P e = true) more.

(** The calls of a whole full sync: those of the graph layer, and the
    channel and the wait of the static-route part. *)
Definition is_sync_call (e : Effect) : bool :=
  match e with
  | MakeChan StaticRouteSyncChan | Select StaticRouteSyncChan _ _ _ => true
  | _ => is_graph_call e
  end.

(** The first error of a sequence of results. *)
Definition first_error (l : list (option string)) : option string :=
  foldr (λ o acc, match o with Some e => Some e | None => acc end) None l.

(** The [List] calls of a full sync whose error makes it return, in the
    order of the calls: Services, Pods (with NodePortLocal), then the
    Gateways and GatewayClasses of the advanced-L4 mode or of the services
    API. *)
Definition abort_listers `{Externals} (informer : Lister Service) (w : World)
  : list (option string) :=
  [list_err informer;
   if decide (lib.GetServiceType w = lib.NodePortLocal)
   then list_err (PodInformer (informers w)) else None]
  ++ (if lib.GetAdvancedL4 w then
        [list_err (AdvL4GatewayInformer (informers w));
         list_err (AdvL4GatewayClassInformer (informers w))]
      else if lib.UseServicesAPI w then
        [list_err (SvcAPIGatewayInformer (informers w));
         list_err (SvcAPIGatewayClassInformer (informers w))]
      else []).

(** A namespaced object with well-formed names: a namespace, and no slash in
    the namespace or in the name. *)
Definition namespaced (m : ObjectMeta) : Prop :=
  Namespace m ≠ ""
  ∧ ("/"%char ∉ list_ascii_of_string (Namespace m))
  ∧ ("/"%char ∉ list_ascii_of_string (Name m)).

(** The model names handed to the queue of the graph layer, with their
    buckets, in order. *)
Definition graph_adds (t : list Effect) : list (N * string) :=
  omap (λ e, match e with
             | AddRateLimited GraphLayer bkt key => Some (bkt, key)
             | _ => None
             end) t.

(** The keys a full sync processes directly, in order. *)
Definition dequeued (t : list Effect) : list string :=
  omap (λ e, match e with
             | DequeueIngestion key true => Some key
             | _ => None
             end) t.

(** The non-empty values of a set of markers, in the order of the fields. *)
Definition marker_values (markers : AviObjectMarkers) : list string :=
  filter (λ value, value ≠ "") (markers.*2).

(** The events that [w'] has recorded after those of [w], and the calls
    that [p'] has made after those of [p]. *)
Definition new_events `{Externals} (w w' : World) : list Effect :=
  drop (length (trace w)) (trace w').

Definition new_calls `{Externals} (p p' : Process) : list Call :=
  (drop (length (calls p)) (calls p')).*2.

(** The new ConfigMap of an update that the handler acts on: both objects
    are the ConfigMap of AKO, and the resource version and the value of
    deleteConfig have changed. *)
Definition deleteConfig_change `{Externals} (old obj : option ConfigMap) (w : World)
  : option ConfigMap :=
  match k8s.validateAviConfigMap obj w, k8s.validateAviConfigMap old w with
  | Some cm, Some oldcm =>
      if bool_decide (ResourceVersion (meta oldcm) ≠ ResourceVersion (meta cm))
         && bool_decide (k8s.Data oldcm lib.DeleteConfig ≠ k8s.Data cm lib.DeleteConfig)
      then Some cm else None
  | _, _ => None
  end.

(** The ConfigMap asks for the deletion of the configuration. *)
Definition deleteConfig_set (cm : ConfigMap) : bool :=
  bool_decide (cm_Data cm !! lib.DeleteConfig = Some "true").

Definition is_SetLevel (c : Call) : bool :=
  match c with AviLog_SetLevel _ => true | _ => false end.

(** All models of the Graph Lister, each with its bucket of the graph
    queue. *)
Definition all_models `{Externals} (w : World) : list (N * string) :=
  (λ kv, (Bkt kv.1 (graphNumWorkers w), kv.1)) <$> map_to_list (graphLister w).

(** The informers that a sequence of calls starts, and those it waits
    for. *)
Definition started_informers (cs : list Call) : list InformerName :=
  omap (λ c, match c with Run informer => Some informer | _ => None end) cs.

Definition waited_informers (cs : list Call) : list InformerName :=
  mjoin (omap (λ c, match c with WaitForCacheSync l => Some l | _ => None end) cs).

(** The informer that [SetupEventHandlers] adds a handler table to. The
    tables of Gateways and CRDs are added in other files. *)
Definition informer_of (table : k8s.HandlerTable) : option InformerName :=
  match table with
  | k8s.epEventHandler => Some EpInf
  | k8s.svcEventHandler => Some ServiceInf
  | k8s.blockAffinityHandler => Some CalicoBlockAffinityInf
  | k8s.hostSubnetHandler => Some HostSubnetInf
  | k8s.secretEventHandler => Some SecretInf
  | k8s.ingressEventHandler => Some IngressInf
  | k8s.ingressClassEventHandler => Some IngressClassInf
  | k8s.nodeEventHandler => Some NodeInf
  | k8s.routeEventHandler => Some RouteInf
  | k8s.namespaceEventHandler => Some NSInf
  | k8s.podEventHandler => Some PodInf
  | k8s.AdvL4EventHandlers | k8s.SvcApiEventHandlers | k8s.AKOCRDEventHandlers => None
  end.

(** [run_informer] for each informer of a list, in order. *)
Definition run_informers `{Externals} (l : list InformerName)
    (st : Process * list InformerName) : Process * list InformerName :=
  foldl (λ st informer, k8s.run_informer true informer st) st l.

(** The queues that a sequence of calls runs and stops, and the informers
    it adds handlers to. *)
Definition queue_runs (cs : list Call) : list QueueName :=
  omap (λ c, match c with Queue_Run queue => Some queue | _ => None end) cs.

Definition stopped_queues (cs : list Call) : list QueueName :=
  omap (λ c, match c with StopWorkers queue => Some queue | _ => None end) cs.

Definition added_handlers (cs : list Call) : list InformerName :=
  omap (λ c, match c with AddEventHandler informer => Some informer | _ => None end) cs.

(** The calls of [QuickSync] on the worker. *)
Definition quick_syncs (cs : list Call) : list bool :=
  omap (λ c, match c with worker_QuickSync worker => Some worker | _ => None end) cs.

(** The quick-sync signals that arrive before the first signal on
    [ctrlCh]. *)
Fixpoint before_ctrl (signals : list Signal) : nat :=
  match signals with
  | QuickSyncSignal :: signals => S (before_ctrl signals)
  | _ => 0%nat
  end.


(** A call that runs no queue, makes no full-sync worker, asks for no quick
    sync and does not shut the API server down. *)
Definition plain_call (c : Call) : bool :=
  match c with
  | Queue_Run _ | worker_QuickSync _ | akoApi_ShutDown | NewFullSyncThread _ => false
  | _ => true
  end.

(** ** Concrete worlds and objects over the reference externals *)

Module sample.

Definition noInformers : Informers := {|
  IngressInformer := None; RouteInformer := None; ServiceInformer := None;
  SecretInformer := None; IngressClassInformer := None; NSInformer := None;
  NodeInformer := Some {| store := []; list_err := None |};
  PodInformer := {| store := []; list_err := None |};
  HostRuleInformer := {| store := []; list_err := None |};
  HTTPRuleInformer := {| store := []; list_err := None |};
  AviInfraSettingInformer := {| store := []; list_err := None |};
  SvcAPIGatewayInformer := {| store := []; list_err := None |};
  SvcAPIGatewayClassInformer := {| store := []; list_err := None |};
  AdvL4GatewayInformer := {| store := []; list_err := None |};
  AdvL4GatewayClassInformer := {| store := []; list_err := None |};
|}.

Definition noFilter : ref.Filter :=
  {| ref.enabled := false; ref.labelKey := ""; ref.labelValue := ""; ref.nsList := ∅ |}.

(** A world of cluster c1 with the given environment, sync flag, filter,
    informers and Graph Lister, and an empty trace. *)
Definition world (environment : gmap string string) (disableSync : bool)
    (filter : ref.Filter) (infs : Informers)
    (models : gmap string (option AviObjectGraph)) : World (H := ref.ext) :=
  {| env := environment; NamePrefix := "c1--"; layer7Only := false;
     VRFContext := ""; CloudType := ""; ShardVSPrefix := "c1--Shared-L7-";
     DisableSync := disableSync; nsFilter := (filter : @NSFilter ref.ext);
     informers := infs;
     graphLister := models; graphNumWorkers := 8; vsCacheKeys := [];
     clusterIpLister := Some []; lbLister := Some [];
     staticRouteSignal := None; configDeleteSignal := None; trace := [] |}.

Definition objectMeta (namespace name version : string) (annotations : StringMap)
  : ObjectMeta :=
  {| Name := name; Namespace := namespace; ResourceVersion := version;
     Labels := None; Annotations := annotations |}.

Definition labelled (name version : string) (labels : StringMap) : Namespace_ :=
  {| ns_meta := {| Name := name; Namespace := ""; ResourceVersion := version;
                   Labels := labels; Annotations := None |} |}.

Definition backend (name : string) : RouteTargetReference :=
  {| ref_Kind := "Service"; ref_Name := name; ref_Weight := None |}.

Definition route (version : string) (annotations : StringMap) (to : string)
    (alts : list string) : Route :=
  {| rt_meta := objectMeta "red" "shop" version annotations;
     rt_Spec := {| rt_Host := "shop.example.com"; rt_Path := "/"; rt_To := backend to;
                   rt_AlternateBackends := map backend alts |} |}.

Definition ingress (version : string) (annotations : StringMap) : Ingress :=
  {| ing_meta := objectMeta "red" "web" version annotations;
     ing_Spec := {| ing_TLS := [];
                    ing_Rules := [ {| ing_Host := "foo.example.com";
                                      ing_Paths := [ {| ing_Path := "/";
                                                        ing_ServiceName := "web";
                                                        ing_ServicePort := 80 |} ] |} ] |} |}.

Definition secret (namespace name version : string) (value : list Byte.byte) : Secret :=
  {| sec_meta := objectMeta namespace name version None;
     sec_Data := Some {[ "tls.key" := Some value ]} |}.

Definition service (namespace name kind : string) : Service :=
  {| svc_meta := objectMeta namespace name "1" None; svc_Type := kind |}.

Definition gateway (namespace name : string) : Gateway :=
  {| gw_meta := objectMeta namespace name "1" None; gw_Class := "avi-lb" |}.

Definition node (name : string) : Node :=
  {| node_meta := objectMeta "" name "1" None;
     node_Addresses := [ {| addr_Type := "InternalIP"; addr_Address := "10.0.0.1" |} ];
     node_PodCIDR := "10.244.0.0/24" |}.

(** Namespace red holds the Ingress web and the LoadBalancer Service lb;
    the namespace filter admits the namespaces labelled env=prod. *)
Definition redInformers : Informers := {|
  IngressInformer := Some {| store := [ingress "1" None]; list_err := None |};
  RouteInformer := None;
  ServiceInformer :=
    Some {| store := [service "red" "lb" "LoadBalancer"; service "blue" "db" "ClusterIP"];
            list_err := None |};
  SecretInformer := None; IngressClassInformer := None;
  NSInformer := Some {| store := []; list_err := None |};
  NodeInformer := Some {| store := [node "n1"]; list_err := None |};
  PodInformer := {| store := []; list_err := None |};
  HostRuleInformer := {| store := []; list_err := None |};
  HTTPRuleInformer := {| store := []; list_err := None |};
  AviInfraSettingInformer := {| store := []; list_err := None |};
  SvcAPIGatewayInformer := {| store := []; list_err := None |};
  SvcAPIGatewayClassInformer := {| store := []; list_err := None |};
  AdvL4GatewayInformer := {| store := []; list_err := None |};
  AdvL4GatewayClassInformer := {| store := []; list_err := None |};
|}.

Definition prodFilter (admitted : gset string) : ref.Filter :=
  {| ref.enabled := true; ref.labelKey := "env"; ref.labelValue := "prod";
     ref.nsList := admitted |}.

Definition evhEnv : gmap string string :=
  {[ "CLUSTER_NAME" := "c1"; "ENABLE_EVH" := "true" ]}.

Definition plainEnv : gmap string string := {[ "CLUSTER_NAME" := "c1" ]}.

(** A Service name of 300 characters. *)
Definition longName : string := string_of_list_ascii (replicate 300 "a"%char).

End sample.

(** ** Sample markers and labels *)

Module samplelib.

Definition ext : LibExternals :=
  {| ClusterNameLabelKey := "clustername";
     StaticRoute := option string;
     RouteID := λ route, route;
     StringifyStaticRoutes := λ routes, String.concat "," (default "nil" <$> routes);
     StringifyInts := λ ints, String.concat "," (gostd.Itoa <$> ints);
     GRBAC := "grbac";
     ControllerVersion2015 := "20.1.5";
     CtrlVersion := "20.1.6";
     semver_Constraint := string;
     semver_Version := string;
     semver_NewConstraint := Some;
     semver_NewVersion := Some;
     semver_Check := λ c v,
       match c with
       | String "<" bound => String.ltb v bound
       | String ">" (String "=" bound) => negb (String.ltb v bound)
       | _ => false
       end;
     AviInfraSettingEnabled := true;
     HostRuleEnabled := true;
     HttpRuleEnabled := false;
     DummyVSForStaleData := "DummyVSForStaleData";
     strconv_Quote := λ s, "'" +:+ s +:+ "'";
     QuickSync_on_nil_panics := true |}.

(** The package variables before [SetClusterLabelChecksum] has run, with
    GRBAC and the 20.1.4 features on. *)
Definition initial : LabelState :=
  {| gRBAC := true; enableCtrl2014Features := true;
     clusterKey := ""; clusterValue := ""; clusterLabelChecksum := 0 |}.

(** The same after [SetClusterLabelChecksum] has run in cluster c1. *)
Definition labelled : LabelState :=
  {| gRBAC := true; enableCtrl2014Features := true;
     clusterKey := "clustername"; clusterValue := "c1";
     clusterLabelChecksum := ref.fnv1a "clusternamec1" |}.

(** Markers of a pool: the fields Host and Namespace are set, Path is not. *)
Definition poolMarkers : AviObjectMarkers :=
  [("Namespace", "red"); ("Host", "foo.example.com"); ("Path", "")].

End samplelib.

(** * Properties *)

(** Reduce the projections of a world that is given by its fields. *)
Ltac world_fields :=
  cbn [env NamePrefix layer7Only VRFContext CloudType ShardVSPrefix DisableSync
         nsFilter informers graphLister graphNumWorkers vsCacheKeys clusterIpLister
         lbLister staticRouteSignal configDeleteSignal trace].

(** ** The trace only grows *)

Lemma trace_emit `{Externals} (e : Effect) (w : World) :
  trace (emit e w) = trace w ++ [e].
Proof. reflexivity. Qed.

Lemma emit_set_trace `{Externals} (e : Effect) (w : World) :
  emit e w = set_trace (trace w ++ [e]) w.
Proof. reflexivity. Qed.

Lemma set_trace_id `{Externals} (w : World) : set_trace (trace w) w = w.
Proof. by destruct w. Qed.

Lemma set_trace_twice `{Externals} (t t' : list Effect) (w : World) :
  set_trace t (set_trace t' w) = set_trace t w.
Proof. reflexivity. Qed.

Lemma trace_set_trace `{Externals} (t : list Effect) (w : World) :
  trace (set_trace t w) = t.
Proof. reflexivity. Qed.

Lemma trace_set_graphLister `{Externals} (g : gmap string (option AviObjectGraph))
    (w : World) :
  trace (set_graphLister g w) = trace w.
Proof. reflexivity. Qed.

Lemma set_trace_set_graphLister `{Externals} (t : list Effect)
    (g : gmap string (option AviObjectGraph)) (w : World) :
  set_trace t (set_graphLister g w) = set_graphLister g (set_trace t w).
Proof. reflexivity. Qed.

Lemma set_graphLister_twice `{Externals} (g g' : gmap string (option AviObjectGraph))
    (w : World) :
  set_graphLister g (set_graphLister g' w) = set_graphLister g w.
Proof. reflexivity. Qed.

Lemma graphLister_set `{Externals} (g : gmap string (option AviObjectGraph)) (w : World) :
  graphLister (set_graphLister g w) = g.
Proof. reflexivity. Qed.

Lemma graphLister_set_trace `{Externals} (t : list Effect) (w : World) :
  graphLister (set_trace t w) = graphLister w.
Proof. reflexivity. Qed.

Lemma deletedModel_set_trace `{Externals} (t : list Effect) (w : World) :
  deletedModel (set_trace t w) = deletedModel w.
Proof. reflexivity. Qed.

Create Rewrite HintDb world.
#[local] Hint Rewrite @set_trace_twice @trace_set_trace @trace_set_graphLister
  @set_trace_set_graphLister @set_graphLister_twice @graphLister_set
  @graphLister_set_trace @deletedModel_set_trace : world.

(** ** The naming scheme (lib.go) *)

Lemma CheckObjectNameLength_result `{Externals} (limit : nat) (objName objType : string)
    (w : World) :
  lib.CheckObjectNameLength limit objName objType w =
    (bool_decide (limit < String.length objName),
     if bool_decide (limit < String.length objName)
     then emit (lib.name_too_long limit objType objName) w else w).
Proof.
  unfold lib.CheckObjectNameLength.
  destruct (decide (limit < String.length objName)) as [Hlt|Hge].
  - by rewrite bool_decide_eq_true_2.
  - by rewrite bool_decide_eq_false_2.
Qed.

Lemma Encode_name `{Externals} (limit : nat) (s objType : string) (w : World) :
  (lib.Encode limit s objType w).1 =
    if lib.IsEvhEnabled w && negb (lib.GetAdvancedL4 w)
    then lib.GetNamePrefix w +:+ gostd.EncodeToString (sha1_Sum s)
    else s.
Proof.
  unfold lib.Encode. rewrite !CheckObjectNameLength_result.
  by destruct (lib.IsEvhEnabled w), (lib.GetAdvancedL4 w).
Qed.

Lemma SetNamePrefix_env `{Externals} (w : World) :
  env (lib.SetNamePrefix w) = env w.
Proof. reflexivity. Qed.

Lemma GetClusterName_SetNamePrefix `{Externals} (w : World) :
  lib.GetClusterName (lib.SetNamePrefix w) = lib.GetClusterName w.
Proof. reflexivity. Qed.

(** C6. Once [SetNamePrefix] has run, the name prefix is the cluster name
    followed by "--"; with EVH enabled and advanced L4 disabled, [Encode]
    returns this prefix followed by the lowercase hexadecimal encoding of
    the SHA-1 hash of the raw name, and otherwise it returns the raw name
    unchanged. The result does not depend on the object type: it is a
    function of the raw name (and of the configuration). *)
Theorem Encode_sha1_hex_or_raw `{Externals} (w0 : World) (s objType : string) :
  let w := lib.SetNamePrefix w0 in
  lib.GetNamePrefix w = lib.GetClusterName w +:+ "--"
  ∧ (lib.Encode lib.AVI_OBJ_NAME_MAX_LENGTH s objType w).1 =
      (if lib.IsEvhEnabled w && negb (lib.GetAdvancedL4 w)
       then (lib.GetClusterName w +:+ "--") +:+ gostd.EncodeToString (sha1_Sum s)
       else s)
  ∧ ∀ objType' : string,
      (lib.Encode lib.AVI_OBJ_NAME_MAX_LENGTH s objType' w).1 =
      (lib.Encode lib.AVI_OBJ_NAME_MAX_LENGTH s objType w).1.
Proof.
  intros w. split; [reflexivity|]. split.
  - by rewrite Encode_name.
  - intros objType'. by rewrite !Encode_name.
Qed.

(** The digits of the encoding are lowercase hexadecimal ones. *)
Lemma EncodeToString_lowercase_hex (src : list Byte.byte) :
  Forall (λ c, c ∈ list_ascii_of_string "0123456789abcdef")
    (list_ascii_of_string (gostd.EncodeToString src)).
Proof.
  assert (Hd : ∀ n, gostd.hexdigit n ∈ list_ascii_of_string "0123456789abcdef").
  { intros n. unfold gostd.hexdigit, gostd.hextable.
    destruct (N.to_nat n) as [|[|[|[|[|[|[|[|[|[|[|[|[|[|[|[|k]]]]]]]]]]]]]]]];
      apply (bool_decide_unpack _); vm_compute; exact I. }
  induction src as [|b rest IH]; simpl.
  - constructor.
  - constructor; [apply Hd|]. constructor; [apply Hd|]. exact IH.
Qed.

Example Encode_evh_c1 :
  (lib.Encode (H := ref.ext) lib.AVI_OBJ_NAME_MAX_LENGTH "c1--red-shop" lib.L4VS
     (lib.SetNamePrefix
        (sample.world sample.evhEnv false sample.noFilter sample.noInformers ∅))).1
  = "c1--2e59674e11bc8b27654e517f8bbca3cdef543830".
Proof. vm_compute. reflexivity. Qed.

Example Encode_plain_c1 :
  (lib.Encode (H := ref.ext) lib.AVI_OBJ_NAME_MAX_LENGTH "c1--red-shop" lib.L4VS
     (lib.SetNamePrefix
        (sample.world sample.plainEnv false sample.noFilter sample.noInformers ∅))).1
  = "c1--red-shop".
Proof. vm_compute. reflexivity. Qed.

Lemma Encode_result `{Externals} (limit : nat) (s objType : string) (w : World) :
  lib.Encode limit s objType w =
    let name := if lib.IsEvhEnabled w && negb (lib.GetAdvancedL4 w)
                then lib.GetNamePrefix w +:+ gostd.EncodeToString (sha1_Sum s)
                else s in
    (name,
     set_trace (trace w ++ [] ++
                  (if bool_decide (limit < String.length name)
                   then [lib.name_too_long limit objType name] else [])) w).
Proof.
  unfold lib.Encode. rewrite !CheckObjectNameLength_result.
  destruct (lib.IsEvhEnabled w), (lib.GetAdvancedL4 w); simpl;
    case_bool_decide; simpl; by rewrite ?app_nil_r, ?set_trace_id.
Qed.

Lemma checked_result `{Externals} (limit : nat) (name objType : string) (w : World) :
  (let '(_, w) := lib.CheckObjectNameLength limit name objType w in (name, w)) =
    (name,
     set_trace (trace w ++ [] ++
                  (if bool_decide (limit < String.length name)
                   then [lib.name_too_long limit objType name] else [])) w).
Proof.
  rewrite CheckObjectNameLength_result.
  case_bool_decide; simpl; by rewrite ?app_nil_r, ?set_trace_id.
Qed.

(** What a name derivation does, for every limit at once: it returns a name
    that does not depend on the limit, and it appends to the log its Info
    lines, if any, followed by the warning about that very name when the
    name is longer than the limit. *)
Lemma derive_result `{Externals} (call : NameCall) (w : World) :
  ∃ (name objType : string) (info : list Effect),
    Forall (λ e, ∃ format args, e = Log Info format args) info
    ∧ ∀ limit : nat,
        derive limit call w =
          (name,
           set_trace (trace w ++ info ++
                        (if bool_decide (limit < String.length name)
                         then [lib.name_too_long limit objType name] else [])) w).
Proof.
  destruct call; simpl;
    try (eexists _, _, []; split; [constructor|]; intros limit;
         first [ apply Encode_result
               | apply checked_result
               | unfold lib.GetL4VSName, lib.GetL4VSVipName, lib.GetL4PoolName,
                   lib.GetAdvL4PoolName, lib.GetL7PoolName, lib.GetSniNodeName,
                   lib.GetEvhPoolName, lib.GetTLSKeyCertNodeName, lib.GetCACertNodeName,
                   lib.GetPoolPKIProfileName; apply Encode_result ]; fail).
  - (* GetSniHttpPolName *)
    destruct (decide (infrasetting ≠ "")) as [Hi|Hi];
      eexists _, _, []; (split; [constructor|]); intros limit;
      unfold lib.GetSniHttpPolName; rewrite decide_bool_decide;
      [rewrite bool_decide_eq_true_2 by done|rewrite bool_decide_eq_false_2 by done];
      apply Encode_result.
  - (* GetEvhNodeName *)
    destruct (decide (infrasetting ≠ "")) as [Hi|Hi];
      eexists _, _, []; (split; [constructor|]); intros limit;
      unfold lib.GetEvhNodeName; rewrite decide_bool_decide;
      [rewrite bool_decide_eq_true_2 by done|rewrite bool_decide_eq_false_2 by done];
      apply Encode_result.
  - (* GetEvhPGName *)
    destruct (decide (infrasetting ≠ "")) as [Hi|Hi];
      eexists _, _, []; (split; [constructor|]); intros limit;
      unfold lib.GetEvhPGName; rewrite decide_bool_decide;
      [rewrite bool_decide_eq_true_2 by done|rewrite bool_decide_eq_false_2 by done];
      apply Encode_result.
  - (* GetPassthroughShardVSName *)
    eexists _, _, [_]. split; [constructor; [by eexists _, _|constructor]|].
    intros limit. unfold lib.GetPassthroughShardVSName.
    rewrite Encode_result. simpl. f_equal.
    unfold set_trace, emit; simpl. f_equal. by rewrite <- !app_assoc.
Qed.

(** C7. [CheckObjectNameLength] returns true exactly when the name is longer
    than the limit of 255 characters. Every function that derives the name of
    a load-balancer object returns, whatever the limit is, the whole name it
    builds from its inputs: their concatenation as lib.go writes it, behind
    [Encode] where the function encodes (with EVH, outside advanced L4, the
    prefix and the hexadecimal SHA-1 of the concatenation). It logs the
    warning about that very name exactly when the name is longer than the
    limit: an overlong name is neither truncated nor rejected nor altered. *)
Theorem overlong_name_logged_and_emitted `{Externals} (call : NameCall) (w : World) :
  let encoded (s : string) :=
    if lib.IsEvhEnabled w && negb (lib.GetAdvancedL4 w)
    then lib.GetNamePrefix w +:+ gostd.EncodeToString (sha1_Sum s)
    else s in
  let underscored (path : string) := gostd.ReplaceAll path "/" "_" in
  let name :=
    match call with
    | CallEncode s _ => encoded s
    | CallGetL4VSName svcName namespace
    | CallGetL4VSVipName svcName namespace =>
        encoded (NamePrefix w +:+ namespace +:+ "-" +:+ svcName)
    | CallGetL4PoolName svcName namespace port =>
        encoded (NamePrefix w +:+ namespace +:+ "-" +:+ svcName +:+ "--"
                 +:+ gostd.Itoa port)
    | CallGetAdvL4PoolName svcName namespace gwName port =>
        encoded (NamePrefix w +:+ namespace +:+ "-" +:+ svcName +:+ "-" +:+ gwName
                 +:+ "--" +:+ gostd.Itoa port)
    | CallGetVsVipName vsName
    | CallGetL7InsecureDSName vsName
    | CallGetL7SharedPGName vsName
    | CallGetL7HttpRedirPolicy vsName => vsName
    | CallGetL7PoolName priorityLabel namespace ingName infrasetting args =>
        let poolName :=
          if decide (infrasetting ≠ "") then
            NamePrefix w +:+ infrasetting +:+ "-" +:+ underscored priorityLabel +:+ "-"
              +:+ namespace +:+ "-" +:+ ingName
          else
            NamePrefix w +:+ underscored priorityLabel +:+ "-" +:+ namespace +:+ "-"
              +:+ ingName in
        encoded (match args with
                 | svcName :: _ => poolName +:+ "-" +:+ svcName
                 | [] => poolName
                 end)
    | CallGetHeaderRewritePolicy vsName localHost =>
        vsName +:+ "--host-hdr-re-write" +:+ "--" +:+ localHost
    | CallGetSniNodeName infrasetting sniHostName
    | CallGetTLSKeyCertNodeName infrasetting sniHostName =>
        encoded ((if decide (infrasetting ≠ "")
                  then NamePrefix w +:+ (infrasetting +:+ "-") else NamePrefix w)
                 +:+ sniHostName)
    | CallGetCACertNodeName infrasetting sniHostName =>
        encoded (((if decide (infrasetting ≠ "")
                   then NamePrefix w +:+ (infrasetting +:+ "-") else NamePrefix w)
                  +:+ sniHostName) +:+ "-cacert")
    | CallGetSniPoolName ingName namespace host path infrasetting args =>
        let poolName :=
          if decide (infrasetting ≠ "") then
            NamePrefix w +:+ infrasetting +:+ "-" +:+ namespace +:+ "-" +:+ host
              +:+ underscored path +:+ "-" +:+ ingName
          else
            NamePrefix w +:+ namespace +:+ "-" +:+ host +:+ underscored path +:+ "-"
              +:+ ingName in
        match args with
        | svcName :: _ => poolName +:+ "-" +:+ svcName
        | [] => poolName
        end
    | CallGetSniPGName ingName namespace host path infrasetting =>
        if decide (infrasetting ≠ "") then
          NamePrefix w +:+ infrasetting +:+ "-" +:+ namespace +:+ "-" +:+ host
            +:+ underscored path +:+ "-" +:+ ingName
        else
          NamePrefix w +:+ namespace +:+ "-" +:+ host +:+ underscored path +:+ "-"
            +:+ ingName
    | CallGetSniHttpPolName ingName namespace host path infrasetting
    | CallGetEvhPGName ingName namespace host path infrasetting =>
        encoded (if decide (infrasetting ≠ "") then
                   NamePrefix w +:+ infrasetting +:+ "-" +:+ namespace +:+ "-" +:+ host
                     +:+ underscored path +:+ "-" +:+ ingName
                 else
                   NamePrefix w +:+ namespace +:+ "-" +:+ host +:+ underscored path
                     +:+ "-" +:+ ingName)
    | CallGetEvhPoolName ingName namespace host path infrasetting svcName =>
        encoded ((if decide (infrasetting ≠ "")
                  then NamePrefix w +:+ (infrasetting +:+ "-") else NamePrefix w)
                 +:+ namespace +:+ "-" +:+ host +:+ underscored path +:+ "-" +:+ ingName
                 +:+ "-" +:+ svcName)
    | CallGetEvhNodeName host infrasetting =>
        encoded (if decide (infrasetting ≠ "")
                 then NamePrefix w +:+ infrasetting +:+ "-" +:+ host
                 else NamePrefix w +:+ host)
    | CallGetPoolPKIProfileName poolName => encoded (poolName +:+ "-pkiprofile")
    | CallGetPassthroughShardVSName s key =>
        encoded ((lib.GetClusterName w +:+ "--" +:+ lib.PassthroughPrefix)
                 +:+ gostd.Itoa (Z.of_N (Bkt s (lib.PassthroughShardSize w))))
    end in
  (∀ objName objType : string,
      (lib.CheckObjectNameLength lib.AVI_OBJ_NAME_MAX_LENGTH objName objType w).1
      = bool_decide (255 < String.length objName))
  ∧ (∀ limit : nat, (derive limit call w).1 = name)
  ∧ ∃ (objType : string) (info : list Effect),
      Forall (λ e, ∃ format args, e = Log Info format args) info
      ∧ derive lib.AVI_OBJ_NAME_MAX_LENGTH call w =
          (name,
           set_trace (trace w ++ info ++
                        (if bool_decide (255 < String.length name)
                         then [lib.name_too_long 255 objType name] else [])) w).
Proof.
  intros encoded underscored name.
  split; [intros objName objType; by rewrite CheckObjectNameLength_result|].
  destruct (derive_result call w) as (name' & objType & info & Hinfo & Hall).
  assert (Hname : name' = name).
  { pose proof (f_equal fst (Hall 0%nat)) as H0. cbn [fst] in H0. rewrite <- H0. clear H0 Hall.
    subst name encoded underscored.
    destruct call; cbn [derive];
      unfold lib.GetL4VSName, lib.GetL4VSVipName, lib.GetL4PoolName,
        lib.GetAdvL4PoolName, lib.GetL7PoolName, lib.GetSniNodeName,
        lib.GetEvhPoolName, lib.GetEvhPoolNameNoEncoding, lib.GetTLSKeyCertNodeName,
        lib.GetCACertNodeName, lib.GetPoolPKIProfileName, lib.GetSniHttpPolName,
        lib.GetEvhNodeName, lib.GetEvhPGName, lib.GetPassthroughShardVSName,
        lib.GetVsVipName, lib.GetL7InsecureDSName, lib.GetL7SharedPGName,
        lib.GetL7HttpRedirPolicy, lib.GetHeaderRewritePolicy, lib.GetSniPoolName,
        lib.GetSniPGName;
      cbv zeta;
      repeat match goal with
             | |- context [decide (?x ≠ "")] => destruct (decide (x ≠ ""))
             end;
      rewrite ?Encode_name, ?CheckObjectNameLength_result; try reflexivity. }
  subst name'.
  split; [intros limit; by rewrite Hall|].
  exists objType, info. split; [exact Hinfo|]. apply Hall.
Qed.

(** The name of the L4 virtual service of a Service whose name has 300
    characters: it comes out whole, 308 characters long, with the warning. *)
Example overlong_L4VS_name :
  let w := sample.world sample.plainEnv false sample.noFilter sample.noInformers ∅ in
  let result := lib.GetL4VSName lib.AVI_OBJ_NAME_MAX_LENGTH sample.longName "red" w in
  result.1 = "c1--red-" +:+ sample.longName
  ∧ String.length result.1 = 308
  ∧ trace result.2 =
      [Log Warn "%s name %s exceeds maximum length limit of %d characters for AVI Object"
         ["L4VS"; "c1--red-" +:+ sample.longName; "255"]].
Proof. vm_compute. done. Qed.

(** ** Update filtering of the ingestion layer (controller.go) *)

Lemma ingestion_adds_app (t t' : list Effect) :
  ingestion_adds (t ++ t') = ingestion_adds t ++ ingestion_adds t'.
Proof. apply omap_app. Qed.

Lemma not_extended {A} (l : list A) (x : A) : l ≠ l ++ [x].
Proof.
  intros Heq. apply (f_equal length) in Heq.
  rewrite length_app in Heq. simpl in Heq. lia.
Qed.

Lemma enqueue_then_log `{Externals} (bkt : N) (key format : string) (args : list string)
    (w : World) :
  ingestion_adds
    (trace (emit (Log Debug format args)
              (emit (AddRateLimited ObjectIngestionLayer bkt key) w)))
  = ingestion_adds (trace w) ++ [(bkt, key)].
Proof.
  rewrite !trace_emit, !ingestion_adds_app. simpl. by rewrite app_nil_r.
Qed.

(** C5. With sync enabled, a Secret Update event is admitted to the
    ingestion queue if and only if the Data of the Secret differs (deep
    inequality) and its ResourceVersion differs between the old and the new
    object and the Secret is not the controller's own auth secret (avi-secret
    in the AKO namespace); an event that is not admitted changes nothing. *)
Theorem secret_update_admission `{Externals} (numWorkers : N) (oldobj secret : Secret)
    (w : World) :
  DisableSync w = false →
  let w' := k8s.secretEventHandler_UpdateFunc numWorkers oldobj secret w in
  let key := "Secret" +:+ "/" +:+ utils.ObjKey secret in
  let bkt := Bkt (k8s.namespace_of (utils.ObjKey secret)) numWorkers in
  let admitted := ingestion_adds (trace w') = ingestion_adds (trace w) ++ [(bkt, key)] in
  (admitted ↔
     sec_Data secret ≠ sec_Data oldobj
     ∧ ResourceVersion (meta secret) ≠ ResourceVersion (meta oldobj)
     ∧ ¬ (Namespace (meta secret) = GetAKONamespace (env w)
          ∧ Name (meta secret) = lib.AviSecret))
  ∧ (¬ admitted → w' = w).
Proof.
  intros Hsync w' key bkt admitted. subst w' admitted.
  unfold k8s.secretEventHandler_UpdateFunc, k8s.validateAviSecret.
  rewrite Hsync.
  destruct (decide (ResourceVersion (meta oldobj) = ResourceVersion (meta secret)))
    as [Hrv|Hrv].
  { rewrite (bool_decide_eq_false_2 _) by (intros Hne; by apply Hne). cbn [andb negb].
    split; [|done]. split.
    - intros Heq. by apply not_extended in Heq.
    - intros (_ & Hne & _). by destruct Hne. }
  rewrite (bool_decide_eq_true_2 _) by done. cbn [andb negb].
  destruct (decide (sec_Data secret = sec_Data oldobj)) as [Hdata|Hdata].
  { rewrite (bool_decide_eq_true_2 _) by done. cbn [andb negb].
    split; [|done]. split.
    - intros Heq. by apply not_extended in Heq.
    - intros (Hne & _). by destruct Hne. }
  rewrite (bool_decide_eq_false_2 _) by done. cbn [andb negb].
  destruct (decide (Namespace (meta secret) = GetAKONamespace (env w))) as [Hns|Hns];
    [destruct (decide (Name (meta secret) = lib.AviSecret)) as [Hname|Hname]|].
  - rewrite !(bool_decide_eq_true_2 _) by done. cbn [andb negb].
    split; [|done]. split.
    + intros Heq. by apply not_extended in Heq.
    + intros (_ & _ & Hown). by destruct Hown.
  - rewrite (bool_decide_eq_true_2 _) by done.
    rewrite (bool_decide_eq_false_2 _) by done. cbn [andb negb].
    rewrite enqueue_then_log. split.
    + split; [intros _|done]. repeat split; try done; try congruence. by intros [_ ?].
    + intros Hnot. by destruct Hnot.
  - rewrite (bool_decide_eq_false_2 _) by done. cbn [andb negb].
    rewrite enqueue_then_log. split.
    + split; [intros _|done]. repeat split; try done; try congruence. by intros [? _].
    + intros Hnot. by destruct Hnot.
Qed.

Lemma secret_update_admission_witness :
  let old := sample.secret "red" "tls-cert" "7" [Byte.x01] in
  let new := sample.secret "red" "tls-cert" "8" [Byte.x02] in
  let w := sample.world sample.plainEnv false sample.noFilter sample.noInformers ∅ in
  DisableSync w = false
  ∧ ingestion_adds (trace (k8s.secretEventHandler_UpdateFunc (H := ref.ext) 1 old new w))
    = [(0%N, "Secret/red/tls-cert")].
Proof.
  intros old new w. split; [reflexivity|].
  apply (proj1 (secret_update_admission (H := ref.ext) 1 old new w eq_refl)).
  apply (bool_decide_unpack _). vm_compute. exact I.
Defined.

(** C10. The filter on the controller's own auth secret is applied to Secret
    Update and Delete events only. With sync enabled, an Add event that
    delivers the avi-secret of the AKO namespace enqueues the key
    Secret/<ns>/avi-secret onto the ingestion queue, whereas an Update or a
    Delete event for the same Secret changes nothing. *)
Theorem avi_secret_add_enqueued `{Externals} (numWorkers : N) (secret : Secret)
    (w : World) :
  DisableSync w = false →
  Namespace (meta secret) = GetAKONamespace (env w) →
  Name (meta secret) = lib.AviSecret →
  GetAKONamespace (env w) ≠ "" →
  let key := "Secret/" +:+ GetAKONamespace (env w) +:+ "/avi-secret" in
  k8s.validateAviSecret secret w = false
  ∧ (∃ bkt : N,
        trace (k8s.secretEventHandler_AddFunc numWorkers secret w) =
          trace w ++ [AddRateLimited ObjectIngestionLayer bkt key;
                      Log Debug "key: %s, msg: ADD" [key]])
  ∧ (∀ oldobj : Secret, k8s.secretEventHandler_UpdateFunc numWorkers oldobj secret w = w)
  ∧ k8s.secretEventHandler_DeleteFunc numWorkers (Live secret) w = w
  ∧ k8s.secretEventHandler_DeleteFunc numWorkers (Tombstone (Some secret)) w = w.
Proof.
  intros Hsync Hns Hname Hne key.
  assert (Hvalid : k8s.validateAviSecret secret w = false).
  { unfold k8s.validateAviSecret. by rewrite !(bool_decide_eq_true_2 _) by done. }
  assert (Hkey : "Secret" +:+ "/" +:+ utils.ObjKey secret = key).
  { unfold utils.ObjKey, key. rewrite Hns.
    destruct (decide (GetAKONamespace (env w) = "")); [done|].
    rewrite Hname. reflexivity. }
  split; [done|]. split; [|split; [|split]].
  - eexists. unfold k8s.secretEventHandler_AddFunc. rewrite Hsync, Hkey.
    rewrite !trace_emit, <- app_assoc. reflexivity.
  - intros oldobj. unfold k8s.secretEventHandler_UpdateFunc.
    rewrite Hsync, Hvalid. by destruct (_ && _).
  - unfold k8s.secretEventHandler_DeleteFunc. rewrite Hsync. simpl. by rewrite Hvalid.
  - unfold k8s.secretEventHandler_DeleteFunc. rewrite Hsync. simpl. by rewrite Hvalid.
Qed.

Lemma avi_secret_add_enqueued_witness :
  let secret := sample.secret "avi-system" "avi-secret" "3" [Byte.x2a] in
  let w := sample.world sample.plainEnv false sample.noFilter sample.noInformers ∅ in
  trace (k8s.secretEventHandler_AddFunc (H := ref.ext) 1 secret w) =
    [AddRateLimited ObjectIngestionLayer 0 "Secret/avi-system/avi-secret";
     Log Debug "key: %s, msg: ADD" ["Secret/avi-system/avi-secret"]]
  ∧ k8s.secretEventHandler_DeleteFunc (H := ref.ext) 1 (Live secret) w = w.
Proof.
  intros secret w.
  destruct (avi_secret_add_enqueued (H := ref.ext) 1 secret w)
    as (_ & _ & _ & Hdel & _);
    [reflexivity | reflexivity | reflexivity
    | apply (bool_decide_unpack _); vm_compute; exact I |].
  split; [reflexivity | exact Hdel].
Defined.

(** The Ingress half of the update filter: with sync enabled and the
    namespace admitted by the filter, an Ingress Update event is admitted if
    and only if the ResourceVersion differs and the hash of the Spec or of
    the Annotations differs. *)
Lemma ingress_update_admission `{Externals} (numWorkers : N) (oldobj ingress : Ingress)
    (w : World) :
  DisableSync w = false →
  CheckIfNamespaceAccepted (env w) (nsFilter w)
    (k8s.namespace_of (utils.ObjKey ingress)) = true →
  let w' := k8s.ingressEventHandler_UpdateFunc numWorkers oldobj ingress w in
  let key := utils.Ingress +:+ "/" +:+ utils.ObjKey ingress in
  let bkt := Bkt (k8s.namespace_of (utils.ObjKey ingress)) numWorkers in
  let admitted := ingestion_adds (trace w') = ingestion_adds (trace w) ++ [(bkt, key)] in
  (admitted ↔
     ResourceVersion (meta oldobj) ≠ ResourceVersion (meta ingress)
     ∧ (Hash (StringifyIngressSpec (ing_Spec oldobj))
          ≠ Hash (StringifyIngressSpec (ing_Spec ingress))
        ∨ Hash (StringifyStringMap (Annotations (meta oldobj)))
          ≠ Hash (StringifyStringMap (Annotations (meta ingress)))))
  ∧ (¬ admitted → w' = w).
Proof.
  intros Hsync Hns w' key bkt admitted. subst w' admitted.
  unfold k8s.ingressEventHandler_UpdateFunc, k8s.isIngressUpdated.
  rewrite Hsync, Hns. cbn [negb].
  destruct (decide (ResourceVersion (meta oldobj) = ResourceVersion (meta ingress)))
    as [Hrv|Hrv].
  { split; [|done]. split.
    - intros Heq. by apply not_extended in Heq.
    - by intros [Hne _]. }
  destruct (decide (Hash (StringifyIngressSpec (ing_Spec oldobj))
                    = Hash (StringifyIngressSpec (ing_Spec ingress)))) as [Hspec|Hspec];
    [destruct (decide (Hash (StringifyStringMap (Annotations (meta oldobj)))
                       = Hash (StringifyStringMap (Annotations (meta ingress)))))
       as [Hann|Hann]|].
  - rewrite !(bool_decide_eq_false_2 _) by (intros Hne; by apply Hne). cbn [orb].
    split; [|done]. split.
    + intros Heq. by apply not_extended in Heq.
    + intros [_ [Hne|Hne]]; by destruct Hne.
  - rewrite (bool_decide_eq_false_2 _) by (intros Hne; by apply Hne).
    rewrite (bool_decide_eq_true_2 _) by done. cbn [orb].
    rewrite enqueue_then_log. split; [|by intros Hnot; destruct Hnot].
    split; [intros _|done]. split; [done|by right].
  - rewrite (bool_decide_eq_true_2 _) by done. cbn [orb].
    rewrite enqueue_then_log. split; [|by intros Hnot; destruct Hnot].
    split; [intros _|done]. split; [done|by left].
Qed.

(** *** Route backends *)

Lemma HasValidBackends_loop_valid `{Externals} (routeName key : string)
    (alts : list RouteTargetReference) (svcList : gset string) (w : World) :
  (lib.HasValidBackends_loop routeName key svcList alts w).1 = true
  ↔ NoDup (map ref_Name alts) ∧ ∀ name, name ∈ map ref_Name alts → name ∉ svcList.
Proof.
  revert svcList. induction alts as [|alt rest IH]; intros svcList; simpl.
  - split; [intros _|done]. split; [constructor|]. intros name Hin. by inversion Hin.
  - destruct (decide (ref_Name alt ∈ svcList)) as [Hdup|Hfresh]; simpl.
    + split; [done|]. intros [_ Hdisj]. destruct (Hdisj (ref_Name alt)); [left|done].
    + rewrite IH. rewrite NoDup_cons. split.
      * intros [Hnd Hdisj]. split; [split; [|done]|].
        -- intros Hin. apply (Hdisj _ Hin).
           apply elem_of_union. left. by apply elem_of_singleton.
        -- intros name Hin Hs. apply elem_of_cons in Hin as [->|Hin]; [done|].
           apply (Hdisj _ Hin). apply elem_of_union. by right.
      * intros [[Hnotin Hnd] Hdisj]. split; [done|].
        intros name Hin Hs. apply elem_of_union in Hs as [Hs|Hs].
        -- apply elem_of_singleton in Hs as ->. done.
        -- apply (Hdisj name); [by right|done].
Qed.

Lemma HasValidBackends_loop_world `{Externals} (routeName key : string)
    (alts : list RouteTargetReference) (svcList : gset string) (w : World) :
  ∃ (valid : bool) (warning : list Effect),
    lib.HasValidBackends_loop routeName key svcList alts w
      = (valid, set_trace (trace w ++ warning) w)
    ∧ Forall (λ e, is_Log e = true) warning.
Proof.
  revert svcList. induction alts as [|alt rest IH]; intros svcList; simpl.
  - exists true, []. by rewrite app_nil_r, set_trace_id.
  - destruct (decide (ref_Name alt ∈ svcList)).
    + eexists false, [_]. split; [reflexivity|]. by repeat constructor.
    + apply IH.
Qed.

(** [HasValidBackends] accepts a route exactly when no backend name occurs
    twice among the primary and the alternate backends. *)
Lemma HasValidBackends_NoDup `{Externals} (routeSpec : RouteSpec)
    (routeName namespace key : string) (w : World) :
  (lib.HasValidBackends routeSpec routeName namespace key w).1 = true
  ↔ NoDup (backendNames routeSpec).
Proof.
  unfold lib.HasValidBackends, backendNames.
  rewrite HasValidBackends_loop_valid, NoDup_cons. split.
  - intros [Hnd Hdisj]. split; [|done]. intros Hin. apply (Hdisj _ Hin).
    by apply elem_of_singleton.
  - intros [Hnotin Hnd]. split; [done|]. intros name Hin Hs.
    apply elem_of_singleton in Hs as ->. done.
Qed.

Lemma HasValidBackends_world `{Externals} (routeSpec : RouteSpec)
    (routeName namespace key : string) (w : World) :
  ∃ warning : list Effect,
    (lib.HasValidBackends routeSpec routeName namespace key w).2
      = set_trace (trace w ++ warning) w
    ∧ Forall (λ e, is_Log e = true) warning.
Proof.
  unfold lib.HasValidBackends.
  destruct (HasValidBackends_loop_world routeName key (rt_AlternateBackends routeSpec)
              {[ref_Name (rt_To routeSpec)]} w) as (valid & warning & -> & Hlog).
  by exists warning.
Qed.

Lemma ingestion_adds_logs (t : list Effect) :
  Forall (λ e, is_Log e = true) t → ingestion_adds t = [].
Proof.
  induction 1 as [|e t He _ IH]; [done|]. destruct e; try discriminate He. exact IH.
Qed.

(** What the Add and Update handlers of a Route do once the event has passed
    the gates: the warning of [HasValidBackends], if any, the status error
    when the backends are not valid, the enqueue, the Debugf line. *)
Lemma route_admitted_trace `{Externals} (numWorkers : N) (route : Route) (msg : string)
    (w : World) :
  let namespace := k8s.namespace_of (utils.ObjKey route) in
  let key := utils.OshiftRoute +:+ "/" +:+ utils.ObjKey route in
  let bkt := Bkt namespace numWorkers in
  ∃ warning : list Effect,
    Forall (λ e, is_Log e = true) warning
    ∧ (let '(valid, w) :=
         lib.HasValidBackends (rt_Spec route) (Name (meta route)) namespace key w in
       let w :=
         if negb valid then
           emit (UpdateRouteStatusWithErrMsg key (Name (meta route)) namespace
                   lib.DuplicateBackends) w
         else w in
       let w := emit (AddRateLimited ObjectIngestionLayer bkt key) w in
       emit (Log Debug msg [key]) w)
      = set_trace
          (trace w ++ warning
             ++ (if bool_decide (NoDup (backendNames (rt_Spec route))) then []
                 else [UpdateRouteStatusWithErrMsg key (Name (meta route)) namespace
                         lib.DuplicateBackends])
             ++ [AddRateLimited ObjectIngestionLayer bkt key; Log Debug msg [key]]) w.
Proof.
  intros namespace key bkt.
  destruct (HasValidBackends_world (rt_Spec route) (Name (meta route)) namespace key w)
    as (warning & Hw & Hlog).
  pose proof (HasValidBackends_NoDup (rt_Spec route) (Name (meta route)) namespace key w)
    as Hvalid.
  exists warning. split; [done|].
  destruct (lib.HasValidBackends _ _ _ _ w) as [valid w1]. simpl in Hw, Hvalid.
  subst w1. destruct valid; simpl.
  - rewrite bool_decide_eq_true_2 by by apply Hvalid.
    unfold emit, set_trace; simpl. f_equal. by rewrite <- !app_assoc.
  - rewrite bool_decide_eq_false_2 by (intros Hnd; apply Hvalid in Hnd; done).
    unfold emit, set_trace; simpl. f_equal. by rewrite <- !app_assoc.
Qed.

(** The Route half, as the code has it: with sync enabled and the namespace
    admitted by the filter, a Route Update event is admitted if and only if
    the ResourceVersion differs and the hash of the Spec differs. *)
Lemma route_update_admission `{Externals} (numWorkers : N) (oldRoute newRoute : Route)
    (w : World) :
  DisableSync w = false →
  CheckIfNamespaceAccepted (env w) (nsFilter w)
    (k8s.namespace_of (utils.ObjKey newRoute)) = true →
  let w' := k8s.routeEventHandler_UpdateFunc numWorkers oldRoute newRoute w in
  let key := utils.OshiftRoute +:+ "/" +:+ utils.ObjKey newRoute in
  let bkt := Bkt (k8s.namespace_of (utils.ObjKey newRoute)) numWorkers in
  let admitted := ingestion_adds (trace w') = ingestion_adds (trace w) ++ [(bkt, key)] in
  (admitted ↔
     ResourceVersion (meta oldRoute) ≠ ResourceVersion (meta newRoute)
     ∧ Hash (StringifyRouteSpec (rt_Spec oldRoute))
         ≠ Hash (StringifyRouteSpec (rt_Spec newRoute)))
  ∧ (¬ admitted → w' = w).
Proof.
  intros Hsync Hns w' key bkt admitted. subst w' admitted.
  unfold k8s.routeEventHandler_UpdateFunc, k8s.isRouteUpdated.
  rewrite Hsync, Hns. cbn [negb].
  destruct (decide (ResourceVersion (meta oldRoute) = ResourceVersion (meta newRoute)))
    as [Hrv|Hrv].
  { split; [|done]. split.
    - intros Heq. by apply not_extended in Heq.
    - by intros [Hne _]. }
  destruct (decide (Hash (StringifyRouteSpec (rt_Spec oldRoute))
                    ≠ Hash (StringifyRouteSpec (rt_Spec newRoute)))) as [Hspec|Hspec].
  - pose proof (route_admitted_trace numWorkers newRoute "key: %s, msg: UPDATE" w) as Hr.
    cbv beta iota zeta in Hr |- *. destruct Hr as (warning & Hlog & ->).
    simpl. rewrite !ingestion_adds_app, (ingestion_adds_logs warning Hlog).
    case_bool_decide; simpl; (split; [|by intros Hnot; destruct Hnot]); done.
  - split; [|done]. split.
    + intros Heq. by apply not_extended in Heq.
    + by intros [_ Hne].
Qed.

(** C1. An Update event on an Ingress is admitted exactly when the hash of
    its Spec or of its Annotations changed ([ingress_update_admission]); on
    a Route the Annotations are not looked at: an Update event whose old and
    new Spec hash alike is dropped whatever else differs, although the
    comment of [isRouteUpdated] says "only if spec/annotation is updated" and
    [isIngressUpdated] compares both. *)
Theorem route_update_ignores_annotations `{Externals} (numWorkers : N)
    (oldRoute newRoute : Route) (w : World) :
  Hash (StringifyRouteSpec (rt_Spec oldRoute))
    = Hash (StringifyRouteSpec (rt_Spec newRoute)) →
  k8s.routeEventHandler_UpdateFunc numWorkers oldRoute newRoute w = w.
Proof.
  intros Hspec. unfold k8s.routeEventHandler_UpdateFunc, k8s.isRouteUpdated.
  destruct (DisableSync w); [done|].
  destruct (decide (ResourceVersion _ = ResourceVersion _)); [done|].
  by destruct (decide (Hash _ ≠ Hash _)).
Qed.

(** The failing input: sync enabled, no namespace filter, a Route whose
    ResourceVersion and Annotations change while its Spec stays: the hashes
    of the Annotations differ, the Ingress handler admits such an event, the
    Route handler drops it. *)
Lemma route_update_ignores_annotations_witness :
  let old := sample.route "41" None "shop" [] in
  let new := sample.route "42" (Some {[ "aviinfrasetting.ako.vmware.com/name" := "fast" ]})
               "shop" [] in
  let w := sample.world sample.plainEnv false sample.noFilter sample.noInformers ∅ in
  (ResourceVersion (meta old) ≠ ResourceVersion (meta new)
   ∧ ref.fnv1a (ref.stringifyMap (Annotations (meta old)))
       ≠ ref.fnv1a (ref.stringifyMap (Annotations (meta new))))
  ∧ k8s.routeEventHandler_UpdateFunc (H := ref.ext) 1 old new w = w
  ∧ ingestion_adds
      (trace (k8s.ingressEventHandler_UpdateFunc (H := ref.ext) 1
                (sample.ingress "41" (Annotations (meta old)))
                (sample.ingress "42" (Annotations (meta new))) w))
    = [(0%N, "Ingress/red/web")].
Proof.
  intros old new w. split; [|split].
  - apply (bool_decide_unpack _). vm_compute. exact I.
  - apply (route_update_ignores_annotations (H := ref.ext) 1 old new w). reflexivity.
  - vm_compute. reflexivity.
Defined.

(** C8. With sync enabled and the namespace admitted by the filter, a Route
    Add event, and a Route Update event that passes the update filter, whose
    spec repeats a backend name (an alternate backend with the name of the
    primary backend or of another alternate backend) make [HasValidBackends]
    return false, publish the DuplicateBackends status error for the Route
    and still enqueue the key of the Route on the ingestion queue. *)
Theorem route_duplicate_backends_reported `{Externals} (numWorkers : N) (route : Route)
    (w : World) :
  DisableSync w = false →
  CheckIfNamespaceAccepted (env w) (nsFilter w)
    (k8s.namespace_of (utils.ObjKey route)) = true →
  ¬ NoDup (backendNames (rt_Spec route)) →
  let namespace := k8s.namespace_of (utils.ObjKey route) in
  let key := utils.OshiftRoute +:+ "/" +:+ utils.ObjKey route in
  let bkt := Bkt namespace numWorkers in
  let reported (msg : string) (w' : World) :=
    ∃ warning : list Effect,
      Forall (λ e, is_Log e = true) warning
      ∧ w' = set_trace
               (trace w ++ warning
                  ++ [UpdateRouteStatusWithErrMsg key (Name (meta route)) namespace
                        lib.DuplicateBackends;
                      AddRateLimited ObjectIngestionLayer bkt key;
                      Log Debug msg [key]]) w in
  (lib.HasValidBackends (rt_Spec route) (Name (meta route)) namespace key w).1 = false
  ∧ reported "key: %s, msg: ADD" (k8s.routeEventHandler_AddFunc numWorkers route w)
  ∧ ∀ oldRoute : Route,
      k8s.isRouteUpdated oldRoute route = true →
      reported "key: %s, msg: UPDATE"
        (k8s.routeEventHandler_UpdateFunc numWorkers oldRoute route w).
Proof.
  intros Hsync Hns Hdup namespace key bkt reported. split; [|split].
  - destruct (lib.HasValidBackends _ _ _ _ w).1 eqn:Hvalid; [|done].
    by apply HasValidBackends_NoDup in Hvalid.
  - unfold k8s.routeEventHandler_AddFunc. rewrite Hsync, Hns.
    pose proof (route_admitted_trace numWorkers route "key: %s, msg: ADD" w) as Hr.
    cbv beta iota zeta in Hr |- *. destruct Hr as (warning & Hlog & ->).
    rewrite bool_decide_eq_false_2 by done. by exists warning.
  - intros oldRoute Hupd. unfold k8s.routeEventHandler_UpdateFunc.
    rewrite Hsync, Hupd, Hns.
    pose proof (route_admitted_trace numWorkers route "key: %s, msg: UPDATE" w) as Hr.
    cbv beta iota zeta in Hr |- *. destruct Hr as (warning & Hlog & ->).
    rewrite bool_decide_eq_false_2 by done. by exists warning.
Qed.

Lemma route_duplicate_backends_reported_witness :
  let route := sample.route "42" None "shop" ["shop-canary"; "shop"] in
  let w := sample.world sample.plainEnv false sample.noFilter sample.noInformers ∅ in
  ¬ NoDup (backendNames (rt_Spec route))
  ∧ (lib.HasValidBackends (H := ref.ext) (rt_Spec route) "shop" "red" "Route/red/shop" w).1
    = false
  ∧ trace (k8s.routeEventHandler_AddFunc (H := ref.ext) 1 route w) =
      [Log Warn "key: %s, msg: multiple backends with name %s found for route: %s"
         ["Route/red/shop"; "shop"; "shop"];
       UpdateRouteStatusWithErrMsg "Route/red/shop" "shop" "red" lib.DuplicateBackends;
       AddRateLimited ObjectIngestionLayer 0 "Route/red/shop";
       Log Debug "key: %s, msg: ADD" ["Route/red/shop"]].
Proof.
  intros route w.
  assert (Hdup : ¬ NoDup (backendNames (rt_Spec route))).
  { apply (bool_decide_unpack _). vm_compute. exact I. }
  split; [exact Hdup|].
  destruct (route_duplicate_backends_reported (H := ref.ext) 1 route w eq_refl eq_refl Hdup)
    as (Hvalid & _ & _).
  split; [exact Hvalid|]. vm_compute. reflexivity.
Defined.

(** ** The DisableSync gate *)

(** C9. While DisableSync is set, every informer event handler defined in
    controller.go (Add, Update and Delete, for Endpoints, Services, Calico
    block affinities, OpenShift host subnets, Secrets, Ingresses,
    IngressClasses, Nodes, Routes, Namespaces and Pods) returns at its entry:
    it leaves the world as it is, except that the two CNI handlers have
    written their Debugf line before the test; in particular no key is
    enqueued onto the ingestion queue. [FullSyncK8s] likewise does nothing
    but log that the sync is skipped, and returns nil. *)
Theorem disabled_sync_gates_ingestion `{Externals} (numWorkers : N) (w : World) :
  DisableSync w = true →
  (∀ ev : k8s.Event,
      let w' := k8s.handle numWorkers ev w in
      (w' = w ∨ ∃ format : string, w' = emit (Log Debug format []) w)
      ∧ ingestion_adds (trace w') = ingestion_adds (trace w))
  ∧ k8s.FullSyncK8s w
    = (k8s.Returned None, emit (Log Info "Sync disabled, skipping full sync" []) w).
Proof.
  intros Hsync. split.
  - intros ev w'. subst w'.
    destruct ev; cbn [k8s.handle];
      unfold k8s.epEventHandler_AddFunc, k8s.epEventHandler_DeleteFunc,
        k8s.epEventHandler_UpdateFunc, k8s.svcEventHandler_AddFunc,
        k8s.svcEventHandler_DeleteFunc, k8s.svcEventHandler_UpdateFunc,
        k8s.blockAffinityHandler_AddFunc, k8s.blockAffinityHandler_DeleteFunc,
        k8s.hostSubnetHandler_AddFunc, k8s.hostSubnetHandler_DeleteFunc,
        k8s.secretEventHandler_AddFunc, k8s.secretEventHandler_DeleteFunc,
        k8s.secretEventHandler_UpdateFunc, k8s.ingressEventHandler_AddFunc,
        k8s.ingressEventHandler_DeleteFunc, k8s.ingressEventHandler_UpdateFunc,
        k8s.ingressClassEventHandler_AddFunc, k8s.ingressClassEventHandler_DeleteFunc,
        k8s.ingressClassEventHandler_UpdateFunc, k8s.nodeEventHandler_AddFunc,
        k8s.nodeEventHandler_DeleteFunc, k8s.nodeEventHandler_UpdateFunc,
        k8s.routeEventHandler_AddFunc, k8s.routeEventHandler_DeleteFunc,
        k8s.routeEventHandler_UpdateFunc, k8s.namespaceEventHandler_AddFunc,
        k8s.namespaceEventHandler_UpdateFunc, k8s.podEventHandler_AddFunc,
        k8s.podEventHandler_DeleteFunc, k8s.podEventHandler_UpdateFunc;
      cbn [DisableSync emit]; rewrite Hsync;
      first [ by split; [left|]
            | split; [right; by eexists|];
              rewrite trace_emit, ingestion_adds_app; simpl; by rewrite app_nil_r ].
  - unfold k8s.FullSyncK8s. by rewrite Hsync.
Qed.

Lemma disabled_sync_gates_ingestion_witness :
  let w := sample.world sample.plainEnv true sample.noFilter sample.noInformers ∅ in
  DisableSync w = true
  ∧ k8s.handle (H := ref.ext) 1 (k8s.IngressAdd (sample.ingress "1" None)) w = w
  ∧ k8s.FullSyncK8s w
    = (k8s.Returned None, emit (Log Info "Sync disabled, skipping full sync" []) w).
Proof.
  intros w.
  destruct (disabled_sync_gates_ingestion (H := ref.ext) 1 w eq_refl) as [_ Hfull].
  split; [reflexivity|]. split; [reflexivity|exact Hfull].
Defined.

(** ** Namespace replay *)

Lemma extends_refl `{Externals} (w : World) : extends w w.
Proof. exists []. by rewrite app_nil_r, set_trace_id. Qed.

Lemma extends_trans `{Externals} (w1 w2 w3 : World) :
  extends w1 w2 → extends w2 w3 → extends w1 w3.
Proof.
  intros [m1 ->] [m2 ->]. exists (m1 ++ m2). simpl.
  by rewrite set_trace_twice, app_assoc.
Qed.

Lemma extends_emit `{Externals} (e : Effect) (w : World) : extends w (emit e w).
Proof. by exists [e]. Qed.

Lemma extends_emit_r `{Externals} (e : Effect) (w w' : World) :
  extends w w' → extends w (emit e w').
Proof. intros Hext. eapply extends_trans; [exact Hext|apply extends_emit]. Qed.

Lemma extends_foldl `{Externals} {A} (f : World → A → World) (l : list A) (w0 : World) :
  (∀ w y, extends w0 w → extends w (f w y)) →
  ∀ w, extends w0 w → extends w (foldl f w l).
Proof.
  intros Hstep. induction l as [|y l IH]; intros w Hw; simpl.
  - apply extends_refl.
  - eapply extends_trans; [by apply Hstep|]. apply IH.
    eapply extends_trans; [exact Hw|by apply Hstep].
Qed.

Lemma replayed_extends `{Externals} (numWorkers : N) (namespace msg key : string)
    (w wa wb : World) :
  replayed numWorkers namespace msg key w wa → extends wa wb →
  replayed numWorkers namespace msg key w wb.
Proof.
  intros (before & after & Ht) [more ->]. exists before, (after ++ more).
  simpl. rewrite Ht. by rewrite <- !app_assoc.
Qed.

Lemma extends_replayed `{Externals} (numWorkers : N) (namespace msg key : string)
    (w wa wb : World) :
  extends w wa → replayed numWorkers namespace msg key wa wb →
  replayed numWorkers namespace msg key w wb.
Proof.
  intros [more ->] (before & after & Ht). exists (more ++ before), after.
  rewrite Ht. simpl. by rewrite <- !app_assoc.
Qed.

Lemma foldl_replays `{Externals} {A} (numWorkers : N) (namespace msg key : string)
    (f : World → A → World) (x : A) (l : list A) (w0 : World) :
  (∀ w y, extends w0 w → extends w (f w y)) →
  (∀ w, extends w0 w → replayed numWorkers namespace msg key w (f w x)) →
  x ∈ l →
  ∀ w, extends w0 w → replayed numWorkers namespace msg key w (foldl f w l).
Proof.
  intros Hstep Hx. induction l as [|y l IH]; intros Hin w Hw; [by inversion Hin|].
  simpl. apply elem_of_cons in Hin as [->|Hin].
  - eapply replayed_extends; [by apply Hx|].
    apply (extends_foldl f l w0 Hstep).
    eapply extends_trans; [exact Hw|by apply Hstep].
  - eapply extends_replayed; [by apply Hstep|]. apply IH; [done|].
    eapply extends_trans; [exact Hw|by apply Hstep].
Qed.

Lemma replayed_here `{Externals} (numWorkers : N) (namespace msg key : string)
    (before : list Effect) (w : World) :
  replayed numWorkers namespace msg key w
    (set_trace
       (trace w ++ before
          ++ [AddRateLimited ObjectIngestionLayer (Bkt namespace numWorkers) key;
              Log Debug "key: %s, msg: %s for namespace: %s" [key; msg; namespace]]) w).
Proof. by exists before, []. Qed.

Lemma elem_of_List {A} `{HasMeta A} (informer : Lister A) (namespace : string) (obj : A) :
  list_err informer = None → obj ∈ store informer → Namespace (meta obj) = namespace →
  ∃ objs, List_ informer namespace = inr objs ∧ obj ∈ objs.
Proof.
  intros Herr Hin Hns. unfold List_. rewrite Herr. eexists. split; [reflexivity|].
  apply list_elem_of_filter. split; [by right|done].
Qed.

Lemma AddIngressFromNS_extends `{Externals} (numWorkers : N) (namespace msg : string)
    (w : World) :
  extends w (k8s.AddIngressFromNSToIngestionQueue numWorkers namespace msg w).
Proof.
  unfold k8s.AddIngressFromNSToIngestionQueue.
  destruct (IngressInformer (informers w)) as [informer|]; [|apply extends_refl].
  destruct (List_ informer namespace) as [err|objs]; [apply extends_emit|].
  apply (extends_foldl _ objs w); [|apply extends_refl].
  intros w1 obj _. apply extends_emit_r, extends_emit.
Qed.

Lemma AddRoutesFromNS_extends `{Externals} (numWorkers : N) (namespace msg : string)
    (w : World) :
  extends w (k8s.AddRoutesFromNSToIngestionQueue numWorkers namespace msg w).
Proof.
  unfold k8s.AddRoutesFromNSToIngestionQueue.
  destruct (RouteInformer (informers w)) as [informer|]; [|apply extends_refl].
  destruct (List_ informer namespace) as [err|objs]; [apply extends_emit|].
  apply (extends_foldl _ objs w); [|apply extends_refl].
  intros w1 obj _. apply extends_emit_r, extends_emit.
Qed.

Lemma AddServicesFromNS_extends `{Externals} (numWorkers : N) (namespace msg : string)
    (w : World) :
  extends w (k8s.AddServicesFromNSToIngestionQueue numWorkers namespace msg w).
Proof.
  unfold k8s.AddServicesFromNSToIngestionQueue.
  destruct (lib.GetAdvancedL4 w); [apply extends_refl|].
  destruct (ServiceInformer (informers w)) as [informer|]; [|apply extends_refl].
  destruct (List_ informer namespace) as [err|objs]; [apply extends_emit|].
  apply (extends_foldl _ objs w); [|apply extends_refl].
  intros w1 obj _.
  destruct (k8s.isServiceLBType obj && negb (lib.GetLayer7Only w1));
    [destruct (lib.UseServicesAPI w1)|];
    repeat apply extends_emit_r; apply extends_refl.
Qed.

Lemma AddGatewaysFromNS_extends `{Externals} (numWorkers : N) (namespace msg : string)
    (w : World) :
  extends w (k8s.AddGatewaysFromNSToIngestionQueue numWorkers namespace msg w).
Proof.
  unfold k8s.AddGatewaysFromNSToIngestionQueue.
  destruct (List_ (SvcAPIGatewayInformer (informers w)) namespace) as [err|objs];
    [apply extends_emit|].
  apply (extends_foldl _ objs w); [|apply extends_refl].
  intros w1 obj _. repeat apply extends_emit_r. apply extends_refl.
Qed.

Lemma replayed_emits `{Externals} (numWorkers : N) (namespace msg key : string)
    (w w1 : World) :
  extends w w1 →
  replayed numWorkers namespace msg key w
    (emit (Log Debug "key: %s, msg: %s for namespace: %s" [key; msg; namespace])
       (emit (AddRateLimited ObjectIngestionLayer (Bkt namespace numWorkers) key) w1)).
Proof.
  intros [more ->]. exists more, []. simpl. by rewrite <- !app_assoc.
Qed.

Lemma AddIngressFromNS_replays `{Externals} (numWorkers : N) (namespace msg : string)
    (informer : Lister Ingress) (ing : Ingress) (w : World) :
  IngressInformer (informers w) = Some informer → list_err informer = None →
  ing ∈ store informer → Namespace (meta ing) = namespace →
  replayed numWorkers namespace msg (utils.Ingress +:+ "/" +:+ utils.ObjKey ing) w
    (k8s.AddIngressFromNSToIngestionQueue numWorkers namespace msg w).
Proof.
  intros Hinf Herr Hin Hns. unfold k8s.AddIngressFromNSToIngestionQueue. rewrite Hinf.
  destruct (elem_of_List informer namespace ing Herr Hin Hns) as (objs & -> & Hobj).
  apply (foldl_replays numWorkers namespace msg _ _ ing objs w);
    [| |done|apply extends_refl].
  - intros w1 obj _. apply extends_emit_r, extends_emit.
  - intros w1 _. apply replayed_emits, extends_refl.
Qed.

Lemma AddRoutesFromNS_replays `{Externals} (numWorkers : N) (namespace msg : string)
    (informer : Lister Route) (route : Route) (w : World) :
  RouteInformer (informers w) = Some informer → list_err informer = None →
  route ∈ store informer → Namespace (meta route) = namespace →
  replayed numWorkers namespace msg (utils.OshiftRoute +:+ "/" +:+ utils.ObjKey route) w
    (k8s.AddRoutesFromNSToIngestionQueue numWorkers namespace msg w).
Proof.
  intros Hinf Herr Hin Hns. unfold k8s.AddRoutesFromNSToIngestionQueue. rewrite Hinf.
  destruct (elem_of_List informer namespace route Herr Hin Hns) as (objs & -> & Hobj).
  apply (foldl_replays numWorkers namespace msg _ _ route objs w);
    [| |done|apply extends_refl].
  - intros w1 obj _. apply extends_emit_r, extends_emit.
  - intros w1 _. apply replayed_emits, extends_refl.
Qed.

Lemma AddServicesFromNS_replays `{Externals} (numWorkers : N) (namespace msg : string)
    (informer : Lister Service) (svc : Service) (w : World) :
  lib.GetAdvancedL4 w = false →
  ServiceInformer (informers w) = Some informer → list_err informer = None →
  svc ∈ store informer → Namespace (meta svc) = namespace →
  replayed numWorkers namespace msg (serviceKey svc w) w
    (k8s.AddServicesFromNSToIngestionQueue numWorkers namespace msg w).
Proof.
  intros Hadv Hinf Herr Hin Hns. unfold k8s.AddServicesFromNSToIngestionQueue.
  rewrite Hadv, Hinf.
  destruct (elem_of_List informer namespace svc Herr Hin Hns) as (objs & -> & Hobj).
  apply (foldl_replays numWorkers namespace msg _ _ svc objs w);
    [| |done|apply extends_refl].
  - intros w1 obj _.
    destruct (k8s.isServiceLBType obj && negb (lib.GetLayer7Only w1));
      [destruct (lib.UseServicesAPI w1)|];
      repeat apply extends_emit_r; apply extends_refl.
  - intros w1 [more ->]. unfold serviceKey, lib.GetLayer7Only. cbn [layer7Only set_trace].
    destruct (k8s.isServiceLBType svc && negb (layer7Only w));
      [destruct (lib.UseServicesAPI _)|];
      apply replayed_emits; repeat apply extends_emit_r; apply extends_refl.
Qed.

Lemma AddGatewaysFromNS_replays `{Externals} (numWorkers : N) (namespace msg : string)
    (gw : Gateway) (w : World) :
  list_err (SvcAPIGatewayInformer (informers w)) = None →
  gw ∈ store (SvcAPIGatewayInformer (informers w)) → Namespace (meta gw) = namespace →
  replayed numWorkers namespace msg (lib.Gateway +:+ "/" +:+ utils.ObjKey gw) w
    (k8s.AddGatewaysFromNSToIngestionQueue numWorkers namespace msg w).
Proof.
  intros Herr Hin Hns. unfold k8s.AddGatewaysFromNSToIngestionQueue.
  destruct (elem_of_List _ namespace gw Herr Hin Hns) as (objs & -> & Hobj).
  apply (foldl_replays numWorkers namespace msg _ _ gw objs w);
    [| |done|apply extends_refl].
  - intros w1 obj _. repeat apply extends_emit_r. apply extends_refl.
  - intros w1 _. apply replayed_emits, extends_emit.
Qed.

Lemma namespace_handler_not_advanced_l4 `{Externals} (w : World) :
  k8s.namespaceEventHandler ∈ k8s.SetupEventHandlers w → lib.GetAdvancedL4 w = false.
Proof.
  unfold k8s.SetupEventHandlers. destruct (lib.GetAdvancedL4 w); [|done].
  intros Hin. exfalso. repeat case_decide;
    apply list_elem_of_In in Hin; simpl in Hin; intuition discriminate.
Qed.

(** The replay that follows the update of the namespace filter, for either
    transition: [f1] .. [f4] are the formats of its four Debugf lines. *)
Lemma replay_body `{Externals} (numWorkers : N) (namespace msg f1 f2 f3 f4 : string)
    (w1 : World) :
  let wI :=
    if bool_decide (IngressInformer (informers w1) ≠ None) then
      k8s.AddIngressFromNSToIngestionQueue numWorkers namespace msg
        (emit (Log Debug f1 [namespace]) w1)
    else if bool_decide (RouteInformer (informers w1) ≠ None) then
      k8s.AddRoutesFromNSToIngestionQueue numWorkers namespace msg
        (emit (Log Debug f2 [namespace]) w1)
    else w1 in
  let wS :=
    if bool_decide (ServiceInformer (informers wI) ≠ None) then
      k8s.AddServicesFromNSToIngestionQueue numWorkers namespace msg
        (emit (Log Debug f3 [namespace]) wI)
    else wI in
  let w' :=
    if lib.UseServicesAPI wS then
      k8s.AddGatewaysFromNSToIngestionQueue numWorkers namespace msg
        (emit (Log Debug f4 [namespace]) wS)
    else wS in
  extends w1 w'
  ∧ (∀ informer ing,
        IngressInformer (informers w1) = Some informer → list_err informer = None →
        ing ∈ store informer → Namespace (meta ing) = namespace →
        replayed numWorkers namespace msg (utils.Ingress +:+ "/" +:+ utils.ObjKey ing)
          w1 w')
  ∧ (∀ informer route,
        IngressInformer (informers w1) = None →
        RouteInformer (informers w1) = Some informer → list_err informer = None →
        route ∈ store informer → Namespace (meta route) = namespace →
        replayed numWorkers namespace msg
          (utils.OshiftRoute +:+ "/" +:+ utils.ObjKey route) w1 w')
  ∧ (∀ informer svc,
        lib.GetAdvancedL4 w1 = false →
        ServiceInformer (informers w1) = Some informer → list_err informer = None →
        svc ∈ store informer → Namespace (meta svc) = namespace →
        replayed numWorkers namespace msg (serviceKey svc w1) w1 w')
  ∧ (∀ gw,
        lib.UseServicesAPI w1 = true →
        list_err (SvcAPIGatewayInformer (informers w1)) = None →
        gw ∈ store (SvcAPIGatewayInformer (informers w1)) →
        Namespace (meta gw) = namespace →
        replayed numWorkers namespace msg (lib.Gateway +:+ "/" +:+ utils.ObjKey gw)
          w1 w').
Proof.
  intros wI wS w'.
  assert (HI : extends w1 wI).
  { subst wI. repeat case_bool_decide; try apply extends_refl.
    - eapply extends_trans; [apply extends_emit|apply AddIngressFromNS_extends].
    - eapply extends_trans; [apply extends_emit|apply AddRoutesFromNS_extends]. }
  assert (HS : extends wI wS).
  { subst wS. case_bool_decide; [|apply extends_refl].
    eapply extends_trans; [apply extends_emit|apply AddServicesFromNS_extends]. }
  assert (HG : extends wS w').
  { subst w'. destruct (lib.UseServicesAPI wS); [|apply extends_refl].
    eapply extends_trans; [apply extends_emit|apply AddGatewaysFromNS_extends]. }
  split; [exact (extends_trans _ _ _ HI (extends_trans _ _ _ HS HG))|].
  split; [|split; [|split]].
  - intros informer ing Hinf Herr Hin Hns.
    eapply replayed_extends; [|eapply extends_trans; [exact HS|exact HG]].
    subst wI. rewrite bool_decide_eq_true_2 by by rewrite Hinf.
    eapply extends_replayed; [apply extends_emit|].
    by eapply AddIngressFromNS_replays.
  - intros informer route Hnone Hinf Herr Hin Hns.
    eapply replayed_extends; [|eapply extends_trans; [exact HS|exact HG]].
    subst wI. rewrite bool_decide_eq_false_2 by (rewrite Hnone; by intros Hne).
    rewrite bool_decide_eq_true_2 by by rewrite Hinf.
    eapply extends_replayed; [apply extends_emit|].
    by eapply AddRoutesFromNS_replays.
  - intros informer svc Hadv Hinf Herr Hin Hns.
    eapply replayed_extends; [|exact HG].
    eapply extends_replayed; [exact HI|].
    subst wS. destruct HI as [more HI]. rewrite HI. cbn [informers set_trace].
    rewrite bool_decide_eq_true_2 by by rewrite Hinf.
    eapply extends_replayed; [apply extends_emit|].
    change (serviceKey svc w1)
      with (serviceKey svc (emit (Log Debug f3 [namespace]) (set_trace (trace w1 ++ more) w1))).
    by eapply AddServicesFromNS_replays.
  - intros gw Huse Herr Hin Hns.
    eapply extends_replayed; [eapply extends_trans; [exact HI|exact HS]|].
    subst w'.
    destruct (extends_trans _ _ _ HI HS) as [more HIS]. rewrite HIS.
    change (lib.UseServicesAPI (set_trace (trace w1 ++ more) w1))
      with (lib.UseServicesAPI w1).
    rewrite Huse.
    eapply extends_replayed; [apply extends_emit|].
    by eapply AddGatewaysFromNS_replays.
Qed.

(** C4. Take a Namespace Update event that passes the update filter (the
    ResourceVersion and the hash of the labels differ), with sync enabled and
    the namespace handler installed. If the labels go from not matching the
    namespace filter to matching it, the handler adds the namespace to the
    filter and hands to the ingestion queue, in the bucket of the namespace,
    the key of every Ingress of that namespace (of every Route when the
    cluster has Routes instead of Ingresses), of every Service, and, when the
    services API is in use, of every Gateway, each call being annotated, in
    its log line, with NsFilterAdd. If the labels go from matching to not
    matching, it removes the namespace from the filter and hands over the same
    keys, annotated with NsFilterDelete. *)
Theorem namespace_transition_replays `{Externals} (numWorkers : N)
    (nsOld nsCur : Namespace_) (msg : string) (w : World) :
  DisableSync w = false →
  k8s.namespaceEventHandler ∈ k8s.SetupEventHandlers w →
  k8s.isNamespaceUpdated nsOld nsCur = true →
  let oldNSAccepted :=
    CheckIfNamespaceAcceptedLabels (env w) (nsFilter w) (Name (meta nsOld))
      (Labels (meta nsOld)) false in
  let newNSAccepted :=
    CheckIfNamespaceAcceptedLabels (env w) (nsFilter w) (Name (meta nsCur))
      (Labels (meta nsCur)) false in
  (oldNSAccepted = false ∧ newNSAccepted = true ∧ msg = lib.NsFilterAdd)
  ∨ (oldNSAccepted = true ∧ newNSAccepted = false ∧ msg = lib.NsFilterDelete) →
  let namespace := Name (meta nsCur) in
  let w' := k8s.namespaceEventHandler_UpdateFunc numWorkers nsOld nsCur w in
  nsFilter w' =
    (if newNSAccepted then AddNamespaceToFilter namespace (nsFilter w)
     else DeleteNamespaceFromFilter namespace (nsFilter w))
  ∧ (∀ informer ing,
        IngressInformer (informers w) = Some informer → list_err informer = None →
        ing ∈ store informer → Namespace (meta ing) = namespace →
        replayed numWorkers namespace msg (utils.Ingress +:+ "/" +:+ utils.ObjKey ing)
          w w')
  ∧ (∀ informer route,
        IngressInformer (informers w) = None →
        RouteInformer (informers w) = Some informer → list_err informer = None →
        route ∈ store informer → Namespace (meta route) = namespace →
        replayed numWorkers namespace msg
          (utils.OshiftRoute +:+ "/" +:+ utils.ObjKey route) w w')
  ∧ (∀ informer svc,
        ServiceInformer (informers w) = Some informer → list_err informer = None →
        svc ∈ store informer → Namespace (meta svc) = namespace →
        replayed numWorkers namespace msg (serviceKey svc w) w w')
  ∧ (∀ gw,
        lib.UseServicesAPI w = true →
        list_err (SvcAPIGatewayInformer (informers w)) = None →
        gw ∈ store (SvcAPIGatewayInformer (informers w)) →
        Namespace (meta gw) = namespace →
        replayed numWorkers namespace msg (lib.Gateway +:+ "/" +:+ utils.ObjKey gw)
          w w').
Proof.
  intros Hsync Hinst Hupd oldNSAccepted newNSAccepted Hcase namespace w'.
  pose proof (namespace_handler_not_advanced_l4 w Hinst) as Hadv.
  subst w' namespace. unfold k8s.namespaceEventHandler_UpdateFunc. rewrite Hsync, Hupd.
  fold oldNSAccepted newNSAccepted.
  destruct Hcase as [(Hold & Hnew & ->)|(Hold & Hnew & ->)]; rewrite Hold, Hnew;
    cbn [negb andb].
  - pose proof (replay_body numWorkers (Name (meta nsCur)) lib.NsFilterAdd
                  "Adding ingresses for namespaces: %s"
                  "Adding routes for namespaces: %s"
                  "Adding L4 services for namespaces: %s"
                  "Adding Gatways for namespaces: %s"
                  (set_nsFilter (AddNamespaceToFilter (Name (meta nsCur)) (nsFilter w)) w)) as Hr.
    cbv zeta in Hr |- *. destruct Hr as ([more Hext] & Hing & Hrt & Hsvc & Hgw).
    split; [by rewrite Hext|]. split; [|split; [|split]].
    + intros informer ing. apply Hing.
    + intros informer route. apply Hrt.
    + intros informer svc. by apply Hsvc.
    + intros gw. apply Hgw.
  - pose proof (replay_body numWorkers (Name (meta nsCur)) lib.NsFilterDelete
                  "Deleting ingresses for namespaces: %s"
                  "Deleting routes for namespaces: %s"
                  "Deleting L4 services for namespaces: %s"
                  "Deleting Gatways for namespaces: %s"
                  (set_nsFilter (DeleteNamespaceFromFilter (Name (meta nsCur)) (nsFilter w)) w))
      as Hr.
    cbv zeta in Hr |- *. destruct Hr as ([more Hext] & Hing & Hrt & Hsvc & Hgw).
    split; [by rewrite Hext|]. split; [|split; [|split]].
    + intros informer ing. apply Hing.
    + intros informer route. apply Hrt.
    + intros informer svc. by apply Hsvc.
    + intros gw. apply Hgw.
Qed.

Lemma namespace_transition_replays_witness :
  let nsOld := sample.labelled "red" "10" None in
  let nsCur := sample.labelled "red" "11" (Some {[ "env" := "prod" ]}) in
  let w := sample.world sample.plainEnv false (sample.prodFilter ∅) sample.redInformers ∅ in
  trace (k8s.namespaceEventHandler_UpdateFunc (H := ref.ext) 1 nsOld nsCur w) =
    [Log Debug "Adding ingresses for namespaces: %s" ["red"];
     AddRateLimited ObjectIngestionLayer 0 "Ingress/red/web";
     Log Debug "key: %s, msg: %s for namespace: %s" ["Ingress/red/web"; "NsFilterAdd"; "red"];
     Log Debug "Adding L4 services for namespaces: %s" ["red"];
     AddRateLimited ObjectIngestionLayer 0 "L4LBService/red/lb";
     Log Debug "key: %s, msg: %s for namespace: %s"
       ["L4LBService/red/lb"; "NsFilterAdd"; "red"]]
  ∧ replayed (H := ref.ext) 1 "red" lib.NsFilterAdd "Ingress/red/web" w
      (k8s.namespaceEventHandler_UpdateFunc (H := ref.ext) 1 nsOld nsCur w).
Proof.
  intros nsOld nsCur w. split; [vm_compute; reflexivity|].
  destruct (namespace_transition_replays (H := ref.ext) 1 nsOld nsCur lib.NsFilterAdd w)
    as (_ & Hing & _).
  - reflexivity.
  - apply (bool_decide_unpack _). vm_compute. exact I.
  - vm_compute. reflexivity.
  - left. repeat split; vm_compute; reflexivity.
  - apply (Hing {| store := [sample.ingress "1" None]; list_err := None |}
             (sample.ingress "1" None)).
    + reflexivity.
    + reflexivity.
    + apply list_elem_of_In. left. reflexivity.
    + reflexivity.
Defined.

(** ** Delete-sync (ako_init.go) *)

Lemma select_or_timeout_bound (signal : option N) (timeout : N) :
  ((select_or_timeout signal timeout).2 ≤ timeout)%N.
Proof.
  unfold select_or_timeout. destruct signal as [d|]; simpl; [|lia].
  destruct (d <? timeout)%N eqn:Hlt; simpl; [|lia].
  apply N.ltb_lt in Hlt. lia.
Qed.

Lemma deleteModel_result `{Externals} (w : World) (modelName : string)
    (avimodelIntf : option AviObjectGraph) :
  k8s.deleteModel w (modelName, avimodelIntf) =
    set_graphLister (<[modelName := deletedModel w avimodelIntf]> (graphLister w))
      (set_trace
         (trace w ++ [Log Info "Deleting objects for model: %s" [modelName];
                      AddRateLimited GraphLayer (Bkt modelName (graphNumWorkers w))
                        modelName]) w).
Proof.
  unfold k8s.deleteModel, deletedModel.
  destruct avimodelIntf as [avimodel|]; [destruct (IsVrf avimodel)|];
    unfold emit, set_graphLister, set_trace; simpl;
    rewrite ?insert_insert_eq, <- ?app_assoc; reflexivity.
Qed.

Lemma foldl_deleteModel `{Externals} (l : list (string * option AviObjectGraph))
    (w : World) :
  foldl k8s.deleteModel w l =
    set_graphLister
      (foldl (λ g kv, <[kv.1 := deletedModel w kv.2]> g) (graphLister w) l)
      (set_trace
         (trace w ++
            mjoin ((λ kv, [Log Info "Deleting objects for model: %s" [kv.1];
                           AddRateLimited GraphLayer (Bkt kv.1 (graphNumWorkers w)) kv.1])
                     <$> l)) w).
Proof.
  revert w. induction l as [|[modelName avimodelIntf] l IH]; intros w.
  - simpl. rewrite app_nil_r. by destruct w.
  - cbn [foldl]. rewrite deleteModel_result, IH.
    unfold set_graphLister, set_trace; simpl. by rewrite <- app_assoc.
Qed.

Lemma foldl_insert_other {V} (F : V → V) (l : list (string * V)) (g : gmap string V)
    (k : string) :
  k ∉ l.*1 → foldl (λ g kv, <[kv.1 := F kv.2]> g) g l !! k = g !! k.
Proof.
  revert g. induction l as [|[k' v'] l IH]; intros g Hnotin; [done|].
  simpl in *. apply not_elem_of_cons in Hnotin as [Hne Hnotin].
  rewrite IH by done. by rewrite lookup_insert_ne.
Qed.

Lemma foldl_insert_lookup {V} (F : V → V) (l : list (string * V)) (g : gmap string V)
    (k : string) (v : V) :
  NoDup l.*1 → (k, v) ∈ l →
  foldl (λ g kv, <[kv.1 := F kv.2]> g) g l !! k = Some (F v).
Proof.
  revert g. induction l as [|[k' v'] l IH]; intros g Hnd Hin; [by inversion Hin|].
  simpl in *. apply NoDup_cons in Hnd as [Hnotin Hnd].
  apply elem_of_cons in Hin as [Heq|Hin].
  - inversion Heq; subst k' v'. rewrite foldl_insert_other by done.
    by rewrite lookup_insert_eq.
  - by apply IH.
Qed.

Lemma foldl_emit_each `{Externals} {A} (f : World → A → World) (g : A → Effect)
    (l : list A) (w0 : World) (t : list Effect) :
  (∀ w x, f w x = emit (g x) w) →
  foldl f (set_trace t w0) l = set_trace (t ++ (g <$> l)) w0.
Proof.
  intros Hf. revert t. induction l as [|x l IH]; intros t; simpl.
  - by rewrite app_nil_r.
  - rewrite Hf. change (emit (g x) (set_trace t w0)) with (set_trace (t ++ [g x]) w0).
    rewrite IH. by rewrite <- app_assoc.
Qed.

(** The clean-up does not look at the trace: it appends the same calls
    whatever has been recorded before. *)
Lemma DeleteModels_cleanup_appends `{Externals} (w0 : World) (t : list Effect) :
  k8s.DeleteModels_cleanup (set_trace t w0) =
    set_trace (t ++ trace (k8s.DeleteModels_cleanup (set_trace [] w0))) w0.
Proof.
  assert (Hnpl : ∀ name all t,
            k8s.deleteNPLAnnotations name all (set_trace t w0) =
              set_trace (t ++ trace (k8s.deleteNPLAnnotations name all (set_trace [] w0)))
                w0).
  { intros name [keys|] t'; unfold k8s.deleteNPLAnnotations; [|done].
    rewrite !(foldl_emit_each _
                (λ nsSvc, let '(ns, _, svc) := ExtractTypeNameNamespace nsSvc in
                          DeleteNPLAnnotation nsSvc ns svc));
      [done|intros w x; by destruct (ExtractTypeNameNamespace x) as [[??]?]..]. }
  unfold k8s.DeleteModels_cleanup, lib.AutoAnnotateNPLSvc, lib.GetServiceType, Getenv.
  cbn [env clusterIpLister lbLister set_trace].
  destruct (negb _); [by rewrite app_nil_r|].
  rewrite (Hnpl _ _ t), (Hnpl _ _ (t ++ _)). cbn [lbLister set_trace].
  set (X := k8s.deleteNPLAnnotations "ClusterIpLister" (clusterIpLister w0)
              (set_trace [] w0)).
  assert (HX : X = set_trace (trace X) w0) by exact (Hnpl _ _ []).
  replace (lbLister X) with (lbLister w0) by (rewrite HX; reflexivity).
  replace (k8s.deleteNPLAnnotations "lbLister" (lbLister w0) X)
    with (k8s.deleteNPLAnnotations "lbLister" (lbLister w0) (set_trace (trace X) w0))
    by (rewrite <- HX; reflexivity).
  rewrite (Hnpl _ _ (trace X)). cbn [trace set_trace]. by rewrite <- app_assoc.
Qed.

Lemma vrfOnlyModel_nodes `{Externals} (w : World) :
  IsVrf (k8s.vrfOnlyModel w) = true
  ∧ modelNodes (k8s.vrfOnlyModel w) = [AviVrfNode (lib.GetVrf w)].
Proof. by split. Qed.

(** C2. For every ModelName present in the Graph Lister, [DeleteModels]
    overwrites its graph with nil ([Save(modelName, nil)]), or with a graph
    that holds the VRF node only when the model had its IsVrf flag set, and
    hands the ModelName to the queue of the REST layer. After these calls it
    waits for the completion signal, for at most AviObjDeletionTime = 30
    minutes. When the signal arrives in time it sets the StatefulSet status
    to the deletion-done condition; on timeout it sets it to the
    deletion-timeout condition; in both cases it goes on with the clean-up of
    the NodePortLocal annotations. *)
Theorem DeleteModels_clears_enqueues_waits `{Externals} (w : World) (modelName : string)
    (avimodelIntf : option AviObjectGraph) :
  graphLister w !! modelName = Some avimodelIntf →
  let w' := k8s.DeleteModels w in
  let timeout := (lib.AviObjDeletionTime * 60)%N in
  let outcome := (select_or_timeout (configDeleteSignal w) timeout).1 in
  let elapsed := (select_or_timeout (configDeleteSignal w) timeout).2 in
  graphLister w' !! modelName = Some (deletedModel w avimodelIntf)
  ∧ (∀ g, deletedModel w avimodelIntf = Some g →
          (∃ avimodel, avimodelIntf = Some avimodel ∧ IsVrf avimodel = true)
          ∧ IsVrf g = true ∧ modelNodes g = [AviVrfNode (lib.GetVrf w)])
  ∧ (elapsed ≤ 30 * 60)%N
  ∧ ∃ before : list Effect,
      AddRateLimited GraphLayer (Bkt modelName (graphNumWorkers w)) modelName ∈ before
      ∧ trace w' =
          trace w ++ before
            ++ [Select ConfigDeleteSyncChan timeout elapsed outcome;
                match outcome with
                | Received =>
                    AddStatefulSetStatus lib.ObjectDeletionDoneStatus ConditionFalse
                | TimedOut =>
                    AddStatefulSetStatus lib.ObjectDeletionTimeoutStatus ConditionUnknown
                end;
                match outcome with
                | Received =>
                    Log Info
                      "Processing done for deleteConfig, user would be notified through statefulset update"
                      []
                | TimedOut =>
                    Log Warn
                      "Timed out while waiting for rest layer to respond for delete config"
                      []
                end]
            ++ trace (k8s.DeleteModels_cleanup (set_trace [] w')).
Proof.
  intros Hlookup w' timeout outcome elapsed.
  assert (Hin : (modelName, avimodelIntf) ∈ map_to_list (graphLister w))
    by by apply elem_of_map_to_list.
  assert (Hsize : size (graphLister w) ≠ 0).
  { intros Hz. apply map_size_empty_inv in Hz. rewrite Hz in Hlookup.
    by rewrite lookup_empty in Hlookup. }
  assert (Hw' : ∃ before,
            AddRateLimited GraphLayer (Bkt modelName (graphNumWorkers w)) modelName
              ∈ before
            ∧ w' = k8s.DeleteModels_cleanup
                     (set_trace
                        (trace w ++ before
                           ++ [Select ConfigDeleteSyncChan timeout elapsed outcome;
                               match outcome with
                               | Received =>
                                   AddStatefulSetStatus lib.ObjectDeletionDoneStatus
                                     ConditionFalse
                               | TimedOut =>
                                   AddStatefulSetStatus lib.ObjectDeletionTimeoutStatus
                                     ConditionUnknown
                               end;
                               match outcome with
                               | Received =>
                                   Log Info
                                     "Processing done for deleteConfig, user would be notified through statefulset update"
                                     []
                               | TimedOut =>
                                   Log Warn
                                     "Timed out while waiting for rest layer to respond for delete config"
                                     []
                               end])
                        (set_graphLister
                           (foldl (λ g kv, <[kv.1 := deletedModel w kv.2]> g)
                              (graphLister w) (map_to_list (graphLister w))) w))).
  { subst w' outcome elapsed timeout. unfold k8s.DeleteModels.
    cbn [graphLister emit]. rewrite decide_False by done.
    rewrite foldl_deleteModel.
    unfold lib.SetConfigDeleteSyncChan, k8s.deletionTimeout.
    cbn [configDeleteSignal emit set_trace set_graphLister trace graphLister
           graphNumWorkers].
    destruct (select_or_timeout (configDeleteSignal w) (lib.AviObjDeletionTime * 60))
      as [outcome elapsed].
    exists ([Log Info "Deletion of all avi objects triggered" [];
             AddStatefulSetStatus lib.ObjectDeletionStartStatus ConditionTrue]
            ++ mjoin ((λ kv, [Log Info "Deleting objects for model: %s" [kv.1];
                              AddRateLimited GraphLayer
                                (Bkt kv.1 (graphNumWorkers w)) kv.1])
                        <$> map_to_list (graphLister w))
            ++ [MakeChan ConfigDeleteSyncChan]).
    split.
    - do 2 right. apply elem_of_app. left.
      apply list_elem_of_join.
      exists [Log Info "Deleting objects for model: %s" [modelName];
              AddRateLimited GraphLayer (Bkt modelName (graphNumWorkers w)) modelName].
      split; [right; left|].
      apply list_elem_of_fmap. exists (modelName, avimodelIntf).
      split; [reflexivity|exact Hin].
    - destruct outcome; cbn [fst snd]; f_equal;
        rewrite !emit_set_trace; autorewrite with world;
        rewrite <- ?app_assoc; reflexivity. }
  destruct Hw' as (before & Hbefore & Hw').
  rewrite DeleteModels_cleanup_appends in Hw'.
  split; [|split; [|split]].
  - rewrite Hw'. cbn [graphLister set_trace set_graphLister].
    apply foldl_insert_lookup; [apply NoDup_fst_map_to_list|done].
  - intros g Hg. unfold deletedModel in Hg.
    destruct avimodelIntf as [avimodel|]; [|done].
    destruct (IsVrf avimodel) eqn:Hvrf; [|done].
    inversion Hg; subst g. split; [by eexists|]. apply vrfOnlyModel_nodes.
  - apply (select_or_timeout_bound _ (30 * 60)).
  - exists before. split; [done|].
    rewrite Hw' at 1. cbn [trace set_trace].
    rewrite Hw'. cbn [set_trace]. by rewrite <- !app_assoc.
Qed.

Lemma DeleteModels_clears_enqueues_waits_witness :
  let vrf := {| modelNodes := [AviVrfNode "global"; AviVsNode "stale"]; IsVrf := true;
                GraphChecksum := 7 |} in
  let vs := {| modelNodes := [AviVsNode "c1--Shared-L7-0"]; IsVrf := false;
               GraphChecksum := 9 |} in
  let w := sample.world sample.plainEnv true sample.noFilter sample.noInformers
             {[ "admin/global" := Some vrf; "admin/c1--Shared-L7-0" := Some vs ]} in
  graphLister (k8s.DeleteModels w) !! "admin/c1--Shared-L7-0" = Some None
  ∧ graphLister (k8s.DeleteModels w) !! "admin/global"
    = Some (Some {| modelNodes := [AviVrfNode "global"]; IsVrf := true;
                    GraphChecksum := 1 |}).
Proof.
  intros vrf vs w. split.
  - apply (DeleteModels_clears_enqueues_waits (H := ref.ext) w "admin/c1--Shared-L7-0"
             (Some vs)).
    vm_compute. reflexivity.
  - apply (DeleteModels_clears_enqueues_waits (H := ref.ext) w "admin/global" (Some vrf)).
    vm_compute. reflexivity.
Defined.

(** ** Full sync (ako_init.go) *)

Lemma prefix_emit `{Externals} (e : Effect) (w : World) :
  trace w `prefix_of` trace (emit e w).
Proof. by exists [e]. Qed.

Lemma prefix_dequeue `{Externals} (key : string) (fullsync : bool) (w : World) :
  trace w `prefix_of` trace (nodes.DequeueIngestion key fullsync w).
Proof. by exists [DequeueIngestion key fullsync]. Qed.

Lemma prefix_publish `{Externals} (modelName key : string) (queue : Layer) (w : World) :
  trace w `prefix_of` trace (nodes.PublishKeyToRestLayer modelName key queue w).
Proof. by exists [PublishKeyToRestLayer modelName key queue]. Qed.

Lemma foldl_prefix `{Externals} {A} (f : World → A → World) (l : list A) :
  (∀ w x, trace w `prefix_of` trace (f w x)) →
  ∀ w, trace w `prefix_of` trace (foldl f w l).
Proof.
  intros Hstep. induction l as [|x l IH]; intros w; simpl; [done|].
  etrans; [apply Hstep|apply IH].
Qed.

Lemma foldl_prefix_snd `{Externals} {A B} (f : B * World → A → B * World) (l : list A) :
  (∀ st x, trace st.2 `prefix_of` trace (f st x).2) →
  ∀ st, trace st.2 `prefix_of` trace (foldl f st l).2.
Proof.
  intros Hstep. induction l as [|x l IH]; intros st; simpl; [done|].
  etrans; [apply Hstep|apply IH].
Qed.

(** One step of the proof that a piece of straight-line code only appends to
    the trace. *)
Ltac prefix_step :=
  cbv beta zeta; cbn [fst snd];
  match goal with
  | |- ?t `prefix_of` ?t => reflexivity
  | |- _ `prefix_of` trace (emit _ _) => etrans; [|apply prefix_emit]
  | |- _ `prefix_of` trace (nodes.DequeueIngestion _ _ _) =>
      etrans; [|apply prefix_dequeue]
  | |- _ `prefix_of` trace (nodes.PublishKeyToRestLayer _ _ _ _) =>
      etrans; [|apply prefix_publish]
  | |- _ `prefix_of` trace (foldl _ _ _) => etrans; [|apply foldl_prefix; intros]
  | |- _ `prefix_of` trace (k8s.dequeueAll _ _ _) => unfold k8s.dequeueAll
  | |- _ `prefix_of` trace (match (if ?c then _ else _) with _ => _ end) => destruct c
  | |- _ `prefix_of` trace (match (if ?c then _ else _) with _ => _ end).2 => destruct c
  | |- _ `prefix_of` trace (if ?c then _ else _) => destruct c
  | |- _ `prefix_of` trace (match ?x with _ => _ end) => destruct x
  | |- _ `prefix_of` trace (if ?c then _ else _).2 => destruct c
  | |- _ `prefix_of` trace (match ?x with _ => _ end).2 => destruct x
  end.

Lemma FullSyncK8s_services_prefix `{Externals} (w : World) :
  trace w `prefix_of` trace (k8s.FullSyncK8s_services w).2.
Proof. unfold k8s.FullSyncK8s_services. repeat prefix_step. Qed.

Lemma FullSyncK8s_pods_prefix `{Externals} (w : World) :
  trace w `prefix_of` trace (k8s.FullSyncK8s_pods w).2.
Proof. unfold k8s.FullSyncK8s_pods. repeat prefix_step. Qed.

Lemma FullSyncK8s_crds_prefix `{Externals} (w : World) :
  trace w `prefix_of` trace (k8s.FullSyncK8s_crds w).
Proof. unfold k8s.FullSyncK8s_crds. repeat prefix_step. Qed.

Lemma FullSyncK8s_ingresses_prefix `{Externals} (w : World) :
  trace w `prefix_of` trace (k8s.FullSyncK8s_ingresses w).
Proof. unfold k8s.FullSyncK8s_ingresses. repeat prefix_step. Qed.

Lemma FullSyncK8s_routes_prefix `{Externals} (w : World) :
  trace w `prefix_of` trace (k8s.FullSyncK8s_routes w).
Proof. unfold k8s.FullSyncK8s_routes. repeat prefix_step. Qed.

Lemma FullSyncK8s_svcapi_prefix `{Externals} (w : World) :
  trace w `prefix_of` trace (k8s.FullSyncK8s_svcapi w).2.
Proof. unfold k8s.FullSyncK8s_svcapi. repeat prefix_step. Qed.

Lemma FullSyncK8s_advl4_prefix `{Externals} (w : World) :
  trace w `prefix_of` trace (k8s.FullSyncK8s_advl4 w).2.
Proof. unfold k8s.FullSyncK8s_advl4. repeat prefix_step. Qed.

Lemma FullSyncK8s_publish_prefix `{Externals} (vrfModelName : string) (w : World) :
  trace w `prefix_of` trace (k8s.FullSyncK8s_publish vrfModelName w).
Proof.
  unfold k8s.FullSyncK8s_publish. cbv zeta.
  match goal with
  | |- context [foldl ?f (?a, ?w1) (vsCacheKeys w)] =>
      pose proof (foldl_prefix_snd f (vsCacheKeys w)) as Hfold;
      specialize (Hfold) with (st := (a, w1));
      destruct (foldl f (a, w1) (vsCacheKeys w)) as [allModels w2]
  end.
  etrans; [apply prefix_emit|]. etrans; [apply Hfold|].
  - intros [allModels' w'] vsCacheKey. repeat prefix_step.
  - repeat prefix_step.
Qed.

Lemma FullSyncK8s_rest_prefix `{Externals} (vrfModelName : string) (w : World) :
  trace w `prefix_of` trace (k8s.FullSyncK8s_rest vrfModelName w).2.
Proof.
  unfold k8s.FullSyncK8s_rest.
  pose proof (FullSyncK8s_services_prefix w) as Hsvc.
  destruct (k8s.FullSyncK8s_services w) as [[out|] w1]; [done|]. cbn [snd] in Hsvc.
  pose proof (FullSyncK8s_pods_prefix w1) as Hpods.
  destruct (k8s.FullSyncK8s_pods w1) as [[out|] w2]; cbn [snd] in Hpods;
    [by etrans|].
  assert (Hmid : ∀ out w3,
            (if negb (lib.GetAdvancedL4 w2)
             then k8s.FullSyncK8s_svcapi
                    (k8s.FullSyncK8s_routes
                       (k8s.FullSyncK8s_ingresses (k8s.FullSyncK8s_crds w2)))
             else k8s.FullSyncK8s_advl4 w2) = (out, w3) →
            trace w2 `prefix_of` trace w3).
  { intros out w3 Heq. destruct (negb (lib.GetAdvancedL4 w2)).
    - etrans; [apply FullSyncK8s_crds_prefix|].
      etrans; [apply FullSyncK8s_ingresses_prefix|].
      etrans; [apply FullSyncK8s_routes_prefix|].
      etrans; [apply FullSyncK8s_svcapi_prefix|]. by rewrite Heq.
    - etrans; [apply FullSyncK8s_advl4_prefix|]. by rewrite Heq. }
  cbv zeta.
  destruct (if negb (lib.GetAdvancedL4 w2) then _ else _) as [out w3].
  specialize (Hmid _ _ eq_refl).
  destruct out as [out|]; cbn [snd].
  - by repeat (etrans; [eassumption|]).
  - etrans; [exact Hsvc|]. etrans; [exact Hpods|]. etrans; [exact Hmid|].
    apply FullSyncK8s_publish_prefix.
Qed.

Lemma foldl_DequeueIngestion `{Externals} {A} (key : A → string) (l : list A) (w : World) :
  ∃ g : gmap string (option AviObjectGraph),
    foldl (λ w x, nodes.DequeueIngestion (key x) true w) w l =
      set_graphLister g
        (set_trace (trace w ++ ((λ x, DequeueIngestion (key x) true) <$> l)) w).
Proof.
  revert w. induction l as [|x l IH]; intros w.
  - exists (graphLister w). simpl. rewrite app_nil_r. by destruct w.
  - cbn [foldl]. destruct (IH (nodes.DequeueIngestion (key x) true w)) as [g ->].
    exists g. unfold nodes.DequeueIngestion. rewrite emit_set_trace.
    autorewrite with world. cbn [fmap list_fmap]. by rewrite <- app_assoc.
Qed.

(** C3. In a full sync with sync enabled and the static-route branch taken,
    the vrfcontext model is published to the REST layer before any key other
    than the Node keys is processed: up to that call the trace holds no other
    publication, and the only keys processed are those of the Nodes. The sync
    then waits for the signal on StaticRouteSyncChan for at most 20 seconds,
    and whether the signal came or the timer expired it goes on with the rest
    of the sync (Services, Pods, CRDs, Ingresses, Routes, Gateways, and the
    publication of the models), all of which comes after the wait. This is
    with a Node informer; without one (it is not registered in advanced L4)
    the full sync panics when it lists the Nodes, before it publishes or
    waits. *)
Theorem FullSyncK8s_vrf_first `{Externals} (w : World) :
  DisableSync w = false →
  lib.GetDisableStaticRoute w && negb (lib.IsNodePortMode w) = false →
  let vrfModelName := lib.GetModelName (lib.GetTenant w) (lib.GetVrf w) in
  let outcome := (select_or_timeout (staticRouteSignal w) 20).1 in
  let elapsed := (select_or_timeout (staticRouteSignal w) 20).2 in
  match NodeInformer (informers w) with
  | None => k8s.FullSyncK8s w = (k8s.Panicked, emit (MakeChan StaticRouteSyncChan) w)
  | Some informer =>
      ∃ (before after : list Effect) (w1 : World),
        k8s.FullSyncK8s w = k8s.FullSyncK8s_rest vrfModelName w1
        ∧ trace w1 =
            trace w ++ before
              ++ [PublishKeyToRestLayer vrfModelName "fullsync" GraphLayer;
                  Select StaticRouteSyncChan 20 elapsed outcome;
                  match outcome with
                  | Received => Log Info "Processing done for VRF" []
                  | TimedOut =>
                      Log Warn
                        "Timed out while waiting for rest layer to respond, moving on with bootup"
                        []
                  end]
        ∧ trace (k8s.FullSyncK8s w).2 = trace w1 ++ after
        ∧ (∀ key fullsync,
              DequeueIngestion key fullsync ∈ before →
              ∃ node, node ∈ store informer
                      ∧ key = utils.NodeObj +:+ "/" +:+ Name (meta node))
        ∧ (∀ modelName key queue, PublishKeyToRestLayer modelName key queue ∉ before)
        ∧ (∀ ch timeout elapsed outcome, Select ch timeout elapsed outcome ∉ before)
        ∧ (elapsed ≤ 20)%N
  end.
Proof.
  intros Hsync Hbranch vrfModelName outcome elapsed.
  destruct (NodeInformer (informers w)) as [informer|] eqn:Hnode.
  2:{ unfold k8s.FullSyncK8s, k8s.FullSyncK8s_vrf. rewrite Hsync, Hbranch. cbv zeta.
      change (informers (lib.SetStaticRouteSyncHandler w)) with (informers w).
      by rewrite Hnode. }
  set (nodeObjects := match List_ informer NamespaceAll with
                      | inr objs => objs
                      | inl _ => []
                      end).
  destruct (foldl_DequeueIngestion (λ node : Node, utils.NodeObj +:+ "/" +:+ Name (meta node))
              nodeObjects (lib.SetStaticRouteSyncHandler w)) as [g Hfold].
  set (before := [MakeChan StaticRouteSyncChan]
                 ++ ((λ node : Node,
                        DequeueIngestion (utils.NodeObj +:+ "/" +:+ Name (meta node)) true)
                       <$> nodeObjects)
                 ++ [Log Info "Processing model for vrf context in full sync: %s"
                       [vrfModelName]]).
  set (logline := match outcome with
                  | Received => Log Info "Processing done for VRF" []
                  | TimedOut =>
                      Log Warn
                        "Timed out while waiting for rest layer to respond, moving on with bootup"
                        []
                  end).
  set (w1 := set_graphLister g
               (set_trace
                  (trace w ++ before
                     ++ [PublishKeyToRestLayer vrfModelName "fullsync" GraphLayer;
                         Select StaticRouteSyncChan 20 elapsed outcome; logline]) w)).
  assert (Hvrf : k8s.FullSyncK8s_vrf w = (Some vrfModelName, w1)).
  { unfold k8s.FullSyncK8s_vrf. rewrite Hbranch. cbv zeta.
    change (informers (lib.SetStaticRouteSyncHandler w)) with (informers w).
    rewrite Hnode. fold nodeObjects. rewrite Hfold.
    unfold lib.SetStaticRouteSyncHandler, nodes.PublishKeyToRestLayer, k8s.sharedQueue.
    rewrite !emit_set_trace. autorewrite with world.
    change (staticRouteSignal (set_graphLister g _)) with (staticRouteSignal w).
    subst w1 logline outcome elapsed.
    change (lib.GetModelName (lib.GetTenant (set_graphLister g _))
              (lib.GetVrf (set_graphLister g _))) with vrfModelName.
    destruct (select_or_timeout (staticRouteSignal w) 20) as [outcome elapsed].
    cbn [fst snd].
    destruct outcome; rewrite !emit_set_trace; autorewrite with world;
      do 3 f_equal; subst before; rewrite <- !app_assoc; reflexivity. }
  destruct (FullSyncK8s_rest_prefix vrfModelName w1) as [after Hafter].
  exists before, after, w1.
  assert (Hfull : k8s.FullSyncK8s w = k8s.FullSyncK8s_rest vrfModelName w1).
  { unfold k8s.FullSyncK8s. by rewrite Hsync, Hvrf. }
  split; [exact Hfull|]. split; [reflexivity|].
  split; [by rewrite Hfull|]. split; [|split; [|split]].
  - intros key fullsync Hin. subst before.
    apply elem_of_cons in Hin as [Hin|Hin]; [discriminate Hin|].
    apply elem_of_app in Hin as [Hin|Hin].
    + apply list_elem_of_fmap in Hin as (node & Heq & Hin).
      inversion Heq; subst key fullsync. exists node. split; [|done].
      subst nodeObjects. unfold List_ in Hin.
      destruct (list_err informer); [by inversion Hin|].
      by apply list_elem_of_filter in Hin as [_ Hin].
    + apply list_elem_of_singleton in Hin. discriminate Hin.
  - intros modelName key queue Hin. subst before.
    apply elem_of_cons in Hin as [Hin|Hin]; [discriminate Hin|].
    apply elem_of_app in Hin as [Hin|Hin].
    + apply list_elem_of_fmap in Hin as (node & Heq & _). discriminate Heq.
    + apply list_elem_of_singleton in Hin. discriminate Hin.
  - intros ch timeout elapsed' outcome' Hin. subst before.
    apply elem_of_cons in Hin as [Hin|Hin]; [discriminate Hin|].
    apply elem_of_app in Hin as [Hin|Hin].
    + apply list_elem_of_fmap in Hin as (node & Heq & _). discriminate Heq.
    + apply list_elem_of_singleton in Hin. discriminate Hin.
  - apply select_or_timeout_bound.
Qed.

Lemma FullSyncK8s_vrf_first_witness :
  let w := sample.world sample.plainEnv false sample.noFilter sample.redInformers ∅ in
  ∃ (before after : list Effect) (w1 : World),
    k8s.FullSyncK8s w = k8s.FullSyncK8s_rest "admin/global" w1
    ∧ trace w1 =
        trace w ++ before
          ++ [PublishKeyToRestLayer "admin/global" "fullsync" GraphLayer;
              Select StaticRouteSyncChan 20 20 TimedOut;
              Log Warn
                "Timed out while waiting for rest layer to respond, moving on with bootup"
                []]
    ∧ trace (k8s.FullSyncK8s w).2 = trace w1 ++ after
    ∧ (∀ key fullsync,
          DequeueIngestion key fullsync ∈ before →
          ∃ node, node ∈ [sample.node "n1"]
                  ∧ key = utils.NodeObj +:+ "/" +:+ Name (meta node))
    ∧ (∀ modelName key queue, PublishKeyToRestLayer modelName key queue ∉ before)
    ∧ (∀ ch timeout elapsed outcome, Select ch timeout elapsed outcome ∉ before)
    ∧ (20 ≤ 20)%N.
Proof.
  intros w.
  apply (FullSyncK8s_vrf_first (H := ref.ext) w); vm_compute; reflexivity.
Defined.

(** A full sync in which the REST layer never answers: the timer expires
    after 20 seconds and the Services and the Ingress are processed all the
    same, after the vrfcontext model. *)
Example FullSyncK8s_timeout_proceeds :
  let w := sample.world sample.plainEnv false sample.noFilter sample.redInformers ∅ in
  filter (λ e, negb (is_Log e)) (trace (k8s.FullSyncK8s w).2) =
    [MakeChan StaticRouteSyncChan;
     DequeueIngestion "Node/n1" true;
     PublishKeyToRestLayer "admin/global" "fullsync" GraphLayer;
     Select StaticRouteSyncChan 20 20 TimedOut;
     DequeueIngestion "L4LBService/red/lb" true;
     DequeueIngestion "Service/blue/db" true;
     DequeueIngestion "Ingress/red/web" true].
Proof. vm_compute. reflexivity. Qed.

(** ** What the event handlers never do (controller.go) *)

Lemma ingests_refl `{Externals} (w : World) : ingests w w.
Proof. exists []. split; [|constructor]. rewrite app_nil_r. by destruct w. Qed.

Lemma ingests_emit `{Externals} (e : Effect) (w w' : World) :
  is_ingestion_call e = true → ingests w w' → ingests w (emit e w').
Proof.
  intros He (more & Hw' & Hmore). exists (more ++ [e]). split.
  - rewrite Hw'. unfold emit, set_nsFilter, set_trace; simpl.
    by rewrite <- app_assoc.
  - apply Forall_app. split; [done|]. by constructor.
Qed.

Lemma ingests_logs `{Externals} (l : list Effect) (w w' : World) :
  Forall (λ e, is_Log e = true) l → ingests w w' →
  ingests w (set_trace (trace w' ++ l) w').
Proof.
  intros Hl (more & Hw' & Hmore). exists (more ++ l). split.
  - rewrite Hw'. unfold set_nsFilter, set_trace; simpl.
    by rewrite <- app_assoc.
  - apply Forall_app. split; [done|].
    eapply Forall_impl; [exact Hl|]. by intros [] He.
Qed.

Lemma ingests_set_nsFilter `{Externals} (f : NSFilter) (w w' : World) :
  ingests w w' → ingests w (set_nsFilter f w').
Proof.
  intros (more & Hw' & Hmore). exists more. split; [|done].
  rewrite Hw'. reflexivity.
Qed.

Lemma ingests_trans `{Externals} (w1 w2 w3 : World) :
  ingests w1 w2 → ingests w2 w3 → ingests w1 w3.
Proof.
  intros (m1 & H2 & Hm1) (m2 & H3 & Hm2). exists (m1 ++ m2). split.
  - rewrite H3, H2. unfold set_nsFilter, set_trace; simpl.
    by rewrite <- app_assoc.
  - by apply Forall_app.
Qed.

Lemma ingests_foldl `{Externals} {A} (f : World → A → World) (l : list A) :
  (∀ w x, ingests w (f w x)) → ∀ w, ingests w (foldl f w l).
Proof.
  intros Hstep. induction l as [|x l IH]; intros w; simpl; [apply ingests_refl|].
  eapply ingests_trans; [apply Hstep|apply IH].
Qed.

Lemma adds_le_refl `{Externals} (n : nat) (w : World) : adds_le n w w.
Proof. exists []. split; [by rewrite app_nil_r|simpl; lia]. Qed.

Lemma adds_le_emit_add `{Externals} (bkt : N) (key : string) (w w' : World) :
  adds_le 0 w w' → adds_le 1 w (emit (AddRateLimited ObjectIngestionLayer bkt key) w').
Proof.
  intros (more & Ht & Hn). eexists (more ++ [_]). split.
  - rewrite trace_emit, Ht. by rewrite <- app_assoc.
  - rewrite ingestion_adds_app, length_app. simpl. lia.
Qed.

Lemma adds_le_emit_other `{Externals} (n : nat) (e : Effect) (w w' : World) :
  ingestion_adds [e] = [] → adds_le n w w' → adds_le n w (emit e w').
Proof.
  intros He (more & Ht & Hn). exists (more ++ [e]). split.
  - rewrite trace_emit, Ht. by rewrite <- app_assoc.
  - rewrite ingestion_adds_app, He, app_nil_r. done.
Qed.

Lemma adds_le_logs `{Externals} (n : nat) (l : list Effect) (w w' : World) :
  Forall (λ e, is_Log e = true) l → adds_le n w w' →
  adds_le n w (set_trace (trace w' ++ l) w').
Proof.
  intros Hl (more & Ht & Hn). exists (more ++ l). split.
  - cbn [trace set_trace]. rewrite Ht. by rewrite <- app_assoc.
  - rewrite ingestion_adds_app, (ingestion_adds_logs l Hl), app_nil_r. done.
Qed.

Lemma adds_le_set_nsFilter `{Externals} (n : nat) (f : NSFilter) (w w' : World) :
  adds_le n w w' → adds_le n w (set_nsFilter f w').
Proof. intros (more & Ht & Hn). by exists more. Qed.

(** One step through the body of a handler, for either relation. *)
Ltac handler_step :=
  cbv beta zeta; cbn [fst snd];
  match goal with
  | |- ingests ?w ?w => apply ingests_refl
  | |- adds_le _ ?w ?w => apply adds_le_refl
  | |- ingests _ (emit _ _) => apply ingests_emit; [reflexivity|]
  | |- adds_le _ _ (emit _ _) =>
      first [ apply adds_le_emit_add | apply adds_le_emit_other; [reflexivity|] ]
  | |- ingests _ (set_nsFilter _ _) => apply ingests_set_nsFilter
  | |- adds_le _ _ (set_nsFilter _ _) => apply adds_le_set_nsFilter
  | |- ingests _ (set_trace (trace ?w ++ _) ?w) => apply ingests_logs; [assumption|]
  | |- adds_le _ _ (set_trace (trace ?w ++ _) ?w) => apply adds_le_logs; [assumption|]
  | |- ingests _ (foldl _ _ _) =>
      eapply ingests_trans; [|apply ingests_foldl; intros]
  | |- context [k8s.untombstone _ ?obj _] =>
      is_var obj; destruct obj as [?|[?|]|]; cbn [k8s.untombstone]
  | |- context [lib.HasValidBackends ?spec ?name ?ns ?key ?w] =>
      let warning := fresh "warning" in
      let Hw := fresh "Hw" in
      let Hlog := fresh "Hlog" in
      destruct (HasValidBackends_world spec name ns key w) as (warning & Hw & Hlog);
      destruct (lib.HasValidBackends spec name ns key w) as [? ?];
      cbn [snd] in Hw; subst
  | |- _ _ (match (if ?c then _ else _) with _ => _ end) => destruct c
  | |- _ _ (if ?c then _ else _) => destruct c
  | |- _ _ (match ?x with _ => _ end) => destruct x
  end.

Ltac unfold_handlers :=
  unfold k8s.epEventHandler_AddFunc, k8s.epEventHandler_DeleteFunc,
    k8s.epEventHandler_UpdateFunc, k8s.svcEventHandler_AddFunc,
    k8s.svcEventHandler_DeleteFunc, k8s.svcEventHandler_UpdateFunc,
    k8s.blockAffinityHandler_AddFunc, k8s.blockAffinityHandler_DeleteFunc,
    k8s.hostSubnetHandler_AddFunc, k8s.hostSubnetHandler_DeleteFunc,
    k8s.secretEventHandler_AddFunc, k8s.secretEventHandler_DeleteFunc,
    k8s.secretEventHandler_UpdateFunc, k8s.ingressEventHandler_AddFunc,
    k8s.ingressEventHandler_DeleteFunc, k8s.ingressEventHandler_UpdateFunc,
    k8s.ingressClassEventHandler_AddFunc, k8s.ingressClassEventHandler_DeleteFunc,
    k8s.ingressClassEventHandler_UpdateFunc, k8s.nodeEventHandler_AddFunc,
    k8s.nodeEventHandler_DeleteFunc, k8s.nodeEventHandler_UpdateFunc,
    k8s.routeEventHandler_AddFunc, k8s.routeEventHandler_DeleteFunc,
    k8s.routeEventHandler_UpdateFunc, k8s.namespaceEventHandler_AddFunc,
    k8s.namespaceEventHandler_UpdateFunc, k8s.podEventHandler_AddFunc,
    k8s.podEventHandler_DeleteFunc, k8s.podEventHandler_UpdateFunc.

(** X1. Every handler of controller.go, on every event and in every state, only
    appends to the trace calls of the logger, of the ingestion queue and of
    the status helpers; it may change the namespace filter and changes
    nothing else: it never calls the graph layer, never publishes to the
    REST layer, never touches the Graph Lister and never waits. *)
Theorem handlers_only_ingest `{Externals} (numWorkers : N) (ev : k8s.Event) (w : World) :
  ingests w (k8s.handle numWorkers ev w).
Proof.
  destruct ev; cbn [k8s.handle]; unfold_handlers;
    unfold k8s.AddIngressFromNSToIngestionQueue, k8s.AddRoutesFromNSToIngestionQueue,
      k8s.AddServicesFromNSToIngestionQueue, k8s.AddGatewaysFromNSToIngestionQueue;
    repeat handler_step.
Qed.

(** X2. An event other than a Namespace Update hands at most one key to the
    ingestion queue, whatever the configuration and the object. *)
Theorem handlers_enqueue_at_most_one `{Externals} (numWorkers : N) (ev : k8s.Event)
    (w : World) :
  is_namespace_update ev = false →
  ∃ added : list (N * string),
    ingestion_adds (trace (k8s.handle numWorkers ev w)) = ingestion_adds (trace w) ++ added
    ∧ (length added ≤ 1)%nat.
Proof.
  intros Hev.
  assert (Hle : adds_le 1 w (k8s.handle numWorkers ev w)).
  { destruct ev; try discriminate Hev; cbn [k8s.handle]; unfold_handlers;
      repeat handler_step. }
  destruct Hle as (more & Ht & Hn). exists (ingestion_adds more).
  by rewrite Ht, ingestion_adds_app.
Qed.

Lemma handlers_enqueue_at_most_one_witness :
  let w := sample.world sample.plainEnv false sample.noFilter sample.noInformers ∅ in
  ∃ added : list (N * string),
    ingestion_adds
      (trace (k8s.handle (H := ref.ext) 1
                (k8s.RouteAdd (sample.route "42" None "shop" ["shop-canary"; "shop"])) w))
    = ingestion_adds (trace w) ++ added
    ∧ (length added ≤ 1)%nat.
Proof.
  intros w.
  apply (handlers_enqueue_at_most_one (H := ref.ext) 1
           (k8s.RouteAdd (sample.route "42" None "shop" ["shop-canary"; "shop"])) w).
  reflexivity.
Defined.

(** ** Deletions and tombstones *)

(** X3. For the eight kinds whose DeleteFunc has a tombstone branch (Endpoints,
    Service, Secret, Ingress, IngressClass, Node, Route, Pod), a DeleteFunc
    that receives a tombstone ([cache.DeletedFinalStateUnknown]) holding the
    object does exactly what it does for the object itself; a tombstone that
    holds something else, or a value of another type, is logged as an error
    and nothing is enqueued. The DeleteFuncs of the Calico and OpenShift
    tables have no such branch: on a tombstone or a value of another type
    they panic, unless sync is disabled. *)
Theorem delete_through_tombstone `{Externals} (numWorkers : N) (w : World) :
  (∀ o, k8s.handle numWorkers (k8s.EpDelete (Tombstone (Some o))) w
        = k8s.handle numWorkers (k8s.EpDelete (Live o)) w)
  ∧ (∀ o, k8s.handle numWorkers (k8s.SvcDelete (Tombstone (Some o))) w
          = k8s.handle numWorkers (k8s.SvcDelete (Live o)) w)
  ∧ (∀ o, k8s.handle numWorkers (k8s.SecretDelete (Tombstone (Some o))) w
          = k8s.handle numWorkers (k8s.SecretDelete (Live o)) w)
  ∧ (∀ o, k8s.handle numWorkers (k8s.IngressDelete (Tombstone (Some o))) w
          = k8s.handle numWorkers (k8s.IngressDelete (Live o)) w)
  ∧ (∀ o, k8s.handle numWorkers (k8s.IngressClassDelete (Tombstone (Some o))) w
          = k8s.handle numWorkers (k8s.IngressClassDelete (Live o)) w)
  ∧ (∀ o, k8s.handle numWorkers (k8s.NodeDelete (Tombstone (Some o))) w
          = k8s.handle numWorkers (k8s.NodeDelete (Live o)) w)
  ∧ (∀ o, k8s.handle numWorkers (k8s.RouteDelete (Tombstone (Some o))) w
          = k8s.handle numWorkers (k8s.RouteDelete (Live o)) w)
  ∧ (∀ o, k8s.handle numWorkers (k8s.PodDelete (Tombstone (Some o))) w
          = k8s.handle numWorkers (k8s.PodDelete (Live o)) w)
  ∧ Forall (λ ev, ∃ format,
              k8s.handle numWorkers ev w
              = if DisableSync w then w else emit (Log Error format []) w)
       [k8s.EpDelete (Tombstone None); k8s.EpDelete Unexpected;
        k8s.SvcDelete (Tombstone None); k8s.SvcDelete Unexpected;
        k8s.SecretDelete (Tombstone None); k8s.SecretDelete Unexpected;
        k8s.IngressDelete (Tombstone None); k8s.IngressDelete Unexpected;
        k8s.IngressClassDelete (Tombstone None); k8s.IngressClassDelete Unexpected;
        k8s.NodeDelete (Tombstone None); k8s.NodeDelete Unexpected;
        k8s.RouteDelete (Tombstone None); k8s.RouteDelete Unexpected;
        k8s.PodDelete (Tombstone None); k8s.PodDelete Unexpected]
  ∧ (∀ crd, k8s.blockAffinityHandler_DeleteFunc_obj numWorkers (Live crd) w
            = Some (k8s.handle numWorkers (k8s.BlockAffinityDelete crd) w))
  ∧ (∀ crd, k8s.hostSubnetHandler_DeleteFunc_obj numWorkers (Live crd) w
            = Some (k8s.handle numWorkers (k8s.HostSubnetDelete crd) w))
  ∧ ∀ obj : Deleted Unstructured,
      (∀ crd, obj ≠ Live crd) →
      k8s.blockAffinityHandler_DeleteFunc_obj numWorkers obj w
      = (if DisableSync w
         then Some (emit (Log Debug "calico blockaffinity DELETE Event" []) w)
         else None)
      ∧ k8s.hostSubnetHandler_DeleteFunc_obj numWorkers obj w
        = (if DisableSync w
           then Some (emit (Log Debug "hostsubnets DELETE Event" []) w)
           else None).
Proof.
  do 8 (split; [reflexivity|]).
  split.
  { repeat first [apply Forall_nil_2 | apply Forall_cons_2];
      cbn [k8s.handle]; unfold_handlers;
      (destruct (DisableSync w); [exists EmptyString; reflexivity|eexists; reflexivity]). }
  split; [|split].
  - intros crd. cbn [k8s.handle].
    unfold k8s.blockAffinityHandler_DeleteFunc_obj, k8s.blockAffinityHandler_DeleteFunc.
    cbv zeta. change (DisableSync (emit _ w)) with (DisableSync w).
    destruct (DisableSync w); [done|]. by destruct (u_spec_err crd), (u_spec crd).
  - intros crd. cbn [k8s.handle].
    unfold k8s.hostSubnetHandler_DeleteFunc_obj, k8s.hostSubnetHandler_DeleteFunc.
    cbv zeta. change (DisableSync (emit _ w)) with (DisableSync w).
    destruct (DisableSync w); [done|]. by destruct (u_host_err crd), (u_host crd).
  - intros obj Hobj.
    unfold k8s.blockAffinityHandler_DeleteFunc_obj, k8s.hostSubnetHandler_DeleteFunc_obj.
    cbv zeta. change (DisableSync (emit _ w)) with (DisableSync w).
    destruct (DisableSync w); [done|].
    destruct obj as [crd| |]; [by destruct (Hobj crd)|done|done].
Qed.

(** ** The namespace filter in the handlers *)

(** X4. With the namespace of the object rejected by the namespace filter, an
    Ingress or Route event (Add, Update, or Delete, also through a
    tombstone) enqueues nothing: the handler at most writes one Debugf line
    that names the namespace. *)
Theorem rejected_namespace_not_ingested `{Externals} (numWorkers : N) (ev : k8s.Event)
    (objKey : string) (w : World) :
  filtered_object ev = Some objKey →
  CheckIfNamespaceAccepted (env w) (nsFilter w) (k8s.namespace_of objKey) = false →
  let w' := k8s.handle numWorkers ev w in
  ingestion_adds (trace w') = ingestion_adds (trace w)
  ∧ (w' = w ∨ ∃ format, w' = emit (Log Debug format [k8s.namespace_of objKey]) w).
Proof.
  intros Hobj Hns w'. subst w'.
  assert (Hcases : k8s.handle numWorkers ev w = w
                   ∨ ∃ format,
                       k8s.handle numWorkers ev w
                       = emit (Log Debug format [k8s.namespace_of objKey]) w).
  { destruct ev; try discriminate Hobj;
      try match goal with obj : Deleted _ |- _ => destruct obj as [?|[?|]|] end;
      try discriminate Hobj; injection Hobj as <-;
      cbn [k8s.handle]; unfold_handlers; cbn [k8s.untombstone];
      destruct (DisableSync w); try (by left);
      try destruct (k8s.isIngressUpdated _ _); try destruct (k8s.isRouteUpdated _ _);
      try (by left); rewrite Hns; cbn [negb]; right; by eexists. }
  split; [|exact Hcases].
  destruct Hcases as [->|[format ->]]; [done|].
  rewrite trace_emit, ingestion_adds_app. simpl. by rewrite app_nil_r.
Qed.

Lemma rejected_namespace_not_ingested_witness :
  let w := sample.world sample.plainEnv false (sample.prodFilter ∅) sample.noInformers ∅ in
  let w' := k8s.handle (H := ref.ext) 1 (k8s.IngressAdd (sample.ingress "1" None)) w in
  ingestion_adds (trace w') = ingestion_adds (trace w)
  ∧ (w' = w ∨ ∃ format, w' = emit (Log Debug format [k8s.namespace_of "red/web"]) w).
Proof.
  intros w.
  apply (rejected_namespace_not_ingested (H := ref.ext) 1
           (k8s.IngressAdd (sample.ingress "1" None)) "red/web" w);
    vm_compute; reflexivity.
Defined.

(** X5. With sync enabled, a Service event is enqueued exactly when the Service
    is admitted: a LoadBalancer Service (when layer 4 is handled) by the L4
    namespace test, any other Service by the namespace filter and only
    outside the advanced-L4 mode. The key is L4LBService/<ns>/<name> in the
    first case and Service/<ns>/<name> in the second. An Update is looked at
    when the ResourceVersion or the Annotations differ. *)
Theorem service_events_admission `{Externals} (numWorkers : N) (svc : Service)
    (w : World) :
  DisableSync w = false →
  let entry := (Bkt (k8s.namespace_of (utils.ObjKey svc)) numWorkers, serviceKey svc w) in
  let added (ev : k8s.Event) (l : list (N * string)) :=
    ingestion_adds (trace (k8s.handle numWorkers ev w)) = ingestion_adds (trace w) ++ l in
  added (k8s.SvcAdd svc) (if serviceAdmitted svc w then [entry] else [])
  ∧ added (k8s.SvcDelete (Live svc)) (if serviceAdmitted svc w then [entry] else [])
  ∧ ∀ oldobj : Service,
      added (k8s.SvcUpdate oldobj svc)
        (if (bool_decide (ResourceVersion (meta oldobj) ≠ ResourceVersion (meta svc))
             || bool_decide (Annotations (meta svc) ≠ Annotations (meta oldobj)))
            && serviceAdmitted svc w
         then [entry] else []).
Proof.
  intros Hsync entry added. subst entry added. cbv beta.
  unfold serviceAdmitted, serviceKey.
  repeat split; [| |intros oldobj]; cbn [k8s.handle]; unfold_handlers;
    cbn [k8s.untombstone]; rewrite Hsync; cbv zeta.
  - destruct (k8s.isServiceLBType svc && negb (lib.GetLayer7Only w)).
    + destruct (IsServiceNSValid _ _ _); cbn [negb fst snd].
      * destruct (lib.GetAdvancedL4 w), (lib.UseServicesAPI _);
          rewrite !trace_emit, !ingestion_adds_app; simpl;
          rewrite ?app_nil_r; reflexivity.
      * rewrite !trace_emit, !ingestion_adds_app; simpl. by rewrite ?app_nil_r.
    + destruct (lib.GetAdvancedL4 w); cbn [negb orb andb]; [by rewrite app_nil_r|].
      destruct (CheckIfNamespaceAccepted _ _ _); cbn [negb];
        rewrite ?trace_emit, ?ingestion_adds_app; simpl; by rewrite ?app_nil_r.
  - destruct (k8s.isServiceLBType svc && negb (lib.GetLayer7Only w)).
    + destruct (IsServiceNSValid _ _ _); cbn [negb fst snd];
        rewrite !trace_emit, !ingestion_adds_app; simpl; by rewrite ?app_nil_r.
    + destruct (lib.GetAdvancedL4 w); cbn [negb orb andb]; [by rewrite app_nil_r|].
      destruct (CheckIfNamespaceAccepted _ _ _); cbn [negb];
        rewrite ?trace_emit, ?ingestion_adds_app; simpl; by rewrite ?app_nil_r.
  - assert (Hannot : negb (bool_decide (Annotations (meta svc) = Annotations (meta oldobj)))
                     = bool_decide (Annotations (meta svc) ≠ Annotations (meta oldobj))).
    { by repeat case_bool_decide. }
    rewrite Hannot.
    destruct (bool_decide _ || bool_decide _); cbn [andb]; [|by rewrite app_nil_r].
    destruct (k8s.isServiceLBType svc && negb (lib.GetLayer7Only w)).
    + destruct (IsServiceNSValid _ _ _); cbn [negb fst snd].
      * destruct (lib.GetAdvancedL4 w), (lib.UseServicesAPI _);
          rewrite !trace_emit, !ingestion_adds_app; simpl;
          rewrite ?app_nil_r; reflexivity.
      * rewrite !trace_emit, !ingestion_adds_app; simpl. by rewrite ?app_nil_r.
    + destruct (lib.GetAdvancedL4 w); cbn [negb orb andb]; [by rewrite app_nil_r|].
      destruct (CheckIfNamespaceAccepted _ _ _); cbn [negb];
        rewrite ?trace_emit, ?ingestion_adds_app; simpl; by rewrite ?app_nil_r.
Qed.

Lemma service_events_admission_witness :
  let w := sample.world sample.plainEnv false sample.noFilter sample.noInformers ∅ in
  ingestion_adds
    (trace (k8s.handle (H := ref.ext) 1
              (k8s.SvcAdd (sample.service "red" "lb" "LoadBalancer")) w))
  = [(0%N, "L4LBService/red/lb")].
Proof.
  intros w.
  pose proof (service_events_admission (H := ref.ext) 1
                (sample.service "red" "lb" "LoadBalancer") w eq_refl) as [Hadd _].
  vm_compute in Hadd |- *. exact Hadd.
Defined.

(** ** Update filters of Endpoints and Nodes *)

(** X6. Endpoints events bypass the namespace filter. With sync enabled, Add and
    Delete always enqueue Endpoints/<ns>/<name>, and an Update enqueues it
    exactly when the Subsets of the old and the new object are not deeply
    equal, whatever the ResourceVersions are. *)
Theorem endpoints_events_admission `{Externals} (numWorkers : N) (cep : Endpoints)
    (w : World) :
  DisableSync w = false →
  let entry := (Bkt (k8s.namespace_of (utils.ObjKey cep)) numWorkers,
                utils.Endpoints +:+ "/" +:+ utils.ObjKey cep) in
  let added (ev : k8s.Event) (l : list (N * string)) :=
    ingestion_adds (trace (k8s.handle numWorkers ev w)) = ingestion_adds (trace w) ++ l in
  added (k8s.EpAdd cep) [entry]
  ∧ added (k8s.EpDelete (Live cep)) [entry]
  ∧ ∀ oep : Endpoints,
      added (k8s.EpUpdate oep cep)
        (if bool_decide (ep_Subsets cep ≠ ep_Subsets oep) then [entry] else []).
Proof.
  intros Hsync entry added. subst entry added. cbv beta.
  repeat split; [| |intros oep]; cbn [k8s.handle]; unfold_handlers;
    cbn [k8s.untombstone]; rewrite Hsync; cbv zeta;
    try (rewrite !trace_emit, !ingestion_adds_app; simpl; by rewrite ?app_nil_r).
  repeat case_bool_decide; try done; cbn [negb];
    rewrite ?trace_emit, ?ingestion_adds_app; simpl; by rewrite ?app_nil_r.
Qed.

Lemma endpoints_events_admission_witness :
  let ep := {| ep_meta := sample.objectMeta "blue" "db" "5" None;
               ep_Subsets := Some [ {| ep_Addresses := Some ["10.1.0.7"];
                                       ep_Ports := Some [5432%Z] |} ] |} in
  let w := sample.world sample.plainEnv false (sample.prodFilter ∅) sample.noInformers ∅ in
  ingestion_adds (trace (k8s.handle (H := ref.ext) 1 (k8s.EpAdd ep) w))
  = [(0%N, "Endpoints/blue/db")].
Proof.
  intros ep w.
  pose proof (endpoints_events_admission (H := ref.ext) 1 ep w eq_refl) as [Hadd _].
  vm_compute in Hadd |- *. exact Hadd.
Defined.

(** X7. With sync enabled, a Node Update event enqueues Node/<name>, in the
    bucket of the tenant, exactly when the ResourceVersion differs and one of
    these differs: the number of addresses, the first InternalIP address, the
    PodCIDR, the labels. Any other change (an ExternalIP, an annotation, a
    condition) only writes the line "node object did not change". *)
Theorem node_update_admission `{Externals} (numWorkers : N) (oldobj node : Node)
    (w : World) :
  DisableSync w = false →
  let key := utils.NodeObj +:+ "/" +:+ Name (meta node) in
  let changed :=
    ResourceVersion (meta oldobj) ≠ ResourceVersion (meta node)
    ∧ (length (node_Addresses oldobj) ≠ length (node_Addresses node)
       ∨ k8s.firstInternalIP (node_Addresses oldobj)
         ≠ k8s.firstInternalIP (node_Addresses node)
       ∨ node_PodCIDR oldobj ≠ node_PodCIDR node
       ∨ Labels (meta oldobj) ≠ Labels (meta node)) in
  k8s.handle numWorkers (k8s.NodeUpdate oldobj node) w =
    (if bool_decide changed
     then emit (Log Debug "key: %s, msg: UPDATE" [key])
            (emit (AddRateLimited ObjectIngestionLayer
                     (Bkt (lib.GetTenant w) numWorkers) key) w)
     else emit (Log Debug "key: %s, msg: node object did not change\n" [key]) w).
Proof.
  intros Hsync key changed. subst key changed.
  cbn [k8s.handle]. unfold k8s.nodeEventHandler_UpdateFunc, k8s.isNodeUpdated.
  rewrite Hsync. cbv zeta.
  destruct (decide (ResourceVersion (meta oldobj) = ResourceVersion (meta node)))
    as [Hrv|Hrv]; [by rewrite bool_decide_eq_false_2 by tauto|].
  destruct (decide (length (node_Addresses oldobj) ≠ length (node_Addresses node)))
    as [Hlen|Hlen]; [by rewrite bool_decide_eq_true_2 by tauto|].
  destruct (decide (k8s.firstInternalIP (node_Addresses oldobj)
                    ≠ k8s.firstInternalIP (node_Addresses node)))
    as [Hip|Hip]; [by rewrite bool_decide_eq_true_2 by tauto|].
  destruct (decide (node_PodCIDR oldobj ≠ node_PodCIDR node))
    as [Hcidr|Hcidr]; [by rewrite bool_decide_eq_true_2 by tauto|].
  destruct (decide (Labels (meta oldobj) = Labels (meta node))) as [Hl|Hl].
  - rewrite (bool_decide_eq_true_2 (Labels _ = Labels _)) by done. cbn [negb].
    by rewrite bool_decide_eq_false_2 by tauto.
  - rewrite (bool_decide_eq_false_2 (Labels _ = Labels _)) by done. cbn [negb].
    by rewrite bool_decide_eq_true_2 by tauto.
Qed.

Lemma node_update_admission_witness :
  let old := sample.node "n1" in
  let new := {| node_meta := sample.objectMeta "" "n1" "2" None;
                node_Addresses := [ {| addr_Type := "InternalIP";
                                       addr_Address := "10.0.0.1" |} ];
                node_PodCIDR := "10.244.1.0/24" |} in
  let w := sample.world sample.plainEnv false sample.noFilter sample.noInformers ∅ in
  ingestion_adds (trace (k8s.handle (H := ref.ext) 1 (k8s.NodeUpdate old new) w))
  = [(0%N, "Node/n1")].
Proof.
  intros old new w.
  rewrite (node_update_admission (H := ref.ext) 1 old new w eq_refl).
  vm_compute. reflexivity.
Defined.

(** ** Which handler tables are installed *)

Lemma GetModelName_not_empty `{Externals} (namespace objectName : string) :
  lib.GetModelName namespace objectName ≠ "".
Proof. unfold lib.GetModelName. by destruct namespace. Qed.

(** X8. [SetupEventHandlers] installs no table twice and never both CNI tables.
    In advanced-L4 mode it stops after the Gateway handlers: no Ingress,
    IngressClass, Node, Route, CRD, Namespace or Pod table is installed.
    Outside that mode the Node table is installed exactly when a full sync
    runs its static-route part, that is when it returns the name of the
    vrfcontext model or, without a Node informer, panics. *)
Theorem SetupEventHandlers_shape `{Externals} (w : World) :
  NoDup (k8s.SetupEventHandlers w)
  ∧ ¬ (k8s.blockAffinityHandler ∈ k8s.SetupEventHandlers w
       ∧ k8s.hostSubnetHandler ∈ k8s.SetupEventHandlers w)
  ∧ (if lib.GetAdvancedL4 w
     then k8s.SetupEventHandlers w ⊆
            [k8s.epEventHandler; k8s.svcEventHandler; k8s.blockAffinityHandler;
             k8s.hostSubnetHandler; k8s.secretEventHandler; k8s.AdvL4EventHandlers]
     else (k8s.nodeEventHandler ∈ k8s.SetupEventHandlers w
           ↔ (k8s.FullSyncK8s_vrf w).1
             = match NodeInformer (informers w) with
               | Some _ => Some (lib.GetModelName (lib.GetTenant w) (lib.GetVrf w))
               | None => None
               end)).
Proof.
  assert (Hcni : ¬ (GetCNIPlugin (env w) = lib.CALICO_CNI
                    ∧ GetCNIPlugin (env w) = lib.OPENSHIFT_CNI)).
  { intros [Hc Ho]. rewrite Hc in Ho. discriminate Ho. }
  assert (Hvrf : (k8s.FullSyncK8s_vrf w).1
                 = if lib.GetDisableStaticRoute w && negb (lib.IsNodePortMode w)
                   then Some ""
                   else match NodeInformer (informers w) with
                        | Some _ =>
                            Some (lib.GetModelName (lib.GetTenant w) (lib.GetVrf w))
                        | None => None
                        end).
  { unfold k8s.FullSyncK8s_vrf.
    destruct (lib.GetDisableStaticRoute w && negb (lib.IsNodePortMode w)); [done|].
    cbv zeta.
    change (informers (lib.SetStaticRouteSyncHandler w)) with (informers w).
    destruct (NodeInformer (informers w)) as [informer|]; [|done].
    destruct (foldl_DequeueIngestion
                (λ node : Node, utils.NodeObj +:+ "/" +:+ Name (meta node))
                (match List_ informer NamespaceAll with
                 | inr objs => objs
                 | inl _ => []
                 end)
                (lib.SetStaticRouteSyncHandler w)) as [g ->].
    by destruct (select_or_timeout _ _) as [[] ?]. }
  rewrite Hvrf. clear Hvrf.
  pose proof (GetModelName_not_empty (lib.GetTenant w) (lib.GetVrf w)) as Hne.
  unfold k8s.SetupEventHandlers. rewrite !decide_bool_decide.
  assert (Hx : bool_decide (GetCNIPlugin (env w) = lib.CALICO_CNI)
               && bool_decide (GetCNIPlugin (env w) = lib.OPENSHIFT_CNI) = false).
  { apply andb_false_iff. destruct (decide (GetCNIPlugin (env w) = lib.CALICO_CNI)).
    - right. apply bool_decide_eq_false_2. tauto.
    - left. by apply bool_decide_eq_false_2. }
  revert Hx Hne.
  generalize (NodeInformer (informers w)) as nodeInformer.
  generalize (lib.GetModelName (lib.GetTenant w) (lib.GetVrf w)) as name.
  generalize (bool_decide (GetCNIPlugin (env w) = lib.CALICO_CNI)) as calico.
  generalize (bool_decide (GetCNIPlugin (env w) = lib.OPENSHIFT_CNI)) as openshift.
  generalize (bool_decide (SecretInformer (informers w) ≠ None)) as secret.
  generalize (lib.GetAdvancedL4 w) as advl4.
  generalize (lib.UseServicesAPI w) as svcapi.
  generalize (bool_decide (IngressInformer (informers w) ≠ None)) as ing.
  generalize (bool_decide (IngressClassInformer (informers w) ≠ None)) as ingcls.
  generalize (lib.GetDisableStaticRoute w && negb (lib.IsNodePortMode w)) as skip.
  generalize (bool_decide (RouteInformer (informers w) ≠ None)) as route.
  generalize (EnableMigration (nsFilter w)
              && bool_decide (NSInformer (informers w) ≠ None)) as ns.
  generalize (bool_decide (lib.GetServiceType w = lib.NodePortLocal)) as pod.
  intros pod ns route skip ingcls ing svcapi advl4 secret openshift calico name
    nodeInformer Hx Hne.
  destruct nodeInformer as [informer|];
    destruct calico, openshift; try discriminate Hx; clear Hx;
    destruct secret, advl4, svcapi, ing, ingcls, skip, route, ns, pod; cbv beta iota;
    (split; [apply (bool_decide_unpack _); vm_compute; exact I|]);
    (split; [apply (bool_decide_unpack _); vm_compute; exact I|]);
    first [ apply (bool_decide_unpack _); vm_compute; exact I
          | split; [intros _; reflexivity
                   |intros _; apply (bool_decide_unpack _); vm_compute; exact I]
          | split; [intros Hin; exfalso; revert Hin;
                    apply (bool_decide_unpack _); vm_compute; exact I
                   |intros Heq; first [discriminate Heq|by injection Heq as <-]] ].
Qed.

(** ** Delete-sync as a whole (ako_init.go) *)

Lemma foldl_insert_fmap {V} (F : V → V) (g : gmap string V) :
  foldl (λ g kv, <[kv.1 := F kv.2]> g) g (map_to_list g) = F <$> g.
Proof.
  apply map_eq. intros k. rewrite lookup_fmap.
  destruct (g !! k) as [v|] eqn:Hk; simpl.
  - apply foldl_insert_lookup; [apply NoDup_fst_map_to_list|].
    by apply elem_of_map_to_list.
  - rewrite foldl_insert_other; [done|].
    intros Hin. apply list_elem_of_fmap in Hin as ([k' v] & -> & Hin).
    apply elem_of_map_to_list in Hin. simpl in Hk. congruence.
Qed.

Lemma graph_adds_app (t t' : list Effect) :
  graph_adds (t ++ t') = graph_adds t ++ graph_adds t'.
Proof. apply omap_app. Qed.

Lemma graph_adds_deleted `{Externals} (n : N) (l : list (string * option AviObjectGraph)) :
  graph_adds (mjoin ((λ kv, [Log Info "Deleting objects for model: %s" [kv.1];
                             AddRateLimited GraphLayer (Bkt kv.1 n) kv.1]) <$> l))
  = (λ kv, (Bkt kv.1 n, kv.1)) <$> l.
Proof.
  induction l as [|kv l IH]; [done|]. rewrite !fmap_cons. cbn [mjoin list_join].
  rewrite graph_adds_app. change (graph_adds [_; _]) with [(Bkt kv.1 n, kv.1)].
  cbn [app]. f_equal. exact IH.
Qed.

Lemma graph_adds_cleanup `{Externals} (w : World) :
  graph_adds (trace (k8s.DeleteModels_cleanup (set_trace [] w))) = [].
Proof.
  assert (Hnpl : ∀ name all t,
            ∃ more, k8s.deleteNPLAnnotations name all (set_trace t w)
                    = set_trace (t ++ more) w ∧ graph_adds more = []).
  { intros name [keys|] t; unfold k8s.deleteNPLAnnotations.
    - rewrite (foldl_emit_each _
                 (λ nsSvc, let '(ns, _, svc) := ExtractTypeNameNamespace nsSvc in
                           DeleteNPLAnnotation nsSvc ns svc));
        [|intros w' x; by destruct (ExtractTypeNameNamespace x) as [[??]?]].
      eexists. split; [reflexivity|].
      induction keys as [|k keys IH]; [done|]. simpl.
      by destruct (ExtractTypeNameNamespace k) as [[??]?].
    - by eexists [_]. }
  unfold k8s.DeleteModels_cleanup.
  destruct (negb _); [done|].
  destruct (Hnpl "ClusterIpLister" (clusterIpLister (set_trace [] w)) []) as (m1 & -> & H1).
  destruct (Hnpl "lbLister" (lbLister (set_trace ([] ++ m1) w)) ([] ++ m1)) as (m2 & -> & H2).
  cbn [trace set_trace]. by rewrite !graph_adds_app, H1, H2.
Qed.

(** What [DeleteModels] does as a whole: the world it returns differs from
    the one it starts from in the Graph Lister and in the trace only. *)
Lemma DeleteModels_result `{Externals} (w : World) :
  ∃ more : list Effect,
    k8s.DeleteModels w
    = set_graphLister (deletedModel w <$> graphLister w) (set_trace (trace w ++ more) w)
    ∧ graph_adds more
      = (λ kv, (Bkt kv.1 (graphNumWorkers w), kv.1)) <$> map_to_list (graphLister w)
    ∧ (graphLister w = ∅ →
       more = [Log Info "Deletion of all avi objects triggered" [];
               AddStatefulSetStatus lib.ObjectDeletionStartStatus ConditionTrue;
               Log Info "No Avi Object to delete, status would be updated in Statefulset" [];
               AddStatefulSetStatus lib.ObjectDeletionDoneStatus ConditionFalse]).
Proof.
  unfold k8s.DeleteModels. cbn [graphLister emit].
  destruct (decide (size (graphLister w) = 0)) as [Hz|Hnz].
  - apply map_size_empty_inv in Hz. eexists. split; [|split; [|reflexivity]].
    + rewrite Hz, fmap_empty. unfold emit, set_graphLister, set_trace; simpl.
      rewrite <- !app_assoc. simpl. f_equal. exact Hz.
    + by rewrite Hz, map_to_list_empty.
  - rewrite foldl_deleteModel.
    unfold lib.SetConfigDeleteSyncChan, k8s.deletionTimeout.
    cbn [configDeleteSignal emit set_trace set_graphLister trace graphLister
           graphNumWorkers].
    destruct (select_or_timeout (configDeleteSignal w) (lib.AviObjDeletionTime * 60))
      as [outcome elapsed].
    set (t := [Log Info "Deletion of all avi objects triggered" [];
               AddStatefulSetStatus lib.ObjectDeletionStartStatus ConditionTrue]
              ++ mjoin ((λ kv, [Log Info "Deleting objects for model: %s" [kv.1];
                                AddRateLimited GraphLayer
                                  (Bkt kv.1 (graphNumWorkers w)) kv.1])
                          <$> map_to_list (graphLister w))
              ++ [MakeChan ConfigDeleteSyncChan;
                  Select ConfigDeleteSyncChan (lib.AviObjDeletionTime * 60) elapsed outcome;
                  match outcome with
                  | Received =>
                      AddStatefulSetStatus lib.ObjectDeletionDoneStatus ConditionFalse
                  | TimedOut =>
                      AddStatefulSetStatus lib.ObjectDeletionTimeoutStatus ConditionUnknown
                  end;
                  match outcome with
                  | Received =>
                      Log Info
                        "Processing done for deleteConfig, user would be notified through statefulset update"
                        []
                  | TimedOut =>
                      Log Warn
                        "Timed out while waiting for rest layer to respond for delete config"
                        []
                  end]).
    assert (Ht : graph_adds t
                 = (λ kv, (Bkt kv.1 (graphNumWorkers w), kv.1))
                     <$> map_to_list (graphLister w)).
    { subst t. rewrite !graph_adds_app, graph_adds_deleted.
      destruct outcome; simpl; by rewrite app_nil_r. }
    match goal with
    | |- context [k8s.DeleteModels_cleanup ?X] =>
        assert (HX : X = set_trace (trace w ++ t)
                           (set_graphLister
                              (foldl (λ g kv, <[kv.1 := deletedModel w kv.2]> g)
                                 (graphLister w) (map_to_list (graphLister w))) w))
    end.
    { subst t. destruct outcome; cbn [fst snd];
        rewrite !emit_set_trace; autorewrite with world;
        rewrite <- ?app_assoc; reflexivity. }
    assert (Hgoal : ∀ X,
              X = set_trace (trace w ++ t)
                    (set_graphLister
                       (foldl (λ g kv, <[kv.1 := deletedModel w kv.2]> g)
                          (graphLister w) (map_to_list (graphLister w))) w) →
              ∃ more,
                k8s.DeleteModels_cleanup X
                = set_graphLister (deletedModel w <$> graphLister w)
                    (set_trace (trace w ++ more) w)
                ∧ graph_adds more
                  = (λ kv, (Bkt kv.1 (graphNumWorkers w), kv.1))
                      <$> map_to_list (graphLister w)
                ∧ (graphLister w = ∅ →
                   more = [Log Info "Deletion of all avi objects triggered" [];
                           AddStatefulSetStatus lib.ObjectDeletionStartStatus ConditionTrue;
                           Log Info
                             "No Avi Object to delete, status would be updated in Statefulset"
                             [];
                           AddStatefulSetStatus lib.ObjectDeletionDoneStatus
                             ConditionFalse])).
    { intros X ->. rewrite foldl_insert_fmap, DeleteModels_cleanup_appends.
      eexists (t ++ _). split; [|split].
      - rewrite <- app_assoc. reflexivity.
      - by rewrite graph_adds_app, graph_adds_cleanup, app_nil_r.
      - intros Hempty. rewrite Hempty in Hnz. by rewrite map_size_empty in Hnz. }
    destruct outcome; cbn [fst snd]; apply Hgoal; exact HX.
Qed.

(** X9. [DeleteModels] rewrites the Graph Lister entry by entry: it keeps the
    set of model names, leaves under every name nil or the VRF-only graph,
    and changes nothing else but the trace. Run a second time it leaves the
    Graph Lister as the first run left it. *)
Theorem DeleteModels_graph_lister `{Externals} (w : World) :
  let w' := k8s.DeleteModels w in
  graphLister w' = deletedModel w <$> graphLister w
  ∧ dom (graphLister w') = dom (graphLister w)
  ∧ set_trace (trace w) (set_graphLister (graphLister w) w') = w
  ∧ graphLister (k8s.DeleteModels w') = graphLister w'.
Proof.
  intros w'. subst w'.
  destruct (DeleteModels_result w) as (more & Hw' & _).
  destruct (DeleteModels_result (k8s.DeleteModels w)) as (more' & Hw'' & _).
  rewrite Hw'' at 1. rewrite Hw'. cbn [graphLister set_graphLister set_trace].
  split; [done|]. split; [by rewrite dom_fmap_L|]. split.
  { unfold set_graphLister, set_trace; simpl. by destruct w. }
  rewrite <- map_fmap_compose. apply map_fmap_ext. intros k x _. simpl.
  unfold deletedModel. destruct x as [avimodel|]; [|done].
  destruct (IsVrf avimodel); done.
Qed.

(** X10. [DeleteModels] hands every model name of the Graph Lister to the queue
    of the graph layer exactly once, in the bucket [Bkt] gives for it, and
    hands it nothing else; on an empty Graph Lister it sets the deletion-start
    and then the deletion-done status and returns without waiting. *)
Theorem DeleteModels_graph_queue `{Externals} (w : World) :
  let w' := k8s.DeleteModels w in
  ∃ more : list Effect,
    trace w' = trace w ++ more
    ∧ graph_adds more
      = (λ kv, (Bkt kv.1 (graphNumWorkers w), kv.1)) <$> map_to_list (graphLister w)
    ∧ NoDup (graph_adds more).*2
    ∧ (∀ modelName, modelName ∈ (graph_adds more).*2 ↔ is_Some (graphLister w !! modelName))
    ∧ (graphLister w = ∅ →
       more = [Log Info "Deletion of all avi objects triggered" [];
               AddStatefulSetStatus lib.ObjectDeletionStartStatus ConditionTrue;
               Log Info "No Avi Object to delete, status would be updated in Statefulset" [];
               AddStatefulSetStatus lib.ObjectDeletionDoneStatus ConditionFalse]).
Proof.
  intros w'. subst w'.
  destruct (DeleteModels_result w) as (more & Hw' & Hadds & Hempty).
  exists more. rewrite Hw'. cbn [trace set_graphLister set_trace].
  split; [done|]. split; [done|].
  assert (Hnames : (graph_adds more).*2 = (map_to_list (graphLister w)).*1).
  { rewrite Hadds. rewrite <- list_fmap_compose. done. }
  rewrite Hnames. split; [apply NoDup_fst_map_to_list|]. split; [|done].
  intros modelName. rewrite list_elem_of_fmap. split.
  - intros ([k v] & -> & Hin). apply elem_of_map_to_list in Hin. by eexists.
  - intros [v Hv]. exists (modelName, v). split; [done|]. by apply elem_of_map_to_list.
Qed.

(** ** Full sync as a whole (ako_init.go) *)

Lemma syncs_refl `{Externals} (P : Effect → bool) (w : World) : syncs P w w.
Proof. exists []. split; [|constructor]. rewrite app_nil_r. by destruct w. Qed.

Lemma syncs_trans `{Externals} (P : Effect → bool) (w1 w2 w3 : World) :
  syncs P w1 w2 → syncs P w2 w3 → syncs P w1 w3.
Proof.
  intros (m1 & H2 & Hm1) (m2 & H3 & Hm2). exists (m1 ++ m2). split.
  - rewrite H3, H2. unfold set_graphLister, set_trace; simpl.
    by rewrite <- app_assoc.
  - by apply Forall_app.
Qed.

Lemma syncs_emit `{Externals} (P : Effect → bool) (e : Effect) (w w' : World) :
  P e = true → syncs P w w' → syncs P w (emit e w').
Proof.
  intros He Hw'. eapply syncs_trans; [exact Hw'|].
  exists [e]. split; [by destruct w'|by constructor].
Qed.

Lemma syncs_dequeue `{Externals} (P : Effect → bool) (key : string) (fullsync : bool)
    (w w' : World) :
  P (DequeueIngestion key fullsync) = true → syncs P w w' →
  syncs P w (nodes.DequeueIngestion key fullsync w').
Proof.
  intros He Hw'. eapply syncs_trans; [exact Hw'|].
  exists [DequeueIngestion key fullsync]. split; [done|by constructor].
Qed.

Lemma syncs_publish `{Externals} (P : Effect → bool) (modelName key : string)
    (queue : Layer) (w w' : World) :
  P (PublishKeyToRestLayer modelName key queue) = true → syncs P w w' →
  syncs P w (nodes.PublishKeyToRestLayer modelName key queue w').
Proof. apply syncs_emit. Qed.

Lemma syncs_foldl `{Externals} {A} (P : Effect → bool) (f : World → A → World)
    (l : list A) :
  (∀ w x, syncs P w (f w x)) → ∀ w, syncs P w (foldl f w l).
Proof.
  intros Hstep. induction l as [|x l IH]; intros w; simpl; [apply syncs_refl|].
  eapply syncs_trans; [apply Hstep|apply IH].
Qed.

Lemma syncs_foldl_snd `{Externals} {A B} (P : Effect → bool)
    (f : B * World → A → B * World) (l : list A) :
  (∀ st x, syncs P st.2 (f st x).2) → ∀ st, syncs P st.2 (foldl f st l).2.
Proof.
  intros Hstep. induction l as [|x l IH]; intros st; simpl; [apply syncs_refl|].
  eapply syncs_trans; [apply Hstep|apply IH].
Qed.

Lemma syncs_weaken `{Externals} (P Q : Effect → bool) (w w' : World) :
  (∀ e, P e = true → Q e = true) → syncs P w w' → syncs Q w w'.
Proof.
  intros HPQ (more & Hw' & Hmore). exists more. split; [done|].
  eapply Forall_impl; [exact Hmore|]. exact HPQ.
Qed.

(** One step through a piece of the full sync. *)
Ltac sync_step :=
  cbv beta zeta; cbn [fst snd];
  match goal with
  | |- syncs _ ?w ?w => apply syncs_refl
  | |- syncs _ _ (emit _ _) => apply syncs_emit; [reflexivity|]
  | |- syncs _ _ (nodes.DequeueIngestion _ _ _) => apply syncs_dequeue; [reflexivity|]
  | |- syncs _ _ (nodes.PublishKeyToRestLayer _ _ _ _) =>
      apply syncs_publish; [reflexivity|]
  | |- syncs _ _ (foldl _ _ _) => eapply syncs_trans; [|apply syncs_foldl; intros]
  | |- syncs _ _ (k8s.dequeueAll _ _ _) => unfold k8s.dequeueAll
  | |- syncs _ _ (match (if ?c then _ else _) with _ => _ end) => destruct c
  | |- syncs _ _ (match (if ?c then _ else _) with _ => _ end).2 => destruct c
  | |- syncs _ _ (if ?c then _ else _) => destruct c
  | |- syncs _ _ (match ?x with _ => _ end) => destruct x
  | |- syncs _ _ (if ?c then _ else _).2 => destruct c
  | |- syncs _ _ (match ?x with _ => _ end).2 => destruct x
  end.

Lemma FullSyncK8s_services_syncs `{Externals} (w : World) :
  syncs is_graph_call w (k8s.FullSyncK8s_services w).2.
Proof. unfold k8s.FullSyncK8s_services. repeat sync_step. Qed.

Lemma FullSyncK8s_pods_syncs `{Externals} (w : World) :
  syncs is_graph_call w (k8s.FullSyncK8s_pods w).2.
Proof. unfold k8s.FullSyncK8s_pods. repeat sync_step. Qed.

Lemma FullSyncK8s_crds_syncs `{Externals} (w : World) :
  syncs is_graph_call w (k8s.FullSyncK8s_crds w).
Proof. unfold k8s.FullSyncK8s_crds. repeat sync_step. Qed.

Lemma FullSyncK8s_ingresses_syncs `{Externals} (w : World) :
  syncs is_graph_call w (k8s.FullSyncK8s_ingresses w).
Proof. unfold k8s.FullSyncK8s_ingresses. repeat sync_step. Qed.

Lemma FullSyncK8s_routes_syncs `{Externals} (w : World) :
  syncs is_graph_call w (k8s.FullSyncK8s_routes w).
Proof. unfold k8s.FullSyncK8s_routes. repeat sync_step. Qed.

Lemma FullSyncK8s_svcapi_syncs `{Externals} (w : World) :
  syncs is_graph_call w (k8s.FullSyncK8s_svcapi w).2.
Proof. unfold k8s.FullSyncK8s_svcapi. repeat sync_step. Qed.

Lemma FullSyncK8s_advl4_syncs `{Externals} (w : World) :
  syncs is_graph_call w (k8s.FullSyncK8s_advl4 w).2.
Proof. unfold k8s.FullSyncK8s_advl4. repeat sync_step. Qed.

Lemma FullSyncK8s_publish_syncs `{Externals} (vrfModelName : string) (w : World) :
  syncs is_graph_call w (k8s.FullSyncK8s_publish vrfModelName w).
Proof.
  unfold k8s.FullSyncK8s_publish. cbv zeta.
  match goal with
  | |- context [foldl ?f (?a, ?w1) (vsCacheKeys w)] =>
      pose proof (syncs_foldl_snd is_graph_call f (vsCacheKeys w)) as Hfold;
      specialize (Hfold) with (st := (a, w1));
      destruct (foldl f (a, w1) (vsCacheKeys w)) as [allModels w2]
  end.
  eapply syncs_trans;
    [apply (syncs_emit _ (Log Debug "Got the VS keys: %s" []));
       [reflexivity|apply syncs_refl]|].
  eapply syncs_trans; [apply Hfold|].
  - intros [allModels' w'] vsCacheKey. repeat sync_step.
  - repeat sync_step.
Qed.

Lemma FullSyncK8s_rest_syncs `{Externals} (vrfModelName : string) (w : World) :
  syncs is_graph_call w (k8s.FullSyncK8s_rest vrfModelName w).2.
Proof.
  unfold k8s.FullSyncK8s_rest.
  pose proof (FullSyncK8s_services_syncs w) as Hsvc.
  destruct (k8s.FullSyncK8s_services w) as [[out|] w1]; [done|]. cbn [snd] in Hsvc.
  pose proof (FullSyncK8s_pods_syncs w1) as Hpods.
  destruct (k8s.FullSyncK8s_pods w1) as [[out|] w2]; cbn [snd] in Hpods;
    [by eapply syncs_trans|].
  assert (Hmid : ∀ out w3,
            (if negb (lib.GetAdvancedL4 w2)
             then k8s.FullSyncK8s_svcapi
                    (k8s.FullSyncK8s_routes
                       (k8s.FullSyncK8s_ingresses (k8s.FullSyncK8s_crds w2)))
             else k8s.FullSyncK8s_advl4 w2) = (out, w3) →
            syncs is_graph_call w2 w3).
  { intros out w3 Heq. destruct (negb (lib.GetAdvancedL4 w2)).
    - eapply syncs_trans; [apply FullSyncK8s_crds_syncs|].
      eapply syncs_trans; [apply FullSyncK8s_ingresses_syncs|].
      eapply syncs_trans; [apply FullSyncK8s_routes_syncs|].
      pose proof (FullSyncK8s_svcapi_syncs
                    (k8s.FullSyncK8s_routes
                       (k8s.FullSyncK8s_ingresses (k8s.FullSyncK8s_crds w2)))) as Hs.
      by rewrite Heq in Hs.
    - pose proof (FullSyncK8s_advl4_syncs w2) as Hs. by rewrite Heq in Hs. }
  cbv zeta.
  destruct (if negb (lib.GetAdvancedL4 w2) then _ else _) as [out w3].
  specialize (Hmid _ _ eq_refl).
  assert (H3 : syncs is_graph_call w w3).
  { eapply syncs_trans; [exact Hsvc|]. eapply syncs_trans; [exact Hpods|exact Hmid]. }
  destruct out as [out|]; cbn [snd]; [exact H3|].
  eapply syncs_trans; [exact H3|apply FullSyncK8s_publish_syncs].
Qed.

Lemma syncs_fields `{Externals} (P : Effect → bool) (w w' : World) :
  syncs P w w' → informers w' = informers w ∧ env w' = env w ∧ nsFilter w' = nsFilter w.
Proof. intros (more & -> & _). done. Qed.

Lemma graph_calls_no_select (l : list Effect) :
  Forall (λ e, is_graph_call e = true) l → filter (λ e, is_Select e = true) l = [].
Proof.
  induction 1 as [|e l He _ IH]; [done|].
  rewrite filter_cons_False; [exact IH|]. by destruct e.
Qed.

(** The static-route part of the full sync, when it runs. *)
Lemma FullSyncK8s_vrf_result `{Externals} (w : World) (informer : Lister Node) :
  lib.GetDisableStaticRoute w && negb (lib.IsNodePortMode w) = false →
  NodeInformer (informers w) = Some informer →
  ∃ (g : gmap string (option AviObjectGraph)) (nodeObjects : list Node) (logline : Effect),
    is_Log logline = true
    ∧ k8s.FullSyncK8s_vrf w =
        (Some (lib.GetModelName (lib.GetTenant w) (lib.GetVrf w)),
         set_graphLister g
           (set_trace
              (trace w
                 ++ [MakeChan StaticRouteSyncChan]
                 ++ ((λ node : Node,
                        DequeueIngestion (utils.NodeObj +:+ "/" +:+ Name (meta node)) true)
                       <$> nodeObjects)
                 ++ [Log Info "Processing model for vrf context in full sync: %s"
                       [lib.GetModelName (lib.GetTenant w) (lib.GetVrf w)];
                     PublishKeyToRestLayer
                       (lib.GetModelName (lib.GetTenant w) (lib.GetVrf w)) "fullsync"
                       GraphLayer;
                     Select StaticRouteSyncChan 20
                       (select_or_timeout (staticRouteSignal w) 20).2
                       (select_or_timeout (staticRouteSignal w) 20).1;
                     logline]) w)).
Proof.
  intros Hbranch Hnode. unfold k8s.FullSyncK8s_vrf. rewrite Hbranch. cbv zeta.
  change (informers (lib.SetStaticRouteSyncHandler w)) with (informers w).
  rewrite Hnode.
  set (nodeObjects := match List_ informer NamespaceAll with
                      | inr objs => objs
                      | inl _ => []
                      end).
  destruct (foldl_DequeueIngestion (λ node : Node, utils.NodeObj +:+ "/" +:+ Name (meta node))
              nodeObjects (lib.SetStaticRouteSyncHandler w)) as [g ->].
  unfold lib.SetStaticRouteSyncHandler, nodes.PublishKeyToRestLayer, k8s.sharedQueue.
  rewrite !emit_set_trace. autorewrite with world.
  change (staticRouteSignal (set_graphLister g _)) with (staticRouteSignal w).
  change (lib.GetModelName (lib.GetTenant (set_graphLister g _))
            (lib.GetVrf (set_graphLister g _)))
    with (lib.GetModelName (lib.GetTenant w) (lib.GetVrf w)).
  destruct (select_or_timeout (staticRouteSignal w) 20) as [outcome elapsed].
  cbn [fst snd].
  destruct outcome; eexists g, nodeObjects, _;
    (split; [|rewrite !emit_set_trace; autorewrite with world;
              do 3 f_equal; rewrite <- !app_assoc; reflexivity]); reflexivity.
Qed.

(** The static-route part of the full sync without a Node informer. *)
Lemma FullSyncK8s_vrf_panic `{Externals} (w : World) :
  lib.GetDisableStaticRoute w && negb (lib.IsNodePortMode w) = false →
  NodeInformer (informers w) = None →
  k8s.FullSyncK8s_vrf w = (None, emit (MakeChan StaticRouteSyncChan) w).
Proof.
  intros Hbranch Hnode. unfold k8s.FullSyncK8s_vrf. rewrite Hbranch. cbv zeta.
  change (informers (lib.SetStaticRouteSyncHandler w)) with (informers w).
  by rewrite Hnode.
Qed.

Lemma syncs_intro `{Externals} (P : Effect → bool)
    (g : gmap string (option AviObjectGraph)) (more : list Effect) (w : World) :
  Forall (λ e, P e = true) more →
  syncs P w (set_graphLister g (set_trace (trace w ++ more) w)).
Proof. intros Hmore. by exists more. Qed.

Lemma syncs_trace `{Externals} (P : Effect → bool) (w w' : World) :
  syncs P w w' → ∃ more, trace w' = trace w ++ more ∧ Forall (λ e, P e = true) more.
Proof. intros (more & -> & Hmore). by exists more. Qed.

Lemma sync_calls_no_adds (l : list Effect) :
  Forall (λ e, is_sync_call e = true) l → ingestion_adds l = [] ∧ graph_adds l = [].
Proof.
  induction 1 as [|e l He _ [IHi IHg]]; [done|].
  change (e :: l) with ([e] ++ l).
  rewrite ingestion_adds_app, graph_adds_app, IHi, IHg, !app_nil_r.
  by destruct e as [| [] | | | | | | [] | [] | | | | ].
Qed.

Lemma FullSyncK8s_syncs `{Externals} (w : World) :
  syncs is_sync_call w (k8s.FullSyncK8s w).2.
Proof.
  assert (Hweak : ∀ e, is_graph_call e = true → is_sync_call e = true).
  { by intros []. }
  unfold k8s.FullSyncK8s. destruct (DisableSync w).
  { cbn [snd]. apply syncs_emit; [done|apply syncs_refl]. }
  destruct (lib.GetDisableStaticRoute w && negb (lib.IsNodePortMode w)) eqn:Hbranch.
  - unfold k8s.FullSyncK8s_vrf. rewrite Hbranch.
    eapply syncs_trans; [apply syncs_emit; [|apply syncs_refl]|
                         eapply syncs_weaken; [exact Hweak|apply FullSyncK8s_rest_syncs]].
    done.
  - destruct (NodeInformer (informers w)) as [informer|] eqn:Hnode.
    2:{ rewrite (FullSyncK8s_vrf_panic w Hbranch Hnode). cbn [snd].
        apply syncs_emit; [done|apply syncs_refl]. }
    destruct (FullSyncK8s_vrf_result w informer Hbranch Hnode)
      as (g & nodeObjects & logline & Hlog & ->).
    eapply syncs_trans;
      [|eapply syncs_weaken; [exact Hweak|apply FullSyncK8s_rest_syncs]].
    apply syncs_intro. constructor; [done|]. apply Forall_app. split.
    + apply Forall_fmap, Forall_true. by intros node.
    + repeat constructor. by destruct logline.
Qed.

(** The number of waits of a full sync. *)
Lemma FullSyncK8s_selects `{Externals} (w : World) :
  ∃ more : list Effect,
    trace (k8s.FullSyncK8s w).2 = trace w ++ more
    ∧ length (filter (λ e, is_Select e = true) more)
      = (if DisableSync w || (lib.GetDisableStaticRoute w && negb (lib.IsNodePortMode w))
            || bool_decide (NodeInformer (informers w) = None)
         then 0 else 1)%nat.
Proof.
  unfold k8s.FullSyncK8s. destruct (DisableSync w); cbn [orb].
  { by eexists [_]. }
  destruct (lib.GetDisableStaticRoute w && negb (lib.IsNodePortMode w)) eqn:Hbranch.
  - unfold k8s.FullSyncK8s_vrf. rewrite Hbranch.
    destruct (syncs_trace _ _ _
                (FullSyncK8s_rest_syncs ""
                   (emit (Log Info "Static route sync disabled, skipping node informers" [])
                      w))) as (more & Ht & Hmore).
    exists ([Log Info "Static route sync disabled, skipping node informers" []] ++ more).
    split.
    + rewrite Ht, trace_emit. by rewrite <- app_assoc.
    + rewrite filter_app, (graph_calls_no_select more Hmore). done.
  - destruct (NodeInformer (informers w)) as [informer|] eqn:Hnode.
    2:{ rewrite (FullSyncK8s_vrf_panic w Hbranch Hnode). cbn [snd orb].
        by exists [MakeChan StaticRouteSyncChan]. }
    destruct (FullSyncK8s_vrf_result w informer Hbranch Hnode)
      as (g & nodeObjects & logline & Hlog & ->).
    match goal with
    | |- context [k8s.FullSyncK8s_rest ?n ?w1] =>
        destruct (syncs_trace _ _ _ (FullSyncK8s_rest_syncs n w1)) as (more & Ht & Hmore)
    end.
    eexists (_ ++ more). split.
    + rewrite Ht. autorewrite with world. rewrite <- app_assoc. reflexivity.
    + rewrite !filter_app, (graph_calls_no_select more Hmore), app_nil_r.
      rewrite filter_cons_False by done.
      assert (Hnodes : filter (λ e, is_Select e = true)
                         ((λ node : Node,
                             DequeueIngestion
                               (utils.NodeObj +:+ "/" +:+ Name (meta node)) true)
                            <$> nodeObjects) = []).
      { apply graph_calls_no_select, Forall_fmap, Forall_true. by intros node. }
      rewrite Hnodes. destruct logline; try discriminate Hlog. reflexivity.
Qed.

(** X11. A full sync changes nothing but the Graph Lister and the trace. Apart
    from the one wait for the static routes, with its channel, everything it
    calls is the logger, the graph layer (a key processed directly, a model
    published to the REST layer) or a Gateway status helper. It makes no
    call of [AddRateLimited] of its own, so it puts no key on the ingestion
    queue; the queue of the graph layer is what it hands to every
    publication. It waits exactly once, and not at all when sync is
    disabled, when the static-route part is skipped, or when that part panics
    for want of a Node informer. *)
Theorem FullSyncK8s_calls `{Externals} (w : World) :
  let w' := (k8s.FullSyncK8s w).2 in
  ∃ more : list Effect,
    w' = set_graphLister (graphLister w') (set_trace (trace w ++ more) w)
    ∧ Forall (λ e, is_sync_call e = true) more
    ∧ (∀ layer bkt key, AddRateLimited layer bkt key ∉ more)
    ∧ ingestion_adds more = []
    ∧ (∀ modelName key queue,
         PublishKeyToRestLayer modelName key queue ∈ more → queue = GraphLayer)
    ∧ length (filter (λ e, is_Select e = true) more)
      = (if DisableSync w || (lib.GetDisableStaticRoute w && negb (lib.IsNodePortMode w))
            || bool_decide (NodeInformer (informers w) = None)
         then 0 else 1)%nat.
Proof.
  intros w'. subst w'.
  destruct (FullSyncK8s_syncs w) as (more & Hw' & Hmore).
  destruct (FullSyncK8s_selects w) as (more' & Ht & Hsel).
  assert (more' = more) as ->.
  { apply (f_equal trace) in Hw'. cbn [trace set_graphLister set_trace] in Hw'.
    rewrite Ht in Hw'. by apply app_inv_head in Hw'. }
  exists more. split; [exact Hw'|]. split; [exact Hmore|].
  destruct (sync_calls_no_adds more Hmore) as [Hi Hg].
  split; [|split; [exact Hi|split; [|exact Hsel]]].
  - intros layer bkt key Hin.
    by apply (proj1 (Forall_forall _ _) Hmore) in Hin.
  - intros modelName key queue Hin.
    apply (proj1 (Forall_forall _ _) Hmore) in Hin. by destruct queue.
Qed.

(** *** The result of a full sync *)

Lemma same_config `{Externals} (w w' : World) :
  informers w' = informers w → env w' = env w →
  lib.GetServiceType w' = lib.GetServiceType w
  ∧ lib.GetAdvancedL4 w' = lib.GetAdvancedL4 w
  ∧ lib.UseServicesAPI w' = lib.UseServicesAPI w
  ∧ ∀ informer, abort_listers informer w' = abort_listers informer w.
Proof.
  intros Hinf Henv.
  assert (Hget : ∀ k, Getenv k w' = Getenv k w) by (intros k; unfold Getenv; by rewrite Henv).
  assert (H1 : lib.GetServiceType w' = lib.GetServiceType w) by apply Hget.
  assert (H2 : lib.GetAdvancedL4 w' = lib.GetAdvancedL4 w).
  { unfold lib.GetAdvancedL4. by rewrite Hget. }
  assert (H3 : lib.UseServicesAPI w' = lib.UseServicesAPI w).
  { unfold lib.UseServicesAPI. by rewrite Hget. }
  repeat split; try done.
  intros informer. unfold abort_listers. by rewrite H1, H2, H3, Hinf.
Qed.

Lemma FullSyncK8s_services_out `{Externals} (w : World) :
  (k8s.FullSyncK8s_services w).1 =
    match ServiceInformer (informers w) with
    | None => Some k8s.Panicked
    | Some informer =>
        match list_err informer with
        | Some err => Some (k8s.Returned (Some err))
        | None => None
        end
    end.
Proof.
  unfold k8s.FullSyncK8s_services, List_.
  destruct (ServiceInformer (informers w)) as [informer|]; [|done].
  by destruct (list_err informer).
Qed.

Lemma FullSyncK8s_pods_out `{Externals} (w : World) :
  (k8s.FullSyncK8s_pods w).1 =
    match (if decide (lib.GetServiceType w = lib.NodePortLocal)
           then list_err (PodInformer (informers w)) else None) with
    | Some err => Some (k8s.Returned (Some err))
    | None => None
    end.
Proof.
  unfold k8s.FullSyncK8s_pods, List_.
  destruct (decide _); [|done]. by destruct (list_err _).
Qed.

Lemma FullSyncK8s_svcapi_out `{Externals} (w : World) :
  (k8s.FullSyncK8s_svcapi w).1 =
    match first_error (if lib.UseServicesAPI w then
                         [list_err (SvcAPIGatewayInformer (informers w));
                          list_err (SvcAPIGatewayClassInformer (informers w))]
                       else []) with
    | Some err => Some (k8s.Returned (Some err))
    | None => None
    end.
Proof.
  unfold k8s.FullSyncK8s_svcapi, List_.
  destruct (lib.UseServicesAPI w); [|done].
  destruct (list_err (SvcAPIGatewayInformer (informers w))); [done|]. cbv zeta.
  match goal with
  | |- context [foldl ?f w ?l] =>
      destruct (syncs_fields is_graph_call w (foldl f w l)) as (-> & _);
        [apply syncs_foldl; intros; repeat sync_step|]
  end.
  by destruct (list_err (SvcAPIGatewayClassInformer (informers w))).
Qed.

Lemma FullSyncK8s_advl4_out `{Externals} (w : World) :
  (k8s.FullSyncK8s_advl4 w).1 =
    match first_error [list_err (AdvL4GatewayInformer (informers w));
                       list_err (AdvL4GatewayClassInformer (informers w))] with
    | Some err => Some (k8s.Returned (Some err))
    | None => None
    end.
Proof.
  unfold k8s.FullSyncK8s_advl4, List_.
  destruct (list_err (AdvL4GatewayInformer (informers w))); [done|]. cbv zeta.
  match goal with
  | |- context [foldl ?f w ?l] =>
      destruct (syncs_fields is_graph_call w (foldl f w l)) as (-> & _);
        [apply syncs_foldl; intros; repeat sync_step|]
  end.
  by destruct (list_err (AdvL4GatewayClassInformer (informers w))).
Qed.

Lemma FullSyncK8s_rest_out `{Externals} (vrfModelName : string) (w : World) :
  (k8s.FullSyncK8s_rest vrfModelName w).1 =
    match ServiceInformer (informers w) with
    | None => k8s.Panicked
    | Some informer => k8s.Returned (first_error (abort_listers informer w))
    end.
Proof.
  unfold k8s.FullSyncK8s_rest.
  pose proof (FullSyncK8s_services_out w) as Ho1.
  pose proof (FullSyncK8s_services_syncs w) as Hs1.
  destruct (k8s.FullSyncK8s_services w) as [o1 w1]. cbn [fst snd] in Ho1, Hs1. subst o1.
  destruct (ServiceInformer (informers w)) as [informer|]; [|done].
  unfold abort_listers.
  destruct (list_err informer) as [err|]; [done|]. cbn [app first_error foldr].
  apply syncs_fields in Hs1 as (Hinf1 & Henv1 & _).
  destruct (same_config w w1 Hinf1 Henv1) as (Hst1 & Hadv1 & Huse1 & _).
  pose proof (FullSyncK8s_pods_out w1) as Ho2.
  pose proof (FullSyncK8s_pods_syncs w1) as Hs2.
  destruct (k8s.FullSyncK8s_pods w1) as [o2 w2]. cbn [fst snd] in Ho2, Hs2. subst o2.
  rewrite Hst1, Hinf1.
  destruct (if decide (lib.GetServiceType w = lib.NodePortLocal)
            then list_err (PodInformer (informers w)) else None) as [err|]; [done|].
  apply syncs_fields in Hs2 as (Hinf2 & Henv2 & _).
  rewrite Hinf1 in Hinf2. rewrite Henv1 in Henv2.
  destruct (same_config w w2 Hinf2 Henv2) as (Hst2 & Hadv2 & Huse2 & _).
  rewrite Hadv2. cbv zeta.
  destruct (lib.GetAdvancedL4 w); cbn [negb].
  - pose proof (FullSyncK8s_advl4_out w2) as Ho3. rewrite Hinf2 in Ho3.
    destruct (k8s.FullSyncK8s_advl4 w2) as [o3 w3]. cbn [fst] in Ho3. subst o3.
    fold (first_error [list_err (AdvL4GatewayInformer (informers w));
                       list_err (AdvL4GatewayClassInformer (informers w))]).
    by destruct (first_error _).
  - set (w5 := k8s.FullSyncK8s_routes
                 (k8s.FullSyncK8s_ingresses (k8s.FullSyncK8s_crds w2))).
    assert (Hs5 : syncs is_graph_call w2 w5).
    { eapply syncs_trans; [apply FullSyncK8s_crds_syncs|].
      eapply syncs_trans; [apply FullSyncK8s_ingresses_syncs|].
      apply FullSyncK8s_routes_syncs. }
    apply syncs_fields in Hs5 as (Hinf5 & Henv5 & _).
    rewrite Hinf2 in Hinf5. rewrite Henv2 in Henv5.
    destruct (same_config w w5 Hinf5 Henv5) as (_ & _ & Huse5 & _).
    pose proof (FullSyncK8s_svcapi_out w5) as Ho3. rewrite Hinf5, Huse5 in Ho3.
    destruct (k8s.FullSyncK8s_svcapi w5) as [o3 w3]. cbn [fst] in Ho3. subst o3.
    fold (first_error (if lib.UseServicesAPI w
                       then [list_err (SvcAPIGatewayInformer (informers w));
                             list_err (SvcAPIGatewayClassInformer (informers w))]
                       else [])).
    by destruct (first_error _).
Qed.

(** X12. With sync enabled, a full sync panics when its static-route part runs
    without a Node informer, and when there is no Service informer.
    Otherwise it returns the error of the first of these [List] calls that
    fails, and nil when none does: Services, Pods (with NodePortLocal), the
    Gateways and GatewayClasses of the advanced-L4 mode or of the services
    API. An error of the HostRule, HTTPRule, AviInfraSetting, Ingress, Route
    or Node lister never makes the full sync fail. *)
Theorem FullSyncK8s_result `{Externals} (w : World) :
  DisableSync w = false →
  (k8s.FullSyncK8s w).1 =
    if negb (lib.GetDisableStaticRoute w && negb (lib.IsNodePortMode w))
       && bool_decide (NodeInformer (informers w) = None)
    then k8s.Panicked
    else
      match ServiceInformer (informers w) with
      | None => k8s.Panicked
      | Some informer => k8s.Returned (first_error (abort_listers informer w))
      end.
Proof.
  intros Hsync.
  unfold k8s.FullSyncK8s. rewrite Hsync.
  destruct (lib.GetDisableStaticRoute w && negb (lib.IsNodePortMode w)) eqn:Hbranch;
    cbn [negb andb].
  - unfold k8s.FullSyncK8s_vrf. rewrite Hbranch.
    rewrite FullSyncK8s_rest_out.
    change (informers (emit _ w)) with (informers w).
    destruct (ServiceInformer (informers w)); [|done].
    by destruct (same_config w (emit (Log Info
                                         "Static route sync disabled, skipping node informers"
                                         []) w) eq_refl eq_refl) as (_ & _ & _ & ->).
  - destruct (NodeInformer (informers w)) as [nodeInformer|] eqn:Hnode.
    2:{ by rewrite (FullSyncK8s_vrf_panic w Hbranch Hnode). }
    rewrite bool_decide_eq_false_2 by done.
    destruct (FullSyncK8s_vrf_result w nodeInformer Hbranch Hnode)
      as (g & nodeObjects & logline & _ & ->).
    rewrite FullSyncK8s_rest_out.
    change (informers (set_graphLister g _)) with (informers w).
    destruct (ServiceInformer (informers w)); [|done].
    match goal with
    | |- context [abort_listers _ ?w1] =>
        by destruct (same_config w w1 eq_refl eq_refl) as (_ & _ & _ & ->)
    end.
Qed.

Lemma FullSyncK8s_result_witness :
  let failing := {| store := []; list_err := Some "connection refused" |} in
  let infs := {|
    IngressInformer := Some failing; RouteInformer := None;
    ServiceInformer := Some {| store := []; list_err := None |};
    SecretInformer := None; IngressClassInformer := None; NSInformer := None;
    NodeInformer := Some {| store := []; list_err := None |};
    PodInformer := {| store := []; list_err := None |};
    HostRuleInformer := {| store := []; list_err := Some "no such resource" |};
    HTTPRuleInformer := {| store := []; list_err := None |};
    AviInfraSettingInformer := {| store := []; list_err := None |};
    SvcAPIGatewayInformer := {| store := []; list_err := None |};
    SvcAPIGatewayClassInformer := {| store := []; list_err := None |};
    AdvL4GatewayInformer := {| store := []; list_err := None |};
    AdvL4GatewayClassInformer := {| store := []; list_err := None |} |} in
  let w := sample.world sample.plainEnv false sample.noFilter infs ∅ in
  (k8s.FullSyncK8s w).1 = k8s.Returned None.
Proof.
  intros failing infs w.
  rewrite (FullSyncK8s_result (H := ref.ext) w eq_refl). reflexivity.
Defined.

(** *** Keys and namespaces *)

Lemma string_app_cons (x : ascii) (a b : string) :
  String x a +:+ b = String x (a +:+ b).
Proof. reflexivity. Qed.

Lemma string_app_nil_r (a : string) : a +:+ "" = a.
Proof. induction a as [|x a IH]; [done|]. by rewrite string_app_cons, IH. Qed.

Lemma string_app_assoc (a b c : string) : (a +:+ b) +:+ c = a +:+ b +:+ c.
Proof. induction a as [|x a IH]; [done|]. by rewrite !string_app_cons, IH. Qed.

Lemma string_rev_app (s acc : string) : String.rev_app s acc = String.rev s +:+ acc.
Proof.
  unfold String.rev. revert acc. induction s as [|x s IH]; intros acc; [done|].
  cbn [String.rev_app]. rewrite (IH (String x acc)), (IH (String x "")).
  by rewrite string_app_assoc.
Qed.

Lemma split_go_no_sep (sep : ascii) (cur s : string) :
  sep ∉ list_ascii_of_string s →
  gostd.split_go sep cur s = [String.rev cur +:+ s].
Proof.
  revert cur. induction s as [|x s IH]; intros cur Hs; cbn [gostd.split_go].
  - by rewrite string_app_nil_r.
  - cbn [list_ascii_of_string] in Hs. apply not_elem_of_cons in Hs as [Hne Hs].
    destruct (Ascii.eqb_spec x sep) as [->|_]; [done|].
    rewrite IH by done. unfold String.rev at 1. cbn [String.rev_app].
    by rewrite string_rev_app, string_app_assoc.
Qed.

Lemma split_go_sep (sep : ascii) (cur a rest : string) :
  sep ∉ list_ascii_of_string a →
  gostd.split_go sep cur (a +:+ String sep rest)
  = (String.rev cur +:+ a) :: gostd.split_go sep "" rest.
Proof.
  revert cur. induction a as [|x a IH]; intros cur Ha.
  - change ("" +:+ String sep rest) with (String sep rest). cbn [gostd.split_go].
    rewrite Ascii.eqb_refl. by rewrite string_app_nil_r.
  - rewrite string_app_cons. cbn [gostd.split_go].
    cbn [list_ascii_of_string] in Ha. apply not_elem_of_cons in Ha as [Hne Ha].
    destruct (Ascii.eqb_spec x sep) as [->|_]; [done|].
    rewrite IH by done. unfold String.rev at 1. cbn [String.rev_app].
    by rewrite string_rev_app, string_app_assoc.
Qed.

(** The key of a namespaced object gives back its namespace, to the handlers
    (through [cache.SplitMetaNamespaceKey]) and to the full sync (through
    [strings.Split]) alike. *)
Lemma ObjKey_namespace {A} `{HasMeta A} (obj : A) :
  namespaced (meta obj) →
  gostd.Split (utils.ObjKey obj) "/" = [Namespace (meta obj); Name (meta obj)].
Proof.
  intros (Hne & Hns & Hname). unfold utils.ObjKey. rewrite decide_False by done.
  unfold gostd.Split. change ("/" +:+ Name (meta obj)) with (String "/" (Name (meta obj))).
  rewrite split_go_sep by done. by rewrite split_go_no_sep by done.
Qed.

Lemma List_all {A} `{HasMeta A} (informer : Lister A) :
  list_err informer = None → List_ informer NamespaceAll = inr (store informer).
Proof.
  intros Herr. unfold List_. rewrite Herr. f_equal.
  induction (store informer) as [|x l IH]; [done|].
  rewrite filter_cons_True by by left. by rewrite IH.
Qed.

(** X13. The Service part of a full sync processes exactly the Services that the
    Service handlers admit, each under the key the handlers use, in the
    order of the lister. *)
Theorem FullSyncK8s_services_keys `{Externals} (informer : Lister Service) (w : World) :
  ServiceInformer (informers w) = Some informer →
  list_err informer = None →
  Forall (λ svc, namespaced (meta svc)) (store informer) →
  ∃ g : gmap string (option AviObjectGraph),
    k8s.FullSyncK8s_services w =
      (None,
       set_graphLister g
         (set_trace
            (trace w ++ ((λ svc, DequeueIngestion (serviceKey svc w) true)
                           <$> filter (λ svc, serviceAdmitted svc w = true)
                                 (store informer))) w)).
Proof.
  intros Hinf Herr Hwf. unfold k8s.FullSyncK8s_services.
  rewrite Hinf, (List_all informer Herr).
  assert (Hloop : ∀ l g t,
            Forall (λ svc : Service, namespaced (meta svc)) l →
            ∃ g',
              foldl (λ w svcObj,
                       let isSvcLb := k8s.isServiceLBType svcObj in
                       let svcLabel := utils.ObjKey svcObj in
                       let ns0 := k8s.first_part svcLabel in
                       if isSvcLb && negb (lib.GetLayer7Only w) then
                         if negb (IsServiceNSValid (env w) (nsFilter w) ns0) then w
                         else
                           let key := utils.L4LBService +:+ "/" +:+ utils.ObjKey svcObj in
                           nodes.DequeueIngestion key true w
                       else
                         if lib.GetAdvancedL4 w
                            || negb (CheckIfNamespaceAccepted (env w) (nsFilter w) ns0)
                         then w
                         else
                           let key := utils.Service +:+ "/" +:+ utils.ObjKey svcObj in
                           nodes.DequeueIngestion key true w)
                    (set_graphLister g (set_trace t w)) l
              = set_graphLister g'
                  (set_trace
                     (t ++ ((λ svc, DequeueIngestion (serviceKey svc w) true)
                              <$> filter (λ svc, serviceAdmitted svc w = true) l)) w)).
  { induction l as [|svc l IH]; intros g t Hl.
    - exists g. simpl. by rewrite app_nil_r.
    - apply Forall_cons in Hl as [Hsvc Hl]. cbn [foldl]. cbv zeta.
      change (lib.GetLayer7Only (set_graphLister g (set_trace t w)))
        with (lib.GetLayer7Only w).
      change (lib.GetAdvancedL4 (set_graphLister g (set_trace t w)))
        with (lib.GetAdvancedL4 w).
      change (env (set_graphLister g (set_trace t w))) with (env w).
      change (nsFilter (set_graphLister g (set_trace t w))) with (nsFilter w).
      assert (Hns : k8s.first_part (utils.ObjKey svc)
                    = k8s.namespace_of (utils.ObjKey svc)).
      { unfold k8s.first_part, k8s.namespace_of, SplitMetaNamespaceKey.
        by rewrite (ObjKey_namespace svc Hsvc). }
      rewrite Hns.
      assert (Hadm : serviceAdmitted svc w =
                if k8s.isServiceLBType svc && negb (lib.GetLayer7Only w)
                then IsServiceNSValid (env w) (nsFilter w)
                       (k8s.namespace_of (utils.ObjKey svc))
                else negb (lib.GetAdvancedL4 w
                           || negb (CheckIfNamespaceAccepted (env w) (nsFilter w)
                                      (k8s.namespace_of (utils.ObjKey svc))))).
      { unfold serviceAdmitted.
        destruct (k8s.isServiceLBType svc && negb (lib.GetLayer7Only w)); [done|].
        by destruct (lib.GetAdvancedL4 w), (CheckIfNamespaceAccepted _ _ _). }
      assert (Hkey : serviceKey svc w =
                if k8s.isServiceLBType svc && negb (lib.GetLayer7Only w)
                then utils.L4LBService +:+ "/" +:+ utils.ObjKey svc
                else utils.Service +:+ "/" +:+ utils.ObjKey svc) by done.
      destruct (k8s.isServiceLBType svc && negb (lib.GetLayer7Only w)).
      + destruct (IsServiceNSValid _ _ _); cbn [negb].
        * rewrite filter_cons_True by done. rewrite fmap_cons, Hkey.
          destruct (IH (DequeueIngestion_lister
                          (utils.L4LBService +:+ "/" +:+ utils.ObjKey svc) true g)
                      (t ++ [DequeueIngestion
                               (utils.L4LBService +:+ "/" +:+ utils.ObjKey svc) true])
                      Hl) as [g' Hg'].
          exists g'. rewrite <- app_assoc in Hg'.
          etrans; [|exact Hg']. reflexivity.
        * rewrite filter_cons_False by (rewrite Hadm; done). apply IH, Hl.
      + destruct (lib.GetAdvancedL4 w || negb (CheckIfNamespaceAccepted _ _ _));
          cbn [negb] in Hadm.
        * rewrite filter_cons_False by (rewrite Hadm; done). apply IH, Hl.
        * rewrite filter_cons_True by done. rewrite fmap_cons, Hkey.
          destruct (IH (DequeueIngestion_lister
                          (utils.Service +:+ "/" +:+ utils.ObjKey svc) true g)
                      (t ++ [DequeueIngestion
                               (utils.Service +:+ "/" +:+ utils.ObjKey svc) true])
                      Hl) as [g' Hg'].
          exists g'. rewrite <- app_assoc in Hg'.
          etrans; [|exact Hg']. reflexivity. }
  destruct (Hloop (store informer) (graphLister w) (trace w) Hwf) as [g' Hg'].
  exists g'. f_equal. rewrite <- Hg'. f_equal. by destruct w.
Qed.

Lemma FullSyncK8s_services_keys_witness :
  let w := sample.world sample.plainEnv false (sample.prodFilter {[ "red" ]})
             sample.redInformers ∅ in
  ∃ g : gmap string (option AviObjectGraph),
    k8s.FullSyncK8s_services (H := ref.ext) w =
      (None,
       set_graphLister g
         (set_trace
            (trace w ++ ((λ svc, DequeueIngestion (serviceKey svc w) true)
                           <$> filter (λ svc, serviceAdmitted svc w = true)
                                 [sample.service "red" "lb" "LoadBalancer";
                                  sample.service "blue" "db" "ClusterIP"])) w)).
Proof.
  intros w.
  apply (FullSyncK8s_services_keys (H := ref.ext)
           {| store := [sample.service "red" "lb" "LoadBalancer";
                        sample.service "blue" "db" "ClusterIP"];
              list_err := None |} w); [reflexivity|reflexivity|].
  repeat constructor; try discriminate;
    apply (bool_decide_unpack _); vm_compute; exact I.
Defined.

(** ** Recognising an encoded name (lib.go) *)

Lemma string_app_nil_l (a : string) : "" +:+ a = a.
Proof. reflexivity. Qed.

Lemma split_go2_cons2 (a b x d : ascii) (cur s : string) :
  gostd.split_go2 a b cur (String x (String d s)) =
    if Ascii.eqb x a && Ascii.eqb d b
    then String.rev cur :: gostd.split_go2 a b "" s
    else gostd.split_go2 a b (String x cur) (String d s).
Proof. reflexivity. Qed.

Lemma split_go2_step (a b x : ascii) (cur s : string) :
  x ≠ a →
  gostd.split_go2 a b cur (String x s) = gostd.split_go2 a b (String x cur) s.
Proof.
  intros Hx. apply Ascii.eqb_neq in Hx.
  destruct s; cbn [gostd.split_go2]; by rewrite ?Hx.
Qed.

Lemma split_go2_no_sep (a b : ascii) (cur s : string) :
  a ∉ list_ascii_of_string s →
  gostd.split_go2 a b cur s = [String.rev cur +:+ s].
Proof.
  revert cur. induction s as [|x s IH]; intros cur Hs.
  - cbn [gostd.split_go2]. by rewrite string_app_nil_r.
  - cbn [list_ascii_of_string] in Hs. apply not_elem_of_cons in Hs as [Hne Hs].
    rewrite split_go2_step, IH by done.
    unfold String.rev at 1. cbn [String.rev_app].
    by rewrite string_rev_app, string_app_assoc.
Qed.

Lemma split_go2_sep (a b : ascii) (cur c rest : string) :
  a ∉ list_ascii_of_string c →
  gostd.split_go2 a b cur (c +:+ String a (String b rest))
  = (String.rev cur +:+ c) :: gostd.split_go2 a b "" rest.
Proof.
  revert cur. induction c as [|x c IH]; intros cur Hc.
  - change ("" +:+ String a (String b rest)) with (String a (String b rest)).
    rewrite split_go2_cons2, !Ascii.eqb_refl. cbn [andb].
    by rewrite string_app_nil_r.
  - cbn [list_ascii_of_string] in Hc. apply not_elem_of_cons in Hc as [Hne Hc].
    rewrite string_app_cons, split_go2_step, IH by done.
    unfold String.rev at 1. cbn [String.rev_app].
    by rewrite string_rev_app, string_app_assoc.
Qed.

Lemma split_go2_lone (a : ascii) (cur h : string) :
  a ∉ list_ascii_of_string h →
  gostd.split_go2 a a cur (String a h) = [String.rev cur +:+ String a h].
Proof.
  intros Hh. destruct h as [|d h].
  - cbn [gostd.split_go2]. unfold String.rev. cbn [String.rev_app].
    by rewrite string_rev_app.
  - rewrite split_go2_cons2.
    pose proof Hh as Hh'. cbn [list_ascii_of_string] in Hh'.
    apply not_elem_of_cons in Hh' as [Hne _].
    assert (Ascii.eqb d a = false) as -> by (apply Ascii.eqb_neq; congruence).
    rewrite andb_false_r.
    rewrite split_go2_no_sep by exact Hh.
    unfold String.rev at 1. cbn [String.rev_app].
    by rewrite string_rev_app, string_app_assoc.
Qed.

(** [hex.DecodeString] undoes [hex.EncodeToString]. *)
Lemma DecodeString_EncodeToString (src : list Byte.byte) :
  gostd.DecodeString (gostd.EncodeToString src) = Some src.
Proof.
  induction src as [|b src IH]; [done|].
  cbn [gostd.EncodeToString gostd.DecodeString]. rewrite IH.
  by destruct b.
Qed.

Lemma EncodeToString_no_dash (src : list Byte.byte) :
  "-"%char ∉ list_ascii_of_string (gostd.EncodeToString src).
Proof.
  intros Hin.
  pose proof (EncodeToString_lowercase_hex src) as Hhex.
  rewrite Forall_forall in Hhex. specialize (Hhex _ Hin).
  revert Hhex. apply (bool_decide_unpack _). vm_compute. exact I.
Qed.

Lemma DecodeString_dash (h : string) : gostd.DecodeString (String "-" h) = None.
Proof. by destruct h. Qed.

Lemma split_go2_nonempty (a b : ascii) (s cur : string) :
  gostd.split_go2 a b cur s ≠ [].
Proof.
  revert cur. induction s as [|x s IH]; intros cur; [done|].
  destruct s as [|d s]; [done|].
  rewrite split_go2_cons2. destruct (Ascii.eqb x a && Ascii.eqb d b); [done|apply IH].
Qed.

(** A string with two hyphens in a row is split in two parts at least. *)
Lemma split_go2_two_parts (c cur h : string) :
  (2 ≤ length (gostd.split_go2 "-" "-" cur (c +:+ String "-" (String "-" h))))%nat.
Proof.
  assert (Hcons : ∀ (x : string) (l : list string), l ≠ [] → (2 ≤ length (x :: l))%nat).
  { intros x [|y l] Hl; [done|]. cbn. lia. }
  revert cur. induction c as [|x c IH]; intros cur.
  - change ("" +:+ String "-" (String "-" h)) with (String "-" (String "-" h)).
    rewrite split_go2_cons2. cbn [Ascii.eqb Bool.eqb andb].
    apply Hcons, split_go2_nonempty.
  - rewrite string_app_cons. destruct c as [|d c].
    + change ("" +:+ String "-" (String "-" h)) with (String "-" (String "-" h)) in *.
      rewrite split_go2_cons2.
      destruct (Ascii.eqb x "-" && Ascii.eqb "-" "-");
        [apply Hcons, split_go2_nonempty|apply IH].
    + rewrite string_app_cons in *. rewrite split_go2_cons2.
      destruct (Ascii.eqb x "-" && Ascii.eqb d "-");
        [apply Hcons, split_go2_nonempty|apply IH].
Qed.

(** After a prefix that ends in three hyphens, a string without hyphens is
    never the second of two parts: either there are more parts, or the second
    part begins with a hyphen. *)
Lemma split_go2_three_hyphens (c cur h : string) :
  "-"%char ∉ list_ascii_of_string h →
  match gostd.split_go2 "-" "-" cur (c +:+ String "-" (String "-" (String "-" h))) with
  | [_; second] => gostd.DecodeString second = None
  | _ => True
  end.
Proof.
  intros Hh.
  assert (Hmore : ∀ (x : string) (l : list string),
             (2 ≤ length l)%nat →
             match x :: l with
             | [_; second] => gostd.DecodeString second = None
             | _ => True
             end).
  { intros x [|y [|z l]] Hl; cbn in Hl; first [lia|exact I]. }
  revert cur. induction c as [|x c IH]; intros cur.
  - change ("" +:+ String "-" (String "-" (String "-" h)))
      with (String "-" (String "-" (String "-" h))).
    rewrite split_go2_cons2. cbn [Ascii.eqb Bool.eqb andb].
    rewrite split_go2_lone by exact Hh.
    unfold String.rev. cbn [String.rev_app]. rewrite string_app_nil_l.
    apply DecodeString_dash.
  - rewrite string_app_cons. destruct c as [|d c].
    + change ("" +:+ String "-" (String "-" (String "-" h)))
        with (String "-" (String "-" (String "-" h))) in *.
      rewrite split_go2_cons2.
      destruct (Ascii.eqb x "-" && Ascii.eqb "-" "-"); [|apply IH].
      exact (Hmore (String.rev cur) _ (split_go2_two_parts "" "" h)).
    + rewrite string_app_cons in *. rewrite split_go2_cons2.
      destruct (Ascii.eqb x "-" && Ascii.eqb d "-"); [|apply IH].
      replace (c +:+ String "-" (String "-" (String "-" h)))
        with ((c +:+ "-") +:+ String "-" (String "-" h))
        by (by rewrite string_app_assoc).
      exact (Hmore (String.rev cur) _ (split_go2_two_parts (c +:+ "-") "" h)).
Qed.

(** X14. With EVH on, a name that [Encode] returns is recognised by
    [IsNameEncoded] when the cluster name of the prefix has no hyphen, and
    it is not when that cluster name ends in a hyphen, whatever comes before
    the hyphen: the name then splits in more than two parts, or its second
    part begins with a hyphen and is no hexadecimal string. *)
Theorem Encode_IsNameEncoded `{Externals} (limit : nat) (s objType c : string)
    (w : World) :
  lib.IsEvhEnabled w = true →
  lib.GetAdvancedL4 w = false →
  (("-"%char ∉ list_ascii_of_string c) →
   lib.GetNamePrefix w = c +:+ "--" →
   lib.IsNameEncoded (lib.Encode limit s objType w).1 = true)
  ∧ (lib.GetNamePrefix w = (c +:+ "-") +:+ "--" →
     lib.IsNameEncoded (lib.Encode limit s objType w).1 = false).
Proof.
  intros Hevh Hl4. rewrite Encode_name, Hevh, Hl4. cbn [negb andb].
  unfold lib.IsNameEncoded, gostd.Split2. split.
  - intros Hc ->.
    change (c +:+ "--") with (c +:+ String "-" (String "-" "")).
    rewrite string_app_assoc. rewrite !string_app_cons.
    change ("" +:+ gostd.EncodeToString (sha1_Sum s))
      with (gostd.EncodeToString (sha1_Sum s)).
    rewrite split_go2_sep by done.
    rewrite split_go2_no_sep by apply EncodeToString_no_dash.
    unfold String.rev. cbn [String.rev_app]. rewrite !string_app_nil_l.
    by rewrite DecodeString_EncodeToString.
  - intros ->. rewrite !string_app_assoc.
    change ("-" +:+ "--" +:+ gostd.EncodeToString (sha1_Sum s))
      with (String "-" (String "-" (String "-" (gostd.EncodeToString (sha1_Sum s))))).
    pose proof (split_go2_three_hyphens c "" (gostd.EncodeToString (sha1_Sum s))
                  (EncodeToString_no_dash _)) as Hsplit.
    destruct (gostd.split_go2 "-" "-" "" _) as [|first [|second [|third rest]]]; try done.
    by rewrite Hsplit.
Qed.

(** ** Checksums of markers and labels (lib.go) *)

Lemma merge_sort_strings_perm (l l' : list string) :
  l ≡ₚ l' → merge_sort String.le l = merge_sort String.le l'.
Proof.
  intros Hp. apply (Sorted_unique String.le).
  - apply (Sorted_merge_sort String.le).
  - apply (Sorted_merge_sort String.le).
  - by rewrite !merge_sort_Permutation.
Qed.

Lemma merge_sort_ints_perm (l l' : list Z) :
  l ≡ₚ l' → merge_sort Z.le l = merge_sort Z.le l'.
Proof.
  intros Hp. apply (Sorted_unique Z.le).
  - apply (Sorted_merge_sort Z.le).
  - apply (Sorted_merge_sort Z.le).
  - by rewrite !merge_sort_Permutation.
Qed.

Lemma empty_string_le (s : string) : String.le "" s.
Proof. by destruct s. Qed.

Lemma merge_sort_strings_pad (l : list string) (p : nat) :
  merge_sort String.le (l ++ replicate p "")
  = replicate p "" ++ merge_sort String.le l.
Proof.
  apply (Sorted_unique String.le).
  - apply (Sorted_merge_sort String.le).
  - induction p as [|p IH]; [apply (Sorted_merge_sort String.le)|].
    cbn [replicate app]. constructor; [exact IH|].
    destruct (replicate p "" ++ merge_sort String.le l); constructor.
    apply empty_string_le.
  - rewrite merge_sort_Permutation, (merge_sort_Permutation _ l).
    apply Permutation_app_comm.
Qed.

Lemma combinedString_foldl (acc : string) (l : list string) :
  foldl (λ combinedString ele, combinedString +:+ ele) acc l
  = acc +:+ foldl (λ combinedString ele, combinedString +:+ ele) "" l.
Proof.
  revert acc. induction l as [|x l IH]; intros acc; cbn [foldl].
  - by rewrite string_app_nil_r.
  - rewrite IH, (IH ("" +:+ x)), string_app_nil_l. by rewrite string_app_assoc.
Qed.

Lemma combinedString_pad `{Externals} (l : list string) (p : nat) :
  lib.combinedString (l ++ replicate p "") = lib.combinedString l.
Proof.
  unfold lib.combinedString. rewrite merge_sort_strings_pad, foldl_app.
  f_equal. induction p as [|p IH]; [done|]. exact IH.
Qed.

Lemma combinedString_perm `{Externals} (l l' : list string) :
  l ≡ₚ l' → lib.combinedString l = lib.combinedString l'.
Proof. intros Hp. unfold lib.combinedString. by rewrite (merge_sort_strings_perm l l'). Qed.

(** The loop that fills [markersStr]: the non-empty values come first, in the
    order of the fields, and the rest of the slice stays empty. *)
Lemma markersStr_filled (markers : AviObjectMarkers) (filled : list string) (r : nat) :
  (length markers ≤ r)%nat →
  foldl (λ '(markersStr, j) (field : string * string),
           if decide (field.2 ≠ "") then (<[j:=field.2]> markersStr, S j)
           else (markersStr, j))
        (filled ++ replicate r "", length filled) markers
  = (filled ++ marker_values markers
       ++ replicate (r - length (marker_values markers)) "",
     (length filled + length (marker_values markers))%nat).
Proof.
  revert filled r. induction markers as [|[name value] markers IH]; intros filled r Hr.
  - cbn. by rewrite Nat.sub_0_r, Nat.add_0_r.
  - cbn [foldl length] in *. unfold marker_values. cbn [fmap list_fmap snd].
    fold (markers.*2). destruct (decide (value ≠ "")) as [Hv|Hv].
    + rewrite filter_cons_True by done. fold (marker_values markers).
      destruct r as [|r]; [lia|]. cbn [replicate].
      rewrite insert_app_r_alt by lia. rewrite Nat.sub_diag. cbn [insert list_insert].
      replace (S (length filled)) with (length (filled ++ [value]))
        by (rewrite length_app; cbn; lia).
      rewrite (cons_middle value), app_assoc.
      rewrite IH by lia. rewrite length_app. cbn [length].
      rewrite <- !app_assoc. cbn [app]. f_equal. lia.
    + rewrite filter_cons_False by done. fold (marker_values markers).
      by rewrite IH by lia.
Qed.

Lemma marker_values_length (markers : AviObjectMarkers) :
  (length (marker_values markers) ≤ length markers)%nat.
Proof.
  unfold marker_values. rewrite <- (length_fmap snd markers). apply length_filter.
Qed.

Lemma GetMarkersChecksum_values `{Externals} (v : LabelState) (markers : AviObjectMarkers) :
  lib.GetMarkersChecksum v markers =
    gostd.add32
      (if decide (String.length (lib.combinedString (marker_values markers)) ≠ 0%nat)
       then Hash (lib.combinedString (marker_values markers)) else 0%N)
      (clusterLabelChecksum v).
Proof.
  unfold lib.GetMarkersChecksum.
  pose proof (markersStr_filled markers [] (length markers) (le_n _)) as Hfill.
  cbn [app length] in Hfill. rewrite Hfill. cbv zeta.
  by rewrite combinedString_pad.
Qed.

Lemma GetAllMarkers_labels `{Externals} `{LibExternals} (markers : list (string * string))
    (w : World) :
  lib.GetAllMarkers markers w =
    {| models.Key := Some ClusterNameLabelKey;
       models.Values := [lib.GetClusterName w] |}
    :: ((λ field : string * string,
           {| models.Key := Some field.1; models.Values := [field.2] |})
          <$> filter (λ field : string * string, field.2 ≠ "") markers).
Proof.
  unfold lib.GetAllMarkers. cbv zeta.
  assert (Hloop : ∀ acc : list models.RoleFilterMatchLabel,
            foldl (λ rfmls (field : string * string),
                     if decide (field.2 ≠ "") then
                       rfmls ++ [{| models.Key := Some field.1;
                                    models.Values := [field.2] |}]
                     else rfmls) acc markers
            = acc ++ ((λ field : string * string,
                         {| models.Key := Some field.1; models.Values := [field.2] |})
                        <$> filter (λ field : string * string, field.2 ≠ "") markers)).
  { induction markers as [|field markers IH]; intros acc; cbn [foldl].
    - cbn. by rewrite app_nil_r.
    - rewrite IH. destruct (decide (field.2 ≠ "")).
      + rewrite filter_cons_True by done. by rewrite fmap_cons, <- app_assoc.
      + by rewrite filter_cons_False by done. }
  by rewrite Hloop.
Qed.

Lemma marker_values_filter (markers : list (string * string)) :
  (filter (λ field : string * string, field.2 ≠ "") markers).*2 = marker_values markers.
Proof.
  unfold marker_values. induction markers as [|field markers IH]; [done|].
  cbn [fmap list_fmap]. destruct (decide (field.2 ≠ "")).
  - rewrite !filter_cons_True by done. cbn [fmap list_fmap]. by rewrite <- IH.
  - by rewrite !filter_cons_False by done.
Qed.

(** The loop of [ObjectLabelChecksum] over labels that are not the cluster
    label and carry one value each. *)
Lemma objectLabels_filled `{Externals} (v : LabelState) (fields : list (string * string))
    (objChecksum : N) (filled : list string) (r : nat) :
  Forall (λ field, field.1 ≠ clusterKey v) fields →
  (length fields ≤ r)%nat →
  foldl (λ st label,
           match st with
           | None => None
           | Some (objChecksum, markersStr, j) =>
               match models.Key label with
               | None => None
               | Some key =>
                   if decide (key = clusterKey v) then
                     match models.Values label with
                     | value :: _ =>
                         if decide (value = clusterValue v)
                         then Some (gostd.add32 objChecksum (clusterLabelChecksum v),
                                    markersStr, j)
                         else Some (objChecksum, markersStr, j)
                     | [] => Some (objChecksum, markersStr, j)
                     end
                   else
                     match models.Values label with
                     | value :: _ => Some (objChecksum, <[j:=value]> markersStr, S j)
                     | [] => None
                     end
               end
           end)
        (Some (objChecksum, filled ++ replicate r "", length filled))
        ((λ field : string * string,
            {| models.Key := Some field.1; models.Values := [field.2] |}) <$> fields)
  = Some (objChecksum,
          filled ++ fields.*2 ++ replicate (r - length fields) "",
          (length filled + length fields)%nat).
Proof.
  revert filled r. induction fields as [|[name value] fields IH]; intros filled r Hk Hr.
  - cbn. by rewrite Nat.sub_0_r, Nat.add_0_r.
  - apply Forall_cons in Hk as [Hname Hk]. cbn [fst] in Hname.
    cbn [fmap list_fmap foldl models.Key models.Values fst snd length] in *.
    rewrite decide_False by done.
    destruct r as [|r]; [lia|]. cbn [replicate].
    rewrite insert_app_r_alt by lia. rewrite Nat.sub_diag. cbn [insert list_insert].
    replace (S (length filled)) with (length (filled ++ [value]))
      by (rewrite length_app; cbn; lia).
    rewrite (cons_middle value), app_assoc.
    fold (@fmap list _ _ _ (λ field : string * string,
            {| models.Key := Some field.1; models.Values := [field.2] |}) fields).
    rewrite IH by (done || lia). rewrite length_app. cbn [length].
    rewrite <- !app_assoc. cbn [app]. do 2 f_equal. lia.
Qed.

Lemma add32_label (cl h : N) :
  gostd.add32 (gostd.add32 0 cl) h = gostd.add32 h cl.
Proof.
  unfold gostd.add32. rewrite N.add_0_l, N.Div0.add_mod_idemp_l.
  by rewrite N.add_comm.
Qed.

(** The checksum of the labels that [GetAllMarkers] writes on an object is
    the checksum of the markers they were made from. *)
Lemma ObjectLabelChecksum_of_markers `{Externals} `{LibExternals} (v : LabelState)
    (markers : list (string * string)) (w : World) :
  clusterKey v = ClusterNameLabelKey →
  clusterValue v = lib.GetClusterName w →
  Forall (λ field, field.1 ≠ ClusterNameLabelKey) markers →
  lib.ObjectLabelChecksum v (lib.GetAllMarkers markers w)
  = Some (lib.GetMarkersChecksum v markers).
Proof.
  intros Hkey Hvalue Hfields.
  rewrite GetMarkersChecksum_values, GetAllMarkers_labels.
  unfold lib.ObjectLabelChecksum.
  set (fields := filter (λ field : string * string, field.2 ≠ "") markers).
  assert (Hk : Forall (λ field : string * string, field.1 ≠ clusterKey v) fields).
  { rewrite Hkey. apply Forall_forall. intros field Hin.
    apply list_elem_of_filter in Hin as [_ Hin].
    rewrite Forall_forall in Hfields. by apply Hfields. }
  pose proof (objectLabels_filled v fields (gostd.add32 0 (clusterLabelChecksum v))
                [] (S (length fields)) Hk (Nat.le_succ_diag_r _)) as Hloop.
  cbn [app length] in Hloop.
  cbn [foldl length models.Key models.Values].
  rewrite decide_True by done. rewrite decide_True by done.
  rewrite length_fmap, Hloop.
  replace (S (length fields) - length fields)%nat with 1%nat by lia.
  subst fields. rewrite marker_values_filter, combinedString_pad.
  destruct (decide _); [|done]. by rewrite add32_label.
Qed.

Lemma ObjectLabelChecksum_GetMarkers `{Externals} `{LibExternals} (v : LabelState)
    (w : World) :
  clusterKey v = ClusterNameLabelKey →
  clusterValue v = lib.GetClusterName w →
  lib.ObjectLabelChecksum v (lib.GetMarkers w)
  = Some (gostd.add32 0 (clusterLabelChecksum v)).
Proof.
  intros Hkey Hvalue. unfold lib.ObjectLabelChecksum, lib.GetMarkers.
  cbn [foldl length models.Key models.Values].
  rewrite decide_True by done. by rewrite decide_True by done.
Qed.

Lemma SetClusterLabelChecksum_result `{Externals} `{LibExternals} (v : LabelState)
    (w : World) :
  enableCtrl2014Features v = true →
  ∃ v', lib.SetClusterLabelChecksum v w = Some v'
        ∧ gRBAC v' = gRBAC v
        ∧ clusterKey v' = ClusterNameLabelKey
        ∧ clusterValue v' = lib.GetClusterName w
        ∧ clusterLabelChecksum v' = Hash (ClusterNameLabelKey +:+ lib.GetClusterName w).
Proof.
  intros Hf. unfold lib.SetClusterLabelChecksum, lib.GetEnableCtrl2014Features.
  rewrite Hf. by eexists.
Qed.

(** X15. Once [SetClusterLabelChecksum] has run on a controller with the
    20.1.4 features, the labels that [GetAllMarkers] writes on an object
    have the checksum of the markers they were made from: the checksum of
    the cache agrees with that of the ingestion, whatever the markers are,
    as long as no field of the markers is named like the cluster label. *)
Theorem ObjectLabelChecksum_GetAllMarkers `{Externals} `{LibExternals} (v : LabelState)
    (markers : AviObjectMarkers) (w : World) :
  enableCtrl2014Features v = true →
  Forall (λ field, field.1 ≠ ClusterNameLabelKey) markers →
  ∃ v' : LabelState,
    lib.SetClusterLabelChecksum v w = Some v'
    ∧ lib.ObjectLabelChecksum v' (lib.GetAllMarkers markers w)
      = Some (lib.GetMarkersChecksum v' markers).
Proof.
  intros Hf Hfields.
  destruct (SetClusterLabelChecksum_result v w Hf) as (v' & Hv' & _ & Hkey & Hvalue & _).
  exists v'. split; [done|]. by apply ObjectLabelChecksum_of_markers.
Qed.

(** X16. The checksum of a set of markers depends on the non-empty values
    only, and not on their order: neither the names of the fields, nor the
    fields left empty, nor the order of the fields matter. *)
Theorem GetMarkersChecksum_values_only `{Externals} (v : LabelState)
    (markers markers' : AviObjectMarkers) :
  marker_values markers ≡ₚ marker_values markers' →
  lib.GetMarkersChecksum v markers = lib.GetMarkersChecksum v markers'.
Proof.
  intros Hp. rewrite !GetMarkersChecksum_values.
  by rewrite (combinedString_perm _ _ Hp).
Qed.

(** X17. When the cluster label of the package is the one [GetAllMarkers]
    and [GetMarkers] write, each of the three checksums computed for the
    cache, from the labels of the object ([populateCache] set), is the one
    computed for the ingestion, from the markers: for the labels of
    [GetAllMarkers] on a key and certificate or on an L4 policy, and for
    those of [GetMarkers] on a datascript. *)
Theorem checksums_of_cache_and_ingestion `{Externals} `{LibExternals} (v : LabelState)
    (markers : AviObjectMarkers) (w : World)
    (sslName certificate cacert protocol : string) (ports : list Z)
    (pgrefs : list string) (other : option (list models.RoleFilterMatchLabel)) :
  clusterKey v = ClusterNameLabelKey →
  clusterValue v = lib.GetClusterName w →
  Forall (λ field, field.1 ≠ ClusterNameLabelKey) markers →
  lib.SSLKeyCertChecksum v sslName certificate cacert markers
    (Some (lib.GetAllMarkers markers w)) true
  = lib.SSLKeyCertChecksum v sslName certificate cacert markers other false
  ∧ lib.L4PolicyChecksum v ports protocol markers
      (Some (lib.GetAllMarkers markers w)) true
    = lib.L4PolicyChecksum v ports protocol markers other false
  ∧ lib.DSChecksum v pgrefs (Some (lib.GetMarkers w)) true
    = lib.DSChecksum v pgrefs other false.
Proof.
  intros Hkey Hvalue Hfields.
  unfold lib.SSLKeyCertChecksum, lib.L4PolicyChecksum, lib.DSChecksum.
  rewrite !ObjectLabelChecksum_of_markers, ObjectLabelChecksum_GetMarkers by done.
  cbv zeta. repeat split; destruct (lib.GetGRBACSupport v); try done.
  f_equal. unfold gostd.add32, lib.GetClusterLabelChecksum.
  by rewrite N.add_0_l, N.Div0.add_mod_idemp_r.
Qed.

Lemma portsInt_copy (ports : list Z) :
  foldl (λ portsInt port, portsInt ++ [port]) [] ports = ports.
Proof.
  assert (Hloop : ∀ acc : list Z,
            foldl (λ portsInt port, portsInt ++ [port]) acc ports = acc ++ ports).
  { induction ports as [|port ports IH]; intros acc; cbn [foldl].
    - by rewrite app_nil_r.
    - by rewrite IH, <- app_assoc. }
  by rewrite Hloop.
Qed.

(** X18. The checksums of a datascript and of an L4 policy do not depend on the
    order of the pool group references or of the ports; [DSChecksum] leaves
    the references of its caller sorted. *)
Theorem checksums_ignore_order `{Externals} `{LibExternals} (v : LabelState)
    (ports ports' : list Z) (pgrefs pgrefs' : list string) (protocol : string)
    (ingestionMarkers : AviObjectMarkers)
    (markers : option (list models.RoleFilterMatchLabel)) (populateCache : bool) :
  ports ≡ₚ ports' →
  pgrefs ≡ₚ pgrefs' →
  lib.L4PolicyChecksum v ports protocol ingestionMarkers markers populateCache
  = lib.L4PolicyChecksum v ports' protocol ingestionMarkers markers populateCache
  ∧ lib.DSChecksum v pgrefs markers populateCache
    = lib.DSChecksum v pgrefs' markers populateCache
  ∧ lib.DSChecksum_pgrefs pgrefs = lib.DSChecksum_pgrefs pgrefs'
  ∧ Sorted String.le (lib.DSChecksum_pgrefs pgrefs)
  ∧ lib.DSChecksum_pgrefs pgrefs ≡ₚ pgrefs.
Proof.
  intros Hports Hpgrefs.
  unfold lib.L4PolicyChecksum, lib.DSChecksum, lib.DSChecksum_pgrefs.
  rewrite !portsInt_copy.
  rewrite (merge_sort_ints_perm _ _ Hports), (merge_sort_strings_perm _ _ Hpgrefs).
  repeat split.
  - apply (Sorted_merge_sort String.le).
  - by rewrite merge_sort_Permutation.
Qed.

Lemma Encode_IsNameEncoded_witness :
  let w := sample.world sample.evhEnv false sample.noFilter sample.noInformers ∅ in
  lib.IsNameEncoded
    (lib.Encode (H := ref.ext) lib.AVI_OBJ_NAME_MAX_LENGTH "red-web" lib.Pool w).1 = true.
Proof.
  intros w.
  refine (proj1 (Encode_IsNameEncoded (H := ref.ext) lib.AVI_OBJ_NAME_MAX_LENGTH
                   "red-web" lib.Pool "c1" w eq_refl eq_refl) _ eq_refl).
  apply (bool_decide_unpack _). vm_compute. exact I.
Defined.

Lemma ObjectLabelChecksum_GetAllMarkers_witness :
  let w := sample.world sample.plainEnv false sample.noFilter sample.noInformers ∅ in
  ∃ v' : LabelState,
    lib.SetClusterLabelChecksum (H := ref.ext) (H0 := samplelib.ext) samplelib.initial w
    = Some v'
    ∧ lib.ObjectLabelChecksum (H := ref.ext) v'
        (lib.GetAllMarkers (H := ref.ext) (H0 := samplelib.ext) samplelib.poolMarkers w)
      = Some (lib.GetMarkersChecksum (H := ref.ext) v' samplelib.poolMarkers).
Proof.
  intros w.
  apply (ObjectLabelChecksum_GetAllMarkers (H := ref.ext) (H0 := samplelib.ext)
           samplelib.initial samplelib.poolMarkers w); [reflexivity|].
  repeat first [apply Forall_nil_2 | apply Forall_cons_2]; discriminate.
Defined.

Lemma GetMarkersChecksum_values_only_witness :
  lib.GetMarkersChecksum (H := ref.ext) samplelib.labelled
    [("Namespace", "red"); ("Host", "web")]
  = lib.GetMarkersChecksum (H := ref.ext) samplelib.labelled
      [("Namespace", "web"); ("Host", ""); ("ServiceName", "red")].
Proof.
  apply (GetMarkersChecksum_values_only (H := ref.ext)).
  apply (perm_swap "web" "red" []).
Defined.

Lemma checksums_of_cache_and_ingestion_witness :
  let w := sample.world sample.plainEnv false sample.noFilter sample.noInformers ∅ in
  lib.SSLKeyCertChecksum (H := ref.ext) samplelib.labelled "cert" "PEM" ""
    samplelib.poolMarkers
    (Some (lib.GetAllMarkers (H := ref.ext) (H0 := samplelib.ext) samplelib.poolMarkers w))
    true
  = lib.SSLKeyCertChecksum (H := ref.ext) samplelib.labelled "cert" "PEM" ""
      samplelib.poolMarkers None false.
Proof.
  intros w.
  refine (proj1 (checksums_of_cache_and_ingestion (H := ref.ext) (H0 := samplelib.ext)
                   samplelib.labelled samplelib.poolMarkers w "cert" "PEM" "" "TCP"
                   [80%Z] ["pg"] None eq_refl eq_refl _)).
  repeat first [apply Forall_nil_2 | apply Forall_cons_2]; discriminate.
Defined.

Lemma checksums_ignore_order_witness :
  lib.L4PolicyChecksum (H := ref.ext) (H0 := samplelib.ext) samplelib.labelled
    [443%Z; 80%Z] "TCP" samplelib.poolMarkers None false
  = lib.L4PolicyChecksum (H := ref.ext) (H0 := samplelib.ext) samplelib.labelled
      [80%Z; 443%Z] "TCP" samplelib.poolMarkers None false.
Proof.
  refine (proj1 (checksums_ignore_order (H := ref.ext) (H0 := samplelib.ext)
                   samplelib.labelled [443%Z; 80%Z] [80%Z; 443%Z] ["b"; "a"] ["a"; "b"]
                   "TCP" samplelib.poolMarkers None false _ _)).
  - apply perm_swap.
  - apply perm_swap.
Defined.

(** ** The ConfigMap of AKO (ako_init.go) *)

Lemma new_events_app `{Externals} (w w' : World) (more : list Effect) :
  trace w' = trace w ++ more → new_events w w' = more.
Proof. intros Ht. unfold new_events. by rewrite Ht, drop_app_length. Qed.

Lemma new_calls_app `{Externals} (p p' : Process) (more : list (nat * Call)) :
  calls p' = calls p ++ more → new_calls p p' = more.*2.
Proof. intros Hc. unfold new_calls. by rewrite Hc, drop_app_length. Qed.

Lemma new_calls_refl `{Externals} (p : Process) : new_calls p p = [].
Proof. unfold new_calls. by rewrite drop_all. Qed.

Lemma new_events_refl `{Externals} (w : World) : new_events w w = [].
Proof. unfold new_events. by rewrite drop_all. Qed.

Lemma elem_of_later_calls (c : Call) (lv : list Call) (tail : list Call) :
  c ∉ lv → c ∈ lv ++ tail ↔ c ∈ tail.
Proof. rewrite elem_of_app. tauto. Qed.

(** Decides a statement on the membership of a call in a given list. *)
Ltac decide_call :=
  split;
  [ intros Hin; first [ done | exfalso; revert Hin; apply (bool_decide_unpack _);
                               vm_compute; exact I ]
  | first [ intros [_ ?]; discriminate | intros [? _]; discriminate
          | intros ?; discriminate
          | intros _;
            first [ apply (bool_decide_unpack _); vm_compute; exact I
                  | repeat first [ apply list_elem_of_here
                                 | apply list_elem_of_further ] ] ] ].

Lemma delConfigFromData_result `{Externals} (data : gmap string string) (p : Process) :
  k8s.delConfigFromData data p =
    if bool_decide (data !! lib.DeleteConfig = Some "true")
    then (true,
          in_world (emit (Log Info "deleteConfig set in configmap, sync would be disabled"
                            [])) p)
    else (false, p).
Proof.
  unfold k8s.delConfigFromData. destruct (data !! lib.DeleteConfig) as [val|] eqn:Hval.
  - destruct (decide (val = "true")) as [->|Hne].
    + by rewrite bool_decide_eq_true_2.
    + rewrite bool_decide_eq_false_2; [done|congruence].
  - by rewrite bool_decide_eq_false_2.
Qed.

(** X19. An update of the ConfigMap of AKO acts on sync only when the resource
    version and the value of deleteConfig have both changed; otherwise it
    can only set the log level. When it acts, [c.DisableSync] and
    [lib.DisableSync] both become: the user input is invalid, or deleteConfig
    is "true". With valid input and deleteConfig "true" every model of the
    Graph Lister is cleared and queued for the graph layer; with valid input
    and another value the status is reset and a quick sync is asked for; with
    invalid input neither happens. *)
Theorem configMap_update `{Externals} (valid : bool) (old obj : option ConfigMap)
    (p : Process) :
  let p' := k8s.configMap_UpdateFunc valid old obj p in
  let w := world p in
  let w' := world p' in
  match deleteConfig_change old obj w with
  | None =>
      w' = w ∧ lib_DisableSync p' = lib_DisableSync p
      ∧ Forall (λ c, is_SetLevel c = true) (new_calls p p')
  | Some cm =>
      let del := deleteConfig_set cm in
      DisableSync w' = negb valid || del
      ∧ lib_DisableSync p' = negb valid || del
      ∧ graphLister w' =
          (if valid && del then deletedModel w <$> graphLister w else graphLister w)
      ∧ graph_adds (new_events w w') = (if valid && del then all_models w else [])
      ∧ (QuickSync ∈ new_calls p p' ↔ valid = true ∧ del = false)
      ∧ (ResetStatefulSetStatus ∈ new_calls p p' ↔ valid = true ∧ del = false)
  end.
Proof.
  intros p' w w'. subst p' w w'.
  unfold k8s.configMap_UpdateFunc, deleteConfig_change.
  destruct (k8s.validateAviConfigMap obj (world p)) as [cm|];
    [|split; [done|split; [done|rewrite new_calls_refl; apply Forall_nil_2]]].
  destruct (k8s.validateAviConfigMap old (world p)) as [oldcm|];
    [|split; [done|split; [done|rewrite new_calls_refl; apply Forall_nil_2]]].
  destruct (decide (ResourceVersion (meta oldcm) = ResourceVersion (meta cm))) as [Hrv|Hrv].
  { rewrite bool_decide_eq_false_2 by tauto. cbn [andb].
    split; [done|split; [done|rewrite new_calls_refl; apply Forall_nil_2]]. }
  rewrite (bool_decide_eq_true_2 _ Hrv).
  set (p1 := if decide (k8s.Data oldcm lib.LOG_LEVEL ≠ k8s.Data cm lib.LOG_LEVEL)
             then call (AviLog_SetLevel (k8s.Data cm lib.LOG_LEVEL)) p else p).
  assert (Hp1 : world p1 = world p ∧ lib_DisableSync p1 = lib_DisableSync p
                ∧ ∃ lv, calls p1 = calls p ++ lv
                        ∧ Forall (λ c, is_SetLevel c = true) lv.*2
                        ∧ (QuickSync ∉ lv.*2) ∧ (ResetStatefulSetStatus ∉ lv.*2)).
  { subst p1. destruct (decide _).
    - split; [done|]. split; [done|]. eexists. split; [reflexivity|].
      cbn. split; [by repeat constructor|].
      split; intros Hin; apply list_elem_of_singleton in Hin; discriminate.
    - split; [done|]. split; [done|]. exists []. rewrite app_nil_r.
      split; [done|]. split; [constructor|].
      split; intros Hin; by apply elem_of_nil in Hin. }
  clearbody p1. destruct Hp1 as (Hw1 & Hl1 & lv & Hc1 & Hlv & Hq & Hr).
  cbn [andb].
  destruct (decide (k8s.Data oldcm lib.DeleteConfig = k8s.Data cm lib.DeleteConfig))
    as [Hdc|Hdc].
  { rewrite bool_decide_eq_false_2 by tauto.
    split; [done|]. split; [done|]. by rewrite (new_calls_app _ _ _ Hc1). }
  rewrite (bool_decide_eq_true_2 _ Hdc).
  rewrite !delConfigFromData_result. unfold deleteConfig_set.
  destruct valid, (bool_decide (cm_Data cm !! lib.DeleteConfig = Some "true")) eqn:Hdel;
    cbn [negb andb orb]; lazy beta iota zeta;
    rewrite ?delConfigFromData_result, ?Hdel; lazy beta iota zeta.
  - unfold new_calls, new_events.
    cbn [world in_world call lib.SetDisableSync set_lib_DisableSync lib_DisableSync calls].
    destruct (decide _);
      cbn [world in_world call lib.SetDisableSync set_lib_DisableSync lib_DisableSync
             calls];
      rewrite Hw1;
      set (w2 := emit _ (emit _ (set_DisableSync true (emit _ (world p)))));
      destruct (DeleteModels_result w2) as (more & Hdm & Hadds & _);
      assert (Hds : DisableSync (k8s.DeleteModels w2) = true) by (by rewrite Hdm);
      assert (Hgl : graphLister (k8s.DeleteModels w2)
                    = deletedModel (world p) <$> graphLister (world p))
        by (by rewrite Hdm);
      assert (Htr : trace (k8s.DeleteModels w2) = trace (world p) ++
                      [Log Info "deleteConfig set in configmap, sync would be disabled" [];
                       Log Info "Setting Disable Sync to: %v" ["true"];
                       Log Info "deleteConfig set in configmap, sync would be disabled" []]
                      ++ more)
        by (rewrite Hdm; subst w2;
            cbn [trace set_graphLister set_trace emit set_DisableSync];
            rewrite <- !app_assoc; reflexivity);
      assert (Hall : graph_adds more = all_models (world p)) by exact Hadds;
      clearbody w2;
      rewrite Hds, Hgl, Htr, Hc1, <- ?app_assoc, !drop_app_length, !fmap_app;
      (split; [done|]); (split; [done|]); (split; [done|]);
      (split; [by rewrite graph_adds_app, Hall|]);
      cbn [fmap list_fmap snd app];
      rewrite !elem_of_later_calls by done;
      split; decide_call.
  - unfold new_calls, new_events.
    cbn [world in_world call lib.SetDisableSync set_lib_DisableSync lib_DisableSync calls
           set_DisableSync emit DisableSync graphLister trace].
    rewrite Hw1, Hc1, <- ?app_assoc, !drop_app_length, !fmap_app.
    (split; [done|]); (split; [done|]); (split; [done|]); (split; [done|]).
    cbn [fmap list_fmap snd app].
    rewrite !elem_of_later_calls by done.
    split; decide_call.
  - unfold new_calls, new_events.
    cbn [world in_world call lib.SetDisableSync set_lib_DisableSync lib_DisableSync calls
           set_DisableSync emit DisableSync graphLister trace].
    rewrite Hw1, Hc1, <- ?app_assoc, !drop_app_length, !fmap_app.
    (split; [done|]); (split; [done|]); (split; [done|]); (split; [done|]).
    cbn [fmap list_fmap snd app].
    rewrite !elem_of_later_calls by done.
    split; decide_call.
  - unfold new_calls, new_events.
    cbn [world in_world call lib.SetDisableSync set_lib_DisableSync lib_DisableSync calls
           set_DisableSync emit DisableSync graphLister trace].
    rewrite Hw1, Hc1, <- ?app_assoc, !drop_app_length, !fmap_app.
    (split; [done|]); (split; [done|]); (split; [done|]); (split; [done|]).
    cbn [fmap list_fmap snd app].
    rewrite !elem_of_later_calls by done.
    split; decide_call.
Qed.

Lemma SetLayer7Only_result `{Externals} (val : string) (p : Process) :
  ∃ e : Effect,
    is_Log e = true
    ∧ world (lib.SetLayer7Only val p)
      = emit e (set_layer7Only (default (layer7Only (world p)) (gostd.ParseBool val))
                  (world p))
    ∧ lib_DisableSync (lib.SetLayer7Only val p) = lib_DisableSync p
    ∧ calls (lib.SetLayer7Only val p) = calls p.
Proof.
  unfold lib.SetLayer7Only. destruct (gostd.ParseBool val) as [boolVal|].
  - by eexists (Log _ _ _).
  - eexists (Log _ _ _). split; [done|]. split; [|done].
    cbn [world in_world default].
    replace (set_layer7Only (layer7Only (world p)) (world p)) with (world p)
      by (by destruct (world p)).
    reflexivity.
Qed.

Lemma SetNoPGForSNI_result `{Externals} (val : string) (p : Process) :
  ∃ e : Effect,
    is_Log e = true
    ∧ world (lib.SetNoPGForSNI val p) = emit e (world p)
    ∧ lib_DisableSync (lib.SetNoPGForSNI val p) = lib_DisableSync p
    ∧ calls (lib.SetNoPGForSNI val p) = calls p.
Proof.
  unfold lib.SetNoPGForSNI. destruct (gostd.ParseBool val); by eexists (Log _ _ _).
Qed.

Lemma SetGRBACSupport_result `{Externals} `{LibExternals} (val : string) (p : Process) :
  ∃ logs : list Effect,
    Forall (λ e, is_Log e = true) logs
    ∧ world (lib.SetGRBACSupport val p) = set_trace (trace (world p) ++ logs) (world p)
    ∧ lib_DisableSync (lib.SetGRBACSupport val p) = lib_DisableSync p
    ∧ calls (lib.SetGRBACSupport val p) = calls p.
Proof.
  unfold lib.SetGRBACSupport.
  destruct (gostd.ParseBool val) as [boolVal|]; cbv zeta; destruct (_ && _).
  - eexists [Log _ _ _]. split; [by repeat constructor|].
    split; [reflexivity|]. by split.
  - exists []. split; [constructor|]. rewrite app_nil_r. split; [|done].
    cbn [world set_gRBAC]. by rewrite set_trace_id.
  - eexists [Log _ _ _]. split; [by repeat constructor|].
    split; [reflexivity|]. by split.
  - exists []. split; [constructor|]. rewrite app_nil_r. split; [|done].
    by rewrite set_trace_id.
Qed.

(** X20. The ConfigMap of AKO, when it is added, sets [c.DisableSync] and
    [lib.DisableSync] to: the user input is invalid, or deleteConfig is
    "true"; it sets the layer-7-only flag when the value parses. Whatever
    deleteConfig is, the addition leaves the Graph Lister alone, records
    nothing but log lines and asks for no quick sync; the status is reset
    exactly when deleteConfig is not "true". Another object changes
    nothing. *)
Theorem configMap_add `{Externals} `{LibExternals} (valid : bool)
    (obj : option ConfigMap) (p : Process) :
  let p' := k8s.configMap_AddFunc valid obj p in
  match k8s.validateAviConfigMap obj (world p) with
  | None => p' = p
  | Some cm =>
      let del := deleteConfig_set cm in
      DisableSync (world p') = negb valid || del
      ∧ lib_DisableSync p' = negb valid || del
      ∧ layer7Only (world p')
        = default (layer7Only (world p)) (gostd.ParseBool (k8s.Data cm lib.LAYER7_ONLY))
      ∧ graphLister (world p') = graphLister (world p)
      ∧ Forall (λ e, is_Log e = true) (new_events (world p) (world p'))
      ∧ (QuickSync ∉ new_calls p p')
      ∧ (ResetStatefulSetStatus ∈ new_calls p p' ↔ del = false)
  end.
Proof.
  intros p'. subst p'. unfold k8s.configMap_AddFunc.
  destruct (k8s.validateAviConfigMap obj (world p)) as [cm|]; [|done].
  set (p1 := call (AviLog_SetLevel _) (in_world (emit (Log Info _ [])) p)).
  destruct (SetLayer7Only_result (k8s.Data cm lib.LAYER7_ONLY) p1)
    as (e2 & He2 & Hw2 & Hl2 & Hc2).
  set (p2 := lib.SetLayer7Only _ p1) in *.
  destruct (SetNoPGForSNI_result (k8s.Data cm lib.NO_PG_FOR_SNI) p2)
    as (e3 & He3 & Hw3 & Hl3 & Hc3).
  set (p3 := lib.SetNoPGForSNI _ p2) in *.
  destruct (SetGRBACSupport_result (k8s.Data cm GRBAC) p3)
    as (logs & Hlogs & Hw4 & Hl4 & Hc4).
  set (p4 := lib.SetGRBACSupport _ p3) in *.
  clearbody p4 p3 p2.
  rewrite delConfigFromData_result. unfold deleteConfig_set.
  destruct (bool_decide (cm_Data cm !! lib.DeleteConfig = Some "true"));
    lazy beta iota zeta; cbn [negb];
    unfold new_calls, new_events;
    cbn [world in_world call lib.SetDisableSync set_lib_DisableSync lib_DisableSync
           calls set_DisableSync emit DisableSync graphLister trace layer7Only];
    rewrite Hw4, Hc4, Hc3, Hc2, Hw3, Hw2;
    subst p1;
    cbn [world in_world call calls set_DisableSync emit DisableSync graphLister trace
           layer7Only set_trace set_layer7Only];
    rewrite <- ?app_assoc, !drop_app_length, !fmap_app;
    cbn [fmap list_fmap snd app];
    (split; [by rewrite ?orb_true_r, ?orb_false_r|]);
    (split; [by rewrite ?orb_true_r, ?orb_false_r|]);
    (split; [done|]); (split; [done|]);
    (split; [repeat first [apply Forall_app_2 | apply Forall_cons_2 | apply Forall_nil_2];
             done|]);
    (split; [apply (bool_decide_unpack _); vm_compute; exact I|]);
    decide_call.
Qed.

(** X21. At start-up [HandleConfigMap] succeeds exactly when the pool has a
    client, the user input is valid and the ConfigMap of AKO can be read and
    does not set deleteConfig to "true". Only then are the handlers of the
    ConfigMap installed, and [c.DisableSync] is the negation of that. The
    ConfigMap is read only when the input is valid; the API server is shut
    down only when there is no client; [lib.DisableSync] is left as it was
    when the start fails for another reason. *)
Theorem HandleConfigMap_boot `{Externals} (aviClientPool : option nat) (valid : bool)
    (get : string → string → string + ConfigMap) (synced : bool) (p : Process) :
  let r := k8s.HandleConfigMap aviClientPool valid get synced p in
  let cmNS := GetAKONamespace (env (world p)) in
  let client :=
    match aviClientPool with Some n => bool_decide (1 ≤ n)%nat | None => false end in
  let configured :=
    match get cmNS lib.AviConfigMap with
    | inr cm => negb (deleteConfig_set cm)
    | inl _ => false
    end in
  let ok := client && valid && configured in
  (r.1 = None ↔ ok = true)
  ∧ DisableSync (world r.2) = negb ok
  ∧ lib_DisableSync r.2
    = (if client then if ok then false else lib_DisableSync p else true)
  ∧ graphLister (world r.2) = graphLister (world p)
  ∧ (AddEventHandler ConfigMapInf ∈ new_calls p r.2 ↔ ok = true)
  ∧ (akoApi_ShutDown ∈ new_calls p r.2 ↔ client = false)
  ∧ (ConfigMaps_Get cmNS lib.AviConfigMap ∈ new_calls p r.2 ↔ client && valid = true).
Proof.
  intros r cmNS client configured ok. subst r cmNS client configured ok.
  unfold k8s.HandleConfigMap, k8s.deleteConfigFromConfigmap, deleteConfig_set.
  assert (Hpool : match aviClientPool with
                  | Some n => bool_decide (n < 1)%nat
                  | None => true
                  end
                  = negb match aviClientPool with
                         | Some n => bool_decide (1 ≤ n)%nat
                         | None => false
                         end).
  { destruct aviClientPool as [n|]; [|done]. repeat case_bool_decide; (done || lia). }
  rewrite Hpool. clear Hpool.
  destruct (match aviClientPool with
            | Some n => bool_decide (1 ≤ n)%nat
            | None => false
            end); cbn [negb andb];
    [destruct valid; cbn [negb andb]; cbv zeta;
     [cbn [world call env];
      destruct (get (GetAKONamespace (env (world p))) lib.AviConfigMap) as [err|cm];
      [|rewrite delConfigFromData_result;
        destruct (bool_decide (cm_Data cm !! lib.DeleteConfig = Some "true"))]|]|];
    lazy beta iota zeta;
    cbn [world in_world call lib.SetDisableSync set_lib_DisableSync lib_DisableSync
           calls set_DisableSync emit DisableSync graphLister trace lib.ShutdownApi
           fst snd negb];
    try destruct synced; cbn [negb];
    unfold new_calls;
    cbn [world in_world call lib.SetDisableSync set_lib_DisableSync lib_DisableSync
           calls set_DisableSync emit DisableSync graphLister trace lib.ShutdownApi
           fst snd negb];
    rewrite <- ?app_assoc, ?drop_app_length, ?drop_all;
    cbn [fmap list_fmap snd app];
    (split; [split; (done || discriminate)|]);
    (split; [done|]); (split; [done|]); (split; [done|]);
    (split; [decide_call|]); (split; decide_call).
Qed.

(** ** The start of the informers (controller.go) *)

Lemma run_informers_app `{Externals} (l l' : list InformerName)
    (st : Process * list InformerName) :
  run_informers l' (run_informers l st) = run_informers (l ++ l') st.
Proof. unfold run_informers. by rewrite foldl_app. Qed.

Lemma run_informer_if `{Externals} (c : bool) (informer : InformerName)
    (st : Process * list InformerName) :
  k8s.run_informer c informer st = run_informers (if c then [informer] else []) st.
Proof. by destruct c. Qed.

Lemma run_informers_result `{Externals} (l : list InformerName) (p : Process)
    (l0 : list InformerName) :
  ∃ p' : Process,
    run_informers l (p, l0) = (p', l0 ++ l)
    ∧ world p' = world p
    ∧ lib_DisableSync p' = lib_DisableSync p
    ∧ calls p' = calls p ++ ((λ informer, (length (trace (world p)), Run informer)) <$> l).
Proof.
  revert p l0. induction l as [|informer l IH]; intros p l0.
  - exists p. by rewrite !app_nil_r.
  - destruct (IH (call (Run informer) p) (l0 ++ [informer])) as (p' & Hr & Hw & Hl & Hc).
    exists p'.
    change (run_informers (informer :: l) (p, l0))
      with (run_informers l (call (Run informer) p, l0 ++ [informer])).
    rewrite Hr, Hw, Hl, Hc. cbn [calls call world lib_DisableSync fmap list_fmap].
    by rewrite <- !app_assoc.
Qed.

Lemma started_informers_Run (n : nat) (l : list InformerName) :
  started_informers ((λ informer, (n, Run informer)) <$> l).*2 = l.
Proof.
  unfold started_informers. induction l as [|informer l IH]; [done|].
  cbn. f_equal. exact IH.
Qed.

Lemma started_informers_app (cs cs' : list Call) :
  started_informers (cs ++ cs') = started_informers cs ++ started_informers cs'.
Proof. apply omap_app. Qed.

Lemma waited_informers_app (cs cs' : list Call) :
  waited_informers (cs ++ cs') = waited_informers cs ++ waited_informers cs'.
Proof. unfold waited_informers. by rewrite omap_app, join_app. Qed.

Lemma waited_informers_Run (n : nat) (l : list InformerName) :
  waited_informers ((λ informer, (n, Run informer)) <$> l).*2 = [].
Proof.
  unfold waited_informers. induction l as [|informer l IH]; [done|]. exact IH.
Qed.

(** The informers that [Start] runs after those of Services, Endpoints and
    Secrets. *)
Lemma Start_result `{Externals} `{LibExternals} (synced : bool) (p : Process) :
  let w := world p in
  let rest :=
    (if bool_decide (lib.GetServiceType w = lib.NodePortLocal) then [PodInf] else [])
    ++ (if bool_decide (GetCNIPlugin (env w) = lib.CALICO_CNI)
        then [CalicoBlockAffinityInf] else [])
    ++ (if bool_decide (GetCNIPlugin (env w) = lib.OPENSHIFT_CNI)
        then [HostSubnetInf] else [])
    ++ (if lib.GetAdvancedL4 w then [AdvL4GatewayClassInf; AdvL4GatewayInf]
        else
          (if lib.UseServicesAPI w then [SvcAPIGatewayClassInf; SvcAPIGatewayInf] else [])
          ++ (if bool_decide (IngressInformer (informers w) ≠ None)
              then [IngressInf] else [])
          ++ (if bool_decide (RouteInformer (informers w) ≠ None) then [RouteInf] else [])
          ++ (if bool_decide (IngressClassInformer (informers w) ≠ None)
              then [IngressClassInf] else [])
          ++ [NSInf; NodeInf]
          ++ (if AviInfraSettingEnabled then [AviInfraSettingInf] else [])
          ++ (if HostRuleEnabled then [HostRuleInf] else [])
          ++ (if HttpRuleEnabled then [HTTPRuleInf] else [])) in
  match k8s.Start synced p with
  | None =>
      ServiceInformer (informers w) = None ∨ SecretInformer (informers w) = None
      ∨ (lib.GetAdvancedL4 w = false
         ∧ (NSInformer (informers w) = None ∨ NodeInformer (informers w) = None))
  | Some p' =>
      ServiceInformer (informers w) ≠ None ∧ SecretInformer (informers w) ≠ None
      ∧ (lib.GetAdvancedL4 w = false →
         NSInformer (informers w) ≠ None ∧ NodeInformer (informers w) ≠ None)
      ∧ started_informers (new_calls p p') = [ServiceInf; EpInf; SecretInf] ++ rest
      ∧ waited_informers (new_calls p p') = [EpInf; ServiceInf; SecretInf] ++ rest
      ∧ world p' = (if synced then emit (Log Info "Caches synced" []) w else w)
      ∧ lib_DisableSync p' = lib_DisableSync p
  end.
Proof.
  intros w rest. unfold k8s.Start. fold w.
  destruct (ServiceInformer (informers w)) as [svcInformer|]; [|by left].
  destruct (SecretInformer (informers w)) as [secretInformer|]; [|by right; left].
  cbv zeta.
  set (p0 := call (Run SecretInf) (call (Run EpInf) (call (Run ServiceInf) p))).
  assert (Hfinish : ∀ l,
    ∃ p', match run_informers l (p0, [EpInf; ServiceInf; SecretInf]) with
          | (p1, informersList) =>
              Some (if negb synced
                    then call (HandleError "timed out waiting for caches to sync")
                           (call (WaitForCacheSync informersList) p1)
                    else in_world (emit (Log Info "Caches synced" []))
                           (call (WaitForCacheSync informersList) p1))
          end = Some p'
          ∧ started_informers (new_calls p p') = [ServiceInf; EpInf; SecretInf] ++ l
          ∧ waited_informers (new_calls p p') = [EpInf; ServiceInf; SecretInf] ++ l
          ∧ world p' = (if synced then emit (Log Info "Caches synced" []) w else w)
          ∧ lib_DisableSync p' = lib_DisableSync p).
  { intros l.
    destruct (run_informers_result l p0 [EpInf; ServiceInf; SecretInf])
      as (p1 & Hr & Hw1 & Hl1 & Hc1).
    rewrite Hr. eexists. split; [reflexivity|].
    unfold new_calls.
    destruct synced; cbn [negb calls call in_world world lib_DisableSync];
      rewrite Hc1, Hw1, Hl1; subst p0;
      cbn [calls call in_world world lib_DisableSync];
      rewrite <- ?app_assoc, drop_app_length, !fmap_app,
        !started_informers_app, !waited_informers_app,
        started_informers_Run, waited_informers_Run;
      cbn; rewrite ?app_nil_r; done. }
  rewrite !run_informer_if, !run_informers_app.
  destruct (lib.GetAdvancedL4 w) eqn:Hl4.
  - rewrite ?run_informer_if, ?run_informers_app.
    match goal with
    | |- context [run_informers ?l (p0, _)] =>
        destruct (Hfinish l) as (p' & -> & Hs & Hwt & Hw' & Hl')
    end.
    rewrite Hs, Hwt. subst rest. rewrite <- ?app_assoc. done.
  - rewrite ?run_informer_if, ?run_informers_app.
    destruct (NSInformer (informers w)) as [nsInformer|]; [|by right; right; split; [|left]].
    destruct (NodeInformer (informers w)) as [nodeInformer|];
      [|by right; right; split; [|right]].
    rewrite ?run_informer_if, ?run_informers_app.
    match goal with
    | |- context [run_informers ?l (p0, _)] =>
        destruct (Hfinish l) as (p' & -> & Hs & Hwt & Hw' & Hl')
    end.
    rewrite Hs, Hwt. subst rest. rewrite <- ?app_assoc.
    destruct (lib.UseServicesAPI w); done.
Qed.

Lemma sublist_if {A} (c : bool) (l : list A) : (if c then l else []) `sublist_of` l.
Proof. destruct c; [done|apply sublist_nil_l]. Qed.

(** Finds an element in a list built by appending. *)
Ltac find_elem :=
  solve [ repeat first [ apply list_elem_of_here | apply list_elem_of_further ]
        | apply elem_of_app; first [ left; find_elem | right; find_elem ] ].

(** X22. [Start] panics exactly when the informer of Services or of Secrets is
    missing, or that of Namespaces or of Nodes outside advanced L4. Otherwise
    it runs
    the informer of every handler table that [SetupEventHandlers] installs
    from controller.go, each informer once, and waits for the informers it
    has run; outside advanced L4 it runs the Node informer whether or not the
    Node handlers are installed. *)
Theorem Start_runs_installed_handlers `{Externals} `{LibExternals} (synced : bool)
    (p : Process) :
  let w := world p in
  match k8s.Start synced p with
  | None =>
      ServiceInformer (informers w) = None ∨ SecretInformer (informers w) = None
      ∨ (lib.GetAdvancedL4 w = false
         ∧ (NSInformer (informers w) = None ∨ NodeInformer (informers w) = None))
  | Some p' =>
      let started := started_informers (new_calls p p') in
      ServiceInformer (informers w) ≠ None ∧ SecretInformer (informers w) ≠ None
      ∧ (lib.GetAdvancedL4 w = false →
         NSInformer (informers w) ≠ None ∧ NodeInformer (informers w) ≠ None)
      ∧ (∀ table informer,
           table ∈ k8s.SetupEventHandlers w →
           informer_of table = Some informer → informer ∈ started)
      ∧ NoDup started
      ∧ waited_informers (new_calls p p') ≡ₚ started
      ∧ (NodeInf ∈ started ↔ lib.GetAdvancedL4 w = false)
  end.
Proof.
  intros w. pose proof (Start_result synced p) as Hstart. cbv zeta in Hstart. fold w in Hstart.
  destruct (k8s.Start synced p) as [p'|]; [|exact Hstart].
  destruct Hstart as (Hsvc & Hsecret & Hns & Hs & Hwt & _).
  cbv zeta. rewrite Hs, Hwt. clear Hs Hwt.
  split; [done|]. split; [done|]. split; [done|]. split; [|split; [|split]].
  - intros table informer Hin Hof. unfold k8s.SetupEventHandlers in Hin.
    destruct (lib.GetAdvancedL4 w);
      repeat match goal with
             | Hin : _ ∈ _ ++ _ |- _ => apply elem_of_app in Hin as [Hin|Hin]
             end;
      repeat match goal with
             | Hin : _ ∈ (if ?c then _ else _) |- _ => destruct c eqn:?
             end;
      repeat match goal with
             | Hin : _ ∈ _ :: _ |- _ => apply elem_of_cons in Hin as [->|Hin]
             | Hin : _ ∈ [] |- _ => by apply elem_of_nil in Hin
             end;
      cbn [informer_of] in Hof; try discriminate Hof;
      injection Hof as <-;
      repeat match goal with
             | e : ?P |- context [bool_decide ?P] => rewrite (bool_decide_eq_true_2 P e)
             end;
      find_elem.
  - apply (sublist_NoDup _
             ([ServiceInf; EpInf; SecretInf] ++ [PodInf] ++ [CalicoBlockAffinityInf]
              ++ [HostSubnetInf] ++ [AdvL4GatewayClassInf; AdvL4GatewayInf]
              ++ [SvcAPIGatewayClassInf; SvcAPIGatewayInf] ++ [IngressInf] ++ [RouteInf]
              ++ [IngressClassInf] ++ [NSInf; NodeInf] ++ [AviInfraSettingInf]
              ++ [HostRuleInf] ++ [HTTPRuleInf])).
    { apply (bool_decide_unpack _). vm_compute. exact I. }
    repeat (apply sublist_app; [first [apply sublist_if | done]|]).
    destruct (lib.GetAdvancedL4 w).
    + by apply sublist_inserts_r.
    + apply (sublist_inserts_l [_; _]).
      repeat first [ apply sublist_if
                   | apply sublist_app; [first [apply sublist_if | done]|] ].
  - apply Permutation_app; [apply perm_swap|done].
  - destruct (lib.GetAdvancedL4 w).
    + split; [|discriminate]. intros Hin. exfalso.
      repeat match goal with
             | Hin : _ ∈ _ ++ _ |- _ => apply elem_of_app in Hin as [Hin|Hin]
             end;
        repeat match goal with
               | Hin : _ ∈ (if ?c then _ else _) |- _ => destruct c
               end;
        revert Hin; apply (bool_decide_unpack _); vm_compute; exact I.
    + split; [done|]. intros _. find_elem.
Qed.

(** ** Shard size, cluster name and names of L4 objects (lib.go) *)

Lemma ShardSizeMap_lookup (k : string) (v : N) :
  lib.ShardSizeMap !! k = Some v →
  (k, v) ∈ [("LARGE", 8%N); ("MEDIUM", 4%N); ("SMALL", 1%N); ("DEDICATED", 0%N)].
Proof. unfold lib.ShardSizeMap. apply elem_of_list_to_map_2. Qed.

(** X23. The graph layer never gets zero workers: [InitController] gives it 1, 4
    or 8 of them. The shard size itself is 0 exactly for dedicated virtual
    services outside advanced L4, which get 8 workers; advanced L4 always
    has 8 and ignores SHARD_VS_SIZE; an unknown or missing SHARD_VS_SIZE
    gives 1. *)
Theorem graph_workers_positive `{Externals} (w : World) :
  k8s.numGraphWorkers w ∈ [1%N; 4%N; 8%N]
  ∧ (lib.GetshardSize w = 0%N
     ↔ lib.GetAdvancedL4 w = false ∧ Getenv "SHARD_VS_SIZE" w = "DEDICATED")
  ∧ (lib.GetAdvancedL4 w = true → k8s.numGraphWorkers w = 8%N)
  ∧ (lib.GetAdvancedL4 w = false →
     Getenv "SHARD_VS_SIZE" w ∉ ["LARGE"; "MEDIUM"; "SMALL"; "DEDICATED"] →
     k8s.numGraphWorkers w = 1%N).
Proof.
  unfold k8s.numGraphWorkers, lib.GetshardSize.
  destruct (lib.GetAdvancedL4 w).
  { change (default 0%N (lib.ShardSizeMap !! "LARGE")) with 8%N. cbn.
    split; [find_elem|]. split; [|done]. split; [done|]. by intros [[=] _]. }
  destruct (lib.ShardSizeMap !! Getenv "SHARD_VS_SIZE" w) as [shardSize|] eqn:Hsize.
  - apply ShardSizeMap_lookup in Hsize.
    repeat (apply elem_of_cons in Hsize as [[= Hk ->]|Hsize]);
      [..|by apply elem_of_nil in Hsize];
      rewrite Hk; cbn;
      (split; [find_elem|]);
      (split; [first [split; [done|by intros [_ [=]]] | done]|]);
      (split; [done|]); intros _ Hnot; exfalso; apply Hnot; find_elem.
  - cbn. split; [find_elem|]. split.
    + split; [done|]. intros [_ Hd]. rewrite Hd in Hsize. discriminate Hsize.
    + done.
Qed.

Lemma split_go_cons (sep : ascii) (cur s : string) :
  ∃ first rest, gostd.split_go sep cur s = first :: rest.
Proof.
  revert cur. induction s as [|c s IH]; intros cur; cbn [gostd.split_go].
  - by eexists _, _.
  - destruct (Ascii.eqb c sep); [by eexists _, _|apply IH].
Qed.

(** X24. In advanced L4 mode the cluster name is the part of CLUSTER_ID before
    its first colon, for the names of all objects; CLUSTER_NAME is not read.
    A CLUSTER_ID without a colon gives the empty cluster name. *)
Theorem GetClusterName_advanced_L4 `{Externals} (w : World) (name rest : string) :
  lib.GetAdvancedL4 w = true →
  ":"%char ∉ list_ascii_of_string name →
  (Getenv lib.CLUSTER_ID w = name +:+ String ":" rest →
   lib.GetClusterName w = name
   ∧ lib.GetNamePrefix (lib.SetNamePrefix w) = name +:+ "--")
  ∧ (Getenv lib.CLUSTER_ID w = name → lib.GetClusterName w = "").
Proof.
  intros Hl4 Hname.
  assert (Hsplit : Getenv lib.CLUSTER_ID w = name +:+ String ":" rest →
                   lib.GetClusterName w = name).
  { intros Hid. unfold lib.GetClusterName, lib.GetClusterIDSplit, lib.GetClusterID.
    rewrite Hl4, Hid.
    destruct (decide (name +:+ String ":" rest ≠ "")) as [Hne|Hempty].
    - rewrite decide_True by done. unfold gostd.Split.
      rewrite split_go_sep by done.
      destruct (split_go_cons ":" "" rest) as (first & more & ->).
      apply string_app_nil_l.
    - destruct name; [|by destruct Hempty]. by destruct Hempty. }
  split.
  - intros Hid. split; [by apply Hsplit|].
    unfold lib.SetNamePrefix. cbn [lib.GetNamePrefix NamePrefix set_NamePrefix].
    by rewrite (Hsplit Hid).
  - intros Hid. unfold lib.GetClusterName, lib.GetClusterIDSplit, lib.GetClusterID.
    rewrite Hl4, Hid. destruct (decide (name ≠ "")); [|done].
    rewrite decide_True by done. unfold gostd.Split.
    by rewrite split_go_no_sep by done.
Qed.

(** X25. The names of the L4 objects of a Service join the namespace and the name
    of the Service with a hyphen, which both may contain: a Service and
    another one whose namespace ends where the name of the first begins get
    the same names for the virtual service, its VIP and its pools. *)
Theorem L4_names_collide `{Externals} (limit : nat) (namespace middle svcName : string)
    (port : Z) (w : World) :
  (lib.GetL4VSName limit svcName (namespace +:+ "-" +:+ middle) w).1
  = (lib.GetL4VSName limit (middle +:+ "-" +:+ svcName) namespace w).1
  ∧ (lib.GetL4VSVipName limit svcName (namespace +:+ "-" +:+ middle) w).1
    = (lib.GetL4VSVipName limit (middle +:+ "-" +:+ svcName) namespace w).1
  ∧ (lib.GetL4PoolName limit svcName (namespace +:+ "-" +:+ middle) port w).1
    = (lib.GetL4PoolName limit (middle +:+ "-" +:+ svcName) namespace port w).1.
Proof.
  unfold lib.GetL4VSName, lib.GetL4VSVipName, lib.GetL4PoolName.
  rewrite !Encode_name, !string_app_assoc. done.
Qed.

Lemma VrfChecksum_loop_None `{Externals} `{LibExternals} (clusterName : string)
    (routes : list StaticRoute) :
  foldl (λ st staticRoute,
           match st, RouteID staticRoute with
           | Some filteredStaticRoutes, Some id =>
               if gostd.HasPrefix id clusterName
               then Some (filteredStaticRoutes ++ [staticRoute])
               else Some filteredStaticRoutes
           | _, _ => None
           end) None routes = None.
Proof. induction routes as [|r routes IH]; [done|exact IH]. Qed.

(** X26. The checksum of the static routes of a VRF does not depend on the routes
    of other clusters, those whose id does not start with the name of this
    cluster, nor on the name of the VRF. *)
Theorem VrfChecksum_foreign_routes `{Externals} `{LibExternals} (vrfName vrfName' : string)
    (routes foreign routes' : list StaticRoute) (w : World) :
  Forall (λ route, ∃ id, RouteID route = Some id
                         ∧ gostd.HasPrefix id (lib.GetClusterName w) = false) foreign →
  lib.VrfChecksum vrfName (routes ++ foreign ++ routes') w
  = lib.VrfChecksum vrfName' (routes ++ routes') w.
Proof.
  intros Hforeign. unfold lib.VrfChecksum. cbv zeta. rewrite !foldl_app.
  destruct (foldl _ (Some []) routes) as [filtered|].
  - assert (Hskip : foldl (λ st staticRoute,
                             match st, RouteID staticRoute with
                             | Some filteredStaticRoutes, Some id =>
                                 if gostd.HasPrefix id (lib.GetClusterName w)
                                 then Some (filteredStaticRoutes ++ [staticRoute])
                                 else Some filteredStaticRoutes
                             | _, _ => None
                             end) (Some filtered) foreign = Some filtered).
    { induction Hforeign as [|route foreign (id & Hid & Hprefix) _ IH]; [done|].
      cbn [foldl]. by rewrite Hid, Hprefix. }
    by rewrite Hskip.
  - by rewrite !VrfChecksum_loop_None.
Qed.

Lemma GetClusterName_advanced_L4_witness :
  let w := sample.world {[ "ADVANCED_L4" := "true"; "CLUSTER_ID" := "domain-c8:3fb16b38";
                           "CLUSTER_NAME" := "c1" ]}
             false sample.noFilter sample.noInformers ∅ in
  lib.GetClusterName (H := ref.ext) w = "domain-c8"
  ∧ lib.GetNamePrefix (lib.SetNamePrefix (H := ref.ext) w) = "domain-c8--".
Proof.
  intros w.
  refine (proj1 (GetClusterName_advanced_L4 (H := ref.ext) w "domain-c8" "3fb16b38"
                   eq_refl _) eq_refl).
  apply (bool_decide_unpack _). vm_compute. exact I.
Defined.

Lemma VrfChecksum_foreign_routes_witness :
  let w := sample.world sample.plainEnv false sample.noFilter sample.noInformers ∅ in
  lib.VrfChecksum (H := ref.ext) (H0 := samplelib.ext) "global"
    ([Some "c1-1"] ++ [Some "c2-1"; Some "west-7"] ++ [Some "c1-2"]) w
  = lib.VrfChecksum (H := ref.ext) (H0 := samplelib.ext) "global"
      ([Some "c1-1"] ++ [Some "c1-2"]) w.
Proof.
  intros w.
  apply (VrfChecksum_foreign_routes (H := ref.ext) (H0 := samplelib.ext)).
  repeat first [apply Forall_nil_2 | apply Forall_cons_2]; by eexists.
Defined.

(** ** The start of the controller (ako_init.go) *)

Lemma calls_call `{Externals} (c : Call) (p : Process) :
  (calls (call c p)).*2 = (calls p).*2 ++ [c].
Proof. cbn [calls call]. by rewrite fmap_app. Qed.

Lemma calls_call_if `{Externals} (b : bool) (c : Call) (p : Process) :
  (calls (k8s.call_if b c p)).*2 = (calls p).*2 ++ (if b then [c] else []).
Proof. destruct b; cbn [k8s.call_if]; [apply calls_call|by rewrite app_nil_r]. Qed.

Lemma calls_in_world `{Externals} (f : World → World) (p : Process) :
  (calls (in_world f p)).*2 = (calls p).*2.
Proof. reflexivity. Qed.

Lemma world_call `{Externals} (c : Call) (p : Process) : world (call c p) = world p.
Proof. reflexivity. Qed.

Lemma world_call_if `{Externals} (b : bool) (c : Call) (p : Process) :
  world (k8s.call_if b c p) = world p.
Proof. by destruct b. Qed.

Lemma world_in_world `{Externals} (f : World → World) (p : Process) :
  world (in_world f p) = f (world p).
Proof. reflexivity. Qed.

Lemma calls_set_workqueue `{Externals} (queue : QueueName) (p : Process) :
  (calls (set_workqueue queue p)).*2 = (calls p).*2.
Proof. reflexivity. Qed.

Lemma world_set_workqueue `{Externals} (queue : QueueName) (p : Process) :
  world (set_workqueue queue p) = world p.
Proof. reflexivity. Qed.

Lemma workqueue_call `{Externals} (c : Call) (p : Process) :
  workqueue (call c p) = workqueue p.
Proof. reflexivity. Qed.

Lemma workqueue_call_if `{Externals} (b : bool) (c : Call) (p : Process) :
  workqueue (k8s.call_if b c p) = workqueue p.
Proof. by destruct b. Qed.

Lemma workqueue_in_world `{Externals} (f : World → World) (p : Process) :
  workqueue (in_world f p) = workqueue p.
Proof. reflexivity. Qed.

Lemma new_calls_snd `{Externals} (p p' : Process) (l : list Call) :
  (calls p').*2 = (calls p).*2 ++ l → new_calls p p' = l.
Proof.
  intros Hc. unfold new_calls. rewrite fmap_drop, Hc.
  rewrite <- (length_fmap snd (calls p)). apply drop_app_length.
Qed.

Lemma omap_if {A B} (f : A → option B) (b : bool) (l l' : list A) :
  omap f (if b then l else l') = if b then omap f l else omap f l'.
Proof. by destruct b. Qed.

Lemma if_same {A} (b : bool) (x : A) : (if b then x else x) = x.
Proof. by destruct b. Qed.

Ltac calls_norm :=
  repeat first [ rewrite calls_call | rewrite calls_call_if | rewrite calls_in_world
               | rewrite calls_set_workqueue ];
  rewrite <- ?app_assoc.

Ltac world_norm :=
  repeat first [ rewrite world_call | rewrite world_call_if | rewrite world_in_world
               | rewrite world_set_workqueue ].

Ltac workqueue_norm :=
  repeat first [ rewrite workqueue_call | rewrite workqueue_call_if
               | rewrite workqueue_in_world ].

(** Replaces the calls made between two processes by their list. *)
Ltac new_calls_list p :=
  match goal with
  | |- context [new_calls p ?q] =>
      let Hc := fresh "Hc" in
      eassert (Hc : (calls q).*2 = (calls p).*2 ++ _) by (calls_norm; reflexivity);
      rewrite !(new_calls_snd p q _ Hc); clear Hc
  end.


(** X27. [SetupEventHandlers] panics without a Service informer, and without a
    Node informer when it comes to add the Node handlers (outside advanced
    L4, with the static-route part on). Otherwise the handlers that it adds
    to the informers are those of the tables it installs, in the same order,
    and the handlers of the Gateways and of the CRDs are set up exactly when
    their table is installed; it sets [c.workqueue] to the queue of the
    ingestion layer, and in the rest of the state it only adds log lines. *)
Theorem SetupEventHandlers_run_tables `{Externals} (p : Process) :
  let w := world p in
  match k8s.SetupEventHandlers_run p with
  | None =>
      ServiceInformer (informers w) = None
      ∨ (lib.GetAdvancedL4 w = false
         ∧ lib.GetDisableStaticRoute w && negb (lib.IsNodePortMode w) = false
         ∧ NodeInformer (informers w) = None)
  | Some p' =>
      ServiceInformer (informers w) ≠ None
      ∧ (k8s.nodeEventHandler ∈ k8s.SetupEventHandlers w →
         NodeInformer (informers w) ≠ None)
      ∧ added_handlers (new_calls p p') = omap informer_of (k8s.SetupEventHandlers w)
      ∧ (SetupAdvL4EventHandlers ∈ new_calls p p'
         ↔ k8s.AdvL4EventHandlers ∈ k8s.SetupEventHandlers w)
      ∧ (SetupSvcApiEventHandlers ∈ new_calls p p'
         ↔ k8s.SvcApiEventHandlers ∈ k8s.SetupEventHandlers w)
      ∧ (SetupAKOCRDEventHandlers ∈ new_calls p p'
         ↔ k8s.AKOCRDEventHandlers ∈ k8s.SetupEventHandlers w)
      ∧ workqueue p' = Some IngestionQueue
      ∧ lib_DisableSync p' = lib_DisableSync p
      ∧ ∃ logs : list Effect,
          world p' = set_trace (trace (world p) ++ logs) (world p)
          ∧ Forall (λ e, is_Log e = true) logs
  end.
Proof.
  intros w. unfold k8s.SetupEventHandlers_run, k8s.SetupEventHandlers. fold w.
  destruct (ServiceInformer (informers w)) as [svcInformer|]; [|by left].
  cbv zeta. rewrite !decide_bool_decide.
  generalize (bool_decide (GetCNIPlugin (env w) = lib.CALICO_CNI)),
    (bool_decide (GetCNIPlugin (env w) = lib.OPENSHIFT_CNI)),
    (bool_decide (SecretInformer (informers w) ≠ None)),
    (lib.UseServicesAPI w),
    (bool_decide (IngressInformer (informers w) ≠ None)),
    (bool_decide (IngressClassInformer (informers w) ≠ None)),
    (lib.GetDisableStaticRoute w && negb (lib.IsNodePortMode w)),
    (bool_decide (RouteInformer (informers w) ≠ None)),
    (EnableMigration (nsFilter w) && bool_decide (NSInformer (informers w) ≠ None)),
    (bool_decide (lib.GetServiceType w = lib.NodePortLocal)).
  intros calico openshift secret svcapi ingress ingressClass static route migration npl.
  destruct (lib.GetAdvancedL4 w), static, migration;
    try (destruct (NodeInformer (informers w)) as [nodeInformer|] eqn:Hinf;
         [|by right]);
    (split; [done|]);
    (split;
     [ first [ done
             | intros Hin; exfalso; revert Hin;
               destruct calico, openshift, secret, svcapi, ingress, ingressClass,
                 route, npl;
               apply (bool_decide_unpack _); vm_compute; exact I ]|]);
    new_calls_list p; world_norm;
    (split;
     [ unfold added_handlers; rewrite !omap_app, !omap_if;
       cbn [omap list_omap informer_of]; rewrite ?if_same; reflexivity|]);
    (split; [|split; [|split]];
     [ destruct calico, openshift, secret, svcapi, ingress, ingressClass, route, npl;
       apply (bool_decide_unpack _); vm_compute; exact I ..
     | split; [workqueue_norm; reflexivity|];
       split; [by destruct calico, openshift, secret, svcapi, ingress, ingressClass,
                 route, npl|];
       eexists; split;
       [ unfold emit; cbn; rewrite <- ?app_assoc; reflexivity
       | repeat constructor ] ]).
Qed.

(** *** [PopulateCache] and the first part of [InitController] *)

Lemma IsClusterNameValid_result `{Externals} `{LibExternals} (p : Process) :
  let name := lib.GetClusterName (world p) in
  let valid := bool_decide (name ≠ "") && lib.clusterNameRe_MatchString name in
  (lib.IsClusterNameValid p).1 = valid
  ∧ ∃ logs : list Effect,
      (lib.IsClusterNameValid p).2
      = in_world (set_trace (trace (world p) ++ logs)) p
      ∧ Forall (λ e, is_Log e = true) logs.
Proof.
  intros name valid. unfold lib.IsClusterNameValid. fold name. subst valid.
  destruct (decide (name = "")) as [Hname|Hname].
  - rewrite bool_decide_eq_false_2 by (intros Hne; by apply Hne).
    split; [done|]. eexists [_]. split; [reflexivity|]. by repeat constructor.
  - rewrite bool_decide_eq_true_2 by done.
    destruct (lib.clusterNameRe_MatchString name); cbn [negb andb fst snd].
    + split; [done|]. exists []. split; [|constructor].
      rewrite app_nil_r. by destruct p as [[] ? ? ? ?].
    + split; [done|]. eexists [_]. split; [reflexivity|]. by repeat constructor.
Qed.

Lemma calls_set_trace `{Externals} (t : list Effect) (p : Process) :
  calls (in_world (set_trace t) p) = calls p.
Proof. reflexivity. Qed.

(** No element of a list of other calls. *)
Ltac not_in_calls :=
  let Hin := fresh "Hin" in
  intros Hin;
  repeat (apply elem_of_cons in Hin as [Hin|Hin]; [discriminate|]);
  by apply elem_of_nil in Hin.

(** The calls and the result of [PopulateCache]. *)
Lemma PopulateCache_calls `{Externals} `{LibExternals} (b : k8s.BootInputs)
    (p : Process) :
  let w := world p in
  let failed := k8s.has_client b && bool_decide (k8s.populateErr b ≠ None) in
  let name := lib.GetClusterName w in
  let valid := bool_decide (name ≠ "") && lib.clusterNameRe_MatchString name in
  let staleVSKey := lib.GetTenant w +:+ "/" +:+ DummyVSForStaleData in
  (failed = true ↔ (k8s.PopulateCache b p).1 ≠ None)
  ∧ (∃ logs : list Effect,
       world (k8s.PopulateCache b p).2 = set_trace (trace w ++ logs) w
       ∧ Forall (λ e, is_Log e = true) logs)
  ∧ (calls (k8s.PopulateCache b p).2).*2
    = (calls p).*2
      ++ (if k8s.has_client b then
            AviObjCachePopulate
            :: (if failed then [] else [SetControllerClusterUUID; SyncObjectStatuses])
          else [])
      ++ (if k8s.has_client b && negb failed && valid then
            [CleanupVS staleVSKey true;
             AviCacheDelete DummyVSForStaleData (lib.GetTenant w)]
          else []).
Proof.
  intros w failed name valid staleVSKey. subst failed.
  unfold k8s.PopulateCache.
  destruct (k8s.has_client b) eqn:Hclient;
    [destruct (k8s.populateErr b) as [err|] eqn:Herr;
       [|destruct (k8s.uuidErr b) as [uerr|]]|];
    cbn [andb negb bool_decide decide_rel]; cbv zeta;
    try match goal with
    | |- context [lib.IsClusterNameValid ?q] =>
        destruct (IsClusterNameValid_result q) as (Hvalid & logs & Hp & Hlogs);
        change (lib.GetClusterName (world q)) with name in Hvalid;
        cbv zeta in Hvalid; fold valid in Hvalid;
        destruct (lib.IsClusterNameValid q) as [valid' q'];
        cbn [fst snd] in Hvalid, Hp; subst valid' q'
    end.
  all: try destruct valid; cbn [fst snd andb negb].
  all: split; [split; [done|intros Hne; by try apply Hne]|].
  all: split;
    [ eexists; split;
      [ world_norm; unfold emit; cbn; rewrite <- ?app_assoc; reflexivity
      | repeat first [ assumption | apply Forall_app_2 | apply Forall_cons_2
                     | apply Forall_nil_2 | reflexivity ] ]
    | calls_norm; rewrite ?app_nil_r; reflexivity ].
Qed.

(** The calls of the first part of [InitController], and the state it
    leaves. *)
Lemma InitController_setup_shape `{Externals} `{LibExternals} (b : k8s.BootInputs)
    (p : Process) :
  let w := world p in
  let p' := k8s.InitController_setup b p in
  let failed := k8s.has_client b && bool_decide (k8s.populateErr b ≠ None) in
  let name := lib.GetClusterName w in
  let valid := bool_decide (name ≠ "") && lib.clusterNameRe_MatchString name in
  let staleVSKey := lib.GetTenant w +:+ "/" +:+ DummyVSForStaleData in
  (calls p').*2
  = (calls p).*2
    ++ [NewInformers (k8s.registeredInformers b)
          (if decide (lib.GetNamespaceToSync w ≠ "")
           then Some (lib.GetNamespaceToSync w) else None)
          (lib.GetAdvancedL4 w);
        NewDynamicInformers;
        SharedWorkQueue 1 (k8s.numGraphWorkers w) 1 1 (k8s.numGraphWorkers w)]
    ++ (if k8s.has_client b then
          AviObjCachePopulate
          :: (if failed then [] else [SetControllerClusterUUID; SyncObjectStatuses])
        else [])
    ++ (if k8s.has_client b && negb failed && valid then
          [CleanupVS staleVSKey true;
           AviCacheDelete DummyVSForStaleData (lib.GetTenant w)]
        else [])
    ++ (if failed then [akoApi_ShutDown] else [])
  ∧ ∃ logs : list Effect,
      world p' = set_trace (trace w ++ logs)
                   (set_DisableSync (DisableSync w || failed)
                      (set_graphNumWorkers (k8s.numGraphWorkers w)
                         (set_informers (k8s.madeInformers b) w)))
      ∧ Forall (λ e, is_Log e = true) logs.
Proof.
  intros w p' failed name valid staleVSKey.
  subst p'. unfold k8s.InitController_setup. cbv zeta.
  match goal with
  | |- context [k8s.PopulateCache b ?q] => set (p0 := q)
  end.
  destruct (PopulateCache_calls b p0) as (Hfailed & (logs & Hw & Hlogs) & Hc).
  change (lib.GetClusterName (world p0)) with name in Hc.
  change (lib.GetTenant (world p0)) with (lib.GetTenant w) in Hc.
  fold valid failed staleVSKey in Hc. fold failed in Hfailed.
  assert (Hc0 : (calls p0).*2
                = (calls p).*2
                  ++ [NewInformers (k8s.registeredInformers b)
                        (if decide (lib.GetNamespaceToSync w ≠ "")
                         then Some (lib.GetNamespaceToSync w) else None)
                        (lib.GetAdvancedL4 w);
                      NewDynamicInformers;
                      SharedWorkQueue 1 (k8s.numGraphWorkers w) 1 1
                        (k8s.numGraphWorkers w)]).
  { subst p0. calls_norm. reflexivity. }
  assert (Hw0 : world p0
                = set_graphNumWorkers (k8s.numGraphWorkers w)
                    (set_informers (k8s.madeInformers b) w)) by reflexivity.
  rewrite Hw0 in Hw. rewrite Hc0 in Hc. clear Hc0 Hw0. clearbody p0.
  destruct (k8s.PopulateCache b p0) as [err p1]. cbn [fst snd] in *.
  split.
  - destruct failed.
    + destruct err as [err|]; [|by destruct Hfailed as [Hf _]; destruct (Hf eq_refl)].
      unfold lib.ShutdownApi. calls_norm. rewrite Hc, <- !app_assoc. reflexivity.
    + destruct err as [err|]; [by destruct Hfailed as [_ Hf]; discriminate Hf|].
      rewrite Hc, <- !app_assoc, !app_nil_r. reflexivity.
  - destruct failed.
    + destruct err as [err|]; [|by destruct Hfailed as [Hf _]; destruct (Hf eq_refl)].
      eexists (logs ++ [_]). unfold lib.ShutdownApi. world_norm.
      rewrite Hw, orb_true_r.
      split; [unfold emit; cbn; rewrite <- ?app_assoc; reflexivity|].
      apply Forall_app_2; [exact Hlogs|by repeat constructor].
    + destruct err as [err|]; [by destruct Hfailed as [_ Hf]; discriminate Hf|].
      exists logs. rewrite Hw, orb_false_r. split; [by destruct w|exact Hlogs].
Qed.

(** X28. The first part of [InitController] installs the informers it is given
    and sets the number of workers of the graph queue. The cache is
    populated only with a client; if that fails, sync is disabled and the API
    server is shut down, and the statuses are not synced and no stale object
    is cleaned up. The clean-up of the stale objects needs a client, a
    populated cache and a valid name of the cluster. *)
Theorem InitController_setup_result `{Externals} `{LibExternals} (b : k8s.BootInputs)
    (p : Process) :
  let w := world p in
  let p' := k8s.InitController_setup b p in
  let failed := k8s.has_client b && bool_decide (k8s.populateErr b ≠ None) in
  let name := lib.GetClusterName w in
  let valid := bool_decide (name ≠ "") && lib.clusterNameRe_MatchString name in
  let staleVSKey := lib.GetTenant w +:+ "/" +:+ DummyVSForStaleData in
  informers (world p') = k8s.madeInformers b
  ∧ graphNumWorkers (world p') = k8s.numGraphWorkers w
  ∧ DisableSync (world p') = DisableSync w || failed
  ∧ graphLister (world p') = graphLister w
  ∧ (AviObjCachePopulate ∈ new_calls p p' ↔ k8s.has_client b = true)
  ∧ (akoApi_ShutDown ∈ new_calls p p' ↔ failed = true)
  ∧ (SyncObjectStatuses ∈ new_calls p p'
     ↔ k8s.has_client b = true ∧ failed = false)
  ∧ (CleanupVS staleVSKey true ∈ new_calls p p'
     ↔ k8s.has_client b = true ∧ failed = false ∧ valid = true)
  ∧ (AviCacheDelete DummyVSForStaleData (lib.GetTenant w) ∈ new_calls p p'
     ↔ CleanupVS staleVSKey true ∈ new_calls p p').
Proof.
  intros w p' failed name valid staleVSKey.
  destruct (InitController_setup_shape b p) as (Hcalls & logs & Hworld & _).
  cbv zeta in Hcalls, Hworld.
  fold w p' failed name valid staleVSKey in Hcalls, Hworld.
  rewrite Hworld, !(new_calls_snd _ _ _ Hcalls). clear Hcalls Hworld.
  clearbody p' failed valid.
  do 4 (split; [reflexivity|]).
  rewrite !(elem_of_later_calls _ [_; _; _]) by not_in_calls.
  destruct (k8s.has_client b), failed, valid; cbn [andb negb app];
    repeat match goal with |- _ ∧ _ => split end; (split; intros Hin);
    first [ done | find_elem | intuition discriminate
          | exfalso; revert Hin; not_in_calls ].
Qed.

(** *** The wait for the signals *)

(** What the wait loop of [InitController] calls, by the signals. *)
Lemma wait_signals_calls `{Externals} `{LibExternals} (worker : bool)
    (signals : list Signal) (p : Process) :
  let n := before_ctrl signals in
  let panics := negb worker && QuickSync_on_nil_panics && (0 <? n)%nat in
  let stops := negb panics && (n <? length signals)%nat in
  (k8s.wait_signals worker signals p).1
  = (if panics then k8s.InitPanicked
     else if stops then k8s.InitStopped else k8s.InitWaiting)
  ∧ world (k8s.wait_signals worker signals p).2 = world p
  ∧ (calls (k8s.wait_signals worker signals p).2).*2
    = (calls p).*2
      ++ replicate (if panics then 1 else n) (worker_QuickSync worker)
      ++ (if stops then
            (if worker then [worker_Shutdown] else [])
            ++ (StopWorkers <$> [IngestionQueue; GraphQueue; FastRetryQueue;
                                 SlowRetryQueue; StatusQueue])
          else []).
Proof.
  revert p. induction signals as [|signal signals IH]; intros p.
  - cbn. rewrite andb_false_r. cbn. by rewrite app_nil_r.
  - destruct signal.
    + cbn [k8s.wait_signals before_ctrl]. cbv zeta.
      destruct (negb worker && QuickSync_on_nil_panics) eqn:Hnil.
      * cbn. by rewrite fmap_app.
      * specialize (IH (call (worker_QuickSync worker) p)).
        cbv zeta in IH. cbn in IH |- *.
        destruct IH as (-> & -> & ->).
        split; [done|]. split; [done|].
        rewrite fmap_app, <- app_assoc. reflexivity.
    + cbn [k8s.wait_signals before_ctrl]. cbv zeta. rewrite andb_false_r.
      cbn [fst snd negb andb length Nat.ltb Nat.leb].
      split; [done|]. split; [by destruct worker|].
      calls_norm. reflexivity.
Qed.

(** X29. The wait loop of [InitController] calls [QuickSync] on the worker once
    for each quick-sync signal that comes before the first signal on
    [ctrlCh]. Without a worker the first such call is made on a nil worker;
    if that panics, the loop ends there. Otherwise the loop ends at the
    first signal on [ctrlCh]: the worker, if there is one, is shut down,
    and the workers of the queues are stopped in the order ingestion,
    graph, fast retry, slow retry, status. The state of the controller is
    not changed. *)
Theorem wait_signals_result `{Externals} `{LibExternals} (worker : bool)
    (signals : list Signal) (p : Process) :
  let n := before_ctrl signals in
  let panics := negb worker && QuickSync_on_nil_panics && (0 <? n)%nat in
  let stops := negb panics && (n <? length signals)%nat in
  let out := (k8s.wait_signals worker signals p).1 in
  let p' := (k8s.wait_signals worker signals p).2 in
  out = (if panics then k8s.InitPanicked
         else if stops then k8s.InitStopped else k8s.InitWaiting)
  ∧ world p' = world p
  ∧ quick_syncs (new_calls p p') = replicate (if panics then 1 else n) worker
  ∧ (worker_Shutdown ∈ new_calls p p' ↔ worker = true ∧ stops = true)
  ∧ stopped_queues (new_calls p p')
    = (if stops then [IngestionQueue; GraphQueue; FastRetryQueue; SlowRetryQueue;
                      StatusQueue]
       else [])
  ∧ (stops = true ↔ panics = false ∧ CtrlSignal ∈ signals).
Proof.
  intros n panics stops out p'.
  destruct (wait_signals_calls worker signals p) as (Hout & Hw & Hc).
  fold n panics stops in Hout, Hc. fold p' in Hw, Hc.
  rewrite (new_calls_snd _ _ _ Hc).
  split; [exact Hout|]. split; [exact Hw|].
  assert (Hq : ∀ k, quick_syncs (replicate k (worker_QuickSync worker))
                    = replicate k worker).
  { induction k as [|k IHk]; [done|]. cbn. by f_equal. }
  assert (Hs : ∀ k, stopped_queues (replicate k (worker_QuickSync worker)) = []).
  { induction k as [|k IHk]; [done|]. done. }
  split; [|split; [|split]].
  - unfold quick_syncs in *. rewrite omap_app, Hq.
    destruct stops, worker; cbn; by rewrite app_nil_r.
  - rewrite elem_of_app. split.
    + intros [Hin|Hin].
      * apply elem_of_replicate in Hin as [? _]. discriminate.
      * destruct stops, worker; try (by apply elem_of_nil in Hin);
          [done|].
        exfalso. revert Hin. apply (bool_decide_unpack _). vm_compute. exact I.
    + intros [-> ->]. right. apply list_elem_of_here.
  - unfold stopped_queues in *. rewrite omap_app, Hs.
    by destruct stops, worker.
  - subst stops panics n. clear.
    assert (Hlt : (before_ctrl signals <? length signals)%nat = true
                  ↔ CtrlSignal ∈ signals).
    { induction signals as [|[] signals IH].
      - cbn. split; [done|]. by intros ?%elem_of_nil.
      - cbn [before_ctrl length]. rewrite elem_of_cons.
        change ((S (before_ctrl signals) <? S (length signals))%nat)
          with ((before_ctrl signals <? length signals)%nat).
        rewrite IH. split; [auto|]. by intros [|].
      - cbn. split; [|done]. intros _. apply list_elem_of_here. }
    rewrite andb_true_iff, negb_true_iff, Hlt. reflexivity.
Qed.

(** *** The first sync and the queues of [InitController] *)

Lemma omap_replicate {A B} (f : A → option B) (k : nat) (x : A) :
  omap f (replicate k x) = match f x with Some y => replicate k y | None => [] end.
Proof.
  induction k as [|k IH]; [by destruct (f x)|].
  cbn. rewrite IH. by destruct (f x).
Qed.

(** What [InitController] calls from the run of the ingestion queue on. *)
Lemma run_queues_calls `{Externals} `{LibExternals} (worker : bool)
    (signals : list Signal) (p : Process) :
  ∃ cs : list Call,
    (calls (k8s.run_queues worker signals p).2).*2 = (calls p).*2 ++ cs
    ∧ world (k8s.run_queues worker signals p).2 = world p
    ∧ (k8s.run_queues worker signals p).1 ≠ k8s.InitReturned
    ∧ queue_runs cs = [IngestionQueue; FastRetryQueue; SlowRetryQueue; StatusQueue]
    ∧ (akoApi_ShutDown ∉ cs)
    ∧ (∀ c, c ∈ cs → match c with
                     | Queue_Run _ | worker_QuickSync _ | worker_Shutdown
                     | StopWorkers _ => True
                     | _ => False
                     end)
    ∧ (∀ x, x ∈ quick_syncs cs ↔ x = worker ∧ (0 < before_ctrl signals)%nat).
Proof.
  unfold k8s.run_queues. cbv zeta.
  match goal with
  | |- context [k8s.wait_signals worker signals ?q] =>
      destruct (wait_signals_calls worker signals q) as (Hout & Hw & Hc);
      cbv zeta in Hout, Hc; revert Hc; calls_norm; intros Hc
  end.
  eexists. split; [exact Hc|]. split; [exact Hw|]. split.
  { rewrite Hout. by repeat case_match. }
  set (n := before_ctrl signals).
  set (panics := negb worker && QuickSync_on_nil_panics && (0 <? n)%nat).
  assert (Hk : (if panics then 1%nat else n) ≠ 0%nat ↔ (0 < n)%nat).
  { subst panics. destruct (0 <? n)%nat eqn:Hn.
    - apply Nat.ltb_lt in Hn. destruct (negb worker && QuickSync_on_nil_panics); cbn; lia.
    - apply Nat.ltb_ge in Hn. rewrite andb_false_r. lia. }
  clearbody panics. clear Hout Hw Hc.
  generalize dependent (if panics then 1%nat else n). intros k Hk.
  generalize (negb panics && (n <? length signals)%nat). intros stops.
  split; [|split; [|split]].
  - unfold queue_runs. cbn [omap list_omap app]. rewrite omap_app, omap_replicate.
    by destruct stops, worker.
  - intros Hin. do 4 (apply elem_of_cons in Hin as [Hin|Hin]; [discriminate|]).
    apply elem_of_app in Hin as [Hin|Hin].
    + apply elem_of_replicate in Hin as [? _]. discriminate.
    + destruct stops, worker; cbn in Hin; revert Hin; not_in_calls.
  - intros c Hin. do 4 (apply elem_of_cons in Hin as [Hin|Hin]; [by subst c|]).
    apply elem_of_app in Hin as [Hin|Hin].
    + apply elem_of_replicate in Hin as [-> _]. done.
    + destruct stops, worker; cbn in Hin;
        repeat (apply elem_of_cons in Hin as [Hin|Hin]; [by subst c|]);
        by apply elem_of_nil in Hin.
  - intros x. unfold quick_syncs. cbn [omap list_omap app].
    rewrite omap_app, omap_replicate.
    replace (omap _ (if stops then _ else _)) with (@nil bool)
      by (by destruct stops, worker).
    rewrite app_nil_r, elem_of_replicate, Hk. reflexivity.
Qed.

(** [InitController] from the full-sync interval on. *)
Lemma InitController_sync_shape `{Externals} `{LibExternals} (b : k8s.BootInputs)
    (p : Process) :
  let w := world p in
  let interval :=
    if lib.GetAdvancedL4 w then inr 300%Z
    else gostd.ParseInt (Getenv "FULL_SYNC_INTERVAL" w) in
  let result := k8s.FullSyncK8s w in
  let out := (k8s.InitController_sync b p).1 in
  let p' := (k8s.InitController_sync b p).2 in
  let proceeds :=
    match interval, result.1 with
    | inl _, _ | inr _, k8s.Returned None => true
    | _, _ => false
    end in
  let worker :=
    match interval, result.1 with
    | inr i, k8s.Returned None => bool_decide (i ≠ 0%Z)
    | _, _ => false
    end in
  ∃ cs : list Call,
  (calls p').*2 = (calls p).*2 ++ cs
  ∧ (out = k8s.InitReturned
     ↔ ∃ i err, interval = inr i ∧ result.1 = k8s.Returned (Some err))
  ∧ (akoApi_ShutDown ∈ cs ↔ out = k8s.InitReturned)
  ∧ queue_runs cs
    = (if proceeds
       then [IngestionQueue; FastRetryQueue; SlowRetryQueue; StatusQueue] else [])
  ∧ (∀ i, NewFullSyncThread i ∈ cs ↔ interval = inr i ∧ worker = true)
  ∧ (∀ x, x ∈ quick_syncs cs
          ↔ x = worker ∧ proceeds = true ∧ (0 < before_ctrl (k8s.signals b))%nat)
  ∧ ∃ logs : list Effect,
      let w0 := match interval with inl _ => w | inr _ => result.2 end in
      world p' = set_trace (trace w0 ++ logs) w0
      ∧ Forall (λ e, is_Log e = true) logs.
Proof.
  intros w interval result out p' proceeds worker.
  destruct (k8s.InitController_sync b p) as [out0 p0] eqn:Hrun.
  cbn [fst snd] in out, p'. subst out p'.
  unfold k8s.InitController_sync in Hrun. cbv zeta in Hrun.
  change (if lib.GetAdvancedL4 (world p) then inr 300%Z
          else gostd.ParseInt (Getenv "FULL_SYNC_INTERVAL" (world p)))
    with interval in Hrun.
  change (k8s.FullSyncK8s (world p)) with result in Hrun.
  clearbody interval result.
  destruct interval as [kind|i].
  - destruct (run_queues_calls false (k8s.signals b)
                (in_world (emit (Log Error
                                   "Cannot convert full sync interval value to integer, pls correct the value and restart AKO. Error: %s"
                                   [k8s.ParseInt_error (Getenv "FULL_SYNC_INTERVAL" (world p))
                                      kind])) p))
      as (cs' & Hc & Hw & Hout & Hq & Hshut & Hkinds & Hquick).
    rewrite Hrun in Hc, Hw, Hout. cbn [fst snd] in Hc, Hw, Hout.
    revert Hc. calls_norm. intros Hc.
    exists cs'. split; [exact Hc|].
    split; [split; [done|by intros (? & ? & [=] & _)]|].
    split; [done|]. split; [exact Hq|]. split; [|split].
    + intros j. split; [intros Hin; by apply Hkinds in Hin|by intros [[=] _]].
    + intros x. rewrite Hquick. subst proceeds worker. intuition.
    + eexists [_]. rewrite Hw. split; [reflexivity|]. by repeat constructor.
  - destruct result as [[err|] w1]; cbn [fst snd] in *.
    + set (q := k8s.call_if (k8s.authTokenFirst b) RefreshAuthToken
                  (in_world (λ _, w1) p)) in Hrun.
      assert (Hq0 : (calls q).*2
                    = (calls p).*2
                      ++ (if k8s.authTokenFirst b then [RefreshAuthToken] else []))
        by (subst q; calls_norm; reflexivity).
      assert (Hw0 : world q = w1) by (subst q; by world_norm).
      clearbody q.
      destruct err as [err|].
      * injection Hrun as <- <-.
        eexists. split;
          [unfold lib.ShutdownApi; calls_norm; rewrite Hq0, <- app_assoc; reflexivity|].
        split; [split; [by eauto|done]|].
        split; [split; [done|intros _; find_elem]|].
        split; [by destruct (k8s.authTokenFirst b)|].
        split; [|split].
        -- intros j. split; [|by intros [_ [=]]].
           destruct (k8s.authTokenFirst b); not_in_calls.
        -- intros x. split; [|by intros (_ & [=] & _)].
           destruct (k8s.authTokenFirst b); by intros ?%elem_of_nil.
        -- eexists [_]. unfold lib.ShutdownApi. world_norm. rewrite Hw0.
           split; [reflexivity|]. by repeat constructor.
      * match type of Hrun with
        | k8s.run_queues _ _ ?arg = _ => set (q2 := arg) in Hrun
        end.
        assert (Hq2 : (calls q2).*2
                      = (calls p).*2
                        ++ (if k8s.authTokenFirst b then [RefreshAuthToken] else [])
                        ++ (if bool_decide (i ≠ 0%Z)
                            then [NewFullSyncThread i; worker_Run] else [])
                        ++ (if k8s.authTokenSecond b
                            then [NewTokenThread; tokenWorker_Run] else [])).
        { subst q2. calls_norm.
          destruct (decide (i ≠ 0%Z)) as [Hi|Hi].
          - rewrite (bool_decide_eq_true_2 _ Hi). calls_norm. rewrite Hq0.
            destruct (k8s.authTokenSecond b); by rewrite <- ?app_assoc.
          - rewrite (bool_decide_eq_false_2 _ Hi). calls_norm. rewrite Hq0.
            destruct (k8s.authTokenSecond b); by rewrite <- ?app_assoc. }
        assert (Hw2 : ∃ logs, world q2 = set_trace (trace w1 ++ logs) w1
                              ∧ Forall (λ e, is_Log e = true) logs).
        { subst q2. world_norm. destruct (decide (i ≠ 0%Z)) as [Hi|Hi].
          - exists []. world_norm. rewrite Hw0, app_nil_r.
            split; [by destruct w1|constructor].
          - eexists [_]. world_norm. rewrite Hw0.
            split; [reflexivity|]. by repeat constructor. }
        clearbody q2. clear Hq0 Hw0.
        destruct (run_queues_calls (bool_decide (i ≠ 0%Z)) (k8s.signals b) q2)
          as (cs' & Hc & Hw & Hout & Hq & Hshut & Hkinds & Hquick).
        rewrite Hrun in Hc, Hw, Hout. cbn [fst snd] in Hc, Hw, Hout.
        rewrite Hq2, <- !app_assoc in Hc.
        eexists. split; [exact Hc|]. rewrite Hw.
        clear Hc Hq2 Hrun Hw.
        fold worker in Hquick |- *. clearbody worker.
        split; [split; [done|by intros (? & ? & _ & [=])]|].
        split; [|split; [|split; [|split]]].
        -- split; [|done]. intros Hin. exfalso.
           rewrite !app_assoc in Hin. apply elem_of_app in Hin as [Hin|Hin]; [|done].
           revert Hin.
           destruct (k8s.authTokenFirst b), worker, (k8s.authTokenSecond b);
             not_in_calls.
        -- unfold queue_runs in *. rewrite !omap_app, Hq.
           by destruct (k8s.authTokenFirst b), worker, (k8s.authTokenSecond b).
        -- intros j. rewrite !app_assoc, elem_of_app, <- !app_assoc. split.
           ++ intros [Hin|Hin]; [|by apply Hkinds in Hin].
              revert Hin.
              destruct (k8s.authTokenFirst b), worker, (k8s.authTokenSecond b);
                cbn [app]; intros Hin;
                repeat (apply elem_of_cons in Hin as [Hin|Hin];
                        [first [discriminate|by injection Hin as ->]|]);
                by apply elem_of_nil in Hin.
           ++ intros [[= ->] ->]. left.
              destruct (k8s.authTokenFirst b); find_elem.
        -- intros x. unfold quick_syncs in *. rewrite !omap_app.
           replace (omap _ (if k8s.authTokenFirst b then _ else _)) with (@nil bool)
             by (by destruct (k8s.authTokenFirst b)).
           replace (omap _ (if worker then _ else _)) with (@nil bool)
             by (by destruct worker).
           replace (omap _ (if k8s.authTokenSecond b then _ else _)) with (@nil bool)
             by (by destruct (k8s.authTokenSecond b)).
           cbn [app]. rewrite Hquick. subst proceeds. intuition.
        -- exact Hw2.
    + injection Hrun as <- <-.
      exists []. split; [calls_norm; by rewrite app_nil_r|].
      split; [split; [done|by intros (? & ? & _ & [=])]|].
      split; [split; [by intros ?%elem_of_nil|done]|].
      split; [done|]. split; [|split].
      * intros j. split; [by intros ?%elem_of_nil|by intros [_ [=]]].
      * intros x. split; [by intros ?%elem_of_nil|by intros (_ & [=] & _)].
      * exists []. world_norm. rewrite app_nil_r. split; [by destruct w1|constructor].
Qed.

(** *** [InitController] as a whole *)

Lemma plain_calls_quiet (cs : list Call) :
  Forall (λ c, plain_call c = true) cs →
  queue_runs cs = [] ∧ quick_syncs cs = [] ∧ (akoApi_ShutDown ∉ cs)
  ∧ ∀ i, NewFullSyncThread i ∉ cs.
Proof.
  induction 1 as [|c cs Hc _ (IHq & IHs & IHa & IHn)]; [by repeat split; intros; apply not_elem_of_nil|].
  unfold queue_runs, quick_syncs in *. cbn [omap list_omap]. rewrite IHq, IHs.
  repeat split.
  - by destruct c.
  - by destruct c.
  - intros [<-|Hin]%elem_of_cons; [done|by apply IHa].
  - intros i [<-|Hin]%elem_of_cons; [done|by apply (IHn i)].
Qed.

Lemma SetupEventHandlers_run_shape `{Externals} (p : Process) :
  let w := world p in
  match k8s.SetupEventHandlers_run p with
  | None =>
      ServiceInformer (informers w) = None
      ∨ (lib.GetAdvancedL4 w = false ∧ NodeInformer (informers w) = None)
  | Some p' =>
      ServiceInformer (informers w) ≠ None
      ∧ (∃ cs, (calls p').*2 = (calls p).*2 ++ cs
               ∧ Forall (λ c, plain_call c = true) cs)
      ∧ ∃ logs : list Effect,
          world p' = set_trace (trace w ++ logs) w
          ∧ Forall (λ e, is_Log e = true) logs
  end.
Proof.
  intros w. unfold k8s.SetupEventHandlers_run. fold w.
  destruct (ServiceInformer (informers w)) as [svcInformer|]; [|by left].
  cbv zeta.
  generalize (bool_decide (GetCNIPlugin (env w) = lib.CALICO_CNI)),
    (bool_decide (GetCNIPlugin (env w) = lib.OPENSHIFT_CNI)),
    (bool_decide (SecretInformer (informers w) ≠ None)),
    (lib.UseServicesAPI w),
    (bool_decide (IngressInformer (informers w) ≠ None)),
    (bool_decide (IngressClassInformer (informers w) ≠ None)),
    (lib.GetDisableStaticRoute w && negb (lib.IsNodePortMode w)),
    (bool_decide (RouteInformer (informers w) ≠ None)),
    (EnableMigration (nsFilter w) && bool_decide (NSInformer (informers w) ≠ None)),
    (bool_decide (lib.GetServiceType w = lib.NodePortLocal)).
  intros calico openshift secret svcapi ingress ingressClass static route migration npl.
  destruct (lib.GetAdvancedL4 w), static, migration;
    try (destruct (NodeInformer (informers w)) as [nodeInformer|] eqn:Hinf;
         [|by right]);
    (split; [done|]);
    (split;
     [ eexists; split; [calls_norm; reflexivity|];
       repeat first [ apply Forall_nil_2
                    | apply Forall_cons_2; [reflexivity|]
                    | apply Forall_app_2
                    | match goal with
                      | |- Forall _ (if ?c then _ else _) => destruct c
                      end ]
     | world_norm; eexists; split;
       [ unfold emit; cbn; rewrite <- ?app_assoc; reflexivity
       | repeat constructor ] ]).
Qed.

Lemma Run_calls_plain (n : nat) (l : list InformerName) :
  Forall (λ c, plain_call c = true) ((λ informer, (n, Run informer)) <$> l).*2.
Proof.
  induction l as [|informer l IH]; [constructor|].
  cbn. apply Forall_cons_2; [reflexivity|exact IH].
Qed.

(** The calls of [Start]. *)
Lemma Start_calls `{Externals} `{LibExternals} (synced : bool) (p p' : Process) :
  k8s.Start synced p = Some p' →
  ∃ cs, (calls p').*2 = (calls p).*2 ++ cs
        ∧ Forall (λ c, plain_call c = true) cs.
Proof.
  unfold k8s.Start. set (w := world p).
  destruct (ServiceInformer (informers w)) as [svcInformer|]; [|done].
  destruct (SecretInformer (informers w)) as [secretInformer|]; [|done].
  cbv zeta.
  set (p0 := call (Run SecretInf) (call (Run EpInf) (call (Run ServiceInf) p))).
  assert (Hfinish : ∀ l q,
    match run_informers l (p0, [EpInf; ServiceInf; SecretInf]) with
    | (p1, informersList) =>
        Some (if negb synced
              then call (HandleError "timed out waiting for caches to sync")
                     (call (WaitForCacheSync informersList) p1)
              else in_world (emit (Log Info "Caches synced" []))
                     (call (WaitForCacheSync informersList) p1))
    end = Some q →
    ∃ cs, (calls q).*2 = (calls p).*2 ++ cs
          ∧ Forall (λ c, plain_call c = true) cs).
  { intros l q.
    destruct (run_informers_result l p0 [EpInf; ServiceInf; SecretInf])
      as (p1 & Hr & Hw1 & Hl1 & Hc1).
    rewrite Hr. intros [= <-].
    destruct synced; cbn [negb]; calls_norm; rewrite Hc1; subst p0;
      rewrite fmap_app; calls_norm; (eexists; split; [reflexivity|]);
      repeat first [ apply Forall_nil_2 | apply Run_calls_plain
                   | apply Forall_cons_2; [reflexivity|] | apply Forall_app_2 ]. }
  rewrite !run_informer_if, !run_informers_app.
  destruct (lib.GetAdvancedL4 w) eqn:Hl4.
  - rewrite ?run_informer_if, ?run_informers_app. apply Hfinish.
  - rewrite ?run_informer_if, ?run_informers_app.
    destruct (NSInformer (informers w)) as [nsInformer|]; [|done].
    destruct (NodeInformer (informers w)) as [nodeInformer|]; [|done].
    rewrite ?run_informer_if, ?run_informers_app. apply Hfinish.
Qed.

(** X30. [InitController] panics when the informers it gets lack the one of
    Services or of Secrets, or that of Namespaces or of Nodes outside
    advanced L4.
    Otherwise it runs the graph queue, and then makes the first sync if it
    has a full-sync interval: 300 seconds in advanced L4, else the integer of
    FULL_SYNC_INTERVAL. The first sync sees the new informers and the number
    of graph workers, and sync disabled if the cache could not be populated:
    then it is skipped. If the first sync returns an error, the API server is
    shut down and [InitController] returns, and the queues of the ingestion,
    retry and status layers are never run, as when the first sync panics;
    otherwise they are run, in that order, also when there was no first
    sync. The worker of the full sync is
    made only after a first sync without error and for an interval other
    than 0; without it, a quick-sync signal that comes before a signal on
    [ctrlCh] calls [QuickSync] on a nil worker. *)
Theorem InitController_result `{Externals} `{LibExternals} (b : k8s.BootInputs)
    (p : Process) :
  let w := world p in
  let infs := k8s.madeInformers b in
  let failed := k8s.has_client b && bool_decide (k8s.populateErr b ≠ None) in
  let interval :=
    if lib.GetAdvancedL4 w then inr 300%Z
    else gostd.ParseInt (Getenv "FULL_SYNC_INTERVAL" w) in
  let out := (k8s.InitController b p).1 in
  let p' := (k8s.InitController b p).2 in
  let cs := new_calls p p' in
  if bool_decide (ServiceInformer infs ≠ None)
     && bool_decide (SecretInformer infs ≠ None)
     && (lib.GetAdvancedL4 w
         || bool_decide (NSInformer infs ≠ None)
            && bool_decide (NodeInformer infs ≠ None))
  then
    ∃ logs : list Effect,
      Forall (λ e, is_Log e = true) logs
      ∧ let w3 :=
          set_trace (trace w ++ logs)
            (set_DisableSync (DisableSync w || failed)
               (set_graphNumWorkers (k8s.numGraphWorkers w) (set_informers infs w))) in
        let result := k8s.FullSyncK8s w3 in
        let proceeds :=
          match interval, result.1 with
          | inl _, _ | inr _, k8s.Returned None => true
          | _, _ => false
          end in
        let worker :=
          match interval, result.1 with
          | inr i, k8s.Returned None => bool_decide (i ≠ 0%Z)
          | _, _ => false
          end in
        (out = k8s.InitReturned
         ↔ ∃ i err, interval = inr i ∧ result.1 = k8s.Returned (Some err))
        ∧ queue_runs cs
          = GraphQueue
            :: (if proceeds
                then [IngestionQueue; FastRetryQueue; SlowRetryQueue; StatusQueue]
                else [])
        ∧ (akoApi_ShutDown ∈ cs ↔ failed = true ∨ out = k8s.InitReturned)
        ∧ (∀ i, NewFullSyncThread i ∈ cs ↔ interval = inr i ∧ worker = true)
        ∧ (∀ x, x ∈ quick_syncs cs
                ↔ x = worker ∧ proceeds = true
                  ∧ (0 < before_ctrl (k8s.signals b))%nat)
        ∧ (failed = true → result.1 = k8s.Returned None)
  else out = k8s.InitPanicked ∧ queue_runs cs = [].
Proof.
  intros w infs failed interval out p' cs.
  destruct (k8s.InitController b p) as [out0 p0] eqn:Hrun.
  cbn [fst snd] in out, p'. subst out p'.
  unfold k8s.InitController in Hrun. cbv zeta in Hrun.
  destruct (InitController_setup_shape b p) as (Hc1 & logs1 & Hw1 & Hlogs1).
  cbv zeta in Hc1, Hw1. fold w failed infs in Hc1, Hw1.
  set (p1 := k8s.InitController_setup b p) in *. clearbody p1.
  match type of Hc1 with
  | _ = _ ++ ?l => set (cs1 := l) in Hc1
  end.
  assert (Hcs1 : queue_runs cs1 = [] ∧ quick_syncs cs1 = []
                 ∧ (akoApi_ShutDown ∈ cs1 ↔ failed = true)
                 ∧ ∀ i, NewFullSyncThread i ∉ cs1).
  { subst cs1. clearbody failed.
    generalize (bool_decide (lib.GetClusterName w ≠ "")
                && lib.clusterNameRe_MatchString (lib.GetClusterName w)).
    intros valid.
    destruct (k8s.has_client b), failed, valid; cbn [andb negb app];
      (split; [reflexivity|]); (split; [reflexivity|]);
      (split; [split; intros Hin;
                 first [ done | find_elem | exfalso; revert Hin; not_in_calls ]
              |intros i; not_in_calls]). }
  clearbody cs1. destruct Hcs1 as (Hq1 & Hs1 & Ha1 & Hn1).
  assert (Hpanics :
    ServiceInformer infs = None ∨ SecretInformer infs = None
    ∨ (lib.GetAdvancedL4 w = false
       ∧ (NSInformer infs = None ∨ NodeInformer infs = None)) →
    bool_decide (ServiceInformer infs ≠ None)
    && bool_decide (SecretInformer infs ≠ None)
    && (lib.GetAdvancedL4 w
        || bool_decide (NSInformer infs ≠ None)
           && bool_decide (NodeInformer infs ≠ None)) = false).
  { assert (Hnone : ∀ A, bool_decide (@None A ≠ None) = false).
    { intros A. apply bool_decide_eq_false_2. by intros Hne; apply Hne. }
    intros [Hn|[Hn|[Hadv [Hn|Hn]]]]; rewrite ?Hadv, Hn, Hnone;
      by rewrite ?andb_false_r. }
  pose proof (SetupEventHandlers_run_shape p1) as H2. cbv zeta in H2.
  assert (Hinf1 : informers (world p1) = infs) by (by rewrite Hw1).
  assert (Hl41 : lib.GetAdvancedL4 (world p1) = lib.GetAdvancedL4 w) by (by rewrite Hw1).
  rewrite Hinf1, Hl41 in H2.
  destruct (k8s.SetupEventHandlers_run p1) as [p2|].
  2:{ injection Hrun as <- <-.
      rewrite Hpanics by (destruct H2 as [H2|[H2 H2']]; auto).
      subst cs. rewrite (new_calls_snd _ _ _ Hc1). done. }
  destruct H2 as (Hsvc & (cs2 & Hc2 & Hp2) & logs2 & Hw2 & Hlogs2).
  apply plain_calls_quiet in Hp2 as (Hq2 & Hs2 & Ha2 & Hn2).
  rewrite Hc1, <- app_assoc in Hc2. rewrite Hw1 in Hw2.
  assert (Hinf2 : informers (world p2) = infs) by (by rewrite Hw2).
  assert (Hl4 : lib.GetAdvancedL4 (world p2) = lib.GetAdvancedL4 w) by (by rewrite Hw2).
  pose proof (Start_result (k8s.cachesSynced b) p2) as H3. cbv zeta in H3.
  rewrite Hinf2, Hl4 in H3.
  destruct (k8s.Start (k8s.cachesSynced b) p2) as [p3|] eqn:Hstart.
  2:{ injection Hrun as <- <-.
      rewrite Hpanics by exact H3. subst cs. rewrite (new_calls_snd _ _ _ Hc2).
      unfold queue_runs in *. by rewrite omap_app, Hq1, Hq2. }
  destruct H3 as (_ & Hsecret & Hns & _ & _ & Hw3 & _).
  destruct (Start_calls _ _ _ Hstart) as (cs3 & Hc3 & Hp3).
  apply plain_calls_quiet in Hp3 as (Hq3 & Hs3 & Ha3 & Hn3).
  rewrite Hc2, <- !app_assoc in Hc3. rewrite Hw2 in Hw3.
  clear Hstart Hc1 Hc2 Hw1 Hw2 Hinf1 Hinf2 Hl4 Hl41 Hpanics.
  assert (Hcond : bool_decide (ServiceInformer infs ≠ None)
                  && bool_decide (SecretInformer infs ≠ None)
                  && (lib.GetAdvancedL4 w
                      || bool_decide (NSInformer infs ≠ None)
                         && bool_decide (NodeInformer infs ≠ None))
                  = true).
  { rewrite !(bool_decide_eq_true_2 (_ infs ≠ None)) by done. cbn [andb].
    destruct (lib.GetAdvancedL4 w); [done|]. destruct (Hns eq_refl) as [Hns1 Hns2].
    by rewrite !bool_decide_eq_true_2 by done. }
  rewrite Hcond. clear Hcond Hsvc Hsecret Hns.
  set (q := call (Queue_Run GraphQueue) p3) in Hrun.
  exists (logs1 ++ logs2
          ++ (if k8s.cachesSynced b then [Log Info "Caches synced" []] else [])).
  split.
  { apply Forall_app_2; [done|]. apply Forall_app_2; [done|].
    destruct (k8s.cachesSynced b); by repeat constructor. }
  assert (Hwq : world q
                = set_trace
                    (trace w ++ logs1 ++ logs2
                     ++ (if k8s.cachesSynced b then [Log Info "Caches synced" []] else []))
                    (set_DisableSync (DisableSync w || failed)
                       (set_graphNumWorkers (k8s.numGraphWorkers w)
                          (set_informers infs w)))).
  { subst q. world_norm. rewrite Hw3.
    destruct (k8s.cachesSynced b); unfold emit; cbn; rewrite <- ?app_assoc, ?app_nil_r;
      reflexivity. }
  assert (Hcq : (calls q).*2 = (calls p).*2 ++ cs1 ++ cs2 ++ cs3 ++ [Queue_Run GraphQueue]).
  { subst q. calls_norm. rewrite Hc3, <- !app_assoc. reflexivity. }
  clearbody q. clear Hc3 Hw3.
  destruct (InitController_sync_shape b q)
    as (cs4 & Hc4 & Hret & Ha4 & Hq4 & Hn4 & Hs4 & _).
  rewrite Hrun in Hc4, Hret, Ha4. cbn [fst snd] in *.
  rewrite Hwq in Hret, Hq4, Hn4, Hs4. rewrite Hcq, <- !app_assoc in Hc4.
  subst cs. rewrite (new_calls_snd _ _ _ Hc4). clear Hc4 Hcq Hwq Hrun.
  match goal with
  | |- context [k8s.FullSyncK8s ?arg] => set (w3 := arg) in *
  end.
  change (if lib.GetAdvancedL4 w3 then inr 300%Z
          else gostd.ParseInt (Getenv "FULL_SYNC_INTERVAL" w3))
    with interval in Hret, Hq4, Hn4, Hs4.
  cbv zeta.
  split; [exact Hret|]. split; [|split; [|split; [|split]]].
  - unfold queue_runs in *. rewrite !omap_app, Hq1, Hq2, Hq3, Hq4. reflexivity.
  - rewrite !elem_of_app, Ha1, Ha4, list_elem_of_singleton. split.
    + intros [?|[?|[?|[?|?]]]]; by auto.
    + intros [?|?]; by auto.
  - intros i. rewrite !elem_of_app, Hn4, list_elem_of_singleton. split.
    + intros [Hin|[Hin|[Hin|[Hin|Hin]]]]; try done.
      * by apply Hn1 in Hin.
      * by apply Hn2 in Hin.
      * by apply Hn3 in Hin.
    + by auto 6.
  - intros x. unfold quick_syncs in *. rewrite !omap_app, Hs1, Hs2, Hs3.
    cbn [omap list_omap app]. apply Hs4.
  - intros Hfailed. unfold k8s.FullSyncK8s.
    replace (DisableSync w3) with true; [done|].
    subst w3. cbn. by rewrite Hfailed, orb_true_r.
Qed.
